(* ===== verification/_CoqProject ===== *)
-Q . S2P
Prelude.v
Flags.v
Limits.v
Table.v
Stream.v
Handle.v
Layout.v
Copy.v
TempName.v
Codec.v
Session.v
Define.v
Commit.v
Invariant.v
Modes.v
Footprint.v
Examples.v
Api.v
CommitDefects.v
Scenarios.v
