(* ===== verification/Prelude.v ===== *)
(** * A verification library for the netCDF session layer of HDF4

    This development models [src/mfhdf/src/file.c] of HDF4, the session and
    layout manager of the classic (netCDF-2 derived) file model: the
    process-wide table of open files, the define-mode state machine with
    its copy-and-rename commit ([ncredef] / [NC_endef] / [ncabort]), the
    scratch names of [NCtempname], the layout planner [NC_begins], and the
    chunked data copier [NC_dcpy].

    ** Parts of the program and how they interact

    - [file.c] keeps four globals: [_cdfs] (a heap array of [NC *]),
      [_ncdf] (its high-water mark), [_curr_opened] and [max_NC_open], and
      [NCtempname] keeps a static [seed].  Every session entry point
      ([nccreate], [ncopen], [ncclose], [ncabort], [ncredef], [ncendef],
      [ncsync], [ncsetfill], [ncnobuf]) resolves an integer id through the
      array, then acts on the handle ([NC]) and on the files on disk
      through the XDR codec.
    - A redefinition pairs the handle with a shadow on a scratch file
      ([ncredef]); the commit ([NC_endef]) lays the new schema out, copies
      the old data into the scratch file and renames it onto the real path;
      an abort drops the shadow.
    - The codec and the handle constructors ([NC_new_cdf], [NC_dup_cdf],
      [xdr_cdf], [xdr_numrecs], [xdr_NC_fill], [NC_xlen_cdf],
      [NC_computeshapes]) live outside [src/]; they are an interface here,
      a type class with the laws [file.c] relies on, stated from the spec.

    ** Files (in dependency order)

    - [Prelude] (this file): the state/undefined-behaviour monad [M] with
      its [let!] notation in [nc_scope], the hint databases [nc] and
      [nc_rw], the counting function [nlive] on arrays of optional
      handles, and the shared list and 64-bit lemmas.
    - [Flags]: the [NC_*] mode bits as [Z] masks and the bit operations on
      [handle->flags] ([|=], [&= ~]), with the lemmas saying which bits each
      changes (rewrite database [nc_flags]).
    - [Limits]: [MAX_AVAIL_OPENFILES] in 64-bit unsigned arithmetic.
    - [Table]: the open-file table, generic in the handle type:
      [NC_reset_maxopenfiles], [ncreset_cdflist], [NC_check_id], the slot
      choice of [NC_open], the install and retire sequences; the invariant
      [table_wf], kept by every operation and by every reachable table.
    - [Stream]: files as byte lists, XDR streams, [open], [remove],
      [rename], [access].
    - [Handle]: the records [NC] and [NC_var].
    - [Layout]: [NC_begins], proved equal to a prefix-sum reference.
    - [Copy]: [NC_dcpy], [NC_vcpy], [NC_reccpy]; the chunked copy equals a
      one-shot copy.
    - [TempName]: [NCtempname]; its probe loop as an unbounded relation
      with a termination proof, the pid digits, the seed as a base-26
      counter, and the freshness of the name.
    - [Codec]: the codec interface [NC_codec] with its laws [NC_codec_ok],
      and a sample instance [demo_codec].
    - [Session]: the whole global state [nc_state] and the entry points
      that open files, query and flush ([NC_open], [nccreate], [ncopen],
      [NC_indefine], [ncnobuf], [ncsync], [ncsetfill]).
    - [Define]: [ncabort], [ncredef]; what an abort of a redefinition
      leaves, the HDF shortcut, the pairing [ncredef] installs.
    - [Commit]: [NC_endef], [ncendef], [ncclose]; the images the copy
      passes write, the run of a commit for both outcomes of [rename].
    - [Invariant]: the session invariant [sess_inv] (the table invariant
      and the pairing of shadows with stashes), the class [TblOnly] of
      calls that change nothing of the table but [ncerr], one lemma per
      entry point, and the reachable sessions [sess_reachable].
    - [Modes]: the define-mode machine of the spec ([amode_of] read off
      the table, [spec_next] the abstract transitions, [run_op] the entry
      points behind each operation) and the refinement of one by the other.
    - [Footprint]: which ids each entry point may change ([op_footprint]),
      with frame lemmas for the table primitives ([store], [NC_retire],
      [NC_install]) that need no invariant, and one lemma per entry point.
    - [Examples]: concrete sessions with [demo_codec] (open, redefine,
      declare a variable, commit).
    - [Api]: the guards and error paths of the entry points.
    - [CommitDefects]: two concrete sessions on which the commit misplaces
      records.
    - [Scenarios]: the HDF tables, closing the id of a stash, and the
      witnesses of the theorems of [Define], [Commit], [Invariant], [Modes]
      and [Footprint].

    ** What the theorems show

    - Table: the invariant over all reachable tables; each table phase
      (reset, slot choice, install, retire) with its exact effect; progress
      of [NC_open] while the ceiling is not reached; exhaustion; the
      64-bit wrap of the ceiling and the out-of-bounds store with a low
      descriptor limit; the non-cascading high-water mark.
    - Layout and copy: [NC_begins] equals the reference layout and keeps
      variables in their regions; [NC_dcpy] copies exactly [nbytes].
    - Redefinition: a commit preserves the old data and fills the new
      variables; a failed rename leaves the scratch file and a handle in
      define mode that the next [ncendef] or [ncclose] breaks on, and
      [ncclose] of such a redefinition stores at [_cdfs[-1]] in its
      fallback to [ncabort]; an abort
      leaves every file's bytes unchanged; [ncredef] pairs the ids the
      other way round from the spec; the HDF shortcut makes [ncabort]
      close slot 1; no-fill mode and lone-record packing misplace records.
    - Sessions: every state reachable by calls of the entry points keeps
      the table invariant and the pairing, for a codec without HDF handles
      and a client that closes, aborts and commits only the ids it was
      given; in those sessions every call that succeeds moves its id's mode
      as the spec's machine says (the refinement [mode_refinement]), and
      [nccreate]/[ncopen] take a closed id to data or define mode by
      [NC_INDEF]; every entry point on an id changes no handle outside that
      id, its partner and the new stash (for [ncclose], also the partner's
      partner, after a failed commit), whatever it returns
      ([entry_points_footprint]); a client that closes the stash's id makes a later [ncabort]
      close an unrelated file.
    - Guards: errors are reported before any change.
    - Temporary names: the probe loop terminates; the names are free,
      colocated and fit the buffer; the seed cycles through 26^3 words.

    ** Bounds and fuel

    [NC_dcpy] recurses on a [nat] fuel; [NC_dcpy_fuel] gives the number of
    8192-byte rounds, proved enough for every non-negative length.  The
    probe loop of [NCtempname] gets 26 rounds, its own bound (one per
    letter), and [NCtempname_probe_terminates] shows it ends within them.
    [unsigned long] offsets are [Z] reduced modulo 2^64 ([ulong]); ids and
    counts are [Z].  The commit loops are structural on the variable list
    and on the record count.

    ** Not modelled

    The test harnesses [src/hdf/test/litend.c], [tsdnnt.c] and [fortest.h]
    (sample arrays pushed through the HDF API, not part of the engine);
    the byte encoding of headers in [cdf.c] (an interface with a sample
    instance, which like [cdf.c] decodes an empty variable array to NULL); the HDF library behind [hdf_close]; [NCxdrfile_sync]
    ([fsync], no modelled effect) and [SDPfreebuf]; heap memory, so
    [NC_free_cdf] and the dangling handle [ncsync] leaves after a failed
    read are not observable; the message text of [NCadvise] and the exit
    of [NC_FATAL]; the Windows-only branches of [file.c]; the HDF library
    itself, so an HDF file's header is written as the codec's bytes like a
    netCDF header, and the descriptor that [Hopen] shares between handles
    of one HDF file is counted once per handle ([fd_ok]). *)

From stdpp Require Export base list.
From Stdlib Require Export ZArith Lia.

Declare Scope nc_scope.
Delimit Scope nc_scope with nc.

(** ** The state monad with undefined behaviour

    A C routine of [file.c] reads and writes globals and may store out of
    an array's bounds; [M S R] runs on the global state [S] and ends either
    with a result and a new state, or in [Undef] (undefined behaviour). *)

Inductive outcome (S R : Type) : Type :=
  | Ok (r : R) (s : S)
  | Undef.
Arguments Ok {S R} r s.
Arguments Undef {S R}.

Definition M (S R : Type) : Type := S -> outcome S R.

Definition ret {S R} (r : R) : M S R := fun s => Ok r s.

Definition bind {S R T} (c : M S R) (k : R -> M S T) : M S T :=
  fun s => match c s with Ok r s' => k r s' | Undef => Undef end.

Definition get {S} : M S S := fun s => Ok s s.
Definition put {S} (s : S) : M S unit := fun _ => Ok tt s.
Definition modify {S} (f : S -> S) : M S unit := fun s => Ok tt (f s).
Definition undef {S R} : M S R := fun _ => Undef.

(** The final state of a run, or [d] when the run is undefined. *)
Definition run_state {S R} (o : outcome S R) (d : S) : S :=
  match o with Ok _ s => s | Undef => d end.

(** Run a state-changing partial function: [None] is undefined behaviour. *)
Definition lift_opt {S} (f : S -> option S) : M S unit :=
  fun s => match f s with Some s' => Ok tt s' | None => Undef end.

Notation "'let!' x := c 'in' k" := (bind c (fun x => k))
  (at level 10, x name, c at level 100, k at level 200) : nc_scope.

Open Scope nc_scope.

(** ** Hint databases of the development *)

Create HintDb nc discriminated.
Create Rewrite HintDb nc_rw.

Section MonadLaws.
Context {S : Type}.

Lemma bind_ret_l {R T} (r : R) (k : R -> M S T) s :
  bind (ret r) k s = k r s.
Proof. reflexivity. Qed.

Lemma bind_assoc {R T U} (c : M S R) (k1 : R -> M S T) (k2 : T -> M S U) s :
  bind (bind c k1) k2 s = bind c (fun x => bind (k1 x) k2) s.
Proof. unfold bind. destruct (c s); reflexivity. Qed.

Lemma bind_Ok {R T} (c : M S R) (k : R -> M S T) s r s' :
  c s = Ok r s' -> bind c k s = k r s'.
Proof. unfold bind. intros ->. reflexivity. Qed.

Lemma bind_Undef {R T} (c : M S R) (k : R -> M S T) s :
  c s = Undef -> bind c k s = Undef.
Proof. unfold bind. intros ->. reflexivity. Qed.

Lemma bind_inv_Ok {R T} (c : M S R) (k : R -> M S T) s t s'' :
  bind c k s = Ok t s'' -> exists r s', c s = Ok r s' /\ k r s' = Ok t s''.
Proof. unfold bind. destruct (c s); [eauto | discriminate]. Qed.
End MonadLaws.

#[export] Hint Rewrite @bind_ret_l @bind_assoc : nc_rw.

(** ** Arrays of optional handles

    [_cdfs] is an array of [NC *]; [nlive] counts the non-NULL cells. *)

Section Live.
Context {A : Type}.

Fixpoint nlive (l : list (option A)) : nat :=
  match l with
  | [] => 0
  | Some _ :: l' => S (nlive l')
  | None :: l' => nlive l'
  end.

Lemma nlive_app (l1 l2 : list (option A)) :
  nlive (l1 ++ l2) = (nlive l1 + nlive l2)%nat.
Proof. induction l1 as [|[] l1 IH]; simpl; lia. Qed.

Lemma nlive_replicate_None n : nlive (replicate n (@None A)) = 0%nat.
Proof. induction n; simpl; auto. Qed.

Lemma nlive_le_length (l : list (option A)) : (nlive l <= length l)%nat.
Proof. induction l as [|[] l IH]; simpl; lia. Qed.

Definition live1 (x : option A) : nat :=
  match x with Some _ => 1 | None => 0 end.

(** Storing into a cell changes the count by the cells' difference. *)
Lemma nlive_insert (l : list (option A)) (i : nat) (x y : option A) :
  l !! i = Some y ->
  (nlive (<[i:=x]> l) + live1 y = nlive l + live1 x)%nat.
Proof.
  revert i. induction l as [|z l IH]; intros [|i] Hl; simpl in *;
    try discriminate.
  - injection Hl as ->. destruct x, y; simpl; lia.
  - specialize (IH i Hl). destruct z; simpl; lia.
Qed.

Lemma nlive_take_drop (l : list (option A)) n :
  nlive l = (nlive (take n l) + nlive (drop n l))%nat.
Proof. rewrite <- nlive_app, take_drop. reflexivity. Qed.

Lemma nlive_all_None (k : list (option A)) :
  (forall j, k !! j = Some None \/ k !! j = None) -> nlive k = 0%nat.
Proof.
  induction k as [|[a|] k IH]; intros Hd; simpl; auto.
  - destruct (Hd 0%nat) as [Hx|Hx]; discriminate.
  - apply IH. intros j. apply (Hd (S j)).
Qed.

(** An array whose cells are all live counts its length. *)
Lemma nlive_all_Some (l : list (option A)) :
  (forall j, (j < length l)%nat -> exists x, l !! j = Some (Some x)) -> nlive l = length l.
Proof.
  induction l as [|[a|] l IH]; intros Hs; simpl; auto.
  - f_equal. apply IH. intros j Hj. apply (Hs (S j)). simpl. lia.
  - destruct (Hs 0%nat ltac:(simpl; lia)) as [x Hx]. discriminate.
Qed.

(** All cells at or above [n] are empty. *)
Definition empty_from (n : nat) (l : list (option A)) : Prop :=
  forall i, (n <= i)%nat -> l !! i = Some None \/ l !! i = None.

Lemma empty_from_nlive n l :
  empty_from n l -> nlive l = nlive (take n l).
Proof.
  intros H. rewrite (nlive_take_drop l n), (nlive_all_None (drop n l)); [lia|].
  intros j. rewrite lookup_drop. apply H. lia.
Qed.
End Live.

#[export] Hint Resolve nlive_le_length : nc.
#[export] Hint Rewrite @nlive_app @nlive_replicate_None : nc_rw.

(** ** Machine integers

    [unsigned long] arithmetic of the LP64 targets HDF4 builds on: values
    are kept modulo [2^64]. *)

Local Open Scope Z_scope.

Definition ULONG_MOD : Z := 2 ^ 64.
Definition ulong (z : Z) : Z := z mod ULONG_MOD.

Lemma ulong_range z : 0 <= ulong z < ULONG_MOD.
Proof. unfold ulong. apply Z.mod_pos_bound. reflexivity. Qed.

Lemma ulong_small z : 0 <= z < ULONG_MOD -> ulong z = z.
Proof. apply Z.mod_small. Qed.

Lemma ulong_add_l a b : ulong (ulong a + b) = ulong (a + b).
Proof. unfold ulong. apply Z.add_mod_idemp_l. discriminate. Qed.

Lemma ulong_add_r a b : ulong (a + ulong b) = ulong (a + b).
Proof. unfold ulong. apply Z.add_mod_idemp_r. discriminate. Qed.

Lemma ulong_idem z : ulong (ulong z) = ulong z.
Proof. unfold ulong. apply Z.mod_mod. discriminate. Qed.

#[export] Hint Resolve ulong_range : nc.
#[export] Hint Rewrite ulong_add_l ulong_add_r ulong_idem : nc_rw.

(** ** Tactics *)

(** Case on every boolean test of the goal, rewriting with its spec. *)
Ltac case_bool :=
  repeat match goal with
  | |- context [Z.ltb ?a ?b] => destruct (Z.ltb_spec a b)
  | |- context [Z.leb ?a ?b] => destruct (Z.leb_spec a b)
  | |- context [Z.eqb ?a ?b] => destruct (Z.eqb_spec a b)
  end.

(** Unfold a monadic program step by step on a concrete shape. *)
Ltac mstep := unfold bind, ret, get, put, modify, lift_opt, undef in *; simpl in *.
