(* ===== verification/Flags.v ===== *)
(** * Mode bits, file kinds and error codes of [netcdf.h]

    [handle->flags] is an [unsigned] bit set; [file.c] tests it with
    [flags & NC_X], sets a bit with [flags |= NC_X] and clears bits with
    [flags &= ~(NC_X | NC_Y)].  The constants come from [netcdf.h] and
    [local_nc.h], which are not under [src/]; their values are those of the
    netCDF-2 headers HDF4 ships.  The lemmas say which bits each update
    changes; the rewrite database [nc_flags] applies them when the masks
    are disjoint constants. *)

From S2P Require Import Prelude.

Open Scope Z_scope.

(** ** Constants *)

Definition NC_RDWR : Z := 1.
Definition NC_CREAT : Z := 2.
Definition NC_EXCL : Z := 4.
Definition NC_INDEF : Z := 8.
Definition NC_NSYNC : Z := 16.
Definition NC_HSYNC : Z := 32.
Definition NC_NDIRTY : Z := 64.
Definition NC_HDIRTY : Z := 128.
Definition NC_NOFILL : Z := 256.
Definition NC_LINK : Z := 32768.

(** Open modes: the low nibble of [mode]. *)
Definition NC_NOWRITE : Z := 0.
Definition NC_WRITE : Z := NC_RDWR.
Definition NC_CLOBBER : Z := Z.lor NC_INDEF (Z.lor NC_CREAT NC_RDWR).
Definition NC_NOCLOBBER : Z := Z.lor NC_INDEF (Z.lor NC_EXCL (Z.lor NC_CREAT NC_RDWR)).

(** Arguments of [ncsetfill]. *)
Definition NC_FILL : Z := 0.

(** Bits of the global [ncopts] (error reporting options). *)
Definition NC_FATAL : Z := 1.
Definition NC_VERBOSE : Z := 2.

(** [handle->file_type]. *)
Inductive file_kind := netCDF_FILE | HDF_FILE | CDF_FILE.

#[export] Instance file_kind_eq_dec : EqDecision file_kind.
Proof. solve_decision. Defined.

(** The error codes [NCadvise] and [nc_serror] store in [ncerr]. *)
Inductive nc_error :=
  | NC_EBADID | NC_ENFILE | NC_EEXIST | NC_EINVAL | NC_EPERM
  | NC_ENOTINDEFINE | NC_EINDEFINE | NC_EXDR | NC_SYSERR.

#[export] Instance nc_error_eq_dec : EqDecision nc_error.
Proof. solve_decision. Defined.

Definition nc_error_code (e : nc_error) : Z :=
  match e with
  | NC_EBADID => 1 | NC_ENFILE => 2 | NC_EEXIST => 3 | NC_EINVAL => 4
  | NC_EPERM => 5 | NC_ENOTINDEFINE => 6 | NC_EINDEFINE => 7
  | NC_EXDR => 32 | NC_SYSERR => -1
  end.

(** ** Bit operations on [flags] *)

(** [flags & b] taken as a C truth value. *)
Definition has_flag (f b : Z) : bool := negb (Z.land f b =? 0).

(** [flags |= b]. *)
Definition set_flag (f b : Z) : Z := Z.lor f b.

(** [flags &= ~b]. *)
Definition clear_flags (f b : Z) : Z := Z.land f (Z.lnot b).

Section FlagLemmas.
Implicit Types f b c : Z.

Lemma land_set_flag f b c : Z.land (set_flag f b) c = Z.lor (Z.land f c) (Z.land b c).
Proof. apply Z.land_lor_distr_l. Qed.

Lemma land_clear_flags f b c :
  Z.land (clear_flags f b) c = Z.land f (Z.land c (Z.lnot b)).
Proof.
  unfold clear_flags. rewrite <- Z.land_assoc, (Z.land_comm (Z.lnot b)). reflexivity.
Qed.

Lemma has_set_flag_same f b : b <> 0 -> has_flag (set_flag f b) b = true.
Proof.
  intros Hb. unfold has_flag. rewrite land_set_flag, Z.land_diag.
  destruct (Z.eqb_spec (Z.lor (Z.land f b) b) 0) as [H|]; [|reflexivity].
  apply Z.lor_eq_0_iff in H. lia.
Qed.

(** Setting [b] leaves every test on a disjoint mask [c] unchanged. *)
Lemma has_set_flag_other f b c :
  Z.land b c = 0 -> has_flag (set_flag f b) c = has_flag f c.
Proof. intros H. unfold has_flag. rewrite land_set_flag, H, Z.lor_0_r. reflexivity. Qed.

Lemma has_clear_flags_same f b c :
  Z.land c (Z.lnot b) = 0 -> has_flag (clear_flags f b) c = false.
Proof. intros H. unfold has_flag. rewrite land_clear_flags, H, Z.land_0_r. reflexivity. Qed.

(** Clearing [b] leaves every test on a disjoint mask [c] unchanged. *)
Lemma has_clear_flags_other f b c :
  Z.land b c = 0 -> has_flag (clear_flags f b) c = has_flag f c.
Proof.
  intros H. unfold has_flag. rewrite land_clear_flags.
  replace (Z.land c (Z.lnot b)) with c; [reflexivity|].
  rewrite Z.land_comm in H. symmetry. apply Z.bits_inj'. intros n Hn.
  rewrite Z.land_spec, Z.lnot_spec by lia.
  pose proof (f_equal (fun z => Z.testbit z n) H) as Hn'. simpl in Hn'.
  rewrite Z.land_spec, Z.bits_0 in Hn'.
  destruct (Z.testbit c n), (Z.testbit b n); simpl in *; congruence.
Qed.

(** [flags & (a | b)] tests both masks. *)
Lemma has_flag_lor f a b : has_flag f (Z.lor a b) = has_flag f a || has_flag f b.
Proof.
  unfold has_flag. rewrite Z.land_lor_distr_r.
  destruct (Z.eqb_spec (Z.lor (Z.land f a) (Z.land f b)) 0) as [E|E],
    (Z.eqb_spec (Z.land f a) 0) as [Ha|Ha], (Z.eqb_spec (Z.land f b) 0) as [Hb|Hb];
    simpl; try reflexivity;
    [apply Z.lor_eq_0_iff in E; lia ..|rewrite Ha, Hb in E; contradiction].
Qed.

Lemma set_flag_nonneg f b : 0 <= f -> 0 <= b -> 0 <= set_flag f b.
Proof. intros. unfold set_flag. apply Z.lor_nonneg. auto. Qed.

Lemma clear_flags_nonneg f b : 0 <= f -> 0 <= clear_flags f b.
Proof. intros. unfold clear_flags. apply Z.land_nonneg. auto. Qed.
End FlagLemmas.

Create Rewrite HintDb nc_flags.
#[export] Hint Rewrite has_set_flag_other has_clear_flags_other using reflexivity : nc_flags.
#[export] Hint Rewrite has_clear_flags_same using reflexivity : nc_flags.
#[export] Hint Rewrite has_set_flag_same using discriminate : nc_flags.
#[export] Hint Resolve set_flag_nonneg clear_flags_nonneg : nc.

(** Decide a flag test after rewriting the updates away. *)
Ltac flags_simpl := autorewrite with nc_flags in *.
