(* ===== verification/Limits.v ===== *)
(** * The ceiling on simultaneously open files

    [file.c] computes [MAX_AVAIL_OPENFILES] from [getrlimit(RLIMIT_NOFILE)]
    on every use: three descriptors are kept for the standard streams and
    the result is capped at [H4_MAX_AVAIL_OPENFILES].  [rlim_cur] has type
    [rlim_t], a 64-bit unsigned integer, so [rlim_cur - 3] wraps around
    when the limit is below three; the conditional is evaluated in that
    type and its value converted to [int].  The default table size is
    [H4_MAX_NC_OPEN] of [hlimits.h]. *)

From S2P Require Import Prelude.

Open Scope Z_scope.

Definition H4_MAX_AVAIL_OPENFILES : Z := 20000.

(** [H4_MAX_NC_OPEN] of [hlimits.h]: the initial value of [max_NC_open]. *)
Definition H4_MAX_NC_OPEN : Z := 32.

(** Arithmetic of [rlim_t]. *)
Definition rlim_bits : Z := 64.
Definition rlim_sub (a b : Z) : Z := (a - b) mod 2 ^ rlim_bits.

Definition MAX_AVAIL_OPENFILES (rlim_cur : Z) : Z :=
  let avail := rlim_sub rlim_cur 3 in
  if avail >? H4_MAX_AVAIL_OPENFILES then H4_MAX_AVAIL_OPENFILES else avail.

Lemma rlim_sub_range a b : 0 <= rlim_sub a b < 2 ^ rlim_bits.
Proof. unfold rlim_sub. apply Z.mod_pos_bound. reflexivity. Qed.

Lemma rlim_sub_small a b : b <= a < 2 ^ rlim_bits + b -> rlim_sub a b = a - b.
Proof. intros H. unfold rlim_sub. apply Z.mod_small. lia. Qed.

#[export] Hint Resolve rlim_sub_range : nc.

(** The ceiling is a valid [int] in [[0, 20000]] whatever [rlim_cur] is. *)
Lemma MAX_AVAIL_OPENFILES_range r :
  0 <= MAX_AVAIL_OPENFILES r <= H4_MAX_AVAIL_OPENFILES.
Proof.
  unfold MAX_AVAIL_OPENFILES. pose proof (rlim_sub_range r 3).
  destruct (Z.gtb_spec (rlim_sub r 3) H4_MAX_AVAIL_OPENFILES);
    unfold H4_MAX_AVAIL_OPENFILES in *; lia.
Qed.

(** Between 3 and [20003] descriptors, three are reserved and the rest is
    available. *)
Lemma MAX_AVAIL_OPENFILES_budget r :
  3 <= r <= 3 + H4_MAX_AVAIL_OPENFILES -> MAX_AVAIL_OPENFILES r = r - 3.
Proof.
  intros H. unfold MAX_AVAIL_OPENFILES.
  rewrite rlim_sub_small by (unfold rlim_bits, H4_MAX_AVAIL_OPENFILES in *; lia).
  destruct (Z.gtb_spec (r - 3) H4_MAX_AVAIL_OPENFILES); lia.
Qed.

Lemma MAX_AVAIL_OPENFILES_cap r :
  3 + H4_MAX_AVAIL_OPENFILES <= r < 2 ^ rlim_bits ->
  MAX_AVAIL_OPENFILES r = H4_MAX_AVAIL_OPENFILES.
Proof.
  intros H. unfold MAX_AVAIL_OPENFILES.
  rewrite rlim_sub_small by (unfold rlim_bits, H4_MAX_AVAIL_OPENFILES in *; lia).
  destruct (Z.gtb_spec (r - 3) H4_MAX_AVAIL_OPENFILES); unfold H4_MAX_AVAIL_OPENFILES in *; lia.
Qed.

(** C40: Below three descriptors, [rlim_cur - 3] wraps around in [rlim_t] and
    the ceiling becomes the cap instead of zero. *)
Lemma MAX_AVAIL_OPENFILES_wrap r :
  0 <= r < 3 -> MAX_AVAIL_OPENFILES r = H4_MAX_AVAIL_OPENFILES.
Proof.
  intros H. unfold MAX_AVAIL_OPENFILES, rlim_sub.
  rewrite Z.mod_eq by (unfold rlim_bits; lia).
  replace ((r - 3) / 2 ^ rlim_bits) with (-1).
  - destruct (Z.gtb_spec (r - 3 - 2 ^ rlim_bits * -1) H4_MAX_AVAIL_OPENFILES);
      unfold rlim_bits, H4_MAX_AVAIL_OPENFILES in *; lia.
  - apply Z.div_unique with (r - 3 + 2 ^ rlim_bits);
      unfold rlim_bits in *; lia.
Qed.

(** ** Witnesses *)

Lemma MAX_AVAIL_OPENFILES_wrap_witness :
  0 <= 1 < 3 /\ MAX_AVAIL_OPENFILES 1 = H4_MAX_AVAIL_OPENFILES.
Proof. split; [lia|apply MAX_AVAIL_OPENFILES_wrap; lia]. Defined.

Lemma MAX_AVAIL_OPENFILES_budget_witness :
  3 <= 1027 <= 3 + H4_MAX_AVAIL_OPENFILES /\ MAX_AVAIL_OPENFILES 1027 = 1027 - 3.
Proof.
  split; [unfold H4_MAX_AVAIL_OPENFILES; lia|].
  apply MAX_AVAIL_OPENFILES_budget. unfold H4_MAX_AVAIL_OPENFILES. lia.
Defined.
