(* ===== verification/Table.v ===== *)
(** * The open-file table of [file.c]

    [_cdfs] is a heap array of [max_NC_open] cells of type [NC *] (or
    [NULL] when no table is allocated), [_ncdf] its high-water mark,
    [_curr_opened] the number of files open, and [ncerr] the error code the
    last [NCadvise] stored.  The table is generic in the handle type [A].

    The cells of a fresh [malloc]ed array hold garbage; they are modelled as
    [None], and [table_wf] shows that no cell at or above [_ncdf] is ever
    read, so the value given to garbage is never observed.  A store or a
    load outside the allocated array is undefined behaviour ([Undef]). *)

From S2P Require Import Prelude Flags Limits.

Open Scope Z_scope.

(** What [file.c] observes of its environment: the [RLIMIT_NOFILE] soft
    limit and whether [malloc] of [n] pointers succeeds. *)
Record nc_env := mk_env {
  rlim_cur : Z;
  malloc_ok : Z -> bool;
}.

Definition sys_limit (env : nc_env) : Z := MAX_AVAIL_OPENFILES (rlim_cur env).

Section Table.
Context {A : Type}.

Record cdf_table := mk_table {
  cdfs : option (list (option A));
  ncdf : Z;
  curr_opened : Z;
  max_NC_open : Z;
  ncerr : option nc_error;
}.

Definition set_cdfs (t : cdf_table) c :=
  mk_table c (ncdf t) (curr_opened t) (max_NC_open t) (ncerr t).
Definition set_ncdf (t : cdf_table) n :=
  mk_table (cdfs t) n (curr_opened t) (max_NC_open t) (ncerr t).
Definition set_curr_opened (t : cdf_table) n :=
  mk_table (cdfs t) (ncdf t) n (max_NC_open t) (ncerr t).
Definition set_max (t : cdf_table) n :=
  mk_table (cdfs t) (ncdf t) (curr_opened t) n (ncerr t).
Definition set_ncerr (t : cdf_table) e :=
  mk_table (cdfs t) (ncdf t) (curr_opened t) (max_NC_open t) e.

(** The state before the first call: no table, [max_NC_open] at its
    default [H4_MAX_NC_OPEN]. *)
Definition table_init : cdf_table := mk_table None 0 0 H4_MAX_NC_OPEN None.

(** [NCadvise(e, ...)]: record the error. *)
Definition advise (e : nc_error) : M cdf_table unit :=
  modify (fun t => set_ncerr t (Some e)).

(** [_cdfs[i]] as an rvalue: [None] when the load is out of the array. *)
Definition cell (t : cdf_table) (i : Z) : option (option A) :=
  match cdfs t with
  | Some l => if 0 <=? i then l !! Z.to_nat i else None
  | None => None
  end.

(** [_cdfs[i] = x]: [None] when the store is out of the array. *)
Definition store (i : Z) (x : option A) (t : cdf_table) : option cdf_table :=
  match cdfs t with
  | Some l =>
      if (0 <=? i) && (i <? Z.of_nat (length l))
      then Some (set_cdfs t (Some (<[Z.to_nat i := x]> l)))
      else None
  | None => None
  end.

(** [HNDLE(id)]: the handle of [id], [NULL] outside [[0, _ncdf)]. *)
Definition HNDLE (t : cdf_table) (id : Z) : option (option A) :=
  if (0 <=? id) && (id <? ncdf t) then cell t id else Some None.

Definition load_handle (id : Z) : M cdf_table (option A) :=
  fun t => match HNDLE t id with Some h => Ok h t | None => Undef end.

(** [ncreset_cdflist]: free the array. *)
Definition ncreset_cdflist : M cdf_table unit :=
  modify (fun t => set_cdfs t None).

(** [NC_check_id]: resolve an id, advising [NC_EBADID] on [NULL]. *)
Definition NC_check_id (cdfid : Z) : M cdf_table (option A) :=
  let! h := load_handle cdfid in
  match h with
  | None => let! _ := advise NC_EBADID in ret None
  | Some _ => ret h
  end.

(** The loop [for (i = 0; i < _ncdf; i++) newlist[i] = _cdfs[i];] *)
Fixpoint transfer (n : nat) (old new : list (option A)) : option (list (option A)) :=
  match n with
  | O => Some new
  | S n' =>
      match old, new with
      | x :: old', _ :: new' => (fun l => x :: l) <$> transfer n' old' new'
      | _, _ => None
      end
  end.

(** [NC_reset_maxopenfiles(req_max)]. *)
Definition NC_reset_maxopenfiles (env : nc_env) (req_max : Z) : M cdf_table Z :=
  if req_max <? 0 then
    let! _ := advise NC_EINVAL in ret (-1)
  else if req_max =? 0 then
    let! t := get in
    match cdfs t with
    | None =>
        if malloc_ok env (max_NC_open t) then
          let! _ := put (set_cdfs t (Some (replicate (Z.to_nat (max_NC_open t)) None))) in
          ret (max_NC_open t)
        else
          let! _ := advise NC_EINVAL in ret (-1)
    | Some _ => ret (max_NC_open t)
    end
  else
    let! t := get in
    if (req_max <? max_NC_open t) && (req_max <=? ncdf t) then ret (max_NC_open t)
    else
      let alloc_size := if req_max >? sys_limit env then sys_limit env else req_max in
      if negb (malloc_ok env alloc_size) then
        let! _ := advise NC_EINVAL in ret (-1)
      else
        let newlist := replicate (Z.to_nat alloc_size) None in
        let moved :=
          match cdfs t with
          | Some old => transfer (Z.to_nat (ncdf t)) old newlist
          | None => Some newlist
          end in
        match moved with
        | None => undef
        | Some nl =>
            let! _ := put (set_max (set_cdfs t (Some nl)) alloc_size) in
            ret alloc_size
        end.

(** [NC_get_maxopenfiles], [NC_get_systemlimit], [NC_get_numopencdfs]. *)
Definition NC_get_maxopenfiles : M cdf_table Z :=
  let! t := get in ret (max_NC_open t).
Definition NC_get_systemlimit (env : nc_env) : M cdf_table Z := ret (sys_limit env).
Definition NC_get_numopencdfs : M cdf_table Z :=
  let! t := get in ret (curr_opened t).

(** The loop [for (id = 0; id < _ncdf; id++) if (_cdfs[id] == NULL) break;]
    over the [n] first cells; [None] when it reads past the array. *)
Fixpoint scan_free (n : nat) (l : list (option A)) : option nat :=
  match n with
  | O => Some O
  | S n' =>
      match l with
      | None :: _ => Some O
      | Some _ :: l' => S <$> scan_free n' l'
      | [] => None
      end
  end.

Definition find_free : M cdf_table Z :=
  fun t =>
    let r := match cdfs t with
             | Some l => Z.of_nat <$> scan_free (Z.to_nat (ncdf t)) l
             | None => if ncdf t <=? 0 then Some 0 else None
             end in
    match r with Some i => Ok i t | None => Undef end.

(** [if (_cdfs == NULL) { if (FAIL == NC_reset_maxopenfiles(0)) ... }]
    at the top of [NC_open]: [false] when the table cannot be made. *)
Definition NC_alloc_table (env : nc_env) : M cdf_table bool :=
  let! t := get in
  match cdfs t with
  | None =>
      let! r := NC_reset_maxopenfiles env 0 in
      if r =? -1 then let! _ := advise NC_ENFILE in ret false else ret true
  | Some _ => ret true
  end.

(** The free-id scan of [NC_open] and its grow to the system limit when
    the table is full.  Returns the id, or [-1]. *)
Definition NC_pick_slot (env : nc_env) : M cdf_table Z :=
  let! cdfid := find_free in
  let! t := get in
  if (cdfid =? ncdf t) && (ncdf t >=? max_NC_open t) then
    if max_NC_open t =? sys_limit env then
      let! _ := advise NC_ENFILE in ret (-1)
    else
      let! r := NC_reset_maxopenfiles env (sys_limit env) in
      if r =? -1 then let! _ := advise NC_ENFILE in ret (-1) else ret cdfid
  else ret cdfid.

(** The table part of [NC_open] before the handle is built. *)
Definition NC_open_slot (env : nc_env) : M cdf_table Z :=
  let! allocated := NC_alloc_table env in
  if negb allocated then ret (-1) else NC_pick_slot env.

(** [_cdfs[cdfid] = handle; if (cdfid == _ncdf) _ncdf++; _curr_opened++;] *)
Definition NC_install (cdfid : Z) (h : A) : M cdf_table unit :=
  let! _ := lift_opt (store cdfid (Some h)) in
  let! t := get in
  let! _ := put (if cdfid =? ncdf t then set_ncdf t (ncdf t + 1) else t) in
  modify (fun t => set_curr_opened t (curr_opened t + 1)).

(** [_cdfs[id] = NULL; if (id == _ncdf - 1) _ncdf--;] *)
Definition NC_clear_slot (id : Z) : M cdf_table unit :=
  let! _ := lift_opt (store id None) in
  modify (fun t => if id =? ncdf t - 1 then set_ncdf t (ncdf t - 1) else t).

(** [_curr_opened--; if (_ncdf == 0) ncreset_cdflist();] *)
Definition NC_release_count : M cdf_table unit :=
  let! _ := modify (fun t => set_curr_opened t (curr_opened t - 1)) in
  let! t := get in
  if ncdf t =? 0 then ncreset_cdflist else ret tt.

(** The retire sequence closing [ncclose] (and [ncabort]). *)
Definition NC_retire (id : Z) : M cdf_table unit :=
  let! _ := NC_clear_slot id in NC_release_count.
End Table.

Arguments cdf_table : clear implicits.

(** ** The invariant and the view of the table

    [view t] is what a caller can observe: the cells below the high-water
    mark.  [table_wf sys t] says that the array, when allocated, has
    [max_NC_open] cells, that [0 <= _ncdf <= max_NC_open <= sys], that every
    cell at or above [_ncdf] is empty, and that [_curr_opened] counts the
    live cells. *)

(** Reduce the field updates of the table record. *)
Ltac tsimpl :=
  unfold set_cdfs, set_ncdf, set_max, set_ncerr, set_curr_opened in *;
  cbn [ncdf max_NC_open cdfs curr_opened ncerr] in *.

Section TableFacts.
Context {A : Type}.
Implicit Types (t : cdf_table A) (l : list (option A)).

Definition cells t : list (option A) :=
  match cdfs t with Some l => l | None => [] end.

Definition view t : list (option A) := take (Z.to_nat (ncdf t)) (cells t).

Definition table_wf (sys : Z) t : Prop :=
  (0 <= ncdf t <= max_NC_open t /\ max_NC_open t <= sys) /\
  match cdfs t with
  | None => ncdf t = 0
  | Some l => length l = Z.to_nat (max_NC_open t) /\ empty_from (Z.to_nat (ncdf t)) l
  end /\
  curr_opened t = Z.of_nat (nlive (cells t)).

Lemma transfer_spec n (old new : list (option A)) :
  (n <= length old)%nat -> (n <= length new)%nat ->
  transfer n old new = Some (take n old ++ drop n new).
Proof.
  revert old new; induction n as [|n IH]; intros [|x old] [|y new] Ho Hn;
    simpl in *; try lia; auto.
  rewrite IH by lia. reflexivity.
Qed.

Lemma scan_free_spec n l :
  (n <= length l)%nat ->
  exists k, scan_free n l = Some k /\ (k <= n)%nat /\
    (forall j, (j < k)%nat -> exists h, l !! j = Some (Some h)) /\
    ((k < n)%nat -> l !! k = Some None).
Proof.
  revert l; induction n as [|n IH]; intros l Hl.
  - exists 0%nat. split; [reflexivity|]. split; [lia|]. split; intros; lia.
  - destruct l as [|[h|] l]; simpl in Hl; [lia| |].
    + destruct (IH l) as (k & Hk & Hkn & Hlive & Hfree); [lia|].
      exists (S k). simpl. rewrite Hk. split; [reflexivity|]. split; [lia|]. split.
      * intros [|j] Hj; simpl; eauto. apply Hlive. lia.
      * intros Hlt. apply Hfree. lia.
    + exists 0%nat. split; [reflexivity|]. split; [lia|]. split; [intros; lia|reflexivity].
Qed.

Lemma empty_from_insert n l (i : nat) (x : option A) :
  empty_from n l -> ((n <= i)%nat -> x = None) -> empty_from n (<[i:=x]> l).
Proof.
  intros H Hx j Hj. destruct (decide (i = j)) as [->|Hne].
  - destruct (decide (j < length l)%nat).
    + rewrite list_lookup_insert_eq by lia. left. rewrite Hx by lia. reflexivity.
    + rewrite list_insert_ge by lia. apply H. lia.
  - rewrite list_lookup_insert_ne by done. apply H. lia.
Qed.

Lemma empty_from_mono n m l : empty_from n l -> (n <= m)%nat -> empty_from m l.
Proof. intros H Hnm j Hj. apply H. lia. Qed.

Lemma empty_from_pred n l :
  empty_from (S n) l -> l !! n = Some None -> empty_from n l.
Proof.
  intros H Hn j Hj. destruct (decide (j = n)) as [->|]; [auto|]. apply H. lia.
Qed.

Lemma empty_from_replicate n m : empty_from n (replicate m (@None A)).
Proof.
  intros j _. destruct (decide (j < m)%nat).
  - left. apply lookup_replicate_2. lia.
  - right. apply lookup_replicate_None. lia.
Qed.

Lemma store_Some t l i x :
  cdfs t = Some l -> 0 <= i < Z.of_nat (length l) ->
  store i x t = Some (set_cdfs t (Some (<[Z.to_nat i := x]> l))).
Proof.
  intros Hc Hi. unfold store. rewrite Hc.
  destruct (Z.leb_spec 0 i), (Z.ltb_spec i (Z.of_nat (length l))); simpl; try lia.
  reflexivity.
Qed.

Lemma set_ncerr_same t : set_ncerr t (ncerr t) = t.
Proof. destruct t; reflexivity. Qed.

Lemma table_wf_set_ncerr sys t e : table_wf sys t -> table_wf sys (set_ncerr t e).
Proof. destruct t; auto. Qed.

Lemma view_set_ncerr t e : view (set_ncerr t e) = view t.
Proof. destruct t; reflexivity. Qed.

(** Under the invariant the live count is the count of the view. *)
Lemma curr_opened_view sys t :
  table_wf sys t -> curr_opened t = Z.of_nat (nlive (view t)).
Proof.
  intros (_ & Hc & Hn). rewrite Hn. unfold view, cells in *.
  destruct (cdfs t) as [l|]; [|rewrite take_nil; reflexivity].
  destruct Hc as [_ He]. rewrite (empty_from_nlive _ _ He). reflexivity.
Qed.

Lemma length_view sys t :
  table_wf sys t -> length (view t) = Z.to_nat (ncdf t).
Proof.
  intros ((Hn & Hm) & Hc & _). unfold view, cells. destruct (cdfs t) as [l|].
  - destruct Hc as [Hl _]. rewrite length_take. lia.
  - rewrite Hc. reflexivity.
Qed.

(** [HNDLE] reads the view, and never faults under the invariant. *)
Lemma HNDLE_view sys t id :
  table_wf sys t ->
  HNDLE t id = Some (if (0 <=? id) && (id <? ncdf t)
                     then default None (view t !! Z.to_nat id) else None).
Proof.
  intros ((Hn & Hm) & Hc & _). unfold HNDLE, cell, view, cells.
  destruct (Z.leb_spec 0 id), (Z.ltb_spec id (ncdf t)); simpl; try reflexivity.
  destruct (cdfs t) as [l|]; [|lia].
  destruct Hc as [Hl _]. rewrite lookup_take_lt by lia.
  destruct (l !! Z.to_nat id) eqn:E; [reflexivity|].
  apply lookup_ge_None in E. lia.
Qed.
End TableFacts.

#[export] Hint Resolve table_wf_set_ncerr empty_from_replicate : nc.
#[export] Hint Rewrite @view_set_ncerr : nc_rw.

(** ** [NC_reset_maxopenfiles] *)

Section Reset.
Context {A : Type}.
Implicit Types (t : cdf_table A).

(** The array a grow or shrink leaves: the first [_ncdf] cells moved, the
    rest fresh. *)
Definition regrown t (a : Z) : list (option A) :=
  take (Z.to_nat (ncdf t)) (cells t) ++ drop (Z.to_nat (ncdf t)) (replicate (Z.to_nat a) None).

Lemma moved_spec sys t a :
  table_wf sys t -> ncdf t <= a ->
  match cdfs t with
  | Some old => transfer (Z.to_nat (ncdf t)) old (replicate (Z.to_nat a) None)
  | None => Some (replicate (Z.to_nat a) None)
  end = Some (regrown t a).
Proof.
  intros ((Hn & Hm) & Hc & _) Ha. unfold regrown, cells.
  destruct (cdfs t) as [old|].
  - destruct Hc as [Hl _]. rewrite transfer_spec; [reflexivity| |];
      rewrite ?length_replicate; lia.
  - rewrite Hc. reflexivity.
Qed.

Lemma regrown_wf sys t a :
  table_wf sys t -> ncdf t <= a <= sys ->
  table_wf sys (set_max (set_cdfs t (Some (regrown t a))) a) /\
  view (set_max (set_cdfs t (Some (regrown t a))) a) = view t.
Proof.
  intros Hwf Ha. pose proof (length_view sys t Hwf) as Hlv.
  pose proof (curr_opened_view sys t Hwf) as Hcv.
  destruct Hwf as ((Hn & Hm) & Hc & Hcount).
  assert (Hlt : length (take (Z.to_nat (ncdf t)) (cells t)) = Z.to_nat (ncdf t)) by exact Hlv.
  unfold table_wf, regrown, view, cells in *; tsimpl.
  split; [split; [|split]|].
  - lia.
  - split.
    + rewrite length_app, Hlt, length_drop, length_replicate. lia.
    + intros j Hj. rewrite lookup_app_r by lia. rewrite Hlt, lookup_drop.
      destruct (decide (Z.to_nat (ncdf t) + (j - Z.to_nat (ncdf t)) < Z.to_nat a)%nat).
      * left. apply lookup_replicate_2. lia.
      * right. apply lookup_replicate_None. lia.
  - rewrite nlive_app, drop_replicate, nlive_replicate_None. simpl in Hcv. lia.
  - rewrite take_app_length'; [reflexivity|symmetry; exact Hlt].
Qed.

Lemma alloc_wf sys t :
  table_wf sys t -> cdfs t = None ->
  table_wf sys (set_cdfs t (Some (replicate (Z.to_nat (max_NC_open t)) None))) /\
  view (set_cdfs t (Some (replicate (Z.to_nat (max_NC_open t)) None))) = view t.
Proof.
  intros ((Hn & Hm) & Hc & Hcount) Hnull. unfold cells in Hcount.
  rewrite Hnull in Hc, Hcount.
  unfold table_wf, view, cells. tsimpl. rewrite Hnull. rewrite Hc. simpl.
  split; [split; [lia|split]|reflexivity].
  - split; [apply length_replicate|apply empty_from_replicate].
  - rewrite nlive_replicate_None. exact Hcount.
Qed.

Ltac advise_case :=
  eexists _, _; split; [reflexivity|];
  split; [apply table_wf_set_ncerr; assumption|apply view_set_ncerr].

Lemma reset_safe env req t :
  table_wf (sys_limit env) t ->
  exists r t', NC_reset_maxopenfiles env req t = Ok r t' /\
    table_wf (sys_limit env) t' /\ view t' = view t.
Proof.
  intros Hwf. unfold NC_reset_maxopenfiles.
  destruct (Z.ltb_spec req 0); [mstep; advise_case|].
  destruct (Z.eqb_spec req 0); mstep.
  - destruct (cdfs t) eqn:Hc; [eexists _, _; eauto|].
    destruct (malloc_ok env (max_NC_open t)); mstep; [|advise_case].
    eexists _, _. split; [reflexivity|]. apply alloc_wf; assumption.
  - destruct ((req <? max_NC_open t) && (req <=? ncdf t)) eqn:E; [eexists _, _; eauto|].
    set (a := if req >? sys_limit env then sys_limit env else req).
    assert (Ha : ncdf t <= a <= sys_limit env).
    { destruct Hwf as ((Hn & Hm) & _). subst a.
      apply andb_false_iff in E. destruct E as [E|E];
        [apply Z.ltb_ge in E|apply Z.leb_gt in E];
        destruct (Z.gtb_spec req (sys_limit env)); lia. }
    destruct (malloc_ok env a); mstep; [|advise_case].
    rewrite (moved_spec _ _ _ Hwf) by lia. mstep.
    eexists _, _. split; [reflexivity|]. apply regrown_wf; assumption.
Qed.

(** C19: The invariant is kept, the call never faults, and no identifier
    changes: a grow or a shrink copies the pointers below [_ncdf]. *)
Theorem NC_reset_maxopenfiles_safe env req t :
  table_wf (sys_limit env) t ->
  exists r t', NC_reset_maxopenfiles env req t = Ok r t' /\
    table_wf (sys_limit env) t' /\ view t' = view t.
Proof. apply reset_safe; assumption. Qed.
Lemma curr_opened_le_ncdf sys t : table_wf sys t -> 0 <= curr_opened t <= ncdf t.
Proof.
  intros Hwf. rewrite (curr_opened_view _ _ Hwf).
  pose proof (nlive_le_length (view t)). rewrite (length_view _ _ Hwf) in H.
  destruct Hwf as ((Hn & _) & _). lia.
Qed.

Lemma reset_result env req t r t' :
  table_wf (sys_limit env) t ->
  NC_reset_maxopenfiles env req t = Ok r t' ->
  (r = -1 /\ t' = set_ncerr t (Some NC_EINVAL)) \/
  (r = max_NC_open t' /\ view t' = view t /\ ncdf t' = ncdf t /\
   curr_opened t <= ncdf t <= r /\ r <= sys_limit env /\ cdfs t' <> None).
Proof.
  intros Hwf Hrun. pose proof (curr_opened_le_ncdf _ _ Hwf) as Hle.
  destruct (reset_safe env req t Hwf) as (r' & t'' & Hrun' & Hwf' & Hv).
  rewrite Hrun' in Hrun. injection Hrun as <- <-.
  unfold NC_reset_maxopenfiles in Hrun'.
  destruct Hwf as ((Hn & Hm) & Hc & _).
  destruct (Z.ltb_spec req 0); mstep; [injection Hrun' as <- <-; left; auto|].
  destruct (Z.eqb_spec req 0); mstep.
  - destruct (cdfs t) eqn:Hcd.
    + injection Hrun' as <- <-. right. rewrite Hcd. repeat split; try lia; congruence.
    + destruct (malloc_ok env (max_NC_open t)); mstep;
        injection Hrun' as <- <-; [right|left; auto].
      tsimpl. rewrite Hc in *. repeat split; try lia; try assumption; intros ?; discriminate.
  - destruct ((req <? max_NC_open t) && (req <=? ncdf t)) eqn:E.
    + injection Hrun' as <- <-. right. repeat split; try lia.
      destruct (cdfs t); [congruence|]. rewrite Hc in *. lia.
    + destruct (malloc_ok _ _); mstep; [|injection Hrun' as <- <-; left; auto].
      destruct (match cdfs t with Some _ => _ | None => _ end); mstep; [|discriminate].
      injection Hrun' as <- <-. tsimpl. right.
      destruct Hwf' as ((Hn' & Hm') & _). tsimpl.
      repeat split; try lia; congruence.
Qed.

(** A request either fails with [NC_EINVAL] and changes nothing else, or
    returns the new [max_NC_open], which is never below the high-water
    mark, hence never below the number of open files. *)
Theorem NC_reset_maxopenfiles_result env req t r t' :
  table_wf (sys_limit env) t ->
  NC_reset_maxopenfiles env req t = Ok r t' ->
  (r = -1 /\ t' = set_ncerr t (Some NC_EINVAL)) \/
  (r = max_NC_open t' /\ view t' = view t /\ ncdf t' = ncdf t /\
   curr_opened t <= ncdf t <= r /\ r <= sys_limit env /\ cdfs t' <> None).
Proof. apply reset_result; assumption. Qed.

(** C34: A request that neither fails nor is refused sets [max_NC_open] to
    the lesser of the request and the system ceiling. *)
Theorem NC_reset_maxopenfiles_grow env req t :
  table_wf (sys_limit env) t -> 0 < req ->
  ~ (req < max_NC_open t /\ req <= ncdf t) ->
  malloc_ok env (Z.min req (sys_limit env)) = true ->
  exists t', NC_reset_maxopenfiles env req t = Ok (Z.min req (sys_limit env)) t' /\
    max_NC_open t' = Z.min req (sys_limit env) /\ view t' = view t.
Proof.
  intros Hwf Hpos Hno Hmal.
  destruct (reset_safe env req t Hwf) as (r & t' & Hrun & _ & Hv).
  exists t'. unfold NC_reset_maxopenfiles in *.
  destruct (Z.ltb_spec req 0); [lia|]. destruct (Z.eqb_spec req 0); [lia|]. mstep.
  destruct (Z.ltb_spec req (max_NC_open t)), (Z.leb_spec req (ncdf t)); simpl in *;
    try (exfalso; lia);
    (replace (if req >? sys_limit env then sys_limit env else req)
       with (Z.min req (sys_limit env)) in *
       by (destruct (Z.gtb_spec req (sys_limit env)); lia));
    rewrite Hmal in *; mstep;
    (destruct (match cdfs t with Some _ => _ | None => _ end); mstep; [|discriminate]);
    injection Hrun as <- <-; tsimpl; auto.
Qed.
End Reset.

(** ** Choosing a slot: [NC_alloc_table], [find_free], [NC_pick_slot] *)

Section Slots.
Context {A : Type}.
Implicit Types (t : cdf_table A).

(** [r] is the lowest free identifier of an allocated table, and a store
    at [r] stays inside the array. *)
Definition slot_ok t (r : Z) : Prop :=
  cdfs t <> None /\ 0 <= r <= ncdf t /\ r < max_NC_open t /\
  (forall j, (j < Z.to_nat r)%nat -> exists h, view t !! j = Some (Some h)) /\
  (r < ncdf t -> view t !! Z.to_nat r = Some None).

Lemma find_free_spec sys t :
  table_wf sys t ->
  exists k, find_free t = Ok k t /\ 0 <= k <= ncdf t /\
    (forall j, (j < Z.to_nat k)%nat -> exists h, view t !! j = Some (Some h)) /\
    (k < ncdf t -> view t !! Z.to_nat k = Some None).
Proof.
  intros ((Hn & Hm) & Hc & _). unfold find_free, view, cells.
  destruct (cdfs t) as [l|].
  - destruct Hc as [Hl _].
    destruct (scan_free_spec (Z.to_nat (ncdf t)) l) as (k & Hk & Hkn & Hlive & Hfree);
      [lia|].
    exists (Z.of_nat k). rewrite Hk. simpl. split; [reflexivity|]. split; [lia|]. split.
    + intros j Hj. rewrite lookup_take_lt by lia. apply Hlive. lia.
    + intros Hlt. rewrite lookup_take_lt by lia. rewrite Nat2Z.id. apply Hfree. lia.
  - rewrite Hc. simpl. exists 0. split; [reflexivity|]. split; [lia|].
    split; intros; lia.
Qed.

(** The id [find_free] returns, when the full-table test of [ncredef]
    fails, is a slot for [NC_install]. *)
Lemma find_free_slot sys t k :
  table_wf sys t -> cdfs t <> None -> find_free t = Ok k t ->
  ((k =? ncdf t) && (ncdf t >=? max_NC_open t)) = false -> slot_ok t k.
Proof.
  intros Hw Hc E Efull. destruct (find_free_spec sys t Hw) as (k' & E' & Hk & Hlive & Hfree).
  rewrite E in E'. injection E' as <-.
  split; [exact Hc|]. split; [lia|]. split; [|split; [exact Hlive|exact Hfree]].
  destruct Hw as ((? & ?) & _). apply andb_false_iff in Efull.
  destruct Efull as [E1|E1]; [apply Z.eqb_neq in E1|rewrite Z.geb_leb in E1; apply Z.leb_gt in E1]; lia.
Qed.

Lemma NC_alloc_table_spec env t :
  table_wf (sys_limit env) t ->
  exists b t', NC_alloc_table env t = Ok b t' /\ table_wf (sys_limit env) t' /\
    view t' = view t /\ curr_opened t' = curr_opened t /\ max_NC_open t' = max_NC_open t /\
    (if b then cdfs t' <> None
     else ncerr t' = Some NC_ENFILE /\ malloc_ok env (max_NC_open t) = false).
Proof.
  intros Hwf. pose proof Hwf as ((Hn & Hm) & _).
  unfold NC_alloc_table. mstep. destruct (cdfs t) eqn:Hc.
  - eexists _, _. split; [reflexivity|]. split; [exact Hwf|]. repeat split; congruence.
  - unfold NC_reset_maxopenfiles. mstep. rewrite Hc.
    destruct (alloc_wf _ t Hwf Hc) as [Hw1 Hv1].
    destruct (malloc_ok env (max_NC_open t)) eqn:Em; mstep.
    + destruct (Z.eqb_spec (max_NC_open t) (-1)); [lia|]. mstep.
      eexists _, _. split; [reflexivity|]. split; [exact Hw1|]. split; [exact Hv1|].
      tsimpl. repeat split; discriminate.
    + eexists _, _. split; [reflexivity|]. split; [auto with nc|].
      split; [rewrite !view_set_ncerr; reflexivity|]. tsimpl. auto.
Qed.
Lemma NC_reset_maxopenfiles_sys env t r t' :
  table_wf (sys_limit env) t -> max_NC_open t < sys_limit env ->
  NC_reset_maxopenfiles env (sys_limit env) t = Ok r t' ->
  (r = -1 /\ malloc_ok env (sys_limit env) = false) \/
  (r = sys_limit env /\ max_NC_open t' = sys_limit env).
Proof.
  intros ((Hn & Hm) & _) Hlt Hrun. unfold NC_reset_maxopenfiles in Hrun.
  destruct (Z.ltb_spec (sys_limit env) 0); [lia|].
  destruct (Z.eqb_spec (sys_limit env) 0); [lia|]. mstep.
  destruct (Z.ltb_spec (sys_limit env) (max_NC_open t)); [lia|]. simpl in Hrun.
  destruct (Z.gtb_spec (sys_limit env) (sys_limit env)); [lia|].
  destruct (malloc_ok env (sys_limit env)) eqn:Em; mstep; [|injection Hrun as <- <-; auto].
  destruct (match cdfs t with Some _ => _ | None => _ end); mstep; [|discriminate].
  injection Hrun as <- <-. tsimpl. auto.
Qed.

Lemma NC_pick_slot_spec env t :
  table_wf (sys_limit env) t -> cdfs t <> None ->
  exists r t', NC_pick_slot env t = Ok r t' /\ table_wf (sys_limit env) t' /\
    view t' = view t /\
    ((r = -1 /\ ncerr t' = Some NC_ENFILE /\
      (sys_limit env <= curr_opened t \/ malloc_ok env (sys_limit env) = false)) \/ slot_ok t' r).
Proof.
  intros Hwf Hnn.
  destruct (find_free_spec _ t Hwf) as (k & Hk & Hk0 & Hlive & Hfree).
  pose proof Hwf as ((Hn & Hm) & _).
  unfold NC_pick_slot. unfold bind at 1. rewrite Hk. mstep.
  destruct (Z.eqb_spec k (ncdf t)), (Z.geb_spec (ncdf t) (max_NC_open t)); simpl.
  - assert (Hcur : curr_opened t = ncdf t).
    { rewrite (curr_opened_view _ _ Hwf), nlive_all_Some, (length_view _ _ Hwf); [lia|].
      intros j Hj. rewrite (length_view _ _ Hwf) in Hj. apply Hlive. lia. }
    destruct (Z.eqb_spec (max_NC_open t) (sys_limit env)); mstep.
    { eexists _, _. split; [reflexivity|]. split; [auto with nc|].
      split; [apply view_set_ncerr|left; split; [reflexivity|]; split; [reflexivity|lia]]. }
    destruct (reset_safe env (sys_limit env) t Hwf)
      as (r & t1 & Hrun & Hwf1 & Hv1).
    rewrite Hrun.
    destruct (NC_reset_maxopenfiles_sys env t r t1 Hwf ltac:(lia) Hrun) as [[-> Hmal]|[-> Hmax]].
    + mstep. eexists _, _. split; [reflexivity|]. split; [auto with nc|].
      split; [rewrite view_set_ncerr; assumption|left; auto].
    + destruct (reset_result env _ t _ t1 Hwf Hrun)
        as [[Habs _]|(_ & _ & Hnc & _ & _ & Hnn1)]; [lia|].
      destruct (Z.eqb_spec (sys_limit env) (-1)); [lia|]. mstep.
      eexists _, _. split; [reflexivity|]. do 2 (split; [assumption|]). right.
      split; [exact Hnn1|]. rewrite Hv1, Hnc. split; [lia|]. split; [lia|]. split; auto.
  - eexists _, _. split; [reflexivity|]. do 2 (split; [auto|]). right.
    repeat split; auto; lia.
  - eexists _, _. split; [reflexivity|]. do 2 (split; [auto|]). right.
    repeat split; auto; lia.
  - eexists _, _. split; [reflexivity|]. do 2 (split; [auto|]). right.
    repeat split; auto; lia.
Qed.

Lemma open_slot_run env t :
  table_wf (sys_limit env) t ->
  exists r t', NC_open_slot env t = Ok r t' /\ table_wf (sys_limit env) t' /\
    view t' = view t /\
    ((r = -1 /\ ncerr t' = Some NC_ENFILE /\
      (sys_limit env <= curr_opened t \/ malloc_ok env (sys_limit env) = false \/
       malloc_ok env (max_NC_open t) = false)) \/ slot_ok t' r).
Proof.
  intros Hwf.
  destruct (NC_alloc_table_spec env t Hwf) as (b & t1 & Hrun & Hwf1 & Hv1 & Hc1 & Hm1 & Hb).
  unfold NC_open_slot. unfold bind at 1. rewrite Hrun. destruct b; simpl.
  - destruct (NC_pick_slot_spec env t1 Hwf1 Hb) as (r & t2 & Hrun2 & Hwf2 & Hv2 & Hr).
    exists r, t2. rewrite Hv2, Hv1, <- Hc1. split; [exact Hrun2|]. split; [exact Hwf2|].
    split; [reflexivity|]. destruct Hr as [(-> & He & [Hs|Hs])|Hs]; tauto.
  - mstep. destruct Hb as [He Hmal]. eexists _, _. split; [reflexivity|].
    split; [exact Hwf1|]. split; [exact Hv1|]. left. split; [reflexivity|]. split; [exact He|]. tauto.
Qed.

(** C20: [NC_open]'s table phase never faults and keeps every identifier; it
    either fails with [NC_ENFILE] or yields the lowest free identifier,
    with room for it in the array. *)
Theorem NC_open_slot_spec env t :
  table_wf (sys_limit env) t ->
  exists r t', NC_open_slot env t = Ok r t' /\ table_wf (sys_limit env) t' /\
    view t' = view t /\ ((r = -1 /\ ncerr t' = Some NC_ENFILE) \/ slot_ok t' r).
Proof.
  intros Hwf. destruct (open_slot_run env t Hwf) as (r & t' & Hr & Hw & Hv & [(Hr1 & He & _)|Hs]);
    exists r, t'; tauto.
Qed.
(** C16: Progress of the table phase of [NC_open]: while fewer files are
    open than the system ceiling and the allocations it asks for succeed,
    it never refuses; it yields a free identifier with room for it in the
    array.  Refusals ([NC_ENFILE]) come only from an exhausted ceiling or
    a failed allocation. *)
Theorem NC_open_slot_progress env t :
  table_wf (sys_limit env) t -> curr_opened t < sys_limit env ->
  malloc_ok env (sys_limit env) = true -> malloc_ok env (max_NC_open t) = true ->
  exists r t', NC_open_slot env t = Ok r t' /\ slot_ok t' r /\ view t' = view t.
Proof.
  intros Hwf Hc Hm1 Hm2.
  destruct (open_slot_run env t Hwf) as (r & t' & Hr & _ & Hv & [(_ & _ & [H|[H|H]])|Hs]);
    [lia|congruence|congruence|].
  exists r, t'. auto.
Qed.
End Slots.

(** ** Installing and retiring a handle *)

Section InstallRetire.
Context {A : Type}.
Implicit Types (t : cdf_table A).

(** The invariant without the count, which is briefly off by one between
    [_cdfs[id] = NULL] and [_curr_opened--]. *)
Definition table_shape (sys : Z) t : Prop :=
  (0 <= ncdf t <= max_NC_open t /\ max_NC_open t <= sys) /\
  match cdfs t with
  | None => ncdf t = 0
  | Some l => length l = Z.to_nat (max_NC_open t) /\ empty_from (Z.to_nat (ncdf t)) l
  end.

Lemma table_wf_shape sys t :
  table_wf sys t <-> table_shape sys t /\ curr_opened t = Z.of_nat (nlive (cells t)).
Proof. unfold table_wf, table_shape. tauto. Qed.

Lemma HNDLE_live sys t id (h : A) :
  table_wf sys t -> HNDLE t id = Some (Some h) ->
  0 <= id < ncdf t /\ view t !! Z.to_nat id = Some (Some h).
Proof.
  intros Hwf Hh. rewrite (HNDLE_view _ _ _ Hwf) in Hh. injection Hh as Hh.
  destruct (Z.leb_spec 0 id), (Z.ltb_spec id (ncdf t)); simpl in Hh; try discriminate.
  split; [lia|]. destruct (view t !! Z.to_nat id); simpl in *; congruence.
Qed.

Lemma view_lookup_cells t l i x :
  cdfs t = Some l -> (i < Z.to_nat (ncdf t))%nat -> view t !! i = Some x -> l !! i = Some x.
Proof. intros Hc Hi. unfold view, cells. rewrite Hc, lookup_take_lt by lia. auto. Qed.

Lemma install_run sys t r (h : A) :
  table_wf sys t -> slot_ok t r ->
  exists t', NC_install r h t = Ok tt t' /\ table_wf sys t' /\
    view t' = (if r <? ncdf t then <[Z.to_nat r := Some h]> (view t)
               else view t ++ [Some h]) /\
    curr_opened t' = curr_opened t + 1.
Proof.
  intros Hwf (Hnn & Hr & Hrm & _ & Hfree).
  destruct Hwf as ((Hn & Hm) & Hc & Hcount). unfold cells in Hcount.
  destruct (cdfs t) as [l|] eqn:Hcd; [|congruence]. destruct Hc as [Hl He].
  assert (Hold : l !! Z.to_nat r = Some None).
  { destruct (Z.ltb_spec r (ncdf t)).
    - apply (view_lookup_cells t); auto; lia.
    - destruct (He (Z.to_nat r)) as [|Hx]; [lia|auto|].
      apply lookup_ge_None in Hx. lia. }
  pose proof (nlive_insert l (Z.to_nat r) (Some h) None Hold) as Hcnt. simpl in Hcnt.
  unfold NC_install, bind at 1, lift_opt.
  rewrite (store_Some t l) by (auto; lia). mstep. unfold table_wf, view, cells.
  destruct (Z.eqb_spec r (ncdf t)); tsimpl; rewrite ?Hcd.
  - eexists. split; [reflexivity|]. tsimpl. split; [split; [|split]|].
    + lia.
    + rewrite length_insert. split; [lia|].
      apply empty_from_insert; [apply (empty_from_mono _ _ _ He)|]; lia.
    + simpl. lia.
    + destruct (Z.ltb_spec r (ncdf t)); [lia|]. split; [|lia].
      rewrite Z2Nat.inj_add, Nat.add_1_r by lia. subst r.
      rewrite (take_S_r _ _ (Some h)) by (apply list_lookup_insert_eq; lia).
      rewrite take_insert_ge by lia. reflexivity.
  - eexists. split; [reflexivity|]. tsimpl. split; [split; [|split]|].
    + lia.
    + rewrite length_insert. split; [lia|]. apply empty_from_insert; [exact He|lia].
    + simpl. lia.
    + destruct (Z.ltb_spec r (ncdf t)); [|lia]. split; [|lia].
      apply take_insert_lt. lia.
Qed.

(** Installing at a free slot fills it and leaves every other id as it
    was. *)
Lemma install_HNDLE sys t r (h : A) :
  table_wf sys t -> slot_ok t r ->
  exists t', NC_install r h t = Ok tt t' /\ table_wf sys t' /\
    curr_opened t' = curr_opened t + 1 /\ ncerr t' = ncerr t /\
    HNDLE t' r = Some (Some h) /\ (forall j, j <> r -> HNDLE t' j = HNDLE t j).
Proof.
  intros Hwf Hs. pose proof Hs as (_ & Hr & _ & _ & Hfree).
  destruct (install_run sys t r h Hwf Hs) as (t' & Hrun & Hwf' & Hv & Hc).
  exists t'. split; [exact Hrun|]. split; [exact Hwf'|]. split; [exact Hc|].
  split.
  { revert Hrun. unfold NC_install, bind, lift_opt, get, put, modify, ret.
    destruct (store r (Some h) t) as [t1|] eqn:E; [|discriminate].
    assert (ncerr t1 = ncerr t) by (revert E; unfold store; repeat case_match; intros; simplify_eq; reflexivity).
    destruct (r =? ncdf t1); intros Hr'; injection Hr' as <-; assumption. }
  pose proof (length_view _ _ Hwf) as Hl. pose proof (length_view _ _ Hwf') as Hl'.
  assert (Hn' : ncdf t' = (if r <? ncdf t then ncdf t else ncdf t + 1)).
  { rewrite Hv in Hl'. destruct (Z.ltb_spec r (ncdf t)).
    - rewrite length_insert in Hl'. destruct Hwf' as ((? & _) & _). lia.
    - rewrite length_app in Hl'. simpl in Hl'. destruct Hwf' as ((? & _) & _). lia. }
  split.
  - rewrite (HNDLE_view _ _ _ Hwf'), Hv, Hn'. destruct (Z.ltb_spec r (ncdf t)).
    + destruct (Z.leb_spec 0 r), (Z.ltb_spec r (ncdf t)); try lia. simpl.
      rewrite list_lookup_insert_eq by lia. reflexivity.
    + destruct (Z.leb_spec 0 r), (Z.ltb_spec r (ncdf t + 1)); try lia. simpl.
      rewrite lookup_app_r by lia. replace (Z.to_nat r - length (view t))%nat with 0%nat by lia.
      reflexivity.
  - intros j Hj. rewrite (HNDLE_view _ _ _ Hwf'), (HNDLE_view _ _ _ Hwf), Hv, Hn'.
    destruct (Z.ltb_spec r (ncdf t)).
    + destruct (Z.leb_spec 0 j), (Z.ltb_spec j (ncdf t)); simpl; try reflexivity.
      rewrite list_lookup_insert_ne by lia. reflexivity.
    + destruct (Z.leb_spec 0 j), (Z.ltb_spec j (ncdf t + 1)), (Z.ltb_spec j (ncdf t));
        simpl; try lia; try reflexivity.
      rewrite lookup_app_l by lia. reflexivity.
Qed.

(** After [NC_open_slot] has chosen [r], the install sequence of
    [NC_open] puts the handle at [r], raises the high-water mark when [r]
    is the mark itself, and counts one more open file. *)
Theorem NC_install_spec sys t r (h : A) :
  table_wf sys t -> slot_ok t r ->
  exists t', NC_install r h t = Ok tt t' /\ table_wf sys t' /\
    view t' = (if r <? ncdf t then <[Z.to_nat r := Some h]> (view t)
               else view t ++ [Some h]) /\
    curr_opened t' = curr_opened t + 1.
Proof. apply install_run; assumption. Qed.
(** [_curr_opened--; if (_ncdf == 0) ncreset_cdflist();] restores the
    count and frees the array exactly when the mark is back to zero. *)
Lemma NC_release_count_spec sys t :
  table_shape sys t -> curr_opened t = Z.of_nat (nlive (cells t)) + 1 ->
  exists t', NC_release_count t = Ok tt t' /\ table_wf sys t' /\ view t' = view t /\
    curr_opened t' = curr_opened t - 1 /\ (ncdf t' = 0 -> cdfs t' = None).
Proof.
  intros ((Hn & Hm) & Hc) Hcount. unfold NC_release_count. mstep.
  destruct (Z.eqb_spec (ncdf t) 0) as [H0|H0]; unfold ncreset_cdflist; mstep;
    eexists; (split; [reflexivity|]); unfold table_wf, view, cells in *; tsimpl.
  - assert (Hz : nlive (match cdfs t with Some l => l | None => [] end) = 0%nat).
    { destruct (cdfs t) as [l|]; [|reflexivity]. destruct Hc as [_ He].
      rewrite (empty_from_nlive _ _ He), H0. reflexivity. }
    rewrite H0. simpl. split; [|split; [reflexivity|split; auto]].
    split; [lia|]. split; [reflexivity|]. lia.
  - split; [|split; [reflexivity|split; [reflexivity|lia]]].
    split; [lia|]. split; [exact Hc|lia].
Qed.

Lemma NC_clear_slot_spec sys t id (h : A) :
  table_wf sys t -> HNDLE t id = Some (Some h) ->
  exists t', NC_clear_slot id t = Ok tt t' /\ table_shape sys t' /\
    curr_opened t' = Z.of_nat (nlive (cells t')) + 1 /\
    curr_opened t' = curr_opened t /\
    view t' = (if id =? ncdf t - 1 then take (Z.to_nat id) (view t)
               else <[Z.to_nat id := None]> (view t)).
Proof.
  intros Hwf Hh. destruct (HNDLE_live _ _ _ _ Hwf Hh) as [Hid Hv].
  destruct Hwf as ((Hn & Hm) & Hc & Hcount). unfold cells in Hcount.
  destruct (cdfs t) as [l|] eqn:Hcd; [|lia]. destruct Hc as [Hl He].
  assert (Hold : l !! Z.to_nat id = Some (Some h)) by (apply (view_lookup_cells t); auto; lia).
  pose proof (nlive_insert l (Z.to_nat id) None (Some h) Hold) as Hcnt. simpl in Hcnt.
  unfold NC_clear_slot, bind at 1, lift_opt.
  rewrite (store_Some t l) by (auto; lia). mstep.
  destruct (Z.eqb_spec id (ncdf t - 1)); eexists; (split; [reflexivity|]);
    unfold table_shape, view, cells; tsimpl; rewrite ?Hcd.
  - split; [split; [lia|split]|split; [lia|split; [reflexivity|]]].
    + rewrite length_insert. lia.
    + replace (Z.to_nat (ncdf t - 1)) with (Z.to_nat id) by lia.
      apply empty_from_pred; [|apply list_lookup_insert_eq; lia].
      replace (S (Z.to_nat id)) with (Z.to_nat (ncdf t)) by lia.
      apply empty_from_insert; auto.
    + rewrite take_insert_ge, take_take by lia. f_equal. lia.
  - split; [split; [lia|split]|split; [lia|split; [reflexivity|]]].
    + rewrite length_insert. lia.
    + apply empty_from_insert; auto.
    + apply take_insert_lt. lia.
Qed.

Lemma retire_run sys t id (h : A) :
  table_wf sys t -> HNDLE t id = Some (Some h) ->
  exists t', NC_retire id t = Ok tt t' /\ table_wf sys t' /\
    view t' = (if id =? ncdf t - 1 then take (Z.to_nat id) (view t)
               else <[Z.to_nat id := None]> (view t)) /\
    curr_opened t' = curr_opened t - 1 /\ (ncdf t' = 0 -> cdfs t' = None).
Proof.
  intros Hwf Hh.
  destruct (NC_clear_slot_spec sys t id h Hwf Hh) as (t1 & Hrun1 & Hs1 & Hc1 & Hc1' & Hv1).
  destruct (NC_release_count_spec sys t1 Hs1 Hc1) as (t2 & Hrun2 & Hwf2 & Hv2 & Hc2 & Hz).
  exists t2. unfold NC_retire, bind at 1. rewrite Hrun1, Hrun2.
  split; [reflexivity|]. rewrite Hv2, Hv1. auto with lia.
Qed.

(** Retiring a live id empties it and leaves every other id as it was. *)
Lemma retire_HNDLE sys t id (h : A) :
  table_wf sys t -> HNDLE t id = Some (Some h) ->
  exists t', NC_retire id t = Ok tt t' /\ table_wf sys t' /\
    curr_opened t' = curr_opened t - 1 /\
    HNDLE t' id = Some None /\ (forall j, j <> id -> HNDLE t' j = HNDLE t j).
Proof.
  intros Hwf Hh. destruct (HNDLE_live _ _ _ _ Hwf Hh) as [Hid Hvid].
  destruct (retire_run sys t id h Hwf Hh) as (t' & Hrun & Hwf' & Hv & Hc & _).
  exists t'. split; [exact Hrun|]. split; [exact Hwf'|]. split; [exact Hc|].
  pose proof (length_view _ _ Hwf) as Hl. pose proof (length_view _ _ Hwf') as Hl'.
  assert (Hn' : ncdf t' = (if id =? ncdf t - 1 then id else ncdf t)).
  { rewrite Hv in Hl'. destruct (Z.eqb_spec id (ncdf t - 1)).
    - rewrite length_take in Hl'. destruct Hwf' as ((? & _) & _). lia.
    - rewrite length_insert in Hl'. destruct Hwf' as ((? & _) & _). lia. }
  split.
  - rewrite (HNDLE_view _ _ _ Hwf'), Hv, Hn'. destruct (Z.eqb_spec id (ncdf t - 1)).
    + destruct (Z.ltb_spec id id); [lia|]. rewrite andb_false_r. reflexivity.
    + destruct (Z.leb_spec 0 id), (Z.ltb_spec id (ncdf t)); try lia. simpl.
      rewrite list_lookup_insert_eq by lia. reflexivity.
  - intros j Hj. rewrite (HNDLE_view _ _ _ Hwf'), (HNDLE_view _ _ _ Hwf), Hv, Hn'.
    destruct (Z.eqb_spec id (ncdf t - 1)).
    + destruct (Z.leb_spec 0 j), (Z.ltb_spec j id), (Z.ltb_spec j (ncdf t)); simpl; try lia;
        try reflexivity; try (rewrite lookup_take_lt by lia; reflexivity).
    + destruct (Z.leb_spec 0 j), (Z.ltb_spec j (ncdf t)); simpl; try reflexivity.
      rewrite list_lookup_insert_ne by lia. reflexivity.
Qed.

(** C21: The close sequence of [ncclose] on a live identifier: the cell is
    emptied, the high-water mark drops by one only when the identifier
    was the top one (trailing empty cells below it are kept), one file
    fewer is counted, and the array is freed when the mark reaches 0. *)
Theorem NC_retire_spec sys t id (h : A) :
  table_wf sys t -> HNDLE t id = Some (Some h) ->
  exists t', NC_retire id t = Ok tt t' /\ table_wf sys t' /\
    view t' = (if id =? ncdf t - 1 then take (Z.to_nat id) (view t)
               else <[Z.to_nat id := None]> (view t)) /\
    curr_opened t' = curr_opened t - 1 /\ (ncdf t' = 0 -> cdfs t' = None).
Proof. apply retire_run; assumption. Qed.
(** Retiring an id leaves the error code alone. *)
Lemma NC_retire_ncerr id t t' : NC_retire id t = Ok tt t' -> ncerr t' = ncerr t.
Proof.
  unfold NC_retire, NC_clear_slot, NC_release_count, ncreset_cdflist, bind, lift_opt,
    modify, get, put, ret.
  destruct (store id None t) as [t1|] eqn:E; [|discriminate].
  assert (Hn : ncerr t1 = ncerr t) by (revert E; unfold store; repeat case_match; intros; simplify_eq; reflexivity).
  destruct (id =? ncdf t1 - 1), (_ =? 0); intros Hr; injection Hr as <-; exact Hn.
Qed.

End InstallRetire.

(** ** Replacing a live handle

    [ncredef], [NC_endef] and the flushes update a handle in place; in
    the model the updated value is stored back into its cell, which keeps
    every other id, the counters and the invariant. *)

Section Replace.
Context {A : Type}.
Implicit Types (t : cdf_table A).

Lemma store_live t i (h h' : A) :
  HNDLE t i = Some (Some h) ->
  exists l, cdfs t = Some l /\ l !! Z.to_nat i = Some (Some h) /\ (0 <= i < ncdf t) /\
    store i (Some h') t = Some (set_cdfs t (Some (<[Z.to_nat i := Some h']> l))).
Proof.
  unfold HNDLE, cell. destruct (Z.leb_spec 0 i), (Z.ltb_spec i (ncdf t)); simpl; try discriminate.
  destruct (cdfs t) as [l|] eqn:Ec; [|discriminate]. intros E. exists l.
  split; [reflexivity|]. split; [exact E|]. split; [lia|].
  apply store_Some; [exact Ec|]. apply lookup_lt_Some in E. lia.
Qed.

Lemma HNDLE_insert t l i j (x : option A) :
  cdfs t = Some l -> 0 <= i < ncdf t ->
  HNDLE (set_cdfs t (Some (<[Z.to_nat i := x]> l))) j =
  if decide (j = i) then (if decide (Z.to_nat i < length l)%nat then Some x else None)
  else HNDLE t j.
Proof.
  intros Hc Hi. unfold HNDLE, cell. tsimpl. rewrite Hc.
  destruct (decide (j = i)) as [->|Hne].
  - destruct (Z.leb_spec 0 i), (Z.ltb_spec i (ncdf t)); simpl; try lia.
    destruct (decide (Z.to_nat i < length l)%nat).
    + rewrite list_lookup_insert_eq by lia. reflexivity.
    + rewrite lookup_ge_None_2; [reflexivity|]. rewrite length_insert. lia.
  - destruct (Z.leb_spec 0 j), (Z.ltb_spec j (ncdf t)); simpl; try reflexivity.
    rewrite list_lookup_insert_ne by lia. reflexivity.
Qed.

Lemma replace_wf sys t i (h h' : A) l :
  table_wf sys t -> cdfs t = Some l -> l !! Z.to_nat i = Some (Some h) -> 0 <= i < ncdf t ->
  table_wf sys (set_cdfs t (Some (<[Z.to_nat i := Some h']> l))) /\
  view (set_cdfs t (Some (<[Z.to_nat i := Some h']> l))) = <[Z.to_nat i := Some h']> (view t).
Proof.
  intros ((Hn & Hm) & Hc & Hcount) Hl E Hi. rewrite Hl in Hc. destruct Hc as [Hlen He].
  unfold table_wf, view, cells in *. tsimpl. rewrite Hl in *.
  split; [split; [lia|split]|].
  - split; [rewrite length_insert; exact Hlen|].
    apply empty_from_insert; [exact He|]. lia.
  - pose proof (nlive_insert l (Z.to_nat i) (Some h') (Some h) E). simpl in H. lia.
  - rewrite take_insert_lt by lia. reflexivity.
Qed.
End Replace.

(** ** Reachable tables

    A client of the table allocates or resizes it, runs the slot phase of
    [NC_open] (which may be followed by a failed handle creation), installs
    a handle in the slot it got, or retires a live identifier. *)

Section Reach.
Context {A : Type} (env : nc_env).
Implicit Types (t : cdf_table A).

Inductive table_step : cdf_table A -> cdf_table A -> Prop :=
| step_reset req r t t' :
    NC_reset_maxopenfiles env req t = Ok r t' -> table_step t t'
| step_slot r t t' :
    NC_open_slot env t = Ok r t' -> table_step t t'
| step_open r h t t1 t' :
    NC_open_slot env t = Ok r t1 -> r <> -1 -> NC_install r h t1 = Ok tt t' ->
    table_step t t'
| step_close id h t t' :
    HNDLE t id = Some (Some h) -> NC_retire id t = Ok tt t' -> table_step t t'.

Inductive table_reachable : cdf_table A -> Prop :=
| reach_init : table_reachable table_init
| reach_step t t' : table_reachable t -> table_step t t' -> table_reachable t'.

Lemma table_init_wf : H4_MAX_NC_OPEN <= sys_limit env -> table_wf (sys_limit env) (@table_init A).
Proof. intros H. unfold table_wf, table_init, cells, H4_MAX_NC_OPEN in *. simpl. lia. Qed.

Lemma table_step_wf t t' :
  table_wf (sys_limit env) t -> table_step t t' -> table_wf (sys_limit env) t'.
Proof.
  intros Hwf Hs. destruct Hs as [req r t t' Hrun|r t t' Hrun|r h t t1 t' Hrun Hr Hins|id h t t' Hh Hrun].
  - destruct (reset_safe env req t Hwf) as (? & ? & Hrun' & Hwf' & _).
    rewrite Hrun in Hrun'. congruence.
  - destruct (open_slot_run env t Hwf) as (? & ? & Hrun' & Hwf' & _).
    rewrite Hrun in Hrun'. congruence.
  - destruct (open_slot_run env t Hwf) as (r' & t1' & Hrun' & Hwf1 & _ & Hslot).
    rewrite Hrun in Hrun'. injection Hrun' as <- <-.
    destruct Hslot as [[-> _]|Hslot]; [congruence|].
    destruct (install_run _ t1 r h Hwf1 Hslot) as (? & Hins' & Hwf' & _).
    rewrite Hins in Hins'. congruence.
  - destruct (retire_run _ t id h Hwf Hh) as (? & Hrun' & Hwf' & _).
    rewrite Hrun in Hrun'. congruence.
Qed.

(** C8: Every reachable table satisfies the invariant, provided the system
    ceiling is at least the default table size [H4_MAX_NC_OPEN] (a
    descriptor soft limit of at least 35; below it [NC_open] can store past
    the array, see [NC_open_overflow_low_limit]): then [_curr_opened] is
    the number of live identifiers, and no cell at or above [_ncdf] is
    ever read. *)
Theorem table_reachable_wf t :
  H4_MAX_NC_OPEN <= sys_limit env -> table_reachable t ->
  table_wf (sys_limit env) t /\ curr_opened t = Z.of_nat (nlive (view t)).
Proof.
  intros Hsys Hr. assert (Hwf : table_wf (sys_limit env) t).
  { induction Hr; [apply table_init_wf; exact Hsys|eapply table_step_wf; eauto]. }
  split; [exact Hwf|]. apply (curr_opened_view _ _ Hwf).
Qed.

(** C35: Exhaustion: when every identifier up to the system ceiling is live,
    the next open fails with [NC_ENFILE] and leaves the table intact. *)
Theorem NC_open_slot_exhausted t :
  table_wf (sys_limit env) t -> ncdf t = sys_limit env -> 0 < ncdf t ->
  (forall j, (j < Z.to_nat (ncdf t))%nat -> exists h, view t !! j = Some (Some h)) ->
  exists t', NC_open_slot env t = Ok (-1) t' /\ ncerr t' = Some NC_ENFILE /\
    view t' = view t /\ table_wf (sys_limit env) t'.
Proof.
  intros Hwf Hfull Hpos Hlive.
  destruct (open_slot_run env t Hwf) as (r & t' & Hrun & Hwf' & Hv & Hr).
  exists t'. destruct Hr as [(-> & He & _)|(Hnn & Hr0 & Hrm & Hbelow & Hfree)]; [auto|].
  exfalso. pose proof Hwf' as ((Hn' & Hm') & _).
  assert (Hnc : ncdf t' = ncdf t).
  { pose proof (length_view _ _ Hwf') as L1. pose proof (length_view _ _ Hwf) as L2.
    rewrite Hv in L1. pose proof Hwf as ((? & ?) & _). lia. }
  destruct (Z.ltb_spec r (ncdf t')).
  - rewrite Hv in Hfree. destruct (Hlive (Z.to_nat r)) as [h Hh]; [lia|].
    rewrite Hfree in Hh by lia. discriminate.
  - lia.
Qed.
End Reach.

(** ** A decision procedure for the invariant *)

Section Decide.
Context {A : Type}.
Implicit Types (t : cdf_table A).

Definition empty_fromb (n : nat) (l : list (option A)) : bool :=
  forallb (fun o => match o with None => true | Some _ => false end) (drop n l).

Lemma empty_fromb_sound n l : empty_fromb n l = true -> empty_from n l.
Proof.
  unfold empty_fromb. rewrite forallb_forall. intros H j Hj.
  destruct (l !! j) as [[a|]|] eqn:E; auto.
  assert (Hin : In (Some a) (drop n l)).
  { apply list_elem_of_In, list_elem_of_lookup. exists (j - n)%nat.
    rewrite lookup_drop. replace (n + (j - n))%nat with j by lia. exact E. }
  specialize (H _ Hin). discriminate.
Qed.

Definition table_wfb (sys : Z) t : bool :=
  (0 <=? ncdf t) && (ncdf t <=? max_NC_open t) && (max_NC_open t <=? sys) &&
  match cdfs t with
  | None => ncdf t =? 0
  | Some l => Nat.eqb (length l) (Z.to_nat (max_NC_open t)) &&
              empty_fromb (Z.to_nat (ncdf t)) l
  end &&
  (curr_opened t =? Z.of_nat (nlive (cells t))).

Lemma table_wfb_sound sys t : table_wfb sys t = true -> table_wf sys t.
Proof.
  unfold table_wfb, table_wf. intros H.
  repeat rewrite andb_true_iff in H. destruct H as [[[[H1 H2] H3] H4] H5].
  apply Z.leb_le in H1, H2, H3. apply Z.eqb_eq in H5.
  split; [lia|]. split; [|exact H5].
  destruct (cdfs t); [|apply Z.eqb_eq; exact H4].
  apply andb_true_iff in H4 as [H4 H6]. apply Nat.eqb_eq in H4.
  split; [exact H4|]. apply empty_fromb_sound. exact H6.
Qed.
End Decide.

(** ** Concrete runs *)

Section Runs.
Context (env : nc_env).

(** One successful [NC_open] at the table level, with a [unit] handle. *)
Definition open_once (t : cdf_table unit) : option (cdf_table unit) :=
  match NC_open_slot env t with
  | Ok r t1 =>
      if r =? -1 then None
      else match NC_install r tt t1 with Ok _ t' => Some t' | Undef => None end
  | Undef => None
  end.

Fixpoint open_n (n : nat) (t : cdf_table unit) : option (cdf_table unit) :=
  match n with
  | O => Some t
  | S n' => match open_once t with Some t' => open_n n' t' | None => None end
  end.

Definition close_once (id : Z) (t : cdf_table unit) : option (cdf_table unit) :=
  match HNDLE t id with
  | Some (Some _) => match NC_retire id t with Ok _ t' => Some t' | Undef => None end
  | _ => None
  end.

Lemma open_once_step t t' : open_once t = Some t' -> table_step env t t'.
Proof.
  unfold open_once. destruct (NC_open_slot env t) as [r t1|] eqn:Hs; [|discriminate].
  destruct (Z.eqb_spec r (-1)); [discriminate|].
  destruct (NC_install r tt t1) as [[] t''|] eqn:Hi; [|discriminate].
  injection 1 as <-. eapply step_open; eauto.
Qed.

Lemma open_n_reachable n t t' :
  table_reachable env t -> open_n n t = Some t' -> table_reachable env t'.
Proof.
  revert t. induction n as [|n IH]; simpl; intros t Hr H; [congruence|].
  destruct (open_once t) eqn:E; [|discriminate].
  apply (IH c); [econstructor; [exact Hr|apply open_once_step; exact E]|exact H].
Qed.

Lemma close_once_reachable id t t' :
  table_reachable env t -> close_once id t = Some t' -> table_reachable env t'.
Proof.
  unfold close_once. intros Hr.
  destruct (HNDLE t id) as [[[]|]|] eqn:Hh; try discriminate.
  destruct (NC_retire id t) as [[] t''|] eqn:Hrun; [|discriminate].
  injection 1 as <-. econstructor; [exact Hr|]. eapply step_close; eauto.
Qed.
End Runs.

(** A soft limit of 23 descriptors gives a ceiling of 20, below the
    default table size of 32. *)
Definition env_low_limit : nc_env := mk_env 23 (fun _ => true).

(** A soft limit of 1027 descriptors gives a ceiling of 1024. *)
Definition env_1024 : nc_env := mk_env 1027 (fun _ => true).

Definition some_or {T} (d : T) (o : option T) : T := match o with Some x => x | None => d end.

(** The table after 32 opens under the ceiling of 20. *)
Definition table_32_low : cdf_table unit :=
  some_or table_init (open_n env_low_limit 32 table_init).

(** The table after opening identifiers 0, 1, 2 and closing 1 then 2. *)
Definition table_0_1_2_close_1_2 : cdf_table unit :=
  some_or table_init
    ((open_n env_1024 3 table_init ≫= close_once 1) ≫= close_once 2).

(** C36: When the ceiling is below the default size [H4_MAX_NC_OPEN], the grow
    of [NC_open] asks [NC_reset_maxopenfiles] for the ceiling, which is
    smaller than [max_NC_open] and not above [_ncdf]: the request is
    refused without an error, [NC_open] goes on with the id [_ncdf] equal
    to the array size, and the store [_cdfs[cdfid] = handle] is out of
    bounds. *)
Theorem NC_open_overflow_low_limit :
  table_reachable env_low_limit table_32_low /\ ncdf table_32_low = 32 /\
  exists t1, NC_open_slot env_low_limit table_32_low = Ok 32 t1 /\
    max_NC_open t1 = 32 /\ NC_install 32 tt t1 = Undef.
Proof.
  split; [apply (open_n_reachable _ 32 table_init); [constructor|vm_compute; reflexivity]|].
  split; [vm_compute; reflexivity|].
  eexists. split; [vm_compute; reflexivity|]. split; vm_compute; reflexivity.
Qed.

(** The table of [table_0_1_2_close_1_2] is reachable. *)
Lemma table_0_1_2_close_1_2_reachable : table_reachable env_1024 table_0_1_2_close_1_2.
Proof.
  assert (H3 : open_n env_1024 3 table_init = Some (some_or table_init (open_n env_1024 3 table_init)))
    by (vm_compute; reflexivity).
  set (t3 := some_or table_init (open_n env_1024 3 table_init)) in H3.
  assert (Hr3 : table_reachable env_1024 t3) by (eapply open_n_reachable; [constructor|exact H3]).
  assert (H4 : close_once 1 t3 = Some (some_or t3 (close_once 1 t3)))
    by (vm_compute; reflexivity).
  assert (Hr4 := close_once_reachable _ _ _ _ Hr3 H4).
  set (t4 := some_or t3 (close_once 1 t3)) in *.
  assert (H5 : close_once 2 t4 = Some table_0_1_2_close_1_2) by (vm_compute; reflexivity).
  exact (close_once_reachable _ _ _ _ Hr4 H5).
Qed.

(** C37: Retiring the top identifier lowers the high-water mark by one only:
    after opening 0, 1, 2 and closing 1 then 2, the mark is 2 although 0
    is the only live identifier.  Closing 0 as well leaves no file open,
    but the mark stays at 2 and the array is never freed
    ([ncreset_cdflist] runs only when the mark reaches 0). *)
Theorem NC_retire_no_cascade :
  table_reachable env_1024 table_0_1_2_close_1_2 /\
  view table_0_1_2_close_1_2 = [Some tt; None] /\
  ncdf table_0_1_2_close_1_2 = 2 /\ curr_opened table_0_1_2_close_1_2 = 1 /\
  exists t, close_once 0 table_0_1_2_close_1_2 = Some t /\ table_reachable env_1024 t /\
    curr_opened t = 0 /\ ncdf t = 2 /\ cdfs t <> None.
Proof.
  split; [exact table_0_1_2_close_1_2_reachable|].
  assert (E : close_once 0 table_0_1_2_close_1_2 = Some (some_or table_init (close_once 0 table_0_1_2_close_1_2)))
    by (vm_compute; reflexivity).
  split_and!; [vm_compute; reflexivity..|].
  eexists. split; [exact E|]. split; [exact (close_once_reachable _ _ _ _ table_0_1_2_close_1_2_reachable E)|].
  vm_compute. split_and!; [reflexivity|reflexivity|discriminate].
Qed.

(** A full table: both identifiers of a ceiling of two are live. *)
Definition env_5 : nc_env := mk_env 5 (fun _ => true).
Definition table_full_2 : cdf_table unit := mk_table (Some [Some tt; Some tt]) 2 2 2 None.

Lemma table_0_1_2_close_1_2_wf : table_wf (sys_limit env_1024) table_0_1_2_close_1_2.
Proof. apply table_wfb_sound. vm_compute. reflexivity. Qed.

(** ** Witnesses *)

Lemma table_reachable_wf_witness :
  (H4_MAX_NC_OPEN <= sys_limit env_1024 /\ table_reachable env_1024 table_0_1_2_close_1_2) /\
  (table_wf (sys_limit env_1024) table_0_1_2_close_1_2 /\
   curr_opened table_0_1_2_close_1_2 = Z.of_nat (nlive (view table_0_1_2_close_1_2))).
Proof.
  split; [split; [vm_compute; discriminate|exact table_0_1_2_close_1_2_reachable]|].
  apply (table_reachable_wf env_1024); [vm_compute; discriminate|].
  exact table_0_1_2_close_1_2_reachable.
Defined.

Lemma NC_reset_maxopenfiles_safe_witness :
  table_wf (sys_limit env_1024) table_0_1_2_close_1_2 /\
  exists r t', NC_reset_maxopenfiles env_1024 64 table_0_1_2_close_1_2 = Ok r t' /\
    table_wf (sys_limit env_1024) t' /\ view t' = view table_0_1_2_close_1_2.
Proof.
  split; [exact table_0_1_2_close_1_2_wf|].
  apply NC_reset_maxopenfiles_safe. exact table_0_1_2_close_1_2_wf.
Defined.

Lemma NC_reset_maxopenfiles_result_witness :
  let t' := run_state (NC_reset_maxopenfiles env_1024 1 table_0_1_2_close_1_2) table_init in
  (table_wf (sys_limit env_1024) table_0_1_2_close_1_2 /\
   NC_reset_maxopenfiles env_1024 1 table_0_1_2_close_1_2 = Ok 32 t') /\
  ((32 = -1 /\ t' = set_ncerr table_0_1_2_close_1_2 (Some NC_EINVAL)) \/
   (32 = max_NC_open t' /\ view t' = view table_0_1_2_close_1_2 /\
    ncdf t' = ncdf table_0_1_2_close_1_2 /\
    curr_opened table_0_1_2_close_1_2 <= ncdf table_0_1_2_close_1_2 <= 32 /\
    32 <= sys_limit env_1024 /\ cdfs t' <> None)).
Proof.
  intros t'. assert (Hrun : NC_reset_maxopenfiles env_1024 1 table_0_1_2_close_1_2 = Ok 32 t')
    by (vm_compute; reflexivity).
  split; [split; [exact table_0_1_2_close_1_2_wf|exact Hrun]|].
  apply (NC_reset_maxopenfiles_result env_1024 1 table_0_1_2_close_1_2 32 t');
    [exact table_0_1_2_close_1_2_wf|exact Hrun].
Defined.

Lemma NC_reset_maxopenfiles_grow_witness :
  (table_wf (sys_limit env_1024) table_0_1_2_close_1_2 /\ 0 < 64 /\
   ~ (64 < max_NC_open table_0_1_2_close_1_2 /\ 64 <= ncdf table_0_1_2_close_1_2) /\
   malloc_ok env_1024 (Z.min 64 (sys_limit env_1024)) = true) /\
  exists t', NC_reset_maxopenfiles env_1024 64 table_0_1_2_close_1_2 =
               Ok (Z.min 64 (sys_limit env_1024)) t' /\
    max_NC_open t' = Z.min 64 (sys_limit env_1024) /\ view t' = view table_0_1_2_close_1_2.
Proof.
  assert (Hno : ~ (64 < max_NC_open table_0_1_2_close_1_2 /\ 64 <= ncdf table_0_1_2_close_1_2))
    by (vm_compute; intros [H _]; discriminate H).
  split; [split; [exact table_0_1_2_close_1_2_wf|split; [lia|split; [exact Hno|reflexivity]]]|].
  apply NC_reset_maxopenfiles_grow; [exact table_0_1_2_close_1_2_wf|lia|exact Hno|reflexivity].
Defined.

Lemma NC_open_slot_spec_witness :
  table_wf (sys_limit env_1024) table_0_1_2_close_1_2 /\
  exists r t', NC_open_slot env_1024 table_0_1_2_close_1_2 = Ok r t' /\
    table_wf (sys_limit env_1024) t' /\ view t' = view table_0_1_2_close_1_2 /\
    ((r = -1 /\ ncerr t' = Some NC_ENFILE) \/ slot_ok t' r).
Proof.
  split; [exact table_0_1_2_close_1_2_wf|].
  apply NC_open_slot_spec. exact table_0_1_2_close_1_2_wf.
Defined.

Lemma slot_ok_1 : slot_ok table_0_1_2_close_1_2 1.
Proof.
  split; [vm_compute; discriminate|]. split; [vm_compute; split; discriminate|].
  split; [vm_compute; reflexivity|]. split.
  - intros j Hj. assert (j = 0%nat) as -> by lia. exists tt. vm_compute. reflexivity.
  - intros _. vm_compute. reflexivity.
Qed.

Lemma NC_install_spec_witness :
  (table_wf (sys_limit env_1024) table_0_1_2_close_1_2 /\ slot_ok table_0_1_2_close_1_2 1) /\
  exists t', NC_install 1 tt table_0_1_2_close_1_2 = Ok tt t' /\
    table_wf (sys_limit env_1024) t' /\
    view t' = (if 1 <? ncdf table_0_1_2_close_1_2
               then <[Z.to_nat 1 := Some tt]> (view table_0_1_2_close_1_2)
               else view table_0_1_2_close_1_2 ++ [Some tt]) /\
    curr_opened t' = curr_opened table_0_1_2_close_1_2 + 1.
Proof.
  split; [split; [exact table_0_1_2_close_1_2_wf|exact slot_ok_1]|].
  apply NC_install_spec; [exact table_0_1_2_close_1_2_wf|exact slot_ok_1].
Defined.

Lemma NC_retire_spec_witness :
  (table_wf (sys_limit env_1024) table_0_1_2_close_1_2 /\
   HNDLE table_0_1_2_close_1_2 0 = Some (Some tt)) /\
  exists t', NC_retire 0 table_0_1_2_close_1_2 = Ok tt t' /\
    table_wf (sys_limit env_1024) t' /\
    view t' = (if 0 =? ncdf table_0_1_2_close_1_2 - 1
               then take (Z.to_nat 0) (view table_0_1_2_close_1_2)
               else <[Z.to_nat 0 := None]> (view table_0_1_2_close_1_2)) /\
    curr_opened t' = curr_opened table_0_1_2_close_1_2 - 1 /\ (ncdf t' = 0 -> cdfs t' = None).
Proof.
  split; [split; [exact table_0_1_2_close_1_2_wf|vm_compute; reflexivity]|].
  apply (NC_retire_spec _ _ _ tt); [exact table_0_1_2_close_1_2_wf|vm_compute; reflexivity].
Defined.

Lemma NC_open_slot_exhausted_witness :
  (table_wf (sys_limit env_5) table_full_2 /\ ncdf table_full_2 = sys_limit env_5 /\
   0 < ncdf table_full_2 /\
   (forall j, (j < Z.to_nat (ncdf table_full_2))%nat ->
      exists h, view table_full_2 !! j = Some (Some h))) /\
  exists t', NC_open_slot env_5 table_full_2 = Ok (-1) t' /\ ncerr t' = Some NC_ENFILE /\
    view t' = view table_full_2 /\ table_wf (sys_limit env_5) t'.
Proof.
  assert (Hwf : table_wf (sys_limit env_5) table_full_2)
    by (apply table_wfb_sound; vm_compute; reflexivity).
  assert (Hl : forall j, (j < Z.to_nat (ncdf table_full_2))%nat ->
                 exists h, view table_full_2 !! j = Some (Some h)).
  { intros j Hj. exists tt. vm_compute in Hj.
    destruct j as [|[|j]]; [reflexivity|reflexivity|lia]. }
  split; [split; [exact Hwf|split; [vm_compute; reflexivity|split; [vm_compute; reflexivity|exact Hl]]]|].
  apply NC_open_slot_exhausted; [exact Hwf|vm_compute; reflexivity|vm_compute; reflexivity|exact Hl].
Defined.

Lemma NC_open_slot_progress_witness :
  exists r t', NC_open_slot env_1024 table_0_1_2_close_1_2 = Ok r t' /\ slot_ok t' r /\
    view t' = view table_0_1_2_close_1_2.
Proof.
  apply NC_open_slot_progress; [apply table_0_1_2_close_1_2_wf|vm_compute; reflexivity..].
Defined.
