(* ===== verification/Stream.v ===== *)
(** * Files and XDR streams

    [file.c] reaches the bytes of a file through an [XDR] stream bound to
    an open file: [h4_xdr_setpos], [h4_xdr_getbytes] and [h4_xdr_putbytes]
    of [xdrposix.c] (not under [src/]; modelled from the spec's codec
    gateway).  A file system maps path names to files and files to their
    bytes, so that a rename moves a name without touching an open stream,
    and a stream keeps reading the file it was opened on.

    - [getbytes] fails ([None]) when fewer than [n] bytes remain, as
      [bioread] returning a short count makes [xdrposix_getbytes] fail;
    - [putbytes] overwrites from the position on and extends the file,
      reading a hole before the position as zero bytes;
    - [setpos] fails on a negative offset. *)

From stdpp Require Import gmap strings.
From S2P Require Import Prelude.

Open Scope Z_scope.

Definition byte := Byte.byte.
Definition zero_byte : byte := Byte.x00.

Inductive xdr_op := XDR_ENCODE | XDR_DECODE | XDR_FREE.

#[export] Instance xdr_op_eq_dec : EqDecision xdr_op.
Proof. solve_decision. Defined.

(** An [XDR] stream: its direction, the file it is bound to, and the
    current byte offset. *)
Record xdr_stream := mk_xdr {
  x_op : xdr_op;
  x_file : Z;
  x_pos : Z;
}.

Definition set_x_op (x : xdr_stream) o := mk_xdr o (x_file x) (x_pos x).
Definition set_x_pos (x : xdr_stream) p := mk_xdr (x_op x) (x_file x) p.

(** The file system: names, file contents, and the next file number. *)
Record fsys := mk_fs {
  fs_dir : gmap string Z;
  fs_data : gmap Z (list byte);
  fs_next : Z;
}.

Definition set_fs_data (d : fsys) m := mk_fs (fs_dir d) m (fs_next d).
Definition set_fs_dir (d : fsys) m := mk_fs m (fs_data d) (fs_next d).

(** The bytes of the file behind a stream. *)
Definition contents (d : fsys) (f : Z) : list byte := default [] (fs_data d !! f).

(** [n] bytes of [c] from offset [p], when they exist. *)
Definition slice (c : list byte) (p n : Z) : option (list byte) :=
  if (0 <=? p) && (0 <=? n) && (p + n <=? Z.of_nat (length c))
  then Some (take (Z.to_nat n) (drop (Z.to_nat p) c))
  else None.

(** [c] with [bs] written at offset [p] (a hole before [p] reads as 0). *)
Definition write_at (c : list byte) (p : Z) (bs : list byte) : list byte :=
  take (Z.to_nat p) c ++ replicate (Z.to_nat p - length c) zero_byte ++ bs ++
  drop (Z.to_nat p + length bs) c.

(** [h4_xdr_getbytes]. *)
Definition getbytes (d : fsys) (x : xdr_stream) (n : Z) : option (list byte * xdr_stream) :=
  match slice (contents d (x_file x)) (x_pos x) n with
  | Some bs => Some (bs, set_x_pos x (x_pos x + n))
  | None => None
  end.

(** [h4_xdr_putbytes]: fails when the file is not open. *)
Definition putbytes (d : fsys) (x : xdr_stream) (bs : list byte) : option (fsys * xdr_stream) :=
  match fs_data d !! x_file x with
  | Some c =>
      if 0 <=? x_pos x then
        Some (set_fs_data d (<[x_file x := write_at c (x_pos x) bs]> (fs_data d)),
              set_x_pos x (x_pos x + Z.of_nat (length bs)))
      else None
  | None => None
  end.

(** [h4_xdr_setpos]. *)
Definition setpos (x : xdr_stream) (p : Z) : option xdr_stream :=
  if 0 <=? p then Some (set_x_pos x p) else None.

(** ** Names: [open], [remove], [rename], [access]

    [open] with [O_CREAT|O_EXCL] fails on an existing name, with
    [O_CREAT|O_TRUNC] empties an existing file or creates one, and without
    [O_CREAT] needs the name to exist.  The empty name (what [NCtempname]
    returns when it finds no free name) names no file: [open("")] fails
    with [ENOENT] whatever the flags.  A new file gets the number
    [fs_next].  [remove] and [rename] act on names only: a stream keeps
    its file. *)

Inductive open_flags := O_RDWR_CREAT_EXCL | O_RDWR_CREAT_TRUNC | O_RDWR_ONLY | O_RDONLY_ONLY.

Definition fs_create (d : fsys) (path : string) : Z * fsys :=
  (fs_next d, mk_fs (<[path := fs_next d]> (fs_dir d)) (<[fs_next d := []]> (fs_data d))
                    (fs_next d + 1)).

Definition fs_open (d : fsys) (path : string) (fl : open_flags) : option (Z * fsys) :=
  if decide (path = "") then None else
  match fs_dir d !! path, fl with
  | Some _, O_RDWR_CREAT_EXCL => None
  | None, O_RDWR_CREAT_EXCL => Some (fs_create d path)
  | Some f, O_RDWR_CREAT_TRUNC => Some (f, set_fs_data d (<[f := []]> (fs_data d)))
  | None, O_RDWR_CREAT_TRUNC => Some (fs_create d path)
  | Some f, _ => Some (f, d)
  | None, _ => None
  end.

(** [remove(path)]: [None] is a failure ([-1]). *)
Definition fs_remove (d : fsys) (path : string) : option fsys :=
  match fs_dir d !! path with
  | Some _ => Some (set_fs_dir d (delete path (fs_dir d)))
  | None => None
  end.

(** [rename(from, to)] when the system lets it succeed. *)
Definition fs_rename (d : fsys) (src dst : string) : option fsys :=
  match fs_dir d !! src with
  | Some f => Some (set_fs_dir d (<[dst := f]> (delete src (fs_dir d))))
  | None => None
  end.

(** [access(path, 0) == 0]. *)
Definition fs_access (d : fsys) (path : string) : bool :=
  match fs_dir d !! path with Some _ => true | None => false end.

(** The bytes a name refers to. *)
Definition file_at (d : fsys) (path : string) : option (list byte) :=
  fs_dir d !! path ≫= fun f => fs_data d !! f.

(** ** Lemmas *)

Lemma length_write_at c p bs :
  0 <= p -> length (write_at c p bs) = Nat.max (length c) (Z.to_nat p + length bs).
Proof.
  intros Hp. unfold write_at. rewrite !length_app, length_take, length_replicate, length_drop.
  lia.
Qed.

(** Reading back what was just written. *)
Lemma slice_write_at c p bs :
  0 <= p -> slice (write_at c p bs) p (Z.of_nat (length bs)) = Some bs.
Proof.
  intros Hp. unfold slice. rewrite length_write_at by lia.
  destruct (Z.leb_spec 0 p), (Z.leb_spec 0 (Z.of_nat (length bs))),
    (Z.leb_spec (p + Z.of_nat (length bs)) (Z.of_nat (Nat.max (length c) (Z.to_nat p + length bs))));
    simpl; try lia.
  f_equal. unfold write_at. rewrite Nat2Z.id.
  rewrite drop_app_ge; rewrite length_take; [|lia].
  rewrite drop_app_ge; rewrite length_replicate; [|lia].
  replace (Z.to_nat p - Nat.min (Z.to_nat p) (length c) - (Z.to_nat p - length c))%nat
    with 0%nat by lia.
  rewrite drop_0, take_app_length. reflexivity.
Qed.

(** Bytes before the written range are untouched. *)
Lemma take_write_at c p bs :
  0 <= p -> (Z.to_nat p <= length c)%nat -> take (Z.to_nat p) (write_at c p bs) = take (Z.to_nat p) c.
Proof.
  intros Hp Hle. unfold write_at. rewrite take_app_le by (rewrite length_take; lia).
  rewrite take_take. f_equal. lia.
Qed.

(** Writing at the end of a file appends. *)
Lemma write_at_end c bs : write_at c (Z.of_nat (length c)) bs = c ++ bs.
Proof.
  unfold write_at. rewrite Nat2Z.id, take_ge by lia.
  replace (length c - length c)%nat with 0%nat by lia. simpl.
  rewrite drop_ge by lia. rewrite app_nil_r. reflexivity.
Qed.

#[export] Hint Rewrite write_at_end : nc_rw.

(** Two consecutive slices make one. *)
Lemma slice_split c p n1 n2 :
  0 <= n1 -> 0 <= n2 ->
  slice c p (n1 + n2) =
  match slice c p n1, slice c (p + n1) n2 with
  | Some a, Some b => Some (a ++ b)
  | _, _ => None
  end.
Proof.
  intros H1 H2. unfold slice.
  destruct (Z.leb_spec 0 p), (Z.leb_spec 0 n1), (Z.leb_spec 0 n2), (Z.leb_spec 0 (n1 + n2)),
    (Z.leb_spec 0 (p + n1)); simpl; try lia; try reflexivity.
  destruct (Z.leb_spec (p + (n1 + n2)) (Z.of_nat (length c))),
    (Z.leb_spec (p + n1) (Z.of_nat (length c))),
    (Z.leb_spec (p + n1 + n2) (Z.of_nat (length c))); simpl; try lia; try reflexivity.
  f_equal. rewrite Z2Nat.inj_add by lia. rewrite <- take_take_drop, drop_drop.
  f_equal. f_equal. f_equal. lia.
Qed.

(** Two consecutive writes make one. *)
Lemma write_at_app c q b1 b2 :
  0 <= q ->
  write_at (write_at c q b1) (q + Z.of_nat (length b1)) b2 = write_at c q (b1 ++ b2).
Proof.
  intros Hq.
  set (P := take (Z.to_nat q) c ++ replicate (Z.to_nat q - length c) zero_byte ++ b1).
  assert (HP : length P = (Z.to_nat q + length b1)%nat).
  { subst P. rewrite !length_app, length_take, length_replicate. lia. }
  assert (Hc1 : write_at c q b1 = P ++ drop (Z.to_nat q + length b1) c).
  { unfold write_at, P. rewrite !app_assoc. reflexivity. }
  rewrite Hc1. unfold write_at at 1.
  replace (Z.to_nat (q + Z.of_nat (length b1))) with (length P) by lia.
  rewrite take_app_length, length_app, drop_app_add, drop_drop.
  replace (length P - (length P + length (drop (Z.to_nat q + length b1) c)))%nat with 0%nat
    by lia.
  unfold write_at, P. rewrite length_app. simpl. rewrite <- !app_assoc. simpl.
  rewrite Nat.add_assoc. reflexivity.
Qed.

(** A write leaves other files alone, and [putbytes] appends at the
    stream's position. *)
Lemma putbytes_spec d x bs c :
  fs_data d !! x_file x = Some c -> 0 <= x_pos x ->
  putbytes d x bs =
  Some (set_fs_data d (<[x_file x := write_at c (x_pos x) bs]> (fs_data d)),
        set_x_pos x (x_pos x + Z.of_nat (length bs))).
Proof.
  intros Hc Hp. unfold putbytes. rewrite Hc. destruct (Z.leb_spec 0 (x_pos x)); [reflexivity|lia].
Qed.

Lemma slice_length c p n bs : slice c p n = Some bs -> length bs = Z.to_nat n.
Proof.
  unfold slice. destruct (_ && _ && _) eqn:E; [|discriminate]. injection 1 as <-.
  repeat rewrite andb_true_iff in E. destruct E as [[E1 E2] E3].
  apply Z.leb_le in E1, E2, E3. rewrite length_take, length_drop. lia.
Qed.

Lemma write_at_nil0 bs : write_at [] 0 bs = bs.
Proof. unfold write_at. simpl. rewrite drop_nil, app_nil_r. reflexivity. Qed.

(** Reading back the middle part of a concatenation. *)
Lemma slice_app_mid a b c :
  slice (a ++ b ++ c) (Z.of_nat (length a)) (Z.of_nat (length b)) = Some b.
Proof.
  unfold slice. rewrite !length_app.
  destruct (Z.leb_spec 0 (Z.of_nat (length a))), (Z.leb_spec 0 (Z.of_nat (length b))),
    (Z.leb_spec (Z.of_nat (length a) + Z.of_nat (length b))
                (Z.of_nat (length a + (length b + length c)))); simpl; try lia.
  rewrite !Nat2Z.id, drop_app_length, take_app_length. reflexivity.
Qed.

(** A write inside a file does not change the bytes after it. *)
Lemma slice_write_at_beyond c q bs p n :
  0 <= q -> (Z.to_nat q + length bs <= length c)%nat -> Z.of_nat (Z.to_nat q + length bs) <= p ->
  slice (write_at c q bs) p n = slice c p n.
Proof.
  intros Hq Hl Hp. unfold slice.
  assert (Hlen : length (write_at c q bs) = length c) by (rewrite length_write_at by lia; lia).
  rewrite Hlen. destruct (_ && _ && _) eqn:E; [|reflexivity]. f_equal. f_equal.
  unfold write_at. replace (Z.to_nat q - length c)%nat with 0%nat by lia. simpl.
  replace (Z.to_nat p) with (length (take (Z.to_nat q) c ++ bs) + (Z.to_nat p - (Z.to_nat q + length bs)))%nat
    by (rewrite length_app, length_take; lia).
  rewrite app_assoc, <- drop_drop, drop_app_length, drop_drop. f_equal.
  rewrite length_app, length_take. lia.
Qed.

Lemma slice_app_mid_at a b c l p n :
  l = a ++ b ++ c -> p = Z.of_nat (length a) -> n = Z.of_nat (length b) -> slice l p n = Some b.
Proof. intros -> -> ->. apply slice_app_mid. Qed.
