(* ===== verification/Handle.v ===== *)
(** * The handle of an open file ([NC]) and its variables ([NC_var])

    The fields are those [file.c] reads or writes (the structs are declared
    in [local_nc.h], not under [src/]).  The dimension and attribute arrays
    of a handle only feed the header codec and are not modelled.

    - [NC_var]: the variable's name, its shape (dimension sizes, the first
      one [NC_UNLIMITED] for a record variable), its type, [*dsizes] (the
      byte size of one record slice), [len] (the byte length of the
      variable, or of one record of it, padded by [NC_var_shape]), and the
      [begin] offset [NC_begins] assigns.
    - [NC]: the path, the mode [flags], the [XDR] stream the handle owns,
      [begin_rec], [recsize], [redefid], [numrecs], [file_type], and the
      variable array [vars], which may be [NULL]. *)

From stdpp Require Import strings.
From S2P Require Import Prelude Flags Stream.

Open Scope Z_scope.

(** [NC_UNLIMITED]: the size recorded for the unlimited dimension. *)
Definition NC_UNLIMITED : Z := 0.

Record NC_var := mk_var {
  var_name : string;
  var_shape : list Z;
  var_type : Z;
  var_dsize : Z;
  var_len : Z;
  var_begin : Z;
}.

#[export] Instance NC_var_eq_dec : EqDecision NC_var.
Proof. solve_decision. Defined.

Definition set_var_begin (v : NC_var) b :=
  mk_var (var_name v) (var_shape v) (var_type v) (var_dsize v) (var_len v) b.

(** [IS_RECVAR(vp)]: the slowest-varying dimension is the unlimited one. *)
Definition IS_RECVAR (v : NC_var) : bool :=
  match var_shape v with
  | d :: _ => d =? NC_UNLIMITED
  | [] => false
  end.

Record NC := mk_NC {
  nc_path : string;
  nc_flags : Z;
  nc_xdrs : xdr_stream;
  nc_begin_rec : Z;
  nc_recsize : Z;
  nc_redefid : Z;
  nc_numrecs : Z;
  nc_file_type : file_kind;
  nc_vars : option (list NC_var);
}.

Definition set_flags (h : NC) f :=
  mk_NC (nc_path h) f (nc_xdrs h) (nc_begin_rec h) (nc_recsize h) (nc_redefid h)
        (nc_numrecs h) (nc_file_type h) (nc_vars h).
Definition set_xdrs (h : NC) x :=
  mk_NC (nc_path h) (nc_flags h) x (nc_begin_rec h) (nc_recsize h) (nc_redefid h)
        (nc_numrecs h) (nc_file_type h) (nc_vars h).
Definition set_path (h : NC) p :=
  mk_NC p (nc_flags h) (nc_xdrs h) (nc_begin_rec h) (nc_recsize h) (nc_redefid h)
        (nc_numrecs h) (nc_file_type h) (nc_vars h).
Definition set_redefid (h : NC) r :=
  mk_NC (nc_path h) (nc_flags h) (nc_xdrs h) (nc_begin_rec h) (nc_recsize h) r
        (nc_numrecs h) (nc_file_type h) (nc_vars h).
Definition set_numrecs (h : NC) n :=
  mk_NC (nc_path h) (nc_flags h) (nc_xdrs h) (nc_begin_rec h) (nc_recsize h) (nc_redefid h)
        n (nc_file_type h) (nc_vars h).
Definition set_layout (h : NC) vars begin_rec recsize numrecs :=
  mk_NC (nc_path h) (nc_flags h) (nc_xdrs h) begin_rec recsize (nc_redefid h)
        numrecs (nc_file_type h) vars.

(** Reduce the field updates of the handle record. *)
Ltac hsimpl :=
  unfold set_flags, set_xdrs, set_path, set_redefid, set_numrecs, set_layout,
    set_var_begin in *;
  cbn [nc_path nc_flags nc_xdrs nc_begin_rec nc_recsize nc_redefid nc_numrecs
       nc_file_type nc_vars var_name var_shape var_type var_dsize var_len var_begin] in *.
