(* ===== verification/Layout.v ===== *)
(** * The layout planner [NC_begins]

    [NC_begins] assigns every variable its [begin] offset in two passes
    over [handle->vars]: first the fixed-size variables, one after the
    other from the end of the header ([NC_xlen_cdf]); then the record
    variables from there on, summing their lengths into [recsize].  When
    the record size equals the length of the last record variable (one
    record variable), the record size becomes its unpadded record slice
    [*dsizes].  [numrecs] is reset to zero.  Offsets are [unsigned long]
    and wrap modulo [2^64].

    [NC_begins_ref] computes the same layout from prefix sums, one variable
    at a time; [begins_as_ref] proves the two-pass loop equal to it, and
    the layout contract (fixed variables contiguous after the header in
    declaration order, the record region after them) follows. *)

From stdpp Require Import strings.
From S2P Require Import Prelude Flags Stream Handle.

Open Scope Z_scope.

(** The first loop of [NC_begins]: each fixed variable starts at [index],
    which then moves past it; record variables are skipped. *)
Fixpoint begins_fixed (index : Z) (vs : list NC_var) : list NC_var * Z :=
  match vs with
  | [] => ([], index)
  | v :: vs' =>
      if IS_RECVAR v then
        let '(vs'', i) := begins_fixed index vs' in (v :: vs'', i)
      else
        let '(vs'', i) := begins_fixed (ulong (index + var_len v)) vs' in
        (set_var_begin v index :: vs'', i)
  end.

(** The second loop: each record variable starts at [index]; [recsize]
    accumulates the lengths, [last] remembers the last one. *)
Fixpoint begins_rec (index recsize : Z) (last : option NC_var) (vs : list NC_var)
    : list NC_var * Z * option NC_var :=
  match vs with
  | [] => ([], recsize, last)
  | v :: vs' =>
      if IS_RECVAR v then
        let v' := set_var_begin v index in
        let '(vs'', rs, l) :=
          begins_rec (ulong (index + var_len v)) (ulong (recsize + var_len v)) (Some v') vs' in
        (v' :: vs'', rs, l)
      else
        let '(vs'', rs, l) := begins_rec index recsize last vs' in (v :: vs'', rs, l)
  end.

(** [if (last != NULL && handle->recsize == last->len) handle->recsize = *last->dsizes;] *)
Definition pack_recsize (recsize : Z) (last : option NC_var) : Z :=
  match last with
  | Some l => if recsize =? var_len l then var_dsize l else recsize
  | None => recsize
  end.

(** [NC_begins(handle)]; [xlen_cdf] is [NC_xlen_cdf], the header length. *)
Definition NC_begins (xlen_cdf : NC -> Z) (h : NC) : NC :=
  match nc_vars h with
  | None => h
  | Some vs =>
      let index := ulong (xlen_cdf h) in
      let '(vs1, begin_rec) := begins_fixed index vs in
      let '(vs2, recsize, last) := begins_rec begin_rec 0 None vs1 in
      set_layout h (Some vs2) begin_rec (pack_recsize recsize last) 0
  end.

(** ** The reference layout *)

Definition fixed_vars (vs : list NC_var) : list NC_var :=
  List.filter (fun v => negb (IS_RECVAR v)) vs.
Definition rec_vars (vs : list NC_var) : list NC_var := List.filter IS_RECVAR vs.
Definition sum_len (vs : list NC_var) : Z := foldr (fun v acc => var_len v + acc) 0 vs.

(** The offset of the [i]-th variable [v] of [vs] for a header of [x]
    bytes: past the header and the fixed variables before it, or past all
    fixed variables and the record variables before it. *)
Definition ref_begin (x : Z) (vs : list NC_var) (i : nat) (v : NC_var) : Z :=
  if IS_RECVAR v
  then ulong (x + sum_len (fixed_vars vs) + sum_len (rec_vars (take i vs)))
  else ulong (x + sum_len (fixed_vars (take i vs))).

Definition NC_begins_ref (xlen_cdf : NC -> Z) (h : NC) : NC :=
  match nc_vars h with
  | None => h
  | Some vs =>
      let x := ulong (xlen_cdf h) in
      let rvs := rec_vars vs in
      set_layout h (Some (imap (fun i v => set_var_begin v (ref_begin x vs i v)) vs))
        (ulong (x + sum_len (fixed_vars vs)))
        (match last rvs with
         | Some l => if ulong (sum_len rvs) =? var_len l then var_dsize l
                     else ulong (sum_len rvs)
         | None => 0
         end)
        0
  end.

(** ** The loops compute the reference layout *)

Definition strip (v : NC_var) : NC_var := set_var_begin v 0.

Lemma IS_RECVAR_set_begin v b : IS_RECVAR (set_var_begin v b) = IS_RECVAR v.
Proof. reflexivity. Qed.
Lemma var_len_set_begin v b : var_len (set_var_begin v b) = var_len v.
Proof. reflexivity. Qed.
Lemma set_begin_set_begin v a b : set_var_begin (set_var_begin v a) b = set_var_begin v b.
Proof. reflexivity. Qed.
Lemma strip_set_begin v b : strip (set_var_begin v b) = strip v.
Proof. reflexivity. Qed.

#[export] Hint Rewrite IS_RECVAR_set_begin var_len_set_begin set_begin_set_begin
  strip_set_begin : nc_rw.

Lemma fixed_vars_cons v vs :
  fixed_vars (v :: vs) = if IS_RECVAR v then fixed_vars vs else v :: fixed_vars vs.
Proof. unfold fixed_vars. simpl. destruct (IS_RECVAR v); reflexivity. Qed.

Lemma sum_len_cons v vs : sum_len (v :: vs) = var_len v + sum_len vs.
Proof. reflexivity. Qed.

Lemma rec_vars_cons v vs :
  rec_vars (v :: vs) = if IS_RECVAR v then v :: rec_vars vs else rec_vars vs.
Proof. reflexivity. Qed.

(** The sums and the last record variable only see what [strip] keeps. *)
Lemma strip_sums l1 l2 :
  map strip l1 = map strip l2 ->
  sum_len (fixed_vars l1) = sum_len (fixed_vars l2) /\
  sum_len (rec_vars l1) = sum_len (rec_vars l2) /\
  (fun v => (var_len v, var_dsize v)) <$> last (rec_vars l1) =
  (fun v => (var_len v, var_dsize v)) <$> last (rec_vars l2).
Proof.
  revert l2. induction l1 as [|v l1 IH]; intros [|w l2] H; simpl in H; try discriminate; auto.
  injection H as _ Hshape _ Hds Hlen Hl. destruct (IH l2 Hl) as (Hf & Hr & Hlast).
  assert (Hrec : IS_RECVAR v = IS_RECVAR w) by (unfold IS_RECVAR; rewrite Hshape; reflexivity).
  rewrite !fixed_vars_cons, !rec_vars_cons, <- Hrec.
  destruct (IS_RECVAR v); simpl; rewrite ?Hf, ?Hr, ?Hlen; split; auto; split; auto.
  rewrite !last_cons. destruct (last (rec_vars l1)), (last (rec_vars l2)); simpl in *;
    congruence.
Qed.

Lemma begins_fixed_spec idx vs :
  0 <= idx < ULONG_MOD ->
  begins_fixed idx vs =
    (imap (fun i v => if IS_RECVAR v then v
                      else set_var_begin v (ulong (idx + sum_len (fixed_vars (take i vs))))) vs,
     ulong (idx + sum_len (fixed_vars vs))).
Proof.
  revert idx. induction vs as [|v vs IH]; intros idx Hidx.
  - simpl. rewrite Z.add_0_r, ulong_small by exact Hidx. reflexivity.
  - cbn [begins_fixed]. rewrite imap_cons, fixed_vars_cons. destruct (IS_RECVAR v) eqn:Hv.
    + rewrite (IH idx Hidx). f_equal. f_equal. apply imap_ext. intros i w _.
      unfold compose. rewrite firstn_cons, fixed_vars_cons, Hv. reflexivity.
    + rewrite (IH (ulong (idx + var_len v)) (ulong_range _)). cbn beta iota.
      f_equal; [f_equal|].
      * rewrite take_0. simpl. rewrite Z.add_0_r, (ulong_small idx Hidx). reflexivity.
      * apply imap_ext. intros i w _. unfold compose.
        rewrite firstn_cons, fixed_vars_cons, Hv. simpl.
        rewrite ulong_add_l, Z.add_assoc. reflexivity.
      * simpl. rewrite ulong_add_l, Z.add_assoc. reflexivity.
Qed.

Lemma begins_rec_spec idx rs lst vs :
  0 <= idx < ULONG_MOD -> 0 <= rs < ULONG_MOD ->
  let '(vs', rs', lst') := begins_rec idx rs lst vs in
  vs' = imap (fun i v => if IS_RECVAR v
                         then set_var_begin v (ulong (idx + sum_len (rec_vars (take i vs))))
                         else v) vs /\
  rs' = ulong (rs + sum_len (rec_vars vs)) /\
  (fun v => (var_len v, var_dsize v)) <$> lst' =
  (fun v => (var_len v, var_dsize v)) <$>
    match last (rec_vars vs) with Some l => Some l | None => lst end.
Proof.
  revert idx rs lst. induction vs as [|v vs IH]; intros idx rs lst Hidx Hrs.
  - simpl. rewrite Z.add_0_r, ulong_small by exact Hrs. auto.
  - cbn [begins_rec]. rewrite imap_cons, rec_vars_cons. destruct (IS_RECVAR v) eqn:Hv.
    + specialize (IH (ulong (idx + var_len v)) (ulong (rs + var_len v))
                     (Some (set_var_begin v idx)) (ulong_range _) (ulong_range _)).
      destruct (begins_rec _ _ _ vs) as [[vs'' rs''] l''].
      destruct IH as (-> & -> & Hl). cbn beta iota.
      split; [f_equal|split].
      * rewrite take_0. simpl. rewrite Z.add_0_r, (ulong_small idx Hidx). reflexivity.
      * apply imap_ext. intros i w _. unfold compose.
        rewrite firstn_cons, rec_vars_cons, Hv, sum_len_cons, ulong_add_l, Z.add_assoc.
        reflexivity.
      * rewrite sum_len_cons, ulong_add_l, Z.add_assoc. reflexivity.
      * rewrite Hl, last_cons. destruct (last (rec_vars vs)); reflexivity.
    + specialize (IH idx rs lst Hidx Hrs).
      destruct (begins_rec _ _ _ vs) as [[vs'' rs''] l''].
      destruct IH as (-> & -> & Hl). simpl. split; [|auto].
      f_equal. apply imap_ext. intros i w _. unfold compose.
      rewrite firstn_cons, rec_vars_cons, Hv. reflexivity.
Qed.

Lemma map_strip_begins (f : nat -> NC_var -> Z) (p : NC_var -> bool) vs :
  map strip (imap (fun i v => if p v then v else set_var_begin v (f i v)) vs) = map strip vs.
Proof.
  apply list_eq. intros i. rewrite !list_lookup_fmap, list_lookup_imap.
  destruct (vs !! i); simpl; [|reflexivity]. destruct (p n); reflexivity.
Qed.

Lemma pack_recsize_proj rs l1 l2 :
  (fun v => (var_len v, var_dsize v)) <$> l1 = (fun v => (var_len v, var_dsize v)) <$> l2 ->
  pack_recsize rs l1 = pack_recsize rs l2.
Proof.
  intros H. destruct l1 as [v1|], l2 as [v2|]; simpl in *; try discriminate; [|reflexivity].
  injection H as H1 H2. rewrite H1, H2. reflexivity.
Qed.

Lemma begins_as_ref xlen_cdf h : NC_begins xlen_cdf h = NC_begins_ref xlen_cdf h.
Proof.
  unfold NC_begins, NC_begins_ref. destruct (nc_vars h) as [vs|]; [|reflexivity].
  set (x := ulong (xlen_cdf h)).
  rewrite (begins_fixed_spec x vs (ulong_range _)).
  set (vs1 := imap _ vs).
  assert (Hs : forall i, map strip (take i vs1) = map strip (take i vs)).
  { intros i. rewrite <- !firstn_map. f_equal. apply map_strip_begins. }
  pose proof (begins_rec_spec (ulong (x + sum_len (fixed_vars vs))) 0 None vs1
                (ulong_range _) ltac:(unfold ULONG_MOD; lia)) as Hr.
  destruct (begins_rec _ _ _ vs1) as [[vs2 rs] lst]. destruct Hr as (-> & -> & Hl).
  destruct (strip_sums vs1 vs (map_strip_begins _ _ vs)) as (_ & Hrec & Hlast).
  f_equal.
  - f_equal. apply list_eq. intros i. subst vs1. rewrite !list_lookup_imap.
    destruct (vs !! i) as [v|]; simpl; [|reflexivity]. f_equal. unfold ref_begin.
    destruct (IS_RECVAR v) eqn:Hv; rewrite ?IS_RECVAR_set_begin, Hv; [|reflexivity].
    destruct (strip_sums _ _ (Hs i)) as (_ & -> & _).
    rewrite ulong_add_l. reflexivity.
  - rewrite (pack_recsize_proj _ lst (last (rec_vars vs))).
    + rewrite Hrec. destruct (last (rec_vars vs)) eqn:El; simpl; [reflexivity|].
      apply last_None in El. rewrite El. reflexivity.
    + rewrite Hl, <- Hlast. destruct (last (rec_vars vs1)); reflexivity.
Qed.

(** C9: The two-pass loop of [NC_begins] computes the reference layout: every
    fixed variable starts after the header and the fixed variables declared
    before it, every record variable after all fixed variables and the
    record variables declared before it; [begin_rec] is the end of the
    fixed region; the record size is the sum of the record lengths, or the
    last record variable's record slice when that sum is its length;
    [numrecs] is 0. *)
Theorem NC_begins_eq_ref xlen_cdf h : NC_begins xlen_cdf h = NC_begins_ref xlen_cdf h.
Proof. apply begins_as_ref; assumption. Qed.

(** ** Consequences: the on-disk layout contract *)

(** [NC_begins] only lays out: it keeps the path, the flags, the stream,
    the partner and the file kind, and keeps each variable but its
    offset. *)
Lemma NC_begins_keeps xlen_cdf h :
  nc_path (NC_begins xlen_cdf h) = nc_path h /\ nc_flags (NC_begins xlen_cdf h) = nc_flags h /\
  nc_xdrs (NC_begins xlen_cdf h) = nc_xdrs h /\ nc_redefid (NC_begins xlen_cdf h) = nc_redefid h /\
  nc_file_type (NC_begins xlen_cdf h) = nc_file_type h.
Proof.
  unfold NC_begins. destruct (nc_vars h) as [vs|]; [|auto].
  destruct (begins_fixed _ vs) as [vs1 br]. destruct (begins_rec br 0 None vs1) as [[vs2 rs] l].
  repeat split.
Qed.

Lemma NC_begins_vars xlen_cdf h vs :
  nc_vars h = Some vs ->
  nc_vars (NC_begins xlen_cdf h) =
  Some (imap (fun i v => set_var_begin v (ref_begin (ulong (xlen_cdf h)) vs i v)) vs).
Proof. intros Hv. rewrite begins_as_ref. unfold NC_begins_ref. rewrite Hv. reflexivity. Qed.

Section Contract.
Variable xlen_cdf : NC -> Z.

Lemma sum_len_app l1 l2 : sum_len (l1 ++ l2) = sum_len l1 + sum_len l2.
Proof. induction l1 as [|v l1 IH]; simpl; [reflexivity|]. rewrite IH. lia. Qed.

Lemma fixed_vars_app l1 l2 : fixed_vars (l1 ++ l2) = fixed_vars l1 ++ fixed_vars l2.
Proof.
  induction l1 as [|v l1 IH]; [reflexivity|].
  cbn [app]. rewrite !fixed_vars_cons, IH. destruct (IS_RECVAR v); reflexivity.
Qed.
Lemma rec_vars_app l1 l2 : rec_vars (l1 ++ l2) = rec_vars l1 ++ rec_vars l2.
Proof.
  induction l1 as [|v l1 IH]; [reflexivity|].
  cbn [app]. rewrite !rec_vars_cons, IH. destruct (IS_RECVAR v); reflexivity.
Qed.

Lemma sum_len_nonneg l : Forall (fun v => 0 <= var_len v) l -> 0 <= sum_len l.
Proof. induction 1; simpl; lia. Qed.

Lemma Forall_fixed_vars P l : Forall P l -> Forall P (fixed_vars l).
Proof. induction 1; [constructor|]. rewrite fixed_vars_cons. destruct (IS_RECVAR x); auto. Qed.
Lemma Forall_rec_vars P l : Forall P l -> Forall P (rec_vars l).
Proof. induction 1; [constructor|]. rewrite rec_vars_cons. destruct (IS_RECVAR x); auto. Qed.

(** The prefix sums grow by the length of the variable at [i]. *)
Lemma prefix_sums_step vs i v (sel : list NC_var -> list NC_var) :
  (forall l1 l2, sel (l1 ++ l2) = sel l1 ++ sel l2) ->
  vs !! i = Some v ->
  sum_len (sel (take (S i) vs)) = sum_len (sel (take i vs)) + sum_len (sel [v]).
Proof.
  intros Happ Hi. rewrite (take_S_r _ _ v Hi), Happ, sum_len_app. reflexivity.
Qed.

Lemma prefix_sums_mono vs i j (sel : list NC_var -> list NC_var) :
  (forall l1 l2, sel (l1 ++ l2) = sel l1 ++ sel l2) ->
  (forall l, Forall (fun v => 0 <= var_len v) l -> Forall (fun v => 0 <= var_len v) (sel l)) ->
  Forall (fun v => 0 <= var_len v) vs -> (i <= j)%nat ->
  sum_len (sel (take i vs)) <= sum_len (sel (take j vs)).
Proof.
  intros Happ Hsel Hnn Hij.
  replace j with (i + (j - i))%nat by lia. rewrite <- take_take_drop, Happ, sum_len_app.
  pose proof (sum_len_nonneg _ (Hsel _ (Forall_take _ (j - i) _ (Forall_drop _ i _ Hnn)))). lia.
Qed.

(** Exactly one record variable: the record size is its unpadded slice. *)
Theorem NC_begins_lone_record h vs r :
  nc_vars h = Some vs -> rec_vars vs = [r] -> 0 <= var_len r < ULONG_MOD ->
  nc_recsize (NC_begins xlen_cdf h) = var_dsize r.
Proof.
  intros Hv Hr Hlen. rewrite begins_as_ref. unfold NC_begins_ref. rewrite Hv, Hr.
  simpl. rewrite Z.add_0_r, ulong_small by exact Hlen. rewrite Z.eqb_refl. reflexivity.
Qed.

(** C38: The code tests [recsize == last->len], not the number of record
    variables: a zero-length record variable before another one does not
    prevent the packing. *)
Theorem NC_begins_packs_two_records h vs r0 r1 :
  nc_vars h = Some vs -> rec_vars vs = [r0; r1] -> var_len r0 = 0 ->
  0 <= var_len r1 < ULONG_MOD ->
  nc_recsize (NC_begins xlen_cdf h) = var_dsize r1.
Proof.
  intros Hv Hr H0 Hlen. rewrite begins_as_ref. unfold NC_begins_ref. rewrite Hv, Hr.
  simpl. rewrite H0, Z.add_0_r, Z.add_0_l, ulong_small by exact Hlen.
  rewrite Z.eqb_refl. reflexivity.
Qed.
Lemma sum_len_split vs : sum_len vs = sum_len (fixed_vars vs) + sum_len (rec_vars vs).
Proof.
  induction vs as [|v vs IH]; [reflexivity|].
  rewrite fixed_vars_cons, rec_vars_cons. destruct (IS_RECVAR v); simpl; rewrite IH; lia.
Qed.

(** The prefix of the selected class before [i], plus [v] itself, fits in
    the whole class. *)
Lemma prefix_fits vs i v (sel : list NC_var -> list NC_var) :
  (forall l1 l2, sel (l1 ++ l2) = sel l1 ++ sel l2) ->
  (forall l, Forall (fun v => 0 <= var_len v) l -> Forall (fun v => 0 <= var_len v) (sel l)) ->
  Forall (fun v => 0 <= var_len v) vs -> vs !! i = Some v ->
  0 <= sum_len (sel (take i vs)) /\
  sum_len (sel (take i vs)) + sum_len (sel [v]) <= sum_len (sel vs).
Proof.
  intros Happ Hsel Hnn Hi. rewrite <- (prefix_sums_step vs i v sel Happ Hi).
  split; [apply sum_len_nonneg, Hsel, Forall_take, Hnn|].
  rewrite <- (take_ge vs (length vs)) at 2 by lia.
  apply prefix_sums_mono; auto. apply lookup_lt_Some in Hi. lia.
Qed.

(** C27: Every variable keeps its declaration and gets an offset in its
    region: a fixed variable right after the header and the fixed
    variables declared before it, ending before [begin_rec]; a record
    variable at [begin_rec] plus the record variables declared before it,
    ending within the record size.  This assumes the file fits in an
    [unsigned long] and every length is non-negative. *)
Theorem NC_begins_regions h vs i v :
  nc_vars h = Some vs -> Forall (fun v => 0 <= var_len v) vs ->
  ulong (xlen_cdf h) + sum_len vs < ULONG_MOD -> vs !! i = Some v ->
  exists v', nc_vars (NC_begins xlen_cdf h) ≫= (fun l => l !! i) = Some v' /\
    strip v' = strip v /\
    if IS_RECVAR v then
      var_begin v' = nc_begin_rec (NC_begins xlen_cdf h) + sum_len (rec_vars (take i vs)) /\
      var_begin v' + var_len v <= nc_begin_rec (NC_begins xlen_cdf h) + sum_len (rec_vars vs)
    else
      var_begin v' = ulong (xlen_cdf h) + sum_len (fixed_vars (take i vs)) /\
      var_begin v' + var_len v <= nc_begin_rec (NC_begins xlen_cdf h).
Proof.
  intros Hv Hnn Hfit Hi. rewrite begins_as_ref. unfold NC_begins_ref. rewrite Hv.
  simpl. eexists. rewrite list_lookup_imap, Hi. split; [reflexivity|].
  split; [reflexivity|]. unfold ref_begin. simpl.
  pose proof (ulong_range (xlen_cdf h)) as Hx. rewrite sum_len_split in Hfit.
  destruct (prefix_fits vs i v fixed_vars fixed_vars_app (Forall_fixed_vars _) Hnn Hi) as [Hf0 Hf].
  destruct (prefix_fits vs i v rec_vars rec_vars_app (Forall_rec_vars _) Hnn Hi) as [Hr0 Hr].
  pose proof (sum_len_nonneg _ (Forall_fixed_vars _ _ Hnn)).
  pose proof (sum_len_nonneg _ (Forall_rec_vars _ _ Hnn)).
  assert (Hlv : 0 <= var_len v) by (eapply Forall_lookup_1 in Hnn; eauto).
  rewrite fixed_vars_cons, rec_vars_cons in *.
  set (x := ulong (xlen_cdf h)) in *. clearbody x.
  destruct (IS_RECVAR v); simpl in *; rewrite !ulong_small; lia.
Qed.
End Contract.

(** ** Example schemas *)

(** A fixed [4 x 5] float array, a record variable of one double per
    record, and a fixed 3-byte array padded to 4; a header of 128 bytes. *)
Definition example_vars : list NC_var :=
  [mk_var "temp" [4; 5] 5 80 80 0;
   mk_var "time" [NC_UNLIMITED] 6 8 8 0;
   mk_var "flag" [3] 1 3 4 0].

Definition example_nc (vs : list NC_var) : NC :=
  mk_NC "data.nc" NC_RDWR (mk_xdr XDR_ENCODE 1 0) 0 0 (-1) 0 netCDF_FILE (Some vs).

Definition example_xlen (h : NC) : Z := 128.

(** Two record variables, the first of length 0, the second a 3-byte
    record slice padded to 4. *)
Definition example_vars_2rec : list NC_var :=
  [mk_var "empty" [NC_UNLIMITED; 0] 5 0 0 0;
   mk_var "code" [NC_UNLIMITED; 3] 1 3 4 0].

(** ** Witnesses *)

Lemma NC_begins_regions_witness :
  (nc_vars (example_nc example_vars) = Some example_vars /\
   Forall (fun v => 0 <= var_len v) example_vars /\
   ulong (example_xlen (example_nc example_vars)) + sum_len example_vars < ULONG_MOD /\
   example_vars !! 1%nat = Some (mk_var "time" [NC_UNLIMITED] 6 8 8 0)) /\
  exists v', nc_vars (NC_begins example_xlen (example_nc example_vars)) ≫= (fun l => l !! 1%nat) = Some v' /\
    strip v' = strip (mk_var "time" [NC_UNLIMITED] 6 8 8 0) /\
    if IS_RECVAR (mk_var "time" [NC_UNLIMITED] 6 8 8 0) then
      var_begin v' = nc_begin_rec (NC_begins example_xlen (example_nc example_vars)) +
                     sum_len (rec_vars (take 1 example_vars)) /\
      var_begin v' + var_len (mk_var "time" [NC_UNLIMITED] 6 8 8 0) <=
        nc_begin_rec (NC_begins example_xlen (example_nc example_vars)) + sum_len (rec_vars example_vars)
    else
      var_begin v' = ulong (example_xlen (example_nc example_vars)) +
                     sum_len (fixed_vars (take 1 example_vars)) /\
      var_begin v' + var_len (mk_var "time" [NC_UNLIMITED] 6 8 8 0) <=
        nc_begin_rec (NC_begins example_xlen (example_nc example_vars)).
Proof.
  assert (Hnn : Forall (fun v => 0 <= var_len v) example_vars) by (repeat constructor; simpl; lia).
  assert (Hfit : ulong (example_xlen (example_nc example_vars)) + sum_len example_vars < ULONG_MOD)
    by (vm_compute; reflexivity).
  split; [split; [reflexivity|split; [exact Hnn|split; [exact Hfit|reflexivity]]]|].
  apply NC_begins_regions; [reflexivity|exact Hnn|exact Hfit|reflexivity].
Defined.

Lemma NC_begins_lone_record_witness :
  (nc_vars (example_nc example_vars) = Some example_vars /\
   rec_vars example_vars = [mk_var "time" [NC_UNLIMITED] 6 8 8 0] /\
   0 <= var_len (mk_var "time" [NC_UNLIMITED] 6 8 8 0) < ULONG_MOD) /\
  nc_recsize (NC_begins example_xlen (example_nc example_vars)) =
    var_dsize (mk_var "time" [NC_UNLIMITED] 6 8 8 0).
Proof.
  assert (Hl : 0 <= var_len (mk_var "time" [NC_UNLIMITED] 6 8 8 0) < ULONG_MOD)
    by (vm_compute; split; [discriminate|reflexivity]).
  split; [split; [reflexivity|split; [reflexivity|exact Hl]]|].
  apply (NC_begins_lone_record _ _ example_vars); [reflexivity|reflexivity|exact Hl].
Defined.

Lemma NC_begins_packs_two_records_witness :
  (nc_vars (example_nc example_vars_2rec) = Some example_vars_2rec /\
   rec_vars example_vars_2rec = example_vars_2rec /\
   var_len (mk_var "empty" [NC_UNLIMITED; 0] 5 0 0 0) = 0 /\
   0 <= var_len (mk_var "code" [NC_UNLIMITED; 3] 1 3 4 0) < ULONG_MOD) /\
  nc_recsize (NC_begins example_xlen (example_nc example_vars_2rec)) = 3.
Proof.
  assert (Hl : 0 <= var_len (mk_var "code" [NC_UNLIMITED; 3] 1 3 4 0) < ULONG_MOD)
    by (vm_compute; split; [discriminate|reflexivity]).
  split; [split; [reflexivity|split; [reflexivity|split; [reflexivity|exact Hl]]]|].
  apply (NC_begins_packs_two_records _ _ example_vars_2rec
           (mk_var "empty" [NC_UNLIMITED; 0] 5 0 0 0) (mk_var "code" [NC_UNLIMITED; 3] 1 3 4 0));
    [reflexivity|reflexivity|reflexivity|exact Hl].
Defined.
