(* ===== verification/Copy.v ===== *)
(** * The data copy engine: [NC_dcpy], [NC_vcpy], [NC_reccpy]

    [NC_dcpy] moves [nbytes] bytes from a source stream to a target stream
    through a buffer of [NC_DCP_BUFSIZE] (8192) bytes: whole buffers while
    more than a buffer remains ([nbytes > sizeof(buf)], compared as
    [unsigned long]), then the rest; any failed read or write advises
    [NC_EXDR] and returns [FALSE].  [NC_vcpy] seeks the source to a
    variable's [begin] and copies [len] bytes; [NC_reccpy] seeks to
    [begin + recsize * recnum].

    The state [io] is what the copy touches: the file system, the target
    stream (the new handle's), the source stream (the old handle's) and
    [ncerr].  The loop is run on a fuel of [NC_dcpy_fuel nbytes] rounds;
    [NC_dcpy_correct] shows it is enough for every non-negative count and
    that the chunked copy is the one-shot copy [copy_ref]. *)

From stdpp Require Import gmap strings.
From S2P Require Import Prelude Flags Stream Handle.

Open Scope Z_scope.

Record io := mk_io {
  io_fs : fsys;
  io_tgt : xdr_stream;
  io_src : xdr_stream;
  io_err : option nc_error;
}.

Definition NC_DCP_BUFSIZE : Z := 8192.

Definition io_advise (e : nc_error) : M io unit :=
  modify (fun s => mk_io (io_fs s) (io_tgt s) (io_src s) (Some e)).

(** [h4_xdr_getbytes(source, buf, n)]. *)
Definition xget (n : Z) : M io (option (list byte)) :=
  fun s => match getbytes (io_fs s) (io_src s) n with
           | Some (bs, x) => Ok (Some bs) (mk_io (io_fs s) (io_tgt s) x (io_err s))
           | None => Ok None s
           end.

(** [h4_xdr_putbytes(target, buf, n)]. *)
Definition xput (bs : list byte) : M io bool :=
  fun s => match putbytes (io_fs s) (io_tgt s) bs with
           | Some (d, x) => Ok true (mk_io d x (io_src s) (io_err s))
           | None => Ok false s
           end.

(** [h4_xdr_setpos] on the source stream. *)
Definition xsetpos_src (p : Z) : M io bool :=
  fun s => match setpos (io_src s) p with
           | Some x => Ok true (mk_io (io_fs s) (io_tgt s) x (io_err s))
           | None => Ok false s
           end.

(** [err: NCadvise(NC_EXDR, "NC_dcpy"); return FALSE;] *)
Definition dcpy_err : M io bool := let! _ := io_advise NC_EXDR in ret false.

(** One read and one write of [n] bytes. *)
Definition dcpy_chunk (n : Z) (k : M io bool) : M io bool :=
  let! ob := xget n in
  match ob with
  | None => dcpy_err
  | Some bs => let! ok := xput bs in if ok then k else dcpy_err
  end.

Fixpoint dcpy_loop (fuel : nat) (nbytes : Z) : M io bool :=
  match fuel with
  | O => undef
  | S f =>
      if ulong nbytes >? NC_DCP_BUFSIZE
      then dcpy_chunk NC_DCP_BUFSIZE (dcpy_loop f (nbytes - NC_DCP_BUFSIZE))
      else dcpy_chunk nbytes (ret true)
  end.

(** Rounds of the loop for a non-negative count. *)
Definition NC_dcpy_fuel (nbytes : Z) : nat := S (Z.to_nat (nbytes / NC_DCP_BUFSIZE)).

Definition NC_dcpy (nbytes : Z) : M io bool := dcpy_loop (NC_dcpy_fuel nbytes) nbytes.

(** [NC_vcpy(target, old, varid)] over the old handle's variables. *)
Definition NC_vcpy (vars : list NC_var) (varid : nat) : M io bool :=
  match vars !! varid with
  | None => undef
  | Some v =>
      let! ok := xsetpos_src (var_begin v) in
      if ok then NC_dcpy (var_len v)
      else let! _ := io_advise NC_EXDR in ret false
  end.

(** [NC_reccpy(target, old, varid, recnum)]. *)
Definition NC_reccpy (vars : list NC_var) (recsize : Z) (varid : nat) (recnum : Z) : M io bool :=
  match vars !! varid with
  | None => undef
  | Some v =>
      let! ok := xsetpos_src (ulong (var_begin v + ulong (recsize * recnum))) in
      if ok then NC_dcpy (var_len v)
      else let! _ := io_advise NC_EXDR in ret false
  end.

(** ** The one-shot reference copy *)

Definition copy_ref (n : Z) : M io bool :=
  let! ob := xget n in
  match ob with
  | None => dcpy_err
  | Some bs => let! ok := xput bs in if ok then ret true else dcpy_err
  end.

(** ** The chunked copy is the one-shot copy *)

Section CopyCorrect.
Implicit Types (s : io).

(** The state after copying [bs] ([n] bytes) into a target file whose
    contents were [ct]. *)
Definition copy_post s (n : Z) (bs ct : list byte) : io :=
  mk_io (set_fs_data (io_fs s)
           (<[x_file (io_tgt s) := write_at ct (x_pos (io_tgt s)) bs]> (fs_data (io_fs s))))
        (set_x_pos (io_tgt s) (x_pos (io_tgt s) + n))
        (set_x_pos (io_src s) (x_pos (io_src s) + n))
        (io_err s).

(** The conditions under which [n] bytes can be moved: distinct files,
    the target open at a valid position, and [n] bytes at the source. *)
Definition copy_ok s (n : Z) (bs ct : list byte) : Prop :=
  x_file (io_tgt s) <> x_file (io_src s) /\
  fs_data (io_fs s) !! x_file (io_tgt s) = Some ct /\ 0 <= x_pos (io_tgt s) /\
  slice (contents (io_fs s) (x_file (io_src s))) (x_pos (io_src s)) n = Some bs.

Lemma dcpy_chunk_ok s m a ct (k : M io bool) :
  copy_ok s m a ct -> dcpy_chunk m k s = k (copy_post s m a ct).
Proof.
  intros (Hne & Hct & Hpos & Hsl). unfold dcpy_chunk, bind at 1, xget, getbytes.
  rewrite Hsl. unfold bind, xput. simpl. rewrite (putbytes_spec _ _ a ct Hct Hpos).
  rewrite (slice_length _ _ _ _ Hsl). unfold copy_post.
  replace (Z.of_nat (Z.to_nat m)) with m; [reflexivity|].
  unfold slice in Hsl. destruct (Z.leb_spec 0 m); [lia|].
  rewrite andb_false_r, andb_false_l in Hsl. discriminate.
Qed.

(** After a first chunk the rest of the copy still satisfies its
    conditions, and the two posts compose into one. *)
Lemma copy_post_app s m n a b ct :
  copy_ok s m a ct -> 0 <= m -> 0 <= n ->
  slice (contents (io_fs s) (x_file (io_src s))) (x_pos (io_src s) + m) n = Some b ->
  copy_ok (copy_post s m a ct) n b (write_at ct (x_pos (io_tgt s)) a) /\
  copy_post (copy_post s m a ct) n b (write_at ct (x_pos (io_tgt s)) a) =
  copy_post s (m + n) (a ++ b) ct.
Proof.
  intros (Hne & Hct & Hpos & Hsl) Hm Hn Hsl2. unfold copy_ok, copy_post, contents. simpl.
  pose proof (slice_length _ _ _ _ Hsl) as Hla.
  split; [split; [exact Hne|split; [|split]]|].
  - apply lookup_insert_eq.
  - lia.
  - rewrite lookup_insert_ne by congruence. exact Hsl2.
  - unfold set_fs_data, set_x_pos. simpl. rewrite insert_insert_eq.
    replace (x_pos (io_tgt s) + m) with (x_pos (io_tgt s) + Z.of_nat (length a)) by lia.
    rewrite write_at_app by exact Hpos. f_equal; f_equal; lia.
Qed.

Lemma dcpy_loop_correct fuel n s bs ct :
  (Z.to_nat (n / NC_DCP_BUFSIZE) < fuel)%nat -> 0 <= n < ULONG_MOD ->
  copy_ok s n bs ct -> dcpy_loop fuel n s = Ok true (copy_post s n bs ct).
Proof.
  revert n s bs ct. induction fuel as [|f IH]; intros n s bs ct Hf Hn Hok; [lia|].
  simpl. rewrite ulong_small by exact Hn.
  destruct (Z.gtb_spec n NC_DCP_BUFSIZE).
  - pose proof Hok as (Hne & Hct & Hpos & Hsl).
    replace n with (NC_DCP_BUFSIZE + (n - NC_DCP_BUFSIZE)) in Hsl by lia.
    rewrite slice_split in Hsl by (unfold NC_DCP_BUFSIZE in *; lia).
    destruct (slice _ _ NC_DCP_BUFSIZE) as [a|] eqn:Ha; [|discriminate].
    destruct (slice _ _ (n - NC_DCP_BUFSIZE)) as [b|] eqn:Hb; [|discriminate].
    injection Hsl as <-.
    assert (Hok1 : copy_ok s NC_DCP_BUFSIZE a ct) by (repeat split; auto).
    destruct (copy_post_app s NC_DCP_BUFSIZE (n - NC_DCP_BUFSIZE) a b ct Hok1)
      as [Hok2 Heq]; try (unfold NC_DCP_BUFSIZE in *; lia); [exact Hb|].
    assert (Hf' : (Z.to_nat ((n - NC_DCP_BUFSIZE) / NC_DCP_BUFSIZE) < f)%nat).
    { unfold NC_DCP_BUFSIZE in *.
      assert (Hdiv : (n - 8192) / 8192 = n / 8192 - 1).
      { replace n with ((n - 8192) + 1 * 8192) at 2 by lia.
        rewrite Z.div_add by lia. lia. }
      rewrite Hdiv. pose proof (Z.div_le_mono 8192 n 8192 ltac:(lia) ltac:(lia)) as Hq.
      rewrite Z.div_same in Hq by lia. lia. }
    assert (Hn' : 0 <= n - NC_DCP_BUFSIZE < ULONG_MOD) by (unfold NC_DCP_BUFSIZE in *; lia).
    rewrite (dcpy_chunk_ok _ _ _ _ _ Hok1), (IH _ _ _ _ Hf' Hn' Hok2), Heq.
    f_equal. f_equal. lia.
  - rewrite (dcpy_chunk_ok _ _ _ _ _ Hok). reflexivity.
Qed.

(** C10: [NC_dcpy] terminates and moves exactly the [n] source bytes to the
    target position, as one read and one write of [n] bytes would. *)
Theorem NC_dcpy_correct n s bs ct :
  0 <= n < ULONG_MOD -> copy_ok s n bs ct ->
  NC_dcpy n s = Ok true (copy_post s n bs ct) /\ copy_ref n s = NC_dcpy n s.
Proof.
  intros Hn Hok. assert (Hd : NC_dcpy n s = Ok true (copy_post s n bs ct)).
  { apply dcpy_loop_correct; [unfold NC_dcpy_fuel; lia|exact Hn|exact Hok]. }
  split; [exact Hd|]. rewrite Hd. change (copy_ref n s) with (dcpy_chunk n (ret true) s).
  rewrite (dcpy_chunk_ok s n bs ct (ret true) Hok). reflexivity.
Qed.
Lemma contents_copy_post_src s n bs ct :
  x_file (io_tgt s) <> x_file (io_src s) ->
  contents (io_fs (copy_post s n bs ct)) (x_file (io_src s)) = contents (io_fs s) (x_file (io_src s)).
Proof. intros Hne. unfold contents, copy_post. simpl. rewrite lookup_insert_ne; auto. Qed.

Lemma dcpy_err_spec s : dcpy_err s = Ok false (mk_io (io_fs s) (io_tgt s) (io_src s) (Some NC_EXDR)).
Proof. reflexivity. Qed.

Lemma dcpy_loop_short fuel n s ct :
  (Z.to_nat (n / NC_DCP_BUFSIZE) < fuel)%nat -> 0 <= n < ULONG_MOD ->
  x_file (io_tgt s) <> x_file (io_src s) ->
  fs_data (io_fs s) !! x_file (io_tgt s) = Some ct -> 0 <= x_pos (io_tgt s) ->
  slice (contents (io_fs s) (x_file (io_src s))) (x_pos (io_src s)) n = None ->
  exists s', dcpy_loop fuel n s = Ok false s' /\ io_err s' = Some NC_EXDR /\
    contents (io_fs s') (x_file (io_src s)) = contents (io_fs s) (x_file (io_src s)).
Proof.
  revert n s ct. induction fuel as [|f IH]; intros n s ct Hf Hn Hne Hct Hpos Hsl; [lia|].
  simpl. rewrite ulong_small by exact Hn. unfold dcpy_chunk, bind at 1, xget, getbytes.
  destruct (Z.gtb_spec n NC_DCP_BUFSIZE).
  - replace n with (NC_DCP_BUFSIZE + (n - NC_DCP_BUFSIZE)) in Hsl by lia.
    rewrite slice_split in Hsl by (unfold NC_DCP_BUFSIZE in *; lia).
    destruct (slice _ _ NC_DCP_BUFSIZE) as [a|] eqn:Ha; [|eexists; split; [reflexivity|auto]].
    destruct (slice _ _ (n - NC_DCP_BUFSIZE)) as [b|] eqn:Hb; [discriminate|].
    assert (Hok1 : copy_ok s NC_DCP_BUFSIZE a ct) by (repeat split; auto).
    pose proof (dcpy_chunk_ok s NC_DCP_BUFSIZE a ct (dcpy_loop f (n - NC_DCP_BUFSIZE)) Hok1)
      as Hc. unfold dcpy_chunk, bind at 1, xget, getbytes in Hc. rewrite Ha in Hc.
    rewrite Hc. clear Hc.
    destruct (IH (n - NC_DCP_BUFSIZE) (copy_post s NC_DCP_BUFSIZE a ct)
                (write_at ct (x_pos (io_tgt s)) a)) as (s' & Hrun & Herr & Hsrc).
    + unfold NC_DCP_BUFSIZE in *.
      assert (Hdiv : (n - 8192) / 8192 = n / 8192 - 1).
      { replace n with ((n - 8192) + 1 * 8192) at 2 by lia.
        rewrite Z.div_add by lia. lia. }
      rewrite Hdiv. pose proof (Z.div_le_mono 8192 n 8192 ltac:(lia) ltac:(lia)) as Hq.
      rewrite Z.div_same in Hq by lia. lia.
    + unfold NC_DCP_BUFSIZE in *. lia.
    + exact Hne.
    + apply lookup_insert_eq.
    + simpl. unfold NC_DCP_BUFSIZE. lia.
    + change (x_file (io_src (copy_post s NC_DCP_BUFSIZE a ct))) with (x_file (io_src s)).
      change (x_pos (io_src (copy_post s NC_DCP_BUFSIZE a ct)))
        with (x_pos (io_src s) + NC_DCP_BUFSIZE).
      rewrite contents_copy_post_src by exact Hne. exact Hb.
    + exists s'. split; [exact Hrun|]. split; [exact Herr|].
      change (x_file (io_src (copy_post s NC_DCP_BUFSIZE a ct))) with (x_file (io_src s)) in Hsrc.
      rewrite Hsrc. apply contents_copy_post_src. exact Hne.
  - unfold bind. cbn beta. rewrite Hsl. eexists. split; [reflexivity|]. auto.
Qed.

(** C39: When fewer than [n] bytes remain at the source, [NC_dcpy] still
    terminates: it returns [FALSE] with [NC_EXDR] advised, and the source
    file is left as it was. *)
Theorem NC_dcpy_short n s ct :
  0 <= n < ULONG_MOD -> x_file (io_tgt s) <> x_file (io_src s) ->
  fs_data (io_fs s) !! x_file (io_tgt s) = Some ct -> 0 <= x_pos (io_tgt s) ->
  slice (contents (io_fs s) (x_file (io_src s))) (x_pos (io_src s)) n = None ->
  exists s', NC_dcpy n s = Ok false s' /\ io_err s' = Some NC_EXDR /\
    contents (io_fs s') (x_file (io_src s)) = contents (io_fs s) (x_file (io_src s)).
Proof. intros. apply dcpy_loop_short with ct; auto. Qed.
End CopyCorrect.

(** ** Copying a variable and a record *)

Section VarCopy.
Implicit Types (s : io).

Definition with_src_pos s (p : Z) : io :=
  mk_io (io_fs s) (io_tgt s) (set_x_pos (io_src s) p) (io_err s).

Lemma seek_then_copy s p n bs ct :
  0 <= p -> 0 <= n < ULONG_MOD -> copy_ok (with_src_pos s p) n bs ct ->
  (let! ok := xsetpos_src p in
   if ok then NC_dcpy n else let! _ := io_advise NC_EXDR in ret false) s =
  Ok true (copy_post (with_src_pos s p) n bs ct).
Proof.
  intros Hp Hn Hok. unfold bind at 1, xsetpos_src, setpos.
  destruct (Z.leb_spec 0 p); [|lia]. apply dcpy_loop_correct; [unfold NC_dcpy_fuel; lia|assumption|assumption].
Qed.

(** C28: [NC_vcpy] copies the bytes [[begin, begin + len)] of the variable
    in the old file to the target position. *)
Theorem NC_vcpy_correct vars varid v s bs ct :
  vars !! varid = Some v -> 0 <= var_begin v -> 0 <= var_len v < ULONG_MOD ->
  copy_ok (with_src_pos s (var_begin v)) (var_len v) bs ct ->
  NC_vcpy vars varid s = Ok true (copy_post (with_src_pos s (var_begin v)) (var_len v) bs ct).
Proof. intros Hv Hb Hl Hok. unfold NC_vcpy. rewrite Hv. apply seek_then_copy; assumption. Qed.

(** C29: [NC_reccpy] copies [len] bytes of record [recnum] of the variable,
    read at [begin + recsize * recnum] in the old file. *)
Theorem NC_reccpy_correct vars recsize varid recnum v s bs ct :
  vars !! varid = Some v -> 0 <= var_len v < ULONG_MOD ->
  copy_ok (with_src_pos s (ulong (var_begin v + ulong (recsize * recnum)))) (var_len v) bs ct ->
  NC_reccpy vars recsize varid recnum s =
  Ok true (copy_post (with_src_pos s (ulong (var_begin v + ulong (recsize * recnum))))
                     (var_len v) bs ct).
Proof.
  intros Hv Hl Hok. unfold NC_reccpy. rewrite Hv.
  apply seek_then_copy; [apply ulong_range|assumption|assumption].
Qed.
End VarCopy.

(** ** Example streams *)

(** A source file of 9002 bytes (file 2) and an empty target (file 1). *)
Definition example_src_bytes : list byte := replicate (Z.to_nat 9000) Byte.x2a ++ [Byte.x01; Byte.x02].

Definition example_fs : fsys :=
  mk_fs (<["tmp.nc" := 1]> (<["data.nc" := 2]> ∅))
        (<[1 := []]> (<[2 := example_src_bytes]> ∅)) 3.

Definition example_io : io :=
  mk_io example_fs (mk_xdr XDR_ENCODE 1 0) (mk_xdr XDR_DECODE 2 0) None.

Definition example_var : NC_var := mk_var "v" [2] 1 2 2 9000.
Definition example_recvar : NC_var := mk_var "r" [NC_UNLIMITED; 2] 1 2 2 8998.

(** ** Witnesses *)

Lemma NC_dcpy_correct_witness :
  (0 <= 9000 < ULONG_MOD /\ copy_ok example_io 9000 (replicate (Z.to_nat 9000) Byte.x2a) []) /\
  (NC_dcpy 9000 example_io = Ok true (copy_post example_io 9000 (replicate (Z.to_nat 9000) Byte.x2a) []) /\
   copy_ref 9000 example_io = NC_dcpy 9000 example_io).
Proof.
  assert (Hok : copy_ok example_io 9000 (replicate (Z.to_nat 9000) Byte.x2a) []).
  { split; [discriminate|split; [reflexivity|split; [simpl; lia|vm_compute; reflexivity]]]. }
  assert (Hn : 0 <= 9000 < ULONG_MOD) by (vm_compute; split; [discriminate|reflexivity]).
  split; [split; [exact Hn|exact Hok]|]. apply NC_dcpy_correct; [exact Hn|exact Hok].
Defined.

Lemma NC_dcpy_short_witness :
  (0 <= 9003 < ULONG_MOD /\ x_file (io_tgt example_io) <> x_file (io_src example_io) /\
   fs_data (io_fs example_io) !! x_file (io_tgt example_io) = Some [] /\
   0 <= x_pos (io_tgt example_io) /\
   slice (contents (io_fs example_io) (x_file (io_src example_io)))
         (x_pos (io_src example_io)) 9003 = None) /\
  exists s', NC_dcpy 9003 example_io = Ok false s' /\ io_err s' = Some NC_EXDR /\
    contents (io_fs s') (x_file (io_src example_io)) =
    contents (io_fs example_io) (x_file (io_src example_io)).
Proof.
  assert (Hn : 0 <= 9003 < ULONG_MOD) by (vm_compute; split; [discriminate|reflexivity]).
  assert (Hs : slice (contents (io_fs example_io) (x_file (io_src example_io)))
                     (x_pos (io_src example_io)) 9003 = None) by (vm_compute; reflexivity).
  split; [split; [exact Hn|split; [discriminate|split; [reflexivity|split; [simpl; lia|exact Hs]]]]|].
  apply (NC_dcpy_short 9003 example_io []); [exact Hn|discriminate|reflexivity|simpl; lia|exact Hs].
Defined.

Lemma NC_vcpy_correct_witness :
  ([example_var] !! 0%nat = Some example_var /\ 0 <= var_begin example_var /\
   0 <= var_len example_var < ULONG_MOD /\
   copy_ok (with_src_pos example_io (var_begin example_var)) (var_len example_var)
           [Byte.x01; Byte.x02] []) /\
  NC_vcpy [example_var] 0 example_io =
  Ok true (copy_post (with_src_pos example_io (var_begin example_var)) (var_len example_var)
                     [Byte.x01; Byte.x02] []).
Proof.
  assert (Hok : copy_ok (with_src_pos example_io (var_begin example_var)) (var_len example_var)
                        [Byte.x01; Byte.x02] []).
  { split; [discriminate|split; [reflexivity|split; [simpl; lia|vm_compute; reflexivity]]]. }
  assert (Hl : 0 <= var_len example_var < ULONG_MOD) by (vm_compute; split; [discriminate|reflexivity]).
  split; [split; [reflexivity|split; [simpl; lia|split; [exact Hl|exact Hok]]]|].
  apply NC_vcpy_correct; [reflexivity|simpl; lia|exact Hl|exact Hok].
Defined.

Lemma NC_reccpy_correct_witness :
  ([example_recvar] !! 0%nat = Some example_recvar /\ 0 <= var_len example_recvar < ULONG_MOD /\
   copy_ok (with_src_pos example_io (ulong (var_begin example_recvar + ulong (2 * 1))))
           (var_len example_recvar) [Byte.x01; Byte.x02] []) /\
  NC_reccpy [example_recvar] 2 0 1 example_io =
  Ok true (copy_post (with_src_pos example_io (ulong (var_begin example_recvar + ulong (2 * 1))))
                     (var_len example_recvar) [Byte.x01; Byte.x02] []).
Proof.
  assert (Hok : copy_ok (with_src_pos example_io (ulong (var_begin example_recvar + ulong (2 * 1))))
                        (var_len example_recvar) [Byte.x01; Byte.x02] []).
  { split; [discriminate|split; [reflexivity|split; [simpl; lia|vm_compute; reflexivity]]]. }
  assert (Hl : 0 <= var_len example_recvar < ULONG_MOD)
    by (vm_compute; split; [discriminate|reflexivity]).
  split; [split; [reflexivity|split; [exact Hl|exact Hok]]|].
  apply NC_reccpy_correct; [reflexivity|exact Hl|exact Hok].
Defined.
