(* ===== verification/TempName.v ===== *)
(** * [NCtempname]: the scratch name of a redefinition

    [NCtempname(proto)] (file.c, lines 485-541) copies [proto] into the
    static buffer [tnbuf], keeps its directory part (up to the last [SEP],
    ['/'] on Unix), and replaces the file name by the three characters of
    the static [seed], one probe character and the last four decimal digits
    of [getpid()].  The seed is advanced after each call (a base-26
    counter with the least significant letter first); the probe character
    runs from ['a'] to ['z'] until [access(tnbuf, 0)] fails, that is until
    the name is free.  When the buffer has no room for the 8 characters
    after the directory, or every probe character is taken, the result is
    the empty string.

    The buffer is a [list ascii]; [proto] longer than [FILENAME_MAX]
    (4096 on glibc) overflows [tnbuf] in [strcpy] and is undefined
    behaviour ([None]).  The seed is part of the session state.

    The theorems: the probe loop, stated as the unbounded relation
    [probe_run], terminates within the 26 rounds [tn_probe] gets; the pid
    digits read back as [pid mod 10^4]; the seed is a base-26 counter
    that stays three lower-case letters and returns to itself only after
    [26^3] calls; a non-empty name was free when probed, lies in the
    directory of [proto] and fits [tnbuf]. *)

From stdpp Require Import strings.
From Stdlib Require Import Ascii.
From Stdlib Require String.
From S2P Require Import Prelude Stream.

Open Scope Z_scope.

Definition FILENAME_MAX : nat := 4096.
Definition TN_NACCES : nat := 1.
Definition TN_NDIGITS : nat := 4.
Definition TN_NSEED : nat := 3.
Definition SEP : ascii := "/".

(** [static char seed[] = {'a', 'a', 'a', '\0'};] *)
Definition seed_init : list ascii := ["a"; "a"; "a"]%char.

(** [strrchr(tnbuf, SEP)]: the index of the last separator. *)
Fixpoint last_sep (i : nat) (l : list ascii) (acc : option nat) : option nat :=
  match l with
  | [] => acc
  | c :: l' => last_sep (S i) l' (if Ascii.eqb c SEP then Some i else acc)
  end.

(** [begin]: just after the last separator, or the start of the buffer. *)
Definition tn_begin (l : list ascii) : nat :=
  match last_sep 0 l None with Some i => S i | None => O end.

(** [++*sp] on a seed letter. *)
Definition seed_step (c : ascii) : ascii := ascii_of_nat (S (nat_of_ascii c)).

(** [while ( *sp == 'z') *sp++ = 'a'; if ( *sp != '\0') ++*sp;] *)
Fixpoint seed_next (sd : list ascii) : list ascii :=
  match sd with
  | c :: r => if Ascii.eqb c "z"%char then "a"%char :: seed_next r else seed_step c :: r
  | [] => []
  end.

(** [*cp = (pid % 10) + '0'; pid /= 10;] for the [k] positions before
    [cp], filled from the right. *)
Definition digit (n : Z) : ascii := ascii_of_nat (Z.to_nat (n mod 10) + 48).

Fixpoint pid_digits (k : nat) (pid : Z) : list ascii :=
  match k with
  | O => []
  | S k' => pid_digits k' (pid / 10) ++ [digit pid]
  end.

(** [for ( *cp = 'a'; access(tnbuf, 0) == 0;) if (++*cp > 'z') ...]: the
    probe letter [97 + c]; the empty name once it passes ['z']. *)
Fixpoint tn_probe (d : fsys) (pre post : list ascii) (c : nat) (fuel : nat) : list ascii :=
  match fuel with
  | O => []
  | S f =>
      let name := pre ++ ascii_of_nat (97 + c) :: post in
      if fs_access d (String.string_of_list_ascii name) then tn_probe d pre post (S c) f else name
  end.

(** [NCtempname(proto)] with [getpid()] = [pid] (an [unsigned int]):
    the name and the next seed. *)
Definition NCtempname (d : fsys) (pid : Z) (seed : list ascii) (proto : string)
  : option (string * list ascii) :=
  let buf := String.list_ascii_of_string proto in
  if (FILENAME_MAX <? length buf)%nat then None
  else
    let b := tn_begin buf in
    if (FILENAME_MAX - b <=? TN_NSEED + TN_NACCES + TN_NDIGITS)%nat then Some (EmptyString, seed)
    else
      let pre := take b buf ++ seed in
      let post := pid_digits TN_NDIGITS pid in
      Some (String.string_of_list_ascii (tn_probe d pre post 0 26), seed_next seed).

(** ** The probe loop as the C runs it *)

Section Probe.
Variables (d : fsys) (pre post : list ascii).

(** The name probed with letter ['a' + c]. *)
Definition probe_name (c : nat) : list ascii := pre ++ ascii_of_nat (97 + c) :: post.

Definition probe_taken (c : nat) : bool := fs_access d (String.string_of_list_ascii (probe_name c)).

(** One iteration of [for ( *cp = 'a'; access(tnbuf, 0) == 0;) if (++*cp > 'z') ...]
    as a big-step relation without a bound: a free name ends the loop
    with that name, a taken name moves to the next letter, and a taken
    ['z'] ends it with the empty name. *)
Inductive probe_run : nat -> list ascii -> Prop :=
  | probe_free c : probe_taken c = false -> probe_run c (probe_name c)
  | probe_next c r : probe_taken c = true -> (S c <= 25)%nat -> probe_run (S c) r -> probe_run c r
  | probe_out c : probe_taken c = true -> (25 < S c)%nat -> probe_run c [].

Lemma probe_run_det c r r' : probe_run c r -> probe_run c r' -> r = r'.
Proof.
  intros H. revert r'. induction H as [c Hf|c r Ht Hc H IH|c Ht Hc]; intros r' H';
    inversion H'; subst; try congruence; try lia; auto.
Qed.

Lemma tn_probe_run c : (c <= 25)%nat -> probe_run c (tn_probe d pre post c (26 - c)).
Proof.
  remember (25 - c)%nat as n eqn:En. revert c En.
  induction n as [|n IH]; intros c En Hc;
    replace (26 - c)%nat with (S (25 - c)) by lia; cbn [tn_probe];
    fold (probe_name c); fold (probe_taken c);
    destruct (probe_taken c) eqn:Et; try (apply probe_free; exact Et).
  - replace (25 - c)%nat with 0%nat by lia. apply probe_out; [exact Et|lia].
  - apply probe_next; [exact Et|lia|].
    replace (25 - c)%nat with (26 - S c)%nat by lia. apply IH; lia.
Qed.
End Probe.

(** C18: The probe loop of [NCtempname] terminates: from any letter
    ['a' + c] up to ['z'] the loop as the C runs it (without a bound) has
    exactly one outcome, and [tn_probe] with [26 - c] rounds computes it;
    the 26 rounds [NCtempname] gives it are the loop's own bound. *)
Theorem NCtempname_probe_terminates d pre post c :
  (c <= 25)%nat ->
  probe_run d pre post c (tn_probe d pre post c (26 - c)) /\
  (forall r, probe_run d pre post c r -> r = tn_probe d pre post c (26 - c)).
Proof.
  intros Hc. pose proof (tn_probe_run d pre post c Hc) as Hr.
  split; [exact Hr|]. intros r H. exact (probe_run_det _ _ _ _ _ _ H Hr).
Qed.

(** ** The digits of the process id *)

(** Reading decimal digits back. *)
Definition dec_digits (l : list ascii) : Z :=
  fold_left (fun acc ch => acc * 10 + (Z.of_nat (nat_of_ascii ch) - 48)) l 0.

Lemma dec_digits_snoc l ch :
  dec_digits (l ++ [ch]) = dec_digits l * 10 + (Z.of_nat (nat_of_ascii ch) - 48).
Proof. unfold dec_digits. rewrite fold_left_app. reflexivity. Qed.

Lemma digit_val n : Z.of_nat (nat_of_ascii (digit n)) - 48 = n mod 10.
Proof.
  unfold digit. pose proof (Z.mod_pos_bound n 10 ltac:(lia)).
  rewrite nat_ascii_embedding by lia. lia.
Qed.

(** C32: The four characters [NCtempname] writes after the probe letter
    read back, as a decimal number, to the process id modulo [10^4]:
    [*cp = (pid % 10) + '0'; pid /= 10;] from the right encodes the last
    [k] digits. *)
Theorem pid_digits_roundtrip k pid :
  dec_digits (pid_digits k pid) = pid mod 10 ^ Z.of_nat k.
Proof.
  revert pid. induction k as [|k IH]; intros pid; [simpl; symmetry; apply Z.mod_1_r|].
  cbn [pid_digits]. rewrite dec_digits_snoc, IH, digit_val.
  rewrite Nat2Z.inj_succ, Z.pow_succ_r by lia.
  rewrite Z.rem_mul_r by lia. lia.
Qed.

(** ** The seed as a base-26 counter *)

(** A seed letter is lower case; a seed has [TN_NSEED] of them. *)
Definition lower (c : ascii) : bool := (97 <=? nat_of_ascii c)%nat && (nat_of_ascii c <=? 122)%nat.
Definition seed_ok (sd : list ascii) : bool := (length sd =? TN_NSEED)%nat && forallb lower sd.

(** The number a seed stands for, least significant letter first. *)
Fixpoint seed_val (sd : list ascii) : Z :=
  match sd with
  | [] => 0
  | c :: r => (Z.of_nat (nat_of_ascii c) - 97) + 26 * seed_val r
  end.

Lemma lower_range c : lower c = true -> (97 <= nat_of_ascii c <= 122)%nat.
Proof. unfold lower. intros H. apply andb_true_iff in H as [H1 H2]. apply Nat.leb_le in H1, H2. lia. Qed.

Lemma seed_val_bound sd : forallb lower sd = true -> 0 <= seed_val sd < 26 ^ Z.of_nat (length sd).
Proof.
  induction sd as [|c r IH]; simpl; [lia|]. intros H. apply andb_true_iff in H as [Hc Hr].
  apply lower_range in Hc. specialize (IH Hr). rewrite Nat2Z.inj_succ, Z.pow_succ_r by lia. lia.
Qed.

Lemma nat_of_ascii_z : nat_of_ascii "z"%char = 122%nat.
Proof. reflexivity. Qed.

(** [seed_next] adds one modulo [26 ^ length] and keeps the letters lower case. *)
Lemma seed_next_spec sd :
  forallb lower sd = true ->
  forallb lower (seed_next sd) = true /\ length (seed_next sd) = length sd /\
  seed_val (seed_next sd) = (seed_val sd + 1) mod 26 ^ Z.of_nat (length sd).
Proof.
  induction sd as [|c r IH]; [intros _; split; [reflexivity|split; [reflexivity|reflexivity]]|].
  intros H. simpl in H. apply andb_true_iff in H as [Hc Hr].
  destruct (IH Hr) as (Hr' & Hl & Hv). pose proof (seed_val_bound r Hr) as Hb.
  pose proof (lower_range c Hc) as Hcr.
  cbn [seed_next length]. rewrite Nat2Z.inj_succ, Z.pow_succ_r by lia.
  destruct (Ascii.eqb_spec c "z"%char) as [->|Hz]; cbn [forallb seed_val length].
  - rewrite Hr', Hl, Hv, nat_of_ascii_z. split; [reflexivity|]. split; [reflexivity|].
    change (Z.of_nat (nat_of_ascii "a"%char)) with 97.
    replace (Z.of_nat 122 - 97 + 26 * seed_val r + 1) with (26 * (seed_val r + 1)) by lia.
    rewrite Z.mul_mod_distr_l by lia. lia.
  - assert (Hn : nat_of_ascii c <> 122%nat).
    { intros E. apply Hz. rewrite <- (ascii_nat_embedding c), E. reflexivity. }
    unfold seed_step. rewrite nat_ascii_embedding by lia.
    split; [unfold lower at 1; rewrite nat_ascii_embedding, Hr, andb_true_r by lia;
            apply andb_true_iff; split; apply Nat.leb_le; lia|].
    split; [reflexivity|]. rewrite Z.mod_small by lia. lia.
Qed.

Lemma seed_val_inj a b :
  forallb lower a = true -> forallb lower b = true -> length a = length b ->
  seed_val a = seed_val b -> a = b.
Proof.
  revert b. induction a as [|c r IH]; intros [|c' r'] Ha Hb Hl Hv; simpl in *; try lia; [reflexivity|].
  apply andb_true_iff in Ha as [Hc Hr], Hb as [Hc' Hr'].
  apply lower_range in Hc, Hc'.
  assert (Hd : Z.of_nat (nat_of_ascii c) = Z.of_nat (nat_of_ascii c')) by lia.
  assert (Hs : seed_val r = seed_val r') by lia.
  rewrite (IH r' Hr Hr' ltac:(lia) Hs). f_equal.
  rewrite <- (ascii_nat_embedding c), <- (ascii_nat_embedding c'). f_equal. lia.
Qed.

Lemma seed_iter_spec sd k :
  forallb lower sd = true ->
  forallb lower (Nat.iter k seed_next sd) = true /\ length (Nat.iter k seed_next sd) = length sd /\
  seed_val (Nat.iter k seed_next sd) = (seed_val sd + Z.of_nat k) mod 26 ^ Z.of_nat (length sd).
Proof.
  intros Hsd. pose proof (seed_val_bound sd Hsd) as Hb.
  induction k as [|k (Hw & Hl & Hv)].
  - change (Nat.iter 0 seed_next sd) with sd. split; [exact Hsd|]. split; [reflexivity|]. replace (seed_val sd + Z.of_nat 0) with (seed_val sd) by lia. rewrite Z.mod_small; lia.
  - change (Nat.iter (S k) seed_next sd) with (seed_next (Nat.iter k seed_next sd)).
    destruct (seed_next_spec _ Hw) as (Hw' & Hl' & Hv'). rewrite Hl in Hl', Hv'.
    split; [exact Hw'|]. split; [exact Hl'|]. rewrite Hv', Hv, Nat2Z.inj_succ.
    rewrite Zplus_mod_idemp_l. f_equal. lia.
Qed.

(** C30: The seed of [NCtempname] counts through all [26^3] words of three
    lower-case letters: from a well-formed seed, no number of calls below
    [26^3] comes back to it, and [26^3] calls do; so the scratch names of
    one process repeat their seed only after 17576 redefinitions. *)
Theorem seed_period sd :
  seed_ok sd = true ->
  Nat.iter (Z.to_nat (26 ^ 3)) seed_next sd = sd /\
  (forall k, 0 < Z.of_nat k < 26 ^ 3 -> Nat.iter k seed_next sd <> sd).
Proof.
  unfold seed_ok. intros H. apply andb_true_iff in H as [Hl Hw]. apply Nat.eqb_eq in Hl.
  pose proof (seed_val_bound sd Hw) as Hb. rewrite Hl in Hb. change (26 ^ Z.of_nat TN_NSEED) with 17576 in Hb.
  split.
  - destruct (seed_iter_spec sd (Z.to_nat (26 ^ 3)) Hw) as (Hw' & Hl' & Hv).
    apply seed_val_inj; auto. rewrite Hv, Hl. change (26 ^ Z.of_nat TN_NSEED) with 17576.
    replace (seed_val sd + Z.of_nat (Z.to_nat (26 ^ 3))) with (seed_val sd + 1 * 17576) by reflexivity.
    rewrite Z.mod_add, Z.mod_small by lia. reflexivity.
  - intros k Hk E. change (26 ^ 3) with 17576 in Hk. destruct (seed_iter_spec sd k Hw) as (_ & _ & Hv).
    rewrite E, Hl in Hv. change (26 ^ Z.of_nat TN_NSEED) with 17576 in Hv.
    destruct (Z.lt_ge_cases (seed_val sd + Z.of_nat k) 17576).
    + rewrite Z.mod_small in Hv; lia.
    + rewrite (Z.mod_eq _ 17576) in Hv by lia.
      assert (Hq : (seed_val sd + Z.of_nat k) / 17576 = 1).
      { symmetry. apply Z.div_unique_pos with (seed_val sd + Z.of_nat k - 17576); lia. }
      lia.
Qed.

(** ** The name [NCtempname] returns *)

Lemma tn_probe_shape d pre post c f :
  tn_probe d pre post c f = [] \/
  exists c', (c <= c' < c + f)%nat /\ tn_probe d pre post c f = probe_name pre post c' /\
             probe_taken d pre post c' = false.
Proof.
  revert c. induction f as [|f IH]; intros c; [left; reflexivity|].
  cbn [tn_probe]. fold (probe_name pre post c). fold (probe_taken d pre post c).
  destruct (probe_taken d pre post c) eqn:Et.
  - destruct (IH (S c)) as [E|(c' & Hc' & E & Hf)]; [left; exact E|].
    right. exists c'. split; [lia|]. split; assumption.
  - right. exists c. split; [lia|]. split; [reflexivity|exact Et].
Qed.

Section Fresh.
Variables (d : fsys) (pid : Z) (seed : list ascii) (proto : string) (name : string) (seed' : list ascii).
Hypothesis Hseed : seed_ok seed = true.
Hypothesis Hrun : NCtempname d pid seed proto = Some (name, seed').

(** C31: The seed stays a word of three lower-case letters across calls of
    [NCtempname]. *)
Theorem NCtempname_seed_ok : seed_ok seed' = true.
Proof.
  revert Hrun. unfold NCtempname.
  destruct (FILENAME_MAX <? _)%nat; [discriminate|].
  destruct (FILENAME_MAX - _ <=? _)%nat; intros E; injection E as _ <-; [exact Hseed|].
  unfold seed_ok in *. apply andb_true_iff in Hseed as [Hl Hw].
  destruct (seed_next_spec seed Hw) as (Hw' & Hl' & _). rewrite Hl', Hl, Hw'. reflexivity.
Qed.

(** C17: A name [NCtempname] returns is either empty (no room, or every
    probe letter taken) or a name that did not exist when it was probed,
    in the directory of [proto]: the directory part of [proto], the seed,
    a probe letter from ['a'] to ['z'] and the four digits of the pid; it
    fits [tnbuf], whose [FILENAME_MAX] characters it does not reach. *)
Theorem NCtempname_fresh :
  name = EmptyString \/
  (fs_access d name = false /\
   exists c, (c <= 25)%nat /\
     String.list_ascii_of_string name =
       take (tn_begin (String.list_ascii_of_string proto)) (String.list_ascii_of_string proto) ++
       seed ++ ascii_of_nat (97 + c) :: pid_digits TN_NDIGITS pid /\
     (length (String.list_ascii_of_string name) < FILENAME_MAX)%nat).
Proof.
  revert Hrun. unfold NCtempname.
  set (buf := String.list_ascii_of_string proto).
  destruct (FILENAME_MAX <? length buf)%nat; [discriminate|].
  destruct (FILENAME_MAX - tn_begin buf <=? TN_NSEED + TN_NACCES + TN_NDIGITS)%nat eqn:Eroom;
    [intros E; injection E as <- _; left; reflexivity|].
  apply Nat.leb_gt in Eroom.
  destruct (tn_probe_shape d (take (tn_begin buf) buf ++ seed) (pid_digits TN_NDIGITS pid) 0 26)
    as [Ht | (c & Hc & Ht & Hf)]; rewrite Ht; intros E; injection E as <- _; [left; reflexivity|].
  right. split; [exact Hf|]. exists c. split; [lia|].
  rewrite String.list_ascii_of_string_of_list_ascii. unfold probe_name. rewrite <- app_assoc.
  split; [reflexivity|].
  unfold seed_ok in Hseed. apply andb_true_iff in Hseed as [Hl _]. apply Nat.eqb_eq in Hl.
  rewrite !length_app, length_take. cbn [length]. rewrite Hl.
  unfold TN_NSEED, TN_NACCES, TN_NDIGITS in *. lia.
Qed.
End Fresh.

(** ** On a directory where the first probe is taken *)

Definition tn_fs : fsys := mk_fs (<["/data/aaaa4242" := 0]> ∅) (<[0 := []]> ∅) 1.

Lemma NCtempname_probe_terminates_witness :
  probe_run tn_fs (String.list_ascii_of_string "/data/aaa") (String.list_ascii_of_string "4242") 0
    (tn_probe tn_fs (String.list_ascii_of_string "/data/aaa") (String.list_ascii_of_string "4242") 0 26) /\
  (forall r, probe_run tn_fs (String.list_ascii_of_string "/data/aaa") (String.list_ascii_of_string "4242") 0 r ->
     r = tn_probe tn_fs (String.list_ascii_of_string "/data/aaa") (String.list_ascii_of_string "4242") 0 26).
Proof. apply (NCtempname_probe_terminates tn_fs _ _ 0). lia. Defined.

Lemma seed_period_witness :
  Nat.iter (Z.to_nat (26 ^ 3)) seed_next seed_init = seed_init /\
  (forall k, 0 < Z.of_nat k < 26 ^ 3 -> Nat.iter k seed_next seed_init <> seed_init).
Proof. apply seed_period. vm_compute. reflexivity. Defined.

Lemma NCtempname_seed_ok_witness : seed_ok (seed_next seed_init) = true.
Proof.
  apply (NCtempname_seed_ok tn_fs 4242 seed_init "/data/f.nc" "/data/aaab4242"); vm_compute; reflexivity.
Defined.

Lemma NCtempname_fresh_witness :
  "/data/aaab4242"%string = EmptyString \/
  (fs_access tn_fs "/data/aaab4242" = false /\
   exists c, (c <= 25)%nat /\
     String.list_ascii_of_string "/data/aaab4242" =
       take (tn_begin (String.list_ascii_of_string "/data/f.nc")) (String.list_ascii_of_string "/data/f.nc") ++
       seed_init ++ ascii_of_nat (97 + c) :: pid_digits TN_NDIGITS 4242 /\
     (length (String.list_ascii_of_string "/data/aaab4242") < FILENAME_MAX)%nat).
Proof.
  apply (NCtempname_fresh tn_fs 4242 seed_init "/data/f.nc" "/data/aaab4242" (seed_next seed_init));
    vm_compute; reflexivity.
Defined.
