(* ===== verification/Codec.v ===== *)
(** * The codec gateway: its interface, its laws, and a sample instance

    [file.c] reaches the header codec through [xdr_cdf], [xdr_numrecs],
    [xdr_NC_fill], [NC_xlen_cdf] and [NC_computeshapes], and builds
    handles with [NC_new_cdf] and [NC_dup_cdf]; all of them are outside
    [src/].  [NC_codec] is what the session layer uses of them, and
    [NC_codec_ok] what it relies on: the header written by [xdr_cdf] is
    [NC_xlen_cdf] bytes long, and that length is a function of the
    variable schema (the begin offsets, the path, the flags, the stream and
    the record count do not change it); the record count is a 4-byte field
    inside the header; a fill pattern is as long as the variable; decoding a
    header and computing the shapes leave the fields [file.c] manages
    ([redefid], [file_type], [flags]) as they were.

    [demo_codec] is a small header format that satisfies the laws (a
    magic number, the record count, and eight bytes per variable); it
    gives the concrete runs of the development.  Like the netCDF-2
    decoder of [cdf.c], whose [xdr_NC_array] leaves the pointer NULL for an
    absent array, it decodes a header with no variables to [vars == NULL]. *)

From stdpp Require Import gmap strings.
From S2P Require Import Prelude Flags Stream Handle Layout.

Open Scope Z_scope.

Class NC_codec := {
  NC_xlen_cdf : NC -> Z;
  header_bytes : NC -> list byte;
  numrecs_bytes : Z -> list byte;
  fill_bytes : NC_var -> list byte;
  decode_cdf : NC -> list byte -> option NC;
  NC_computeshapes : NC -> option NC;
  new_file_kind : file_kind;
}.

(** [NC_NUMRECS_OFFSET]: where the record count sits in the header. *)
Definition NC_NUMRECS_OFFSET : Z := 4.

(** The variable schema of a handle: its variables without offsets. *)
Definition schema (h : NC) : list NC_var := map strip (default [] (nc_vars h)).

Class NC_codec_ok `{NC_codec} : Prop := {
  header_length h : Z.of_nat (length (header_bytes h)) = NC_xlen_cdf h;
  xlen_schema h h' : schema h = schema h' -> NC_xlen_cdf h = NC_xlen_cdf h';
  numrecs_length n : length (numrecs_bytes n) = 4%nat;
  numrecs_in_header h : NC_NUMRECS_OFFSET + 4 <= NC_xlen_cdf h;
  fill_length v : length (fill_bytes v) = Z.to_nat (var_len v);
  decode_keeps h bs h' : decode_cdf h bs = Some h' ->
    nc_redefid h' = nc_redefid h /\ nc_file_type h' = nc_file_type h /\ nc_flags h' = nc_flags h;
  shapes_keep h h' : NC_computeshapes h = Some h' ->
    nc_redefid h' = nc_redefid h /\ nc_file_type h' = nc_file_type h /\ nc_flags h' = nc_flags h;
}.

(** ** A sample header format *)

Definition byte_of (z : Z) : byte :=
  match Byte.of_nat (Z.to_nat (z mod 256)) with Some x => x | None => Byte.x00 end.
Definition byte_val (c : byte) : Z := Z.of_nat (Byte.to_nat c).

(** A big-endian 32-bit field. *)
Definition u32 (z : Z) : list byte :=
  [byte_of (z / 16777216); byte_of (z / 65536); byte_of (z / 256); byte_of z].
Definition dec_u32 (l : list byte) : Z := foldl (fun acc c => acc * 256 + byte_val c) 0 l.

Definition demo_vars (h : NC) : list NC_var := default [] (nc_vars h).

Definition enc_var (v : NC_var) : list byte :=
  [if IS_RECVAR v then Byte.x01 else Byte.x00; byte_of (var_dsize v);
   byte_of (var_len v / 256); byte_of (var_len v)] ++ u32 (var_begin v).

Definition demo_xlen (h : NC) : Z := 9 + 8 * Z.of_nat (length (demo_vars h)).

Definition demo_header (h : NC) : list byte :=
  [Byte.x43; Byte.x44; Byte.x46; Byte.x01] ++ u32 (nc_numrecs h) ++
  [byte_of (Z.of_nat (length (demo_vars h)))] ++ mjoin (map enc_var (demo_vars h)).

Fixpoint dec_vars (n : nat) (l : list byte) : option (list NC_var) :=
  match n with
  | O => Some []
  | S n' =>
      match l with
      | r :: ds :: l1 :: l0 :: b3 :: b2 :: b1 :: b0 :: rest =>
          (fun vs => mk_var "" (if Byte.eqb r Byte.x01 then [NC_UNLIMITED] else [1]) 0
                       (byte_val ds) (byte_val l1 * 256 + byte_val l0)
                       (dec_u32 [b3; b2; b1; b0]) :: vs) <$> dec_vars n' rest
      | _ => None
      end
  end.

Definition demo_decode (h : NC) (bs : list byte) : option NC :=
  match bs with
  | m0 :: m1 :: m2 :: m3 :: n3 :: n2 :: n1 :: n0 :: nv :: rest =>
      if Byte.eqb m0 Byte.x43 && Byte.eqb m1 Byte.x44 && Byte.eqb m2 Byte.x46 then
        vs ← dec_vars (Byte.to_nat nv) rest;
        Some (set_layout h (match vs with [] => None | _ => Some vs end) 0 0 (dec_u32 [n3; n2; n1; n0]))
      else None
  | _ => None
  end.

(** [NC_computeshapes] of netCDF-2: [begin_rec] is the first record
    variable's offset, [recsize] the sum of the record lengths, packed to
    the first record variable's slice when it is the only length. *)
Definition demo_computeshapes (h : NC) : option NC :=
  let rvs := rec_vars (demo_vars h) in
  match rvs with
  | [] => Some (set_layout h (nc_vars h) 0 0 (nc_numrecs h))
  | first :: _ =>
      let rs := sum_len rvs in
      Some (set_layout h (nc_vars h) (var_begin first)
              (if rs =? var_len first then var_dsize first else rs) (nc_numrecs h))
  end.

(** [FILL_BYTE] (0x81) over the variable's length. *)
Definition demo_fill (v : NC_var) : list byte := replicate (Z.to_nat (var_len v)) Byte.x81.

#[export] Instance demo_codec : NC_codec := {
  NC_xlen_cdf := demo_xlen;
  header_bytes := demo_header;
  numrecs_bytes := u32;
  fill_bytes := demo_fill;
  decode_cdf := demo_decode;
  NC_computeshapes := demo_computeshapes;
  new_file_kind := netCDF_FILE;
}.

Lemma length_mjoin_enc_var vs : length (mjoin (map enc_var vs)) = (8 * length vs)%nat.
Proof.
  induction vs as [|v vs IH]; [reflexivity|].
  change (mjoin (map enc_var (v :: vs))) with (enc_var v ++ mjoin (map enc_var vs)).
  rewrite length_app, IH. simpl. lia.
Qed.

#[export] Instance demo_codec_ok : NC_codec_ok.
Proof.
  split.
  - intros h. change (Z.of_nat (length (demo_header h)) = demo_xlen h).
    unfold demo_header, demo_xlen. rewrite !length_app, length_mjoin_enc_var. simpl. lia.
  - intros h h' E. change (demo_xlen h = demo_xlen h'). unfold demo_xlen, demo_vars.
    unfold schema in E. apply (f_equal length) in E. rewrite !length_map in E. rewrite E. reflexivity.
  - reflexivity.
  - intros h. change (NC_NUMRECS_OFFSET + 4 <= demo_xlen h). unfold demo_xlen, NC_NUMRECS_OFFSET. lia.
  - intros v. change (length (demo_fill v) = Z.to_nat (var_len v)). apply length_replicate.
  - intros h bs h'. change (demo_decode h bs = Some h' ->
      nc_redefid h' = nc_redefid h /\ nc_file_type h' = nc_file_type h /\ nc_flags h' = nc_flags h).
    unfold demo_decode.
    repeat case_match; try discriminate.
    destruct (dec_vars _ _) as [[|v vs]|]; simpl; intros E; try discriminate; injection E as <-; auto.
  - intros h h'. change (demo_computeshapes h = Some h' ->
      nc_redefid h' = nc_redefid h /\ nc_file_type h' = nc_file_type h /\ nc_flags h' = nc_flags h).
    unfold demo_computeshapes.
    case_match; intros E; injection E as <-; auto.
Qed.
