(* ===== verification/Session.v ===== *)
(** * The session layer of [file.c]

    The whole global state of [file.c] as one record [nc_state]: the
    open-file table of [Table] holding handles [NC], the file system, the
    global [ncopts], the static [seed] of [NCtempname], and [errno].  Every
    entry point is a function of the monad [M nc_state]; a handle is a
    value, and a C statement that updates [handle->field] through a
    pointer is a store of the updated value back into the cell that holds
    the handle.  [NC_free_cdf] closes a stream, which changes no modelled
    state (heap memory is not modelled).  This file holds the state, its
    access functions, the codec operations and the entry points that open,
    query and flush files; [Define] and [Commit] hold those of define mode.

    The codec gateway (not under [src/]) is the class [NC_codec]: the
    header length [NC_xlen_cdf], the bytes [xdr_cdf] writes at offset 0,
    the bytes [xdr_numrecs] writes at [NC_NUMRECS_OFFSET], the fill
    pattern of [xdr_NC_fill], the header decoder and [NC_computeshapes].
    [NC_new_cdf] and [NC_dup_cdf] (cdf.c) are modelled from the spec on top
    of [NCxdrfile_create], which is in [file.c].

    The environment [sess_env] gives what the process observes and does
    not control: the descriptor limit and [malloc] (as in [Table]),
    [getpid()], whether [rename] succeeds, and [HPisfile_in_use].  An
    [open] fails with [EMFILE] when the three standard streams and one
    descriptor per open handle fill the soft limit. *)

From stdpp Require Import gmap strings.
From Stdlib Require Import Ascii.
From Stdlib Require String.
From S2P Require Import Prelude Flags Limits Table Stream Handle Layout Copy TempName Codec.

Open Scope Z_scope.

(** ** The global state *)

(** The [errno] values [file.c] distinguishes. *)
Inductive errno_val := E_NONE | E_MFILE | E_EXIST | E_NOENT.

Record nc_state := mk_state {
  st_tbl : cdf_table NC;
  st_fs : fsys;
  st_ncopts : Z;
  st_seed : list ascii;
  st_errno : errno_val;
}.

Definition set_tbl (s : nc_state) t := mk_state t (st_fs s) (st_ncopts s) (st_seed s) (st_errno s).
Definition set_fs (s : nc_state) d := mk_state (st_tbl s) d (st_ncopts s) (st_seed s) (st_errno s).
Definition set_seed (s : nc_state) sd := mk_state (st_tbl s) (st_fs s) (st_ncopts s) sd (st_errno s).
Definition set_errno (s : nc_state) e := mk_state (st_tbl s) (st_fs s) (st_ncopts s) (st_seed s) e.

Record sess_env := mk_senv {
  se_tbl : nc_env;
  se_pid : Z;
  se_rename_ok : string -> string -> bool;
  se_in_use : string -> bool;
}.

(** Whether [open] can get a descriptor: stdin, stdout, stderr and one
    descriptor per open handle.  The HDF library opens an HDF file once
    ([Hopen]) and shares that descriptor between handles, which this count
    does not model; it only makes [EMFILE] come earlier. *)
Definition fd_ok (env : sess_env) (t : cdf_table NC) : bool :=
  3 + curr_opened t <? rlim_cur (se_tbl env).

(** ** Access to the parts of the state *)

Definition on_tbl {R} (m : M (cdf_table NC) R) : M nc_state R :=
  fun s => match m (st_tbl s) with Ok r t => Ok r (set_tbl s t) | Undef => Undef end.

Definition get_tbl : M nc_state (cdf_table NC) := fun s => Ok (st_tbl s) s.
Definition get_fs : M nc_state fsys := fun s => Ok (st_fs s) s.
Definition put_fs (d : fsys) : M nc_state unit := modify (fun s => set_fs s d).
Definition put_errno (e : errno_val) : M nc_state unit := modify (fun s => set_errno s e).

(** [NCadvise(e, ...)] and [nc_serror(...)] ([ncerr = NC_SYSERR]). *)
Definition sadvise (e : nc_error) : M nc_state unit := on_tbl (advise e).
Definition nc_serror : M nc_state unit := sadvise NC_SYSERR.

(** [_cdfs[i] = x]. *)
Definition set_cell (i : Z) (x : option NC) : M nc_state unit := on_tbl (lift_opt (store i x)).

(** Write an updated handle back to the cell that holds it. *)
Definition put_handle (i : Z) (h : NC) : M nc_state unit := set_cell i (Some h).

(** [NC_free_cdf(handle)]: closes the stream; no modelled state changes. *)
Definition NC_free_cdf (h : option NC) : M nc_state unit := ret tt.

(** [STASH(id)]: [HNDLE(_cdfs[id]->redefid)] for an id below [_ncdf];
    reading [redefid] through a [NULL] cell is undefined. *)
Definition STASH (id : Z) : M nc_state (option NC) :=
  let! t := get_tbl in
  if (0 <=? id) && (id <? ncdf t) then
    match cell t id with
    | Some (Some h) => on_tbl (load_handle (nc_redefid h))
    | _ => undef
    end
  else ret None.

(** ** Codec operations on a handle's stream *)

Section Codec.
Context `{NC_codec}.

(** [xdr_cdf(xdrs, &handle)] in [XDR_ENCODE]: the header from offset 0.
    For an HDF file [cdf.c] writes through the HDF library instead; the
    model writes the codec's header bytes to the file for every kind, so
    what it shows of an HDF file's bytes is not the HDF layout. *)
Definition xdr_cdf_put (h : NC) : M nc_state (option NC) :=
  let! d := get_fs in
  match putbytes d (set_x_pos (nc_xdrs h) 0) (header_bytes h) with
  | Some (d', x) => let! _ := put_fs d' in ret (Some (set_xdrs h x))
  | None => ret None
  end.

(** [xdr_numrecs(xdrs, handle)]: the record count into the header. *)
Definition xdr_numrecs (h : NC) : M nc_state (option NC) :=
  let! d := get_fs in
  match putbytes d (set_x_pos (nc_xdrs h) NC_NUMRECS_OFFSET) (numrecs_bytes (nc_numrecs h)) with
  | Some (d', x) => let! _ := put_fs d' in ret (Some (set_xdrs h x))
  | None => ret None
  end.

(** [xdr_cdf(xdrs, &handle)] in [XDR_DECODE]: the header read back. *)
Definition xdr_cdf_get (h : NC) : M nc_state (option NC) :=
  let! d := get_fs in ret (decode_cdf h (contents d (x_file (nc_xdrs h)))).

(** [xdr_NC_fill(xdrs, vp)] at the target position of a copy. *)
Definition xdr_NC_fill (v : NC_var) : M io bool := xput (fill_bytes v).
End Codec.

(** ** Opening files *)

Section Open.
Context `{NC_codec} (env : sess_env).

(** The [switch (ncmode & 0x0f)] of [NCxdrfile_create]. *)
Definition open_mode (ncmode : Z) : option open_flags :=
  let m := Z.land ncmode 15 in
  if m =? NC_NOCLOBBER then Some O_RDWR_CREAT_EXCL
  else if m =? NC_CLOBBER then Some O_RDWR_CREAT_TRUNC
  else if m =? NC_WRITE then Some O_RDWR_ONLY
  else if m =? NC_NOWRITE then Some O_RDONLY_ONLY
  else None.

(** [errno] after a failed [open] that had a descriptor. *)
Definition open_errno (d : fsys) (path : string) : errno_val :=
  match fs_dir d !! path with Some _ => E_EXIST | None => E_NOENT end.

(** [NCxdrfile_create(xdrs, path, ncmode)]: the stream, or [None] for
    [-1]. *)
Definition NCxdrfile_create (path : string) (ncmode : Z) : M nc_state (option xdr_stream) :=
  match open_mode ncmode with
  | None => let! _ := sadvise NC_EINVAL in ret None
  | Some fl =>
      let! t := get_tbl in
      let! d := get_fs in
      if negb (fd_ok env t) then let! _ := put_errno E_MFILE in let! _ := nc_serror in ret None
      else
        match fs_open d path fl with
        | None => let! _ := put_errno (open_errno d path) in let! _ := nc_serror in ret None
        | Some (f, d') =>
            let! _ := put_fs d' in
            ret (Some (mk_xdr (if has_flag ncmode NC_CREAT then XDR_ENCODE else XDR_DECODE) f 0))
        end
  end.

(** [NC_new_cdf(path, mode)] (cdf.c): the stream, [flags = mode], and for
    an existing file the header decoded and the shapes computed. *)
Definition NC_new_cdf (path : string) (mode : Z) : M nc_state (option NC) :=
  let! ox := NCxdrfile_create path mode in
  match ox with
  | None => ret None
  | Some x =>
      let h := mk_NC path mode x 0 0 (-1) 0 new_file_kind None in
      if has_flag mode NC_CREAT then ret (Some h)
      else let! oh := xdr_cdf_get h in ret (oh ≫= NC_computeshapes)
  end.

(** [NC_dup_cdf(name, mode, old)] (cdf.c): a new file with the schema of
    [old], in define mode, not paired. *)
Definition NC_dup_cdf (name : string) (mode : Z) (old : NC) : M nc_state (option NC) :=
  let! ox := NCxdrfile_create name mode in
  match ox with
  | None => ret None
  | Some x =>
      ret (Some (mk_NC name (set_flag (nc_flags old) NC_INDEF) x (nc_begin_rec old)
                   (nc_recsize old) (-1) (nc_numrecs old) (nc_file_type old) (nc_vars old)))
  end.

(** [remove(path) == 0], setting [errno] on failure. *)
Definition sys_remove (path : string) : M nc_state bool :=
  let! d := get_fs in
  match fs_remove d path with
  | Some d' => let! _ := put_fs d' in ret true
  | None => let! _ := put_errno E_NOENT in ret false
  end.

(** [if (remove(path) != 0) nc_serror(...)]. *)
Definition remove_or_serror (path : string) : M nc_state unit :=
  let! ok := sys_remove path in if ok then ret tt else nc_serror.

(** [strncpy(handle->path, path, FILENAME_MAX)]. *)
Definition strncpy_path (p : string) : string := String.substring 0 FILENAME_MAX p.

(** [NC_open(path, mode)] (file.c, lines 235-295). *)
Definition NC_open (path : string) (mode : Z) : M nc_state Z :=
  let! cdfid := on_tbl (NC_open_slot (se_tbl env)) in
  if cdfid =? -1 then ret (-1)
  else
    let! oh := NC_new_cdf path mode in
    match oh with
    | None =>
        let! s := get in
        match st_errno s with
        | E_MFILE => let! _ := nc_serror in ret (-1)
        | _ =>
            let! _ :=
              if (Z.land mode 15 =? NC_CLOBBER) && negb (se_in_use env path) then
                remove_or_serror path
              else ret tt in
            ret (-1)
        end
    | Some h =>
        let! _ := on_tbl (NC_install cdfid (set_path h (strncpy_path path))) in
        ret cdfid
    end.

(** [nccreate(path, cmode)] and [ncopen(path, mode)]. *)
Definition nccreate (path : string) (cmode : Z) : M nc_state Z :=
  if has_flag cmode NC_CREAT then NC_open path cmode
  else let! _ := sadvise NC_EINVAL in ret (-1).

Definition ncopen (path : string) (mode : Z) : M nc_state Z :=
  if has_flag mode NC_CREAT then let! _ := sadvise NC_EINVAL in ret (-1)
  else NC_open path mode.
End Open.

(** ** Queries and flushes *)

Section Sync.
Context `{NC_codec}.

Definition is_hdf (h : NC) : bool :=
  match nc_file_type h with HDF_FILE => true | _ => false end.

(** [handle->xdrs->x_op = op]. *)
Definition with_op (h : NC) (op : xdr_op) : NC := set_xdrs h (set_x_op (nc_xdrs h) op).

(** [NC_indefine(cdfid, iserr)] (lines 216-228). *)
Definition NC_indefine (cdfid : Z) (iserr : bool) : M nc_state bool :=
  let! t := get_tbl in
  let! r :=
    if (0 <=? cdfid) && (cdfid <? ncdf t) then
      match cell t cdfid with
      | Some (Some h) => ret (has_flag (nc_flags h) NC_INDEF)
      | _ => undef
      end
    else ret false in
  if negb r && iserr then
    let! _ := if (cdfid <? 0) || (ncdf t <=? cdfid) then sadvise NC_EBADID
              else sadvise NC_ENOTINDEFINE in
    ret r
  else ret r.

(** [ncnobuf(cdfid)] (lines 461-473). *)
Definition ncnobuf (cdfid : Z) : M nc_state Z :=
  let! oh := on_tbl (NC_check_id cdfid) in
  match oh with None => ret (-1) | Some _ => ret 0 end.

(** The write-back of [ncclose] and [ncabort] in data mode:
    [if (flags & NC_HDIRTY) xdr_cdf ... else if (flags & NC_NDIRTY)
    xdr_numrecs ...]; [None] when the codec fails. *)
Definition NC_write_back (h : NC) : M nc_state (option NC) :=
  if has_flag (nc_flags h) NC_HDIRTY then xdr_cdf_put h
  else if has_flag (nc_flags h) NC_NDIRTY then xdr_numrecs h
  else ret (Some h).

(** The flags after the flush of [ncsync] and [ncsetfill]: both dirty
    bits cleared after a header write, [NC_NDIRTY] cleared after a record
    count write unless the file is an HDF file. *)
Definition flushed_flags (h : NC) : Z :=
  if has_flag (nc_flags h) NC_HDIRTY then clear_flags (nc_flags h) (Z.lor NC_NDIRTY NC_HDIRTY)
  else if has_flag (nc_flags h) NC_NDIRTY && negb (is_hdf h) then clear_flags (nc_flags h) NC_NDIRTY
  else nc_flags h.

Definition NC_flush (h : NC) : M nc_state (option NC) :=
  let! oh := NC_write_back h in
  ret (option_map (fun h' => set_flags h' (flushed_flags h)) oh).

(** [ncsync(cdfid)] (lines 322-373). *)
Definition ncsync (cdfid : Z) : M nc_state Z :=
  let! oh := on_tbl (NC_check_id cdfid) in
  match oh with
  | None => ret (-1)
  | Some h =>
      if has_flag (nc_flags h) NC_INDEF then let! _ := sadvise NC_EINDEFINE in ret (-1)
      else if has_flag (nc_flags h) NC_RDWR then
        let h := with_op h XDR_ENCODE in
        let! oh' := NC_flush h in
        match oh' with
        | None => let! _ := put_handle cdfid h in ret (-1)
        | Some h' => let! _ := put_handle cdfid h' in ret 0
        end
      else
        let h := with_op h XDR_DECODE in
        let! oh' := xdr_cdf_get h in
        match oh' with
        | None => let! _ := put_handle cdfid h in let! _ := nc_serror in ret (-1)
        | Some h' =>
            match NC_computeshapes h' with
            | None => let! _ := put_handle cdfid h' in ret (-1)
            | Some h'' => let! _ := put_handle cdfid h'' in ret 0
            end
        end
  end.

(** [ncsetfill(id, fillmode)] (lines 924-979): the previous mode. *)
Definition ncsetfill (id fillmode : Z) : M nc_state Z :=
  let! oh := on_tbl (NC_check_id id) in
  match oh with
  | None => ret (-1)
  | Some h =>
      if negb (has_flag (nc_flags h) NC_RDWR) then let! _ := sadvise NC_EPERM in ret (-1)
      else
        let r := if has_flag (nc_flags h) NC_NOFILL then NC_NOFILL else NC_FILL in
        if fillmode =? NC_NOFILL then
          let! _ := put_handle id (set_flags h (set_flag (nc_flags h) NC_NOFILL)) in ret r
        else if fillmode =? NC_FILL then
          if has_flag (nc_flags h) NC_NOFILL then
            let op := x_op (nc_xdrs h) in
            let h1 := if has_flag (nc_flags h) NC_RDWR then with_op h XDR_ENCODE else h in
            let! oh' := NC_flush h1 in
            match oh' with
            | None => let! _ := put_handle id h1 in ret (-1)
            | Some h2 =>
                let! _ := put_handle id (with_op (set_flags h2 (clear_flags (nc_flags h2) NC_NOFILL)) op) in
                ret r
            end
          else ret r
        else let! _ := sadvise NC_EINVAL in ret (-1)
  end.
End Sync.



(** ** Running the entry points: shared lemmas *)

(** Reduce the field updates of the session state. *)
Ltac ssimpl :=
  unfold set_tbl, set_fs, set_seed, set_errno in *;
  cbn [st_tbl st_fs st_ncopts st_seed st_errno] in *.

Section Runs.
Implicit Types (s : nc_state) (t : cdf_table NC).

Lemma set_tbl_same s : set_tbl s (st_tbl s) = s.
Proof. destruct s; reflexivity. Qed.

Lemma check_id_live t cdfid h :
  HNDLE t cdfid = Some (Some h) -> NC_check_id cdfid t = Ok (Some h) t.
Proof. intros E. unfold NC_check_id, load_handle, bind. rewrite E. reflexivity. Qed.

Lemma check_id_dead t cdfid :
  HNDLE t cdfid = Some None -> NC_check_id cdfid t = Ok None (set_ncerr t (Some NC_EBADID)).
Proof. intros E. unfold NC_check_id, load_handle, bind. rewrite E. reflexivity. Qed.

Lemma bind_check_live {R} s cdfid h (k : option NC -> M nc_state R) :
  HNDLE (st_tbl s) cdfid = Some (Some h) ->
  bind (on_tbl (NC_check_id cdfid)) k s = k (Some h) s.
Proof.
  intros E. unfold bind at 1, on_tbl. rewrite (check_id_live _ _ _ E), set_tbl_same. reflexivity.
Qed.

Lemma bind_check_dead {R} s cdfid (k : option NC -> M nc_state R) :
  HNDLE (st_tbl s) cdfid = Some None ->
  bind (on_tbl (NC_check_id cdfid)) k s = k None (set_tbl s (set_ncerr (st_tbl s) (Some NC_EBADID))).
Proof. intros E. unfold bind at 1, on_tbl. rewrite (check_id_dead _ _ E). reflexivity. Qed.

Lemma on_tbl_Ok {R} (m : M (cdf_table NC) R) s r t :
  m (st_tbl s) = Ok r t -> on_tbl m s = Ok r (set_tbl s t).
Proof. unfold on_tbl. intros ->. reflexivity. Qed.

Lemma sadvise_run {R} s e (k : unit -> M nc_state R) :
  bind (sadvise e) k s = k tt (set_tbl s (set_ncerr (st_tbl s) (Some e))).
Proof. reflexivity. Qed.

(** A live id is below the high-water mark. *)
Lemma HNDLE_live_range t cdfid h :
  HNDLE t cdfid = Some (Some h) -> 0 <= cdfid < ncdf t /\ cell t cdfid = Some (Some h).
Proof.
  unfold HNDLE. destruct (Z.leb_spec 0 cdfid), (Z.ltb_spec cdfid (ncdf t)); simpl;
    intros E; try discriminate; auto.
Qed.
(** Updating a live handle in place. *)
Lemma put_handle_live s i h h' :
  HNDLE (st_tbl s) i = Some (Some h) ->
  exists t', put_handle i h' s = Ok tt (set_tbl s t') /\
    HNDLE t' i = Some (Some h') /\ (forall j, j <> i -> HNDLE t' j = HNDLE (st_tbl s) j) /\
    ncdf t' = ncdf (st_tbl s) /\ curr_opened t' = curr_opened (st_tbl s) /\
    ncerr t' = ncerr (st_tbl s) /\
    (forall sys, table_wf sys (st_tbl s) ->
       table_wf sys t' /\ view t' = <[Z.to_nat i := Some h']> (view (st_tbl s))).
Proof.
  intros E. destruct (store_live _ _ _ h' E) as (l & Hc & Hl & Hi & Hs).
  eexists. split; [unfold put_handle, set_cell, on_tbl, lift_opt; rewrite Hs; reflexivity|].
  split; [rewrite (HNDLE_insert _ _ _ _ _ Hc Hi), decide_True by reflexivity;
          apply lookup_lt_Some in Hl; rewrite decide_True by lia; reflexivity|].
  split; [intros j Hj; rewrite (HNDLE_insert _ _ _ _ _ Hc Hi), decide_False by exact Hj; reflexivity|].
  tsimpl. split; [reflexivity|]. split; [reflexivity|]. split; [reflexivity|].
  intros sys Hwf. apply (replace_wf sys _ i h h' l Hwf Hc Hl Hi).
Qed.

Lemma putbytes_open d x bs c :
  fs_data d !! x_file x = Some c -> 0 <= x_pos x ->
  exists d' x', putbytes d x bs = Some (d', x') /\ x_file x' = x_file x /\ x_op x' = x_op x.
Proof.
  intros Hc Hp. rewrite (putbytes_spec _ _ _ _ Hc Hp). eauto.
Qed.
Lemma STASH_live s cdfid h x :
  HNDLE (st_tbl s) cdfid = Some (Some h) -> HNDLE (st_tbl s) (nc_redefid h) = Some x ->
  STASH cdfid s = Ok x s.
Proof.
  intros E Ex. destruct (HNDLE_live_range _ _ _ E) as [[H0 H1] Hc].
  unfold STASH, get_tbl, bind at 1. cbn beta.
  destruct (Z.leb_spec 0 cdfid); [|lia]. destruct (Z.ltb_spec cdfid (ncdf (st_tbl s))); [|lia].
  simpl. rewrite Hc. unfold on_tbl, load_handle. rewrite Ex, set_tbl_same. reflexivity.
Qed.
(** A stash whose [redefid] is outside the table is read from outside
    the array: [_cdfs[-1]] in the source. *)
Lemma STASH_dangling s cdfid h :
  HNDLE (st_tbl s) cdfid = Some (Some h) -> HNDLE (st_tbl s) (nc_redefid h) = None ->
  STASH cdfid s = Undef.
Proof.
  intros E Ex. destruct (HNDLE_live_range _ _ _ E) as [[H0 H1] Hc].
  unfold STASH, get_tbl, bind at 1. cbn beta.
  destruct (Z.leb_spec 0 cdfid); [|lia]. destruct (Z.ltb_spec cdfid (ncdf (st_tbl s))); [|lia].
  simpl. rewrite Hc. unfold on_tbl, load_handle. rewrite Ex. reflexivity.
Qed.

Lemma NC_indefine_live s cdfid h iserr :
  HNDLE (st_tbl s) cdfid = Some (Some h) ->
  NC_indefine cdfid iserr s =
  if negb (has_flag (nc_flags h) NC_INDEF) && iserr
  then Ok false (set_tbl s (set_ncerr (st_tbl s) (Some NC_ENOTINDEFINE)))
  else Ok (has_flag (nc_flags h) NC_INDEF) s.
Proof.
  intros E. destruct (HNDLE_live_range _ _ _ E) as [[H0 H1] Hc].
  unfold NC_indefine, get_tbl, bind at 1 2. cbn beta.
  destruct (Z.leb_spec 0 cdfid); [|lia]. destruct (Z.ltb_spec cdfid (ncdf (st_tbl s))); [|lia].
  simpl. rewrite Hc. unfold ret.
  destruct (has_flag (nc_flags h) NC_INDEF), iserr; simpl; try reflexivity.
  destruct (Z.ltb_spec cdfid 0); [lia|]. destruct (Z.leb_spec (ncdf (st_tbl s)) cdfid); [lia|].
  reflexivity.
Qed.

End Runs.

#[export] Hint Rewrite @bind_check_live @bind_check_dead using assumption : nc_rw.

Section CodecRuns.
Context `{NC_codec}.
Implicit Types (s : nc_state).

(** The codec writes succeed on a stream whose file is open; they keep
    the stream's file and direction and touch only the file system. *)
Definition write_ok s (h : NC) (oh : outcome nc_state (option NC)) : Prop :=
  exists d' x', oh = Ok (Some (set_xdrs h x')) (set_fs s d') /\
    x_file x' = x_file (nc_xdrs h) /\ x_op x' = x_op (nc_xdrs h).

Lemma xdr_cdf_put_ok s h c :
  fs_data (st_fs s) !! x_file (nc_xdrs h) = Some c -> write_ok s h (xdr_cdf_put h s).
Proof.
  intros Hc.
  destruct (putbytes_open (st_fs s) (set_x_pos (nc_xdrs h) 0) (header_bytes h) c Hc
              ltac:(simpl; lia)) as (d' & x' & Hp & Hf & Ho).
  exists d', x'. unfold xdr_cdf_put, get_fs, bind. rewrite Hp. auto.
Qed.

Lemma xdr_numrecs_ok s h c :
  fs_data (st_fs s) !! x_file (nc_xdrs h) = Some c -> write_ok s h (xdr_numrecs h s).
Proof.
  intros Hc.
  destruct (putbytes_open (st_fs s) (set_x_pos (nc_xdrs h) NC_NUMRECS_OFFSET)
              (numrecs_bytes (nc_numrecs h)) c Hc ltac:(simpl; unfold NC_NUMRECS_OFFSET; lia))
    as (d' & x' & Hp & Hf & Ho).
  exists d', x'. unfold xdr_numrecs, get_fs, bind. rewrite Hp. auto.
Qed.

Lemma NC_write_back_ok s h c :
  fs_data (st_fs s) !! x_file (nc_xdrs h) = Some c -> write_ok s h (NC_write_back h s).
Proof.
  intros Hc. unfold NC_write_back.
  destruct (has_flag _ NC_HDIRTY); [apply (xdr_cdf_put_ok _ _ _ Hc)|].
  destruct (has_flag _ NC_NDIRTY); [apply (xdr_numrecs_ok _ _ _ Hc)|].
  exists (st_fs s), (nc_xdrs h). destruct s, h; auto.
Qed.

Lemma NC_flush_ok s h c :
  fs_data (st_fs s) !! x_file (nc_xdrs h) = Some c ->
  exists d' x', NC_flush h s = Ok (Some (set_flags (set_xdrs h x') (flushed_flags h))) (set_fs s d') /\
    x_file x' = x_file (nc_xdrs h) /\ x_op x' = x_op (nc_xdrs h).
Proof.
  intros Hc. destruct (NC_write_back_ok _ _ _ Hc) as (d' & x' & Hw & Hf & Ho).
  exists d', x'. unfold NC_flush, bind. rewrite Hw. auto.
Qed.

Lemma flushed_flags_bits h :
  has_flag (flushed_flags h) NC_HDIRTY = false /\
  has_flag (flushed_flags h) NC_NDIRTY =
    has_flag (nc_flags h) NC_NDIRTY && negb (has_flag (nc_flags h) NC_HDIRTY) && is_hdf h.
Proof.
  unfold flushed_flags, NC_HDIRTY, NC_NDIRTY.
  destruct (has_flag (nc_flags h) 128) eqn:Eh; simpl.
  - rewrite andb_false_r, andb_false_l.
    unfold has_flag, clear_flags. rewrite <- !Z.land_assoc. simpl.
    rewrite !Z.land_0_r. split; reflexivity.
  - destruct (has_flag (nc_flags h) 64) eqn:En; simpl; [|auto].
    destruct (is_hdf h) eqn:Ef; simpl; [auto|].
    unfold has_flag, clear_flags in *. rewrite <- !Z.land_assoc. simpl.
    rewrite Z.land_0_r. split; [|reflexivity].
    replace (Z.land (-65) 128) with 128 by reflexivity. exact Eh.
Qed.

(** C25: A successful [ncsync] of a writable handle in data mode leaves
    [NC_HDIRTY] clear, and leaves [NC_NDIRTY] set exactly when the record
    count alone was dirty and the file is an HDF file: for HDF files the
    two dirty bits are not cleared together by a successful flush. *)
Theorem ncsync_dirty_bits s cdfid h c :
  HNDLE (st_tbl s) cdfid = Some (Some h) ->
  has_flag (nc_flags h) NC_INDEF = false -> has_flag (nc_flags h) NC_RDWR = true ->
  fs_data (st_fs s) !! x_file (nc_xdrs h) = Some c ->
  exists s' h', ncsync cdfid s = Ok 0 s' /\ HNDLE (st_tbl s') cdfid = Some (Some h') /\
    has_flag (nc_flags h') NC_HDIRTY = false /\
    has_flag (nc_flags h') NC_NDIRTY =
      has_flag (nc_flags h) NC_NDIRTY && negb (has_flag (nc_flags h) NC_HDIRTY) && is_hdf h.
Proof.
  intros E Hi Hr Hc. unfold ncsync. rewrite (bind_check_live _ _ _ _ E), Hi, Hr.
  destruct (NC_flush_ok s (with_op h XDR_ENCODE) c Hc) as (d' & x' & Hf & _ & _).
  unfold bind at 1. rewrite Hf. cbn beta iota.
  set (h' := set_flags (set_xdrs (with_op h XDR_ENCODE) x') (flushed_flags (with_op h XDR_ENCODE))).
  destruct (put_handle_live (set_fs s d') cdfid h h' E) as (t' & Hp & Ht' & _).
  unfold bind. rewrite Hp. do 2 eexists. split; [reflexivity|]. split; [exact Ht'|].
  exact (flushed_flags_bits (with_op h XDR_ENCODE)).
Qed.
End CodecRuns.

