(* ===== verification/Define.v ===== *)
(** * Entering and leaving define mode: [ncredef] and [ncabort]

    [ncredef] (file.c lines 543-617) pairs an open handle with a shadow
    on a scratch file named by [NCtempname]; [ncabort] (lines 380-456)
    drops the pair again, or, outside define mode, closes the file after
    writing back what is dirty.  The section [Define] holds both entry
    points over the session state of [Session]; the theorems say what an
    abort of a redefinition leaves behind ([ncabort_redef]), what the HDF
    shortcut of [ncredef] does to [ncabort] ([ncredef_ncabort_hdf]), and
    how [ncredef] pairs the handles ([ncredef_swap]). *)

From stdpp Require Import gmap strings.
From Stdlib Require Import Ascii.
From Stdlib Require String.
From S2P Require Import Prelude Flags Limits Table Stream Handle Layout Copy TempName Codec Session.

Open Scope Z_scope.

(** ** [ncabort], [NCtempname] in the state, [ncredef] *)

Section Define.
Context `{NC_codec} (env : sess_env).

(** [ncabort(cdfid)] (lines 380-456). *)
Definition ncabort (cdfid : Z) : M nc_state Z :=
  let! oh := on_tbl (NC_check_id cdfid) in
  match oh with
  | None => ret (-1)
  | Some h =>
      let flags := nc_flags h in
      let defining := has_flag flags (Z.lor NC_INDEF NC_CREAT) in
      let! oh1 :=
        if defining then
          if negb (has_flag flags NC_CREAT) then
            let! st := STASH cdfid in
            let! _ := NC_free_cdf st in
            let! _ := on_tbl (NC_retire (nc_redefid h)) in
            ret (Some (set_redefid h (-1)))
          else ret (Some h)
        else if has_flag flags NC_RDWR then
          let h := with_op h XDR_ENCODE in
          let! oh' := NC_write_back h in
          match oh' with
          | None => let! _ := put_handle cdfid h in ret None
          | Some h' => ret (Some h')
          end
        else ret (Some h) in
      match oh1 with
      | None => ret (-1)
      | Some h =>
          let! _ := NC_free_cdf (Some h) in
          let! _ :=
            match nc_file_type h with
            | netCDF_FILE => if defining then remove_or_serror (nc_path h) else ret tt
            | HDF_FILE => if has_flag flags NC_CREAT then remove_or_serror (nc_path h) else ret tt
            | CDF_FILE => ret tt
            end in
          let! _ := on_tbl (NC_retire cdfid) in
          ret 0
      end
  end.

(** [scratchfile = NCtempname(handle->path)], advancing the seed. *)
Definition tempname (proto : string) : M nc_state string :=
  let! s := get in
  match NCtempname (st_fs s) (se_pid env) (st_seed s) proto with
  | Some (name, sd) => let! _ := put (set_seed s sd) in ret name
  | None => undef
  end.

(** The end of [ncredef] (lines 596-616): the scratch name, the copy of
    the schema, the old handle installed under the free id [id] and the
    new one stored under [cdfid], naming [id]. *)
Definition redef_swap (cdfid id : Z) (h : NC) : M nc_state Z :=
  let! scratch := tempname (nc_path h) in
  let! onew := NC_dup_cdf env scratch NC_NOCLOBBER h in
  match onew with
  | None => let! _ := put_handle cdfid h in ret (-1)
  | Some nw =>
      let h := set_flags h (set_flag (nc_flags h) NC_INDEF) in
      let nw := set_path nw (strncpy_path scratch) in
      let! _ := on_tbl (NC_install id h) in
      let! _ := put_handle cdfid (set_redefid nw id) in
      ret 0
  end.

(** [ncredef(cdfid)] (lines 543-617). *)
Definition ncredef (cdfid : Z) : M nc_state Z :=
  let! oh := on_tbl (NC_check_id cdfid) in
  match oh with
  | None => ret (-1)
  | Some h =>
      if has_flag (nc_flags h) NC_INDEF then
        let! st := STASH cdfid in
        let! _ := match st with Some _ => sadvise NC_EINDEFINE | None => ret tt end in
        ret (-1)
      else if negb (has_flag (nc_flags h) NC_RDWR) then let! _ := sadvise NC_EPERM in ret (-1)
      else if is_hdf h then
        let! _ := put_handle cdfid (set_redefid (set_flags h (set_flag (nc_flags h) NC_INDEF)) 1) in
        ret 0
      else
        let! id := on_tbl find_free in
        let! t := get_tbl in
        if (id =? ncdf t) && (ncdf t >=? max_NC_open t) then
          let! _ := sadvise NC_ENFILE in ret (-1)
        else
          let! s := get in
          let! oh1 :=
            if has_flag (st_ncopts s) NC_NOFILL then
              let h := with_op h XDR_ENCODE in
              if has_flag (nc_flags h) NC_NDIRTY then
                let! oh' := xdr_numrecs h in
                match oh' with
                | None => let! _ := put_handle cdfid h in ret None
                | Some h' => ret (Some (set_flags h' (clear_flags (nc_flags h') NC_NDIRTY)))
                end
              else ret (Some h)
            else ret (Some h) in
          match oh1 with
          | None => ret (-1)
          | Some h => redef_swap cdfid id h
          end
  end.
End Define.

(** ** Aborting a redefinition *)

(** The effect on the file system of removing an existing name. *)
Lemma remove_or_serror_ok s p f :
  fs_dir (st_fs s) !! p = Some f ->
  remove_or_serror p s = Ok tt (set_fs s (set_fs_dir (st_fs s) (delete p (fs_dir (st_fs s))))).
Proof.
  intros E. unfold remove_or_serror, sys_remove, get_fs, bind. cbn beta.
  unfold fs_remove. rewrite E. reflexivity.
Qed.

Section AbortRedef.
Context `{NC_codec} (sys : Z).
Variables (s : nc_state) (cdfid : Z) (sh o : NC) (f : Z).
Hypothesis Hwf : table_wf sys (st_tbl s).
Hypothesis Hsh : HNDLE (st_tbl s) cdfid = Some (Some sh).
Hypothesis Ho : HNDLE (st_tbl s) (nc_redefid sh) = Some (Some o).
Hypothesis Hid : nc_redefid sh <> cdfid.
Hypothesis Hindef : has_flag (nc_flags sh) NC_INDEF = true.
Hypothesis Hcreat : has_flag (nc_flags sh) NC_CREAT = false.
Hypothesis Hty : nc_file_type sh = netCDF_FILE.
Hypothesis Hscratch : fs_dir (st_fs s) !! nc_path sh = Some f.

(** C3: Aborting a redefinition closes both ids (the caller's and the
    stash's), counts two files fewer, removes the scratch file's name and
    nothing else, and leaves the contents of every file, the old one
    included, as they were; it returns 0 and reports no error. *)
Theorem ncabort_redef :
  exists s', ncabort cdfid s = Ok 0 s' /\
    fs_data (st_fs s') = fs_data (st_fs s) /\
    fs_dir (st_fs s') = delete (nc_path sh) (fs_dir (st_fs s)) /\
    HNDLE (st_tbl s') cdfid = Some None /\ HNDLE (st_tbl s') (nc_redefid sh) = Some None /\
    (forall j, j <> cdfid -> j <> nc_redefid sh -> HNDLE (st_tbl s') j = HNDLE (st_tbl s) j) /\
    curr_opened (st_tbl s') = curr_opened (st_tbl s) - 2 /\
    table_wf sys (st_tbl s') /\ ncerr (st_tbl s') = ncerr (st_tbl s).
Proof.
  unfold ncabort. rewrite (bind_check_live _ _ _ _ Hsh). cbn beta iota.
  rewrite has_flag_lor, Hindef, Hcreat. cbn [orb negb].
  destruct (retire_HNDLE sys _ _ o Hwf Ho) as (t1 & Hr1 & Hwf1 & Hc1 & Ht1r & Ht1).
  assert (E1 : HNDLE t1 cdfid = Some (Some sh)) by (rewrite Ht1 by congruence; exact Hsh).
  destruct (retire_HNDLE sys _ _ sh Hwf1 E1) as (t2 & Hr2 & Hwf2 & Hc2 & Ht2c & Ht2).
  cbv beta iota delta [bind ret NC_free_cdf].
  rewrite (STASH_live s cdfid sh (Some o) Hsh Ho). cbv beta iota.
  rewrite (on_tbl_Ok _ s _ _ Hr1). cbv beta iota.
  cbn [nc_file_type set_redefid nc_path]. rewrite Hty.
  rewrite (remove_or_serror_ok (set_tbl s t1) (nc_path sh) f Hscratch). cbv beta iota.
  lazymatch goal with |- context [on_tbl _ ?st] => rewrite (on_tbl_Ok _ st _ _ Hr2) end.
  eexists. split; [reflexivity|]. cbn [st_tbl st_fs set_fs set_tbl set_fs_dir fs_data fs_dir].
  split; [reflexivity|]. split; [reflexivity|]. split; [exact Ht2c|].
  split; [rewrite Ht2 by congruence; exact Ht1r|].
  split; [intros j Hj1 Hj2; rewrite Ht2, Ht1 by congruence; reflexivity|].
  split; [lia|]. split; [exact Hwf2|].
  rewrite (NC_retire_ncerr _ _ _ Hr2), (NC_retire_ncerr _ _ _ Hr1). reflexivity.
Qed.
End AbortRedef.


(** ** The HDF shortcut of [ncredef] *)

Section HdfAbort.
Context `{NC_codec} (env : sess_env) (sys : Z).
Variables (s : nc_state) (cdfid : Z) (h h1 : NC).
Hypothesis Hwf : table_wf sys (st_tbl s).
Hypothesis Hh : HNDLE (st_tbl s) cdfid = Some (Some h).
Hypothesis Hhdf : is_hdf h = true.
Hypothesis Hdata : has_flag (nc_flags h) NC_INDEF = false.
Hypothesis Hrdwr : has_flag (nc_flags h) NC_RDWR = true.
Hypothesis Hcreat : has_flag (nc_flags h) NC_CREAT = false.
Hypothesis H1 : HNDLE (st_tbl s) 1 = Some (Some h1).
Hypothesis Hid : cdfid <> 1.

(** C11: [ncredef] on an HDF file sets [redefid = TRUE] (1) instead of
    stashing a copy, and [ncabort] then treats slot 1 as the stash: the
    pair closes the unrelated file open in slot 1 (its handle dropped
    without a flush) as well as the caller's, and counts two files fewer;
    the file system is not touched. *)
Theorem ncredef_ncabort_hdf :
  exists s1 s2, ncredef env cdfid s = Ok 0 s1 /\ ncabort cdfid s1 = Ok 0 s2 /\
    HNDLE (st_tbl s2) 1 = Some None /\ HNDLE (st_tbl s2) cdfid = Some None /\
    curr_opened (st_tbl s2) = curr_opened (st_tbl s) - 2 /\ st_fs s2 = st_fs s.
Proof.
  set (h' := set_redefid (set_flags h (set_flag (nc_flags h) NC_INDEF)) 1).
  destruct (put_handle_live s cdfid h h' Hh) as (t1 & Hp1 & Ht1c & Ht1 & Hn1 & Hc1 & He1 & Hw1).
  assert (Hwf1 : table_wf sys t1) by (apply (Hw1 sys Hwf)).
  assert (Er : nc_redefid h' = 1) by reflexivity.
  assert (E1 : HNDLE t1 (nc_redefid h') = Some (Some h1)) by (rewrite Er, Ht1 by congruence; exact H1).
  destruct (retire_HNDLE sys _ _ h1 Hwf1 E1) as (t2 & Hr2 & Hwf2 & Hc2 & Ht2r & Ht2).
  assert (E2 : HNDLE t2 cdfid = Some (Some h')) by (rewrite Ht2 by congruence; exact Ht1c).
  destruct (retire_HNDLE sys _ _ h' Hwf2 E2) as (t3 & Hr3 & Hwf3 & Hc3 & Ht3c & Ht3).
  exists (set_tbl s t1).
  unfold ncredef. rewrite (bind_check_live _ _ _ _ Hh). cbn beta iota.
  rewrite Hdata, Hrdwr, Hhdf. cbn [negb]. rewrite (bind_Ok _ _ _ _ _ Hp1).
  unfold ncabort. rewrite (bind_check_live (set_tbl s t1) cdfid h' _ Ht1c). cbn beta iota.
  assert (Ef : has_flag (nc_flags h') (Z.lor NC_INDEF NC_CREAT) = true).
  { rewrite has_flag_lor. subst h'. hsimpl. rewrite has_set_flag_same by discriminate. reflexivity. }
  assert (Ec : has_flag (nc_flags h') NC_CREAT = false).
  { subst h'. hsimpl. rewrite has_set_flag_other by reflexivity. exact Hcreat. }
  rewrite Ef, Ec. cbn [negb].
  cbv beta iota delta [bind ret NC_free_cdf].
  rewrite (STASH_live (set_tbl s t1) cdfid h' (Some h1) Ht1c E1). cbv beta iota.
  rewrite (on_tbl_Ok _ (set_tbl s t1) _ _ Hr2). cbv beta iota.
  assert (Et : nc_file_type (set_redefid h' (-1)) = HDF_FILE).
  { subst h'. hsimpl. unfold is_hdf in Hhdf. destruct (nc_file_type h); congruence. }
  rewrite Et. cbv beta iota.
  lazymatch goal with |- context [on_tbl _ ?st] => rewrite (on_tbl_Ok _ st _ _ Hr3) end.
  eexists. split; [reflexivity|]. split; [reflexivity|]. cbn [st_tbl st_fs set_tbl].
  split; [rewrite Ht3 by congruence; exact Ht2r|]. split; [exact Ht3c|].
  split; [lia|reflexivity].
Qed.
End HdfAbort.



(** ** The pairing [ncredef] installs *)

Section Inversions.
Context `{NC_codec} (env : sess_env).
Implicit Types (s : nc_state).

Lemma tempname_inv p s n s1 :
  tempname env p s = Ok n s1 -> st_tbl s1 = st_tbl s /\ st_fs s1 = st_fs s.
Proof.
  unfold tempname, bind, get, put, ret, undef.
  destruct (NCtempname _ _ _ _) as [[? ?]|]; intros E; [|discriminate].
  injection E as <- <-. split; reflexivity.
Qed.

(** A successful [NC_dup_cdf] with [NC_NOCLOBBER] creates a file under a
    name that did not exist and copies the schema of [old]. *)
Lemma dup_inv n old s nw s2 :
  NC_dup_cdf env n NC_NOCLOBBER old s = Ok (Some nw) s2 ->
  st_tbl s2 = st_tbl s /\ fs_dir (st_fs s) !! n = None /\
  exists f, nw = mk_NC n (set_flag (nc_flags old) NC_INDEF) (mk_xdr XDR_ENCODE f 0)
                       (nc_begin_rec old) (nc_recsize old) (-1) (nc_numrecs old)
                       (nc_file_type old) (nc_vars old) /\
    fs_dir (st_fs s2) = <[n := f]> (fs_dir (st_fs s)) /\
    fs_data (st_fs s2) = <[f := []]> (fs_data (st_fs s)).
Proof.
  unfold NC_dup_cdf, NCxdrfile_create.
  replace (open_mode NC_NOCLOBBER) with (Some O_RDWR_CREAT_EXCL) by reflexivity.
  cbv [bind get_tbl get_fs ret put_fs put_errno nc_serror sadvise on_tbl modify advise get put].
  intros E. destruct (negb (fd_ok env (st_tbl s))); [discriminate E|].
  revert E. unfold fs_open. destruct (decide (n = "")); [discriminate|].
  destruct (fs_dir (st_fs s) !! n) eqn:En; [discriminate|].
  intros E. injection E as <- <-. split; [reflexivity|]. split; [reflexivity|].
  eexists. split; [reflexivity|]. split; reflexivity.
Qed.

(** A call ending in [ret v] after an update returns [v]. *)
Lemma bind_const_ret {R} (c : M nc_state R) (v r : Z) s s' :
  bind c (fun _ => ret v) s = Ok r s' -> r = v.
Proof. unfold bind, ret. destruct (c s); intros E; [injection E as <- _; reflexivity|discriminate]. Qed.
End Inversions.

(** An allocated table holds every live id. *)
Lemma HNDLE_live_alloc {A} (t : cdf_table A) id h : HNDLE t id = Some (Some h) -> cdfs t <> None.
Proof. unfold HNDLE, cell. intros E Hn. rewrite Hn in E. destruct (_ && _); discriminate. Qed.

Section Swap.
Context `{NC_codec} (env : sess_env) (sys : Z).
Variables (s s' : nc_state) (cdfid : Z) (h : NC).
Hypothesis Hwf : table_wf sys (st_tbl s).
Hypothesis Hh : HNDLE (st_tbl s) cdfid = Some (Some h).
Hypothesis Hdata : has_flag (nc_flags h) NC_INDEF = false.
Hypothesis Hrdwr : has_flag (nc_flags h) NC_RDWR = true.
Hypothesis Hnet : is_hdf h = false.
Hypothesis Hfill : has_flag (st_ncopts s) NC_NOFILL = false.

(** C4: A successful [ncredef] on a netCDF file in data mode pairs the
    handles the other way round from the spec (section 4.3): the
    caller's id now holds the shadow, a copy of the schema in define
    mode under a fresh scratch name, whose [redefid] is a new id; the new
    id holds the old handle, flagged [NC_INDEF] and otherwise unchanged
    (its own [redefid] included, so the pairing is one-way).  The scratch
    name did not exist; it now names a new empty file, the shadow's; no
    other name or file changes, no other id changes, and one more file is
    counted open. *)
Theorem ncredef_swap :
  ncredef env cdfid s = Ok 0 s' ->
  exists id nw scratch f,
    id <> cdfid /\ 0 <= id /\
    HNDLE (st_tbl s') id = Some (Some (set_flags h (set_flag (nc_flags h) NC_INDEF))) /\
    HNDLE (st_tbl s') cdfid = Some (Some nw) /\
    nc_redefid nw = id /\ nc_path nw = strncpy_path scratch /\
    nc_flags nw = set_flag (nc_flags h) NC_INDEF /\ nc_vars nw = nc_vars h /\
    x_file (nc_xdrs nw) = f /\ fs_dir (st_fs s) !! scratch = None /\
    fs_dir (st_fs s') = <[scratch := f]> (fs_dir (st_fs s)) /\
    fs_data (st_fs s') = <[f := []]> (fs_data (st_fs s)) /\
    (forall j, j <> cdfid -> j <> id -> HNDLE (st_tbl s') j = HNDLE (st_tbl s) j) /\
    curr_opened (st_tbl s') = curr_opened (st_tbl s) + 1 /\ table_wf sys (st_tbl s').
Proof.
  intros Hrun.
  destruct (HNDLE_live _ _ _ _ Hwf Hh) as [Hc Hv].
  destruct (find_free_spec sys _ Hwf) as (id & Hff & Hid & Hlive & Hfree).
  assert (Hne : id <> cdfid).
  { intros ->. destruct (Z.ltb_spec cdfid (ncdf (st_tbl s))); [|lia].
    rewrite Hfree in Hv by lia. discriminate. }
  generalize Hrun. unfold ncredef. rewrite (bind_check_live _ _ _ _ Hh). cbn beta iota.
  rewrite Hdata, Hrdwr, Hnet. cbn [negb].
  rewrite (bind_Ok _ _ _ _ _ (on_tbl_Ok _ s _ _ Hff)), set_tbl_same.
  unfold bind at 1, get_tbl. cbn beta iota.
  destruct ((id =? ncdf (st_tbl s)) && (ncdf (st_tbl s) >=? max_NC_open (st_tbl s))) eqn:Efull.
  { intros E. apply bind_const_ret in E. discriminate. }
  unfold bind at 1, get. cbn beta iota. rewrite Hfill, bind_ret_l.
  unfold redef_swap. intros E. apply bind_inv_Ok in E as (scratch & s1 & Et & E).
  destruct (tempname_inv env _ _ _ _ Et) as [Ht1 Hf1].
  apply bind_inv_Ok in E as (onew & s2 & Ed & E).
  destruct onew as [nw|]; [|apply bind_const_ret in E; discriminate].
  destruct (dup_inv env _ _ _ _ _ Ed) as (Ht2 & Hnone & f & -> & Hd2 & Hdt2).
  rewrite Ht1 in Ht2. rewrite Hf1 in Hnone, Hd2, Hdt2.
  set (ho := set_flags h (set_flag (nc_flags h) NC_INDEF)) in *.
  assert (Hslot : slot_ok (st_tbl s2) id)
    by (rewrite Ht2; exact (find_free_slot sys _ _ Hwf (HNDLE_live_alloc _ _ _ Hh) Hff Efull)).
  destruct (install_HNDLE sys (st_tbl s2) id ho ltac:(rewrite Ht2; exact Hwf) Hslot)
    as (t3 & Hi3 & Hwf3 & Hc3 & He3 & Ht3i & Ht3).
  apply bind_inv_Ok in E as ([] & s3 & Ei & E).
  rewrite (on_tbl_Ok _ s2 _ _ Hi3) in Ei. injection Ei as <-.
  apply bind_inv_Ok in E as ([] & s4 & Ep & E). injection E as <-.
  assert (E3 : HNDLE (st_tbl (set_tbl s2 t3)) cdfid = Some (Some h))
    by (simpl; rewrite Ht3, Ht2 by congruence; exact Hh).
  lazymatch type of Ep with put_handle _ ?nw _ = _ =>
    destruct (put_handle_live _ cdfid h nw E3) as (t4 & Hp4 & Ht4c & Ht4 & _ & Hc4 & _ & Hw4) end.
  rewrite Hp4 in Ep. injection Ep as <-.
  eexists id, _, scratch, f. cbn [st_tbl st_fs set_tbl].
  split; [exact Hne|]. split; [lia|].
  split; [rewrite Ht4 by congruence; exact Ht3i|]. split; [exact Ht4c|].
  split; [reflexivity|]. split; [reflexivity|]. split; [reflexivity|]. split; [reflexivity|].
  split; [reflexivity|]. split; [exact Hnone|]. split; [exact Hd2|]. split; [exact Hdt2|].
  split; [intros j Hj1 Hj2; rewrite Ht4, Ht3, Ht2 by congruence; reflexivity|].
  split; [simpl in Hc4; rewrite Hc4, Hc3, Ht2; reflexivity|].
  apply (Hw4 sys Hwf3).
Qed.
End Swap.

