(* ===== verification/Commit.v ===== *)
(** * Committing a redefinition: [NC_endef], [ncendef], [ncclose]

    [NC_endef] (file.c lines 737-859) lays the new schema out
    ([NC_begins]), writes the header, copies the data of the old file into
    the scratch file variable by variable and record by record (filling
    the variables the old file does not have), writes the record count,
    and renames the scratch file onto the real path; [ncendef] (861-874)
    and [ncclose] (879-922) call it in define mode.  The section [Commit]
    holds these entry points over the session state of [Session].

    The copy loops append to the scratch file: [appending] says that the
    target stream stands at the end of the bytes [ct] of file [ft], and
    [fixed_image] / [records_image] are the bytes each pass appends;
    [commit_image] is the whole committed file.  [NC_endef_redef_run]
    runs the commit of a redefinition for both outcomes of [rename];
    [ncendef_commit_preserves_data] and [ncendef_rename_failure] are what
    the caller sees. *)

From stdpp Require Import gmap strings.
From Stdlib Require Import Ascii.
From Stdlib Require String.
From S2P Require Import Prelude Flags Limits Table Stream Handle Layout Copy TempName Codec Session Define.

Open Scope Z_scope.

(** ** Commit: [NC_endef] *)

Section Commit.
Context `{NC_codec} (env : sess_env).

(** The test of the first loop of [NC_endef]: the variables of the
    stash to copy from, or [None] to fill.  [stash->vars] through a
    [NULL] stash is undefined. *)
Definition copy_source (creat : bool) (stash : option NC) (ii : nat) : M io (option (list NC_var)) :=
  if creat then ret None
  else
    match stash with
    | None => undef
    | Some st =>
        ret (match nc_vars st with
             | Some svs => if (ii <? length svs)%nat then Some svs else None
             | None => None
             end)
    end.

(** [if (!(handle->flags & NC_NOFILL)) if (!xdr_NC_fill(xdrs, *vpp)) ...] *)
Definition fill_var (nofill : bool) (v : NC_var) : M io bool :=
  if nofill then ret true else xdr_NC_fill v.

(** The first pass of [NC_endef] over the non-record variables, from
    index [ii]: copy a variable the stash has, fill a new one. *)
Fixpoint endef_fixed (creat nofill : bool) (stash : option NC) (ii : nat) (vs : list NC_var)
  : M io bool :=
  match vs with
  | [] => ret true
  | v :: vs' =>
      if IS_RECVAR v then endef_fixed creat nofill stash (S ii) vs'
      else
        let! src := copy_source creat stash ii in
        let! ok := match src with
                   | Some svs => NC_vcpy svs ii
                   | None => fill_var nofill v
                   end in
        if ok then endef_fixed creat nofill stash (S ii) vs' else ret false
  end.

(** The inner loop of the second pass: the record variables of record
    [jj], from index [ii]. *)
Fixpoint endef_record (nofill : bool) (st : NC) (jj : Z) (ii : nat) (vs : list NC_var)
  : M io bool :=
  match vs with
  | [] => ret true
  | v :: vs' =>
      if negb (IS_RECVAR v) then endef_record nofill st jj (S ii) vs'
      else
        let! ok := match nc_vars st with
                   | Some svs => if (ii <? length svs)%nat then NC_reccpy svs (nc_recsize st) ii jj
                                 else fill_var nofill v
                   | None => fill_var nofill v
                   end in
        if ok then endef_record nofill st jj (S ii) vs' else ret false
  end.

(** [for (jj = 0; jj < stash->numrecs; jj++)]: records [jj] to
    [jj + n - 1]. *)
Fixpoint endef_records (nofill : bool) (st : NC) (n : nat) (jj : Z) (vs : list NC_var)
  : M io bool :=
  match n with
  | O => ret true
  | S n' =>
      let! ok := endef_record nofill st jj 0 vs in
      if ok then endef_records nofill st n' (jj + 1) vs else ret false
  end.

(** Both passes: the data of the new file. *)
Definition endef_data (creat nofill : bool) (stash : option NC) (vs : list NC_var) : M io bool :=
  let! ok := endef_fixed creat nofill stash 0 vs in
  if negb ok then ret false
  else if creat then ret true
  else
    match stash with
    | None => undef
    | Some st => endef_records nofill st (Z.to_nat (nc_numrecs st)) 0 vs
    end.

(** Run a copy on the handle's stream (target) and the stash's (source),
    with the file system and [ncerr] of the state. *)
Definition run_io {R} (tgt src : xdr_stream) (m : M io R) : M nc_state (R * io) :=
  fun s =>
    match m (mk_io (st_fs s) tgt src (ncerr (st_tbl s))) with
    | Ok r i => Ok (r, i) (set_fs (set_tbl s (set_ncerr (st_tbl s) (io_err i))) (io_fs i))
    | Undef => Undef
    end.

(** [handle->flags &= ~(NC_CREAT | NC_INDEF | NC_NDIRTY | NC_HDIRTY)]. *)
Definition endef_done (h : NC) : NC :=
  set_flags h (clear_flags (nc_flags h) (Z.lor NC_CREAT (Z.lor NC_INDEF (Z.lor NC_NDIRTY NC_HDIRTY)))).

(** [rename(from, to) == 0]. *)
Definition sys_rename (src dst : string) : M nc_state bool :=
  let! d := get_fs in
  if se_rename_ok env src dst then
    match fs_rename d src dst with
    | Some d' => let! _ := put_fs d' in ret true
    | None => let! _ := put_errno E_NOENT in ret false
    end
  else ret false.

(** The end of [NC_endef] after a redefinition (lines 790-851): record
    count, rename of the new file onto the real path, retirement of the
    old handle; or, when the rename fails, the old handle back at
    [cdfid]. *)
Definition endef_commit (cdfid : Z) (h : NC) (st : NC) : M nc_state Z :=
  let h := set_numrecs h (nc_numrecs st) in
  let! oh := xdr_numrecs h in
  match oh with
  | None => let! _ := put_handle cdfid h in ret (-1)
  | Some h =>
      let realpath := nc_path st in
      let! ok := sys_rename (nc_path h) realpath in
      if negb ok then
        let! _ := nc_serror in
        let! _ := set_cell cdfid (Some st) in
        let! _ := on_tbl (NC_retire (nc_redefid h)) in
        let! _ := NC_free_cdf (Some h) in
        ret (-1)
      else
        let! _ := NC_free_cdf (Some st) in
        let! _ := put_handle cdfid (endef_done (set_redefid (set_path h (strncpy_path realpath)) (-1))) in
        let! _ := on_tbl (NC_retire (nc_redefid h)) in
        ret 0
  end.

(** [NC_endef(cdfid, handle)] (lines 737-859). *)
Definition NC_endef (cdfid : Z) (handle : NC) : M nc_state Z :=
  let! stash := STASH cdfid in
  let h := if is_hdf handle then handle else NC_begins NC_xlen_cdf handle in
  let h := with_op h XDR_ENCODE in
  let! oh := xdr_cdf_put h in
  match oh with
  | None => let! _ := put_handle cdfid h in let! _ := nc_serror in ret (-1)
  | Some h =>
      if is_hdf h then let! _ := put_handle cdfid (endef_done h) in ret 0
      else
        match nc_vars h with
        | None => let! _ := put_handle cdfid (endef_done h) in ret 0
        | Some vs =>
            let creat := has_flag (nc_flags h) NC_CREAT in
            let nofill := has_flag (nc_flags h) NC_NOFILL in
            let src := match stash with Some st => nc_xdrs st | None => nc_xdrs h end in
            let! oi := run_io (nc_xdrs h) src (endef_data creat nofill stash vs) in
            let '(ok, i) := oi in
            let h := set_xdrs h (io_tgt i) in
            let stash := option_map (fun st => set_xdrs st (io_src i)) stash in
            let! _ := match stash with
                      | Some st => set_cell (nc_redefid h) (Some st)
                      | None => ret tt
                      end in
            if negb ok then let! _ := put_handle cdfid h in ret (-1)
            else if creat then let! _ := put_handle cdfid (endef_done h) in ret 0
            else
              match stash with
              | Some st => endef_commit cdfid h st
              | None => undef
              end
        end
  end.

(** [ncendef(cdfid)] (lines 861-874). *)
Definition ncendef (cdfid : Z) : M nc_state Z :=
  let! oh := on_tbl (NC_check_id cdfid) in
  match oh with
  | None => ret (-1)
  | Some h =>
      let! indef := NC_indefine cdfid true in
      if negb indef then ret (-1) else NC_endef cdfid h
  end.

(** The end of [ncclose]: [hdf_close] (not modelled), [NC_free_cdf], and
    the retirement of the id (lines 904-921). *)
Definition close_tail (cdfid : Z) (h : NC) : M nc_state Z :=
  let! _ := NC_free_cdf (Some h) in
  let! _ := on_tbl (NC_retire cdfid) in
  ret 0.

(** [ncclose(cdfid)] (lines 879-922). *)
Definition ncclose (cdfid : Z) : M nc_state Z :=
  let! oh := on_tbl (NC_check_id cdfid) in
  match oh with
  | None => ret (-1)
  | Some h =>
      if has_flag (nc_flags h) NC_INDEF then
        let! r := NC_endef cdfid h in
        if r =? -1 then ncabort cdfid else close_tail cdfid h
      else if has_flag (nc_flags h) NC_RDWR then
        let h := with_op h XDR_ENCODE in
        let! oh' := NC_write_back h in
        match oh' with
        | None => let! _ := put_handle cdfid h in ret (-1)
        | Some h' => close_tail cdfid h'
        end
      else close_tail cdfid h
  end.
End Commit.

Section CommitRuns.
Context `{NC_codec}.
Implicit Types (s : nc_state).

Lemma run_io_Ok {R} s tgt src (m : M io R) r i :
  m (mk_io (st_fs s) tgt src (ncerr (st_tbl s))) = Ok r i ->
  run_io tgt src m s = Ok (r, i) (set_fs (set_tbl s (set_ncerr (st_tbl s) (io_err i))) (io_fs i)).
Proof. intros E. unfold run_io. rewrite E. reflexivity. Qed.
Lemma xdr_cdf_put_empty s h :
  fs_data (st_fs s) !! x_file (nc_xdrs h) = Some [] ->
  xdr_cdf_put h s =
  Ok (Some (set_xdrs h (set_x_pos (nc_xdrs h) (Z.of_nat (length (header_bytes h))))))
     (set_fs s (set_fs_data (st_fs s) (<[x_file (nc_xdrs h) := header_bytes h]> (fs_data (st_fs s))))).
Proof.
  intros Hc. unfold xdr_cdf_put, get_fs, bind.
  rewrite (putbytes_spec (st_fs s) (set_x_pos (nc_xdrs h) 0) (header_bytes h) [] Hc) by (simpl; lia).
  simpl. rewrite write_at_nil0. reflexivity.
Qed.
Lemma xdr_numrecs_spec s h c :
  fs_data (st_fs s) !! x_file (nc_xdrs h) = Some c ->
  xdr_numrecs h s =
  Ok (Some (set_xdrs h (set_x_pos (nc_xdrs h)
                          (NC_NUMRECS_OFFSET + Z.of_nat (length (numrecs_bytes (nc_numrecs h)))))))
     (set_fs s (set_fs_data (st_fs s)
        (<[x_file (nc_xdrs h) := write_at c NC_NUMRECS_OFFSET (numrecs_bytes (nc_numrecs h))]>
           (fs_data (st_fs s))))).
Proof.
  intros Hc. unfold xdr_numrecs, get_fs, bind.
  rewrite (putbytes_spec (st_fs s) (set_x_pos (nc_xdrs h) NC_NUMRECS_OFFSET) _ c Hc)
    by (simpl; unfold NC_NUMRECS_OFFSET; lia).
  reflexivity.
Qed.
Lemma sys_rename_ok env s p q f :
  se_rename_ok env p q = true -> fs_dir (st_fs s) !! p = Some f ->
  sys_rename env p q s = Ok true (set_fs s (set_fs_dir (st_fs s) (<[q := f]> (delete p (fs_dir (st_fs s)))))).
Proof. intros Hr Hp. unfold sys_rename, get_fs, bind. rewrite Hr. unfold fs_rename. rewrite Hp. reflexivity. Qed.

Lemma sys_rename_fail env s p q :
  se_rename_ok env p q = false -> sys_rename env p q s = Ok false s.
Proof. intros Hr. unfold sys_rename, get_fs, bind. rewrite Hr. reflexivity. Qed.
End CommitRuns.


(** ** What the passes of [NC_endef] write *)

Section Images.
Context `{NC_codec}.

(** The [n] bytes at [p] of the old file, as [NC_dcpy] reads them. *)
Definition old_bytes (co : list byte) (p n : Z) : list byte := default [] (slice co p n).

(** The first pass from index [ii]: for each fixed variable, the old
    variable's bytes when the old schema has index [ii], its fill
    pattern otherwise. *)
Fixpoint fixed_image (svs : list NC_var) (co : list byte) (ii : nat) (vs : list NC_var)
  : list byte :=
  match vs with
  | [] => []
  | v :: vs' =>
      (if IS_RECVAR v then []
       else match svs !! ii with
            | Some sv => old_bytes co (var_begin sv) (var_len sv)
            | None => fill_bytes v
            end) ++ fixed_image svs co (S ii) vs'
  end.

(** Where [NC_reccpy] reads record [jj] of [sv]. *)
Definition rec_offset (sv : NC_var) (rs jj : Z) : Z := ulong (var_begin sv + ulong (rs * jj)).

(** Record [jj] of the second pass, from index [ii]. *)
Fixpoint record_image (svs : list NC_var) (rs : Z) (co : list byte) (jj : Z) (ii : nat)
    (vs : list NC_var) : list byte :=
  match vs with
  | [] => []
  | v :: vs' =>
      (if IS_RECVAR v then
         match svs !! ii with
         | Some sv => old_bytes co (rec_offset sv rs jj) (var_len sv)
         | None => fill_bytes v
         end
       else []) ++ record_image svs rs co jj (S ii) vs'
  end.

(** Records [jj] to [jj + n - 1]. *)
Fixpoint records_image (svs : list NC_var) (rs : Z) (co : list byte) (n : nat) (jj : Z)
    (vs : list NC_var) : list byte :=
  match n with
  | O => []
  | S n' => record_image svs rs co jj 0 vs ++ records_image svs rs co n' (jj + 1) vs
  end.
(** The file [NC_endef] leaves after a redefinition: the header of the
    laid-out schema, the two passes, and the record count written into
    the header. *)
Definition commit_image (sh o : NC) (co : list byte) : list byte :=
  let h := with_op (NC_begins NC_xlen_cdf sh) XDR_ENCODE in
  let vs := default [] (nc_vars h) in
  let svs := default [] (nc_vars o) in
  write_at (header_bytes h ++ fixed_image svs co 0 vs ++
            records_image svs (nc_recsize o) co (Z.to_nat (nc_numrecs o)) 0 vs)
           NC_NUMRECS_OFFSET (numrecs_bytes (nc_numrecs o)).
End Images.

(** ** Decidable conditions of a commit *)

(** The old file holds every byte the passes read: each fixed variable
    at its offset, each record of each record variable at its record
    offset. *)
Definition fixed_readable (co : list byte) (sv : NC_var) : bool :=
  (0 <=? var_begin sv) && (0 <=? var_len sv) && (var_len sv <? ULONG_MOD) &&
  bool_decide (is_Some (slice co (var_begin sv) (var_len sv))).

Definition record_readable (co : list byte) (rs nr : Z) (sv : NC_var) : bool :=
  (0 <=? var_len sv) && (var_len sv <? ULONG_MOD) &&
  forallb (fun jj => bool_decide (is_Some (slice co (rec_offset sv rs jj) (var_len sv))))
    (map Z.of_nat (seq 0 (Z.to_nat nr))).

Definition old_readable (o : NC) (co : list byte) : bool :=
  forallb (fun sv => if IS_RECVAR sv then record_readable co (nc_recsize o) (nc_numrecs o) sv
                     else fixed_readable co sv) (default [] (nc_vars o)).

(** The new schema starts with the old one (a redefinition appends). *)
Definition schema_prefix (ovs nvs : list NC_var) : bool :=
  bool_decide (map strip ovs = take (length ovs) (map strip nvs)).

(** ** Appending to the target file *)

Section Append.
Implicit Types (s : io).

Definition appending s (ft : Z) (ct : list byte) : Prop :=
  x_file (io_tgt s) = ft /\ fs_data (io_fs s) !! ft = Some ct /\
  x_pos (io_tgt s) = Z.of_nat (length ct).

(** The state after appending [bs], the source stream at [src]. *)
Definition appended s (ft : Z) (ct bs : list byte) (src : xdr_stream) : io :=
  mk_io (set_fs_data (io_fs s) (<[ft := ct ++ bs]> (fs_data (io_fs s))))
        (set_x_pos (io_tgt s) (Z.of_nat (length (ct ++ bs)))) src (io_err s).

Lemma appended_appending s ft ct bs src :
  appending s ft ct -> appending (appended s ft ct bs src) ft (ct ++ bs).
Proof.
  intros (Hf & _). unfold appending, appended. simpl. split; [exact Hf|].
  split; [apply lookup_insert_eq|]. reflexivity.
Qed.

Lemma appended_appended s ft ct a b src1 src2 :
  appended (appended s ft ct a src1) ft (ct ++ a) b src2 = appended s ft ct (a ++ b) src2.
Proof.
  unfold appended, set_fs_data, set_x_pos. simpl. rewrite insert_insert_eq, app_assoc. reflexivity.
Qed.

Lemma appended_nil s ft ct : appending s ft ct -> appended s ft ct [] (io_src s) = s.
Proof.
  intros (Hf & Hc & Hp). destruct s as [[dir data nx] [op f p] src err]. simpl in *. subst.
  unfold appended, set_fs_data, set_x_pos. simpl. rewrite app_nil_r, insert_id by exact Hc.
  reflexivity.
Qed.

Lemma appended_contents s ft ct bs src f :
  f <> ft -> contents (io_fs (appended s ft ct bs src)) f = contents (io_fs s) f.
Proof. intros Hne. unfold contents, appended. simpl. rewrite lookup_insert_ne; auto. Qed.

Lemma xput_append s ft ct bs :
  appending s ft ct -> xput bs s = Ok true (appended s ft ct bs (io_src s)).
Proof.
  intros (Hf & Hc & Hp). unfold xput. subst ft.
  rewrite (putbytes_spec _ _ _ _ Hc) by lia. rewrite Hp, write_at_end.
  unfold appended. rewrite length_app, Nat2Z.inj_add. reflexivity.
Qed.

(** A seek of the source to [p] followed by a copy of [n] bytes. *)
Lemma copy_append s ft ct p n bs :
  appending s ft ct -> x_file (io_src s) <> ft -> 0 <= p -> 0 <= n < ULONG_MOD ->
  slice (contents (io_fs s) (x_file (io_src s))) p n = Some bs ->
  (let! ok := xsetpos_src p in
   if ok then NC_dcpy n else let! _ := io_advise NC_EXDR in ret false) s =
  Ok true (appended s ft ct bs (set_x_pos (io_src s) (p + n))).
Proof.
  intros (Hf & Hc & Hpos) Hne Hp Hn Hsl.
  rewrite (seek_then_copy s p n bs ct); [|exact Hp|exact Hn|].
  - unfold copy_post, appended, with_src_pos. simpl. subst ft. rewrite Hpos, write_at_end.
    pose proof (slice_length _ _ _ _ Hsl) as Hl.
    rewrite length_app, Nat2Z.inj_add, Hl, Z2Nat.id by lia. reflexivity.
  - unfold copy_ok, with_src_pos. simpl. subst ft. repeat split; auto. lia.
Qed.
End Append.

#[export] Hint Resolve appended_appending : nc.

(** ** The passes of [NC_endef] in fill mode *)

Section Passes.
Context `{NC_codec_ok}.
Variables (st : NC) (svs : list NC_var) (co : list byte) (ft : Z).
Hypothesis Hsvs : nc_vars st = Some svs.

(** Every fixed variable of the old schema can be read in the old file. *)
Hypothesis Hfixed_ok : forall i sv, svs !! i = Some sv -> IS_RECVAR sv = false ->
  0 <= var_begin sv /\ 0 <= var_len sv < ULONG_MOD /\ slice co (var_begin sv) (var_len sv) <> None.

(** The new variables at indices of the old schema are of the same
    class (fixed or record) as the old ones. *)
Definition same_class (ii : nat) (vs : list NC_var) : Prop :=
  forall i v sv, vs !! i = Some v -> svs !! (ii + i)%nat = Some sv -> IS_RECVAR sv = IS_RECVAR v.

Lemma same_class_tail ii v vs : same_class ii (v :: vs) -> same_class (S ii) vs.
Proof. intros Hs i w sv Hw Hsv. apply (Hs (S i)); [exact Hw|]. rewrite <- Hsv. f_equal. lia. Qed.

(** The source keeps its file, and that file keeps the old bytes. *)
Definition reading (s : io) : Prop :=
  x_file (io_src s) <> ft /\ contents (io_fs s) (x_file (io_src s)) = co.

Lemma reading_appended s ct bs src :
  reading s -> x_file src = x_file (io_src s) -> reading (appended s ft ct bs src).
Proof.
  intros (Hne & Hco) Hf. split.
  - change (x_file src <> ft). rewrite Hf. exact Hne.
  - change (contents (io_fs (appended s ft ct bs src)) (x_file src) = co).
    rewrite Hf, appended_contents by exact Hne. exact Hco.
Qed.

Lemma endef_fixed_run ii vs s ct :
  appending s ft ct -> reading s -> same_class ii vs ->
  exists src, x_file src = x_file (io_src s) /\
    endef_fixed false false (Some st) ii vs s = Ok true (appended s ft ct (fixed_image svs co ii vs) src).
Proof.
  revert ii s ct. induction vs as [|v vs IH]; intros ii s ct Ha Hr Hs.
  { exists (io_src s). split; [reflexivity|]. simpl. rewrite appended_nil by exact Ha. reflexivity. }
  cbn [endef_fixed fixed_image]. destruct (IS_RECVAR v) eqn:Ev.
  { rewrite app_nil_l. apply IH; auto. eapply same_class_tail; eauto. }
  unfold copy_source, bind at 1, ret at 1. cbn beta. rewrite Hsvs.
  destruct (svs !! ii) as [sv|] eqn:Esv.
  - assert (Hlt : (ii < length svs)%nat) by (apply lookup_lt_Some in Esv; exact Esv).
    destruct (Nat.ltb_spec ii (length svs)); [|lia].
    assert (Ec : IS_RECVAR sv = false) by (rewrite (Hs 0%nat v sv) by (rewrite ?Nat.add_0_r; auto); exact Ev).
    destruct (Hfixed_ok ii sv Esv Ec) as (Hb & Hl & Hsl).
    destruct (slice co (var_begin sv) (var_len sv)) as [bs|] eqn:Ebs; [|congruence].
    destruct Hr as [Hne Hco].
    assert (Hcp := copy_append s ft ct (var_begin sv) (var_len sv) bs Ha Hne Hb Hl
                     ltac:(rewrite Hco; exact Ebs)).
    unfold bind at 1. unfold NC_vcpy. rewrite Esv. rewrite Hcp. cbn iota.
    destruct (IH (S ii) (appended s ft ct bs (set_x_pos (io_src s) (var_begin sv + var_len sv)))
                (ct ++ bs)) as (src & Hsrc & Hrun).
    + apply appended_appending, Ha.
    + apply reading_appended; [split; assumption|reflexivity].
    + eapply same_class_tail; eauto.
    + exists src. split; [rewrite Hsrc; reflexivity|]. rewrite Hrun, appended_appended.
      unfold old_bytes. rewrite Ebs. reflexivity.
  - destruct (Nat.ltb_spec ii (length svs)) as [Hlt|].
    { apply lookup_lt_is_Some_2 in Hlt. rewrite Esv in Hlt. destruct Hlt; discriminate. }
    unfold bind at 1, fill_var, xdr_NC_fill. rewrite (xput_append _ _ _ _ Ha). cbn iota.
    destruct (IH (S ii) (appended s ft ct (fill_bytes v) (io_src s)) (ct ++ fill_bytes v))
      as (src & Hsrc & Hrun).
    + apply appended_appending, Ha.
    + apply reading_appended; [exact Hr|reflexivity].
    + eapply same_class_tail; eauto.
    + exists src. split; [exact Hsrc|]. rewrite Hrun, appended_appended. reflexivity.
Qed.
(** Every record of every record variable of the old schema can be read. *)
Hypothesis Hrec_ok : forall i sv jj, svs !! i = Some sv -> IS_RECVAR sv = true ->
  0 <= jj < nc_numrecs st ->
  0 <= var_len sv < ULONG_MOD /\ slice co (rec_offset sv (nc_recsize st) jj) (var_len sv) <> None.

Lemma endef_record_run jj ii vs s ct :
  0 <= jj < nc_numrecs st -> appending s ft ct -> reading s -> same_class ii vs ->
  exists src, x_file src = x_file (io_src s) /\
    endef_record false st jj ii vs s =
    Ok true (appended s ft ct (record_image svs (nc_recsize st) co jj ii vs) src).
Proof.
  intros Hjj. revert ii s ct. induction vs as [|v vs IH]; intros ii s ct Ha Hr Hs.
  { exists (io_src s). split; [reflexivity|]. simpl. rewrite appended_nil by exact Ha. reflexivity. }
  cbn [endef_record record_image]. destruct (IS_RECVAR v) eqn:Ev; cbn [negb]; cbn iota beta.
  2: { rewrite app_nil_l. apply IH; auto. eapply same_class_tail; eauto. }
  rewrite Hsvs. destruct (svs !! ii) as [sv|] eqn:Esv.
  - assert (Hlt : (ii < length svs)%nat) by (apply lookup_lt_Some in Esv; exact Esv).
    destruct (Nat.ltb_spec ii (length svs)); [|lia].
    assert (Ec : IS_RECVAR sv = true) by (rewrite (Hs 0%nat v sv) by (rewrite ?Nat.add_0_r; auto); exact Ev).
    destruct (Hrec_ok ii sv jj Esv Ec Hjj) as (Hl & Hsl).
    destruct (slice co (rec_offset sv (nc_recsize st) jj) (var_len sv)) as [bs|] eqn:Ebs; [|congruence].
    destruct Hr as [Hne Hco].
    assert (Hcp := copy_append s ft ct (rec_offset sv (nc_recsize st) jj) (var_len sv) bs Ha Hne
                     ltac:(apply ulong_range) Hl ltac:(rewrite Hco; exact Ebs)).
    unfold bind at 1. unfold NC_reccpy. rewrite Esv. unfold rec_offset in Hcp. rewrite Hcp. cbn iota.
    destruct (IH (S ii) (appended s ft ct bs (set_x_pos (io_src s)
               (ulong (var_begin sv + ulong (nc_recsize st * jj)) + var_len sv))) (ct ++ bs))
      as (src & Hsrc & Hrun).
    + apply appended_appending, Ha.
    + apply reading_appended; [split; assumption|reflexivity].
    + eapply same_class_tail; eauto.
    + exists src. split; [rewrite Hsrc; reflexivity|]. rewrite Hrun, appended_appended.
      unfold old_bytes. rewrite Ebs. reflexivity.
  - destruct (Nat.ltb_spec ii (length svs)) as [Hlt|].
    { apply lookup_lt_is_Some_2 in Hlt. rewrite Esv in Hlt. destruct Hlt; discriminate. }
    unfold bind at 1, fill_var, xdr_NC_fill. rewrite (xput_append _ _ _ _ Ha). cbn iota.
    destruct (IH (S ii) (appended s ft ct (fill_bytes v) (io_src s)) (ct ++ fill_bytes v))
      as (src & Hsrc & Hrun).
    + apply appended_appending, Ha.
    + apply reading_appended; [exact Hr|reflexivity].
    + eapply same_class_tail; eauto.
    + exists src. split; [exact Hsrc|]. rewrite Hrun, appended_appended. reflexivity.
Qed.

Lemma endef_records_run n jj vs s ct :
  0 <= jj -> jj + Z.of_nat n <= nc_numrecs st -> appending s ft ct -> reading s -> same_class 0 vs ->
  exists src, x_file src = x_file (io_src s) /\
    endef_records false st n jj vs s =
    Ok true (appended s ft ct (records_image svs (nc_recsize st) co n jj vs) src).
Proof.
  revert jj s ct. induction n as [|n IH]; intros jj s ct Hj Hn Ha Hr Hs.
  { exists (io_src s). split; [reflexivity|]. simpl. rewrite appended_nil by exact Ha. reflexivity. }
  cbn [endef_records records_image].
  destruct (endef_record_run jj 0 vs s ct ltac:(lia) Ha Hr Hs) as (src1 & Hsrc1 & Hrun1).
  unfold bind at 1. rewrite Hrun1. cbn iota.
  destruct (IH (jj + 1) (appended s ft ct (record_image svs (nc_recsize st) co jj 0 vs) src1)
              (ct ++ record_image svs (nc_recsize st) co jj 0 vs)) as (src & Hsrc & Hrun).
  - lia.
  - lia.
  - apply appended_appending, Ha.
  - apply reading_appended; [exact Hr|exact Hsrc1].
  - exact Hs.
  - exists src. split; [rewrite Hsrc; exact Hsrc1|]. rewrite Hrun, appended_appended. reflexivity.
Qed.
Lemma endef_data_run vs s ct :
  0 <= nc_numrecs st -> appending s ft ct -> reading s -> same_class 0 vs ->
  exists src, x_file src = x_file (io_src s) /\
    endef_data false false (Some st) vs s =
    Ok true (appended s ft ct (fixed_image svs co 0 vs ++
                               records_image svs (nc_recsize st) co (Z.to_nat (nc_numrecs st)) 0 vs) src).
Proof.
  intros Hn Ha Hr Hs. unfold endef_data.
  destruct (endef_fixed_run 0 vs s ct Ha Hr Hs) as (src1 & Hsrc1 & Hrun1).
  unfold bind at 1. rewrite Hrun1. cbn iota. cbn [negb].
  destruct (endef_records_run (Z.to_nat (nc_numrecs st)) 0 vs
              (appended s ft ct (fixed_image svs co 0 vs) src1) (ct ++ fixed_image svs co 0 vs))
    as (src & Hsrc & Hrun).
  - lia.
  - lia.
  - apply appended_appending, Ha.
  - apply reading_appended; [exact Hr|exact Hsrc1].
  - exact Hs.
  - exists src. split; [rewrite Hsrc; exact Hsrc1|]. rewrite Hrun, appended_appended. reflexivity.
Qed.
End Passes.

(** ** Where the passes put each variable *)

Section ImageLayout.
Context `{NC_codec_ok}.
Variables (svs : list NC_var) (co : list byte) (rs nr : Z).

(** The new variables from index [ii] on have the shape of the old
    variables at the same indices. *)
Definition same_shape (ii : nat) (vs : list NC_var) : Prop :=
  forall i v sv, vs !! i = Some v -> svs !! (ii + i)%nat = Some sv -> strip sv = strip v.

Hypothesis Hfix_read : forall i sv, svs !! i = Some sv -> IS_RECVAR sv = false ->
  slice co (var_begin sv) (var_len sv) <> None.
Hypothesis Hrec_read : forall i sv jj, svs !! i = Some sv -> IS_RECVAR sv = true ->
  0 <= jj < nr -> slice co (rec_offset sv rs jj) (var_len sv) <> None.

(** What the passes write for variable [ii] (in record [jj]). *)
Definition fixed_piece (ii : nat) (v : NC_var) : list byte :=
  match svs !! ii with Some sv => old_bytes co (var_begin sv) (var_len sv) | None => fill_bytes v end.
Definition rec_piece (jj : Z) (ii : nat) (v : NC_var) : list byte :=
  match svs !! ii with
  | Some sv => old_bytes co (rec_offset sv rs jj) (var_len sv)
  | None => fill_bytes v
  end.

Lemma same_shape_tail ii v vs : same_shape ii (v :: vs) -> same_shape (S ii) vs.
Proof. intros Hs i w sv Hw Hsv. apply (Hs (S i)); [exact Hw|]. rewrite <- Hsv. f_equal. lia. Qed.

Lemma same_shape_head ii v vs sv : same_shape ii (v :: vs) -> svs !! ii = Some sv -> strip sv = strip v.
Proof. intros Hs E. apply (Hs 0%nat); [reflexivity|]. rewrite Nat.add_0_r. exact E. Qed.

Lemma same_shape_take ii k vs : same_shape ii vs -> same_shape ii (take k vs).
Proof. intros Hs i v sv Hv. apply lookup_take_Some in Hv. apply Hs, Hv. Qed.

Lemma same_shape_drop ii k vs : same_shape ii vs -> same_shape (ii + k) (drop k vs).
Proof.
  intros Hs i v sv Hv Hsv. rewrite lookup_drop in Hv. apply (Hs (k + i)%nat v sv Hv).
  rewrite <- Hsv. f_equal. lia.
Qed.

Lemma old_bytes_length p n bs : slice co p n = Some bs -> length (old_bytes co p n) = Z.to_nat n.
Proof. intros E. unfold old_bytes. rewrite E. apply (slice_length _ _ _ _ E). Qed.

Lemma strip_len v w : strip v = strip w -> var_len v = var_len w.
Proof. intros E. apply (f_equal var_len) in E. exact E. Qed.
Lemma strip_class v w : strip v = strip w -> IS_RECVAR v = IS_RECVAR w.
Proof. intros E. apply (f_equal IS_RECVAR) in E. exact E. Qed.

Lemma fixed_piece_length ii v vs :
  same_shape ii (v :: vs) -> IS_RECVAR v = false -> length (fixed_piece ii v) = Z.to_nat (var_len v).
Proof.
  intros Hs Hr. unfold fixed_piece. destruct (svs !! ii) as [sv|] eqn:E; [|apply fill_length].
  pose proof (same_shape_head _ _ _ _ Hs E) as Hst. rewrite <- (strip_len _ _ Hst).
  rewrite <- (strip_class _ _ Hst) in Hr. specialize (Hfix_read ii sv E Hr).
  destruct (slice co (var_begin sv) (var_len sv)) eqn:Es; [|congruence].
  apply (old_bytes_length _ _ _ Es).
Qed.

Lemma rec_piece_length jj ii v vs :
  same_shape ii (v :: vs) -> IS_RECVAR v = true -> 0 <= jj < nr ->
  length (rec_piece jj ii v) = Z.to_nat (var_len v).
Proof.
  intros Hs Hr Hj. unfold rec_piece. destruct (svs !! ii) as [sv|] eqn:E; [|apply fill_length].
  pose proof (same_shape_head _ _ _ _ Hs E) as Hst. rewrite <- (strip_len _ _ Hst).
  rewrite <- (strip_class _ _ Hst) in Hr. specialize (Hrec_read ii sv jj E Hr Hj).
  destruct (slice co (rec_offset sv rs jj) (var_len sv)) eqn:Es; [|congruence].
  apply (old_bytes_length _ _ _ Es).
Qed.

Lemma fixed_image_app ii l1 l2 :
  fixed_image svs co ii (l1 ++ l2) = fixed_image svs co ii l1 ++ fixed_image svs co (ii + length l1) l2.
Proof.
  revert ii. induction l1 as [|v l1 IH]; intros ii; simpl; [rewrite Nat.add_0_r; reflexivity|].
  rewrite IH, app_assoc. do 2 f_equal. lia.
Qed.

Lemma record_image_app jj ii l1 l2 :
  record_image svs rs co jj ii (l1 ++ l2) =
  record_image svs rs co jj ii l1 ++ record_image svs rs co jj (ii + length l1) l2.
Proof.
  revert ii. induction l1 as [|v l1 IH]; intros ii; simpl; [rewrite Nat.add_0_r; reflexivity|].
  rewrite IH, app_assoc. do 2 f_equal. lia.
Qed.

(** Each pass writes exactly the lengths of the variables it covers. *)
Lemma fixed_image_length ii vs :
  same_shape ii vs -> Forall (fun v => 0 <= var_len v) vs ->
  Z.of_nat (length (fixed_image svs co ii vs)) = sum_len (fixed_vars vs).
Proof.
  revert ii. induction vs as [|v vs IH]; intros ii Hs Hnn; [reflexivity|].
  inversion Hnn as [|? ? Hv Hnn']. subst. cbn [fixed_image]. rewrite fixed_vars_cons, length_app.
  rewrite Nat2Z.inj_add, (IH (S ii)) by eauto using same_shape_tail.
  destruct (IS_RECVAR v) eqn:Er; [reflexivity|].
  fold (fixed_piece ii v). rewrite (fixed_piece_length ii v vs Hs Er), sum_len_cons. lia.
Qed.

Lemma record_image_length jj ii vs :
  same_shape ii vs -> Forall (fun v => 0 <= var_len v) vs -> 0 <= jj < nr ->
  Z.of_nat (length (record_image svs rs co jj ii vs)) = sum_len (rec_vars vs).
Proof.
  revert ii. induction vs as [|v vs IH]; intros ii Hs Hnn Hj; [reflexivity|].
  inversion Hnn as [|? ? Hv Hnn']. subst. cbn [record_image]. rewrite rec_vars_cons, length_app.
  rewrite Nat2Z.inj_add, (IH (S ii)) by eauto using same_shape_tail.
  destruct (IS_RECVAR v) eqn:Er; [|reflexivity].
  fold (rec_piece jj ii v). rewrite (rec_piece_length jj ii v vs Hs Er Hj), sum_len_cons. lia.
Qed.

Lemma records_image_split n k jj vs :
  (k <= n)%nat ->
  records_image svs rs co n jj vs =
  records_image svs rs co k jj vs ++ records_image svs rs co (n - k) (jj + Z.of_nat k) vs.
Proof.
  revert n jj. induction k as [|k IH]; intros n jj Hk.
  - rewrite Z.add_0_r, Nat.sub_0_r. reflexivity.
  - destruct n as [|n]; [lia|]. simpl. rewrite (IH n (jj + 1)) by lia. rewrite app_assoc.
    replace (jj + 1 + Z.of_nat k) with (jj + Z.of_nat (S k)) by lia. reflexivity.
Qed.

Lemma records_image_length k jj vs :
  same_shape 0 vs -> Forall (fun v => 0 <= var_len v) vs -> 0 <= jj -> jj + Z.of_nat k <= nr ->
  Z.of_nat (length (records_image svs rs co k jj vs)) = Z.of_nat k * sum_len (rec_vars vs).
Proof.
  revert jj. induction k as [|k IH]; intros jj Hs Hnn Hj Hk; [reflexivity|].
  simpl. rewrite length_app, Nat2Z.inj_add, (record_image_length jj 0 vs Hs Hnn) by lia.
  rewrite (IH (jj + 1) Hs Hnn) by lia. lia.
Qed.

(** The bytes of fixed variable [i] sit at the sum of the lengths of the
    fixed variables before it. *)
Lemma slice_fixed_image pre post vs i v :
  same_shape 0 vs -> Forall (fun v => 0 <= var_len v) vs -> vs !! i = Some v -> IS_RECVAR v = false ->
  slice (pre ++ fixed_image svs co 0 vs ++ post)
        (Z.of_nat (length pre) + sum_len (fixed_vars (take i vs))) (var_len v) =
  Some (fixed_piece i v).
Proof.
  intros Hs Hnn Hv Hr.
  assert (Hi : (i < length vs)%nat) by (apply lookup_lt_Some in Hv; exact Hv).
  assert (Hs' : same_shape i (v :: drop (S i) vs)).
  { rewrite <- (drop_S _ _ _ Hv). replace i with (0 + i)%nat at 1 by lia. apply same_shape_drop, Hs. }
  assert (Hlv : 0 <= var_len v) by (eapply Forall_lookup_1 in Hnn; eauto).
  apply (slice_app_mid_at (pre ++ fixed_image svs co 0 (take i vs)) (fixed_piece i v)
           (fixed_image svs co (S i) (drop (S i) vs) ++ post)).
  - rewrite <- (take_drop i vs) at 1. rewrite fixed_image_app, (drop_S _ _ _ Hv), length_take, Nat.min_l by lia.
    cbn [fixed_image Nat.add]. rewrite Hr. rewrite <- !app_assoc. reflexivity.
  - rewrite length_app, Nat2Z.inj_add, fixed_image_length by (auto using same_shape_take, Forall_take).
    reflexivity.
  - rewrite (fixed_piece_length i v (drop (S i) vs) Hs' Hr), Z2Nat.id by lia. reflexivity.
Qed.

(** The bytes of record variable [i] in record [k] sit after [k] whole
    records and the record variables before it. *)
Lemma slice_records_image pre post n vs i v k :
  same_shape 0 vs -> Forall (fun v => 0 <= var_len v) vs -> vs !! i = Some v -> IS_RECVAR v = true ->
  (k < n)%nat -> Z.of_nat n <= nr ->
  slice (pre ++ records_image svs rs co n 0 vs ++ post)
        (Z.of_nat (length pre) + Z.of_nat k * sum_len (rec_vars vs) + sum_len (rec_vars (take i vs)))
        (var_len v) =
  Some (rec_piece (Z.of_nat k) i v).
Proof.
  intros Hs Hnn Hv Hr Hk Hn.
  assert (Hi : (i < length vs)%nat) by (apply lookup_lt_Some in Hv; exact Hv).
  assert (Hs' : same_shape i (v :: drop (S i) vs)).
  { rewrite <- (drop_S _ _ _ Hv). replace i with (0 + i)%nat at 1 by lia. apply same_shape_drop, Hs. }
  assert (Hlv : 0 <= var_len v) by (eapply Forall_lookup_1 in Hnn; eauto).
  assert (Hj : 0 <= Z.of_nat k < nr) by lia.
  destruct (n - k)%nat as [|m] eqn:Em; [lia|].
  apply (slice_app_mid_at
           (pre ++ records_image svs rs co k 0 vs ++ record_image svs rs co (Z.of_nat k) 0 (take i vs))
           (rec_piece (Z.of_nat k) i v)
           (record_image svs rs co (Z.of_nat k) (S i) (drop (S i) vs) ++
            records_image svs rs co m (Z.of_nat k + 1) vs ++ post)).
  - rewrite (records_image_split n k 0 vs) by lia. rewrite Em. cbn [records_image]. rewrite Z.add_0_l.
    rewrite <- (take_drop i vs) at 2. rewrite record_image_app, (drop_S _ _ _ Hv), length_take, Nat.min_l by lia.
    cbn [record_image Nat.add]. rewrite Hr. rewrite <- !app_assoc. reflexivity.
  - rewrite !length_app, !Nat2Z.inj_add, (records_image_length k 0 vs Hs Hnn) by lia.
    rewrite record_image_length by (auto using same_shape_take, Forall_take). lia.
  - rewrite (rec_piece_length (Z.of_nat k) i v (drop (S i) vs) Hs' Hr Hj), Z2Nat.id by lia. reflexivity.
Qed.
End ImageLayout.

(** ** From the decidable conditions to the hypotheses of the passes *)

Section Reflect.
Context `{NC_codec}.

Lemma forallb_lookup {A} (f : A -> bool) l i x : forallb f l = true -> l !! i = Some x -> f x = true.
Proof.
  intros Hf Hi. apply forallb_forall with (x := x) in Hf; [exact Hf|].
  apply list_elem_of_In. eapply list_elem_of_lookup_2; eauto.
Qed.

Lemma old_readable_fixed o ovs co :
  nc_vars o = Some ovs -> old_readable o co = true ->
  forall i sv, ovs !! i = Some sv -> IS_RECVAR sv = false ->
  0 <= var_begin sv /\ 0 <= var_len sv < ULONG_MOD /\ slice co (var_begin sv) (var_len sv) <> None.
Proof.
  intros Hv Hr i sv Hi Hc. unfold old_readable in Hr. rewrite Hv in Hr. change (forallb (fun sv => if IS_RECVAR sv then record_readable co (nc_recsize o) (nc_numrecs o) sv else fixed_readable co sv) ovs = true) in Hr.
  pose proof (forallb_lookup _ _ _ _ Hr Hi) as Hs. cbv beta in Hs. rewrite Hc in Hs. unfold fixed_readable in Hs.
  repeat rewrite andb_true_iff in Hs. destruct Hs as [[[H1 H2] H3] H4].
  apply Z.leb_le in H1, H2. apply Z.ltb_lt in H3. apply bool_decide_eq_true in H4.
  destruct H4 as [x Hx]. rewrite Hx. split; [lia|]. split; [lia|discriminate].
Qed.

Lemma old_readable_rec o ovs co :
  nc_vars o = Some ovs -> old_readable o co = true ->
  forall i sv jj, ovs !! i = Some sv -> IS_RECVAR sv = true -> 0 <= jj < nc_numrecs o ->
  0 <= var_len sv < ULONG_MOD /\ slice co (rec_offset sv (nc_recsize o) jj) (var_len sv) <> None.
Proof.
  intros Hv Hr i sv jj Hi Hc Hj. unfold old_readable in Hr. rewrite Hv in Hr. change (forallb (fun sv => if IS_RECVAR sv then record_readable co (nc_recsize o) (nc_numrecs o) sv else fixed_readable co sv) ovs = true) in Hr.
  pose proof (forallb_lookup _ _ _ _ Hr Hi) as Hs. cbv beta in Hs. rewrite Hc in Hs. unfold record_readable in Hs.
  repeat rewrite andb_true_iff in Hs. destruct Hs as [[H1 H2] H3].
  apply Z.leb_le in H1. apply Z.ltb_lt in H2. split; [lia|].
  assert (Hin : (map Z.of_nat (seq 0 (Z.to_nat (nc_numrecs o)))) !! Z.to_nat jj = Some jj).
  { rewrite list_lookup_fmap, lookup_seq_lt by lia. simpl. f_equal. lia. }
  pose proof (forallb_lookup _ _ _ _ H3 Hin) as Hj'. apply bool_decide_eq_true in Hj'.
  destruct Hj' as [x Hx]. rewrite Hx. discriminate.
Qed.

Lemma schema_prefix_shape ovs nvs :
  schema_prefix ovs nvs = true -> same_shape ovs 0 nvs.
Proof.
  intros Hp i v sv Hv Hsv. apply bool_decide_eq_true in Hp. simpl in Hsv.
  apply (f_equal (fun l => l !! i)) in Hp. rewrite list_lookup_fmap, Hsv in Hp. simpl in Hp.
  rewrite lookup_take_lt in Hp by (apply lookup_lt_Some in Hsv; lia).
  rewrite list_lookup_fmap, Hv in Hp. simpl in Hp. injection Hp as Hp. unfold strip, set_var_begin.
  congruence.
Qed.

Lemma same_shape_class svs vs : same_shape svs 0 vs -> same_class svs 0 vs.
Proof. intros Hs i v sv Hv Hsv. apply strip_class. apply (Hs i v sv Hv Hsv). Qed.
End Reflect.

(** ** Where the committed file holds each variable *)

Section CommitImage.
Context `{NC_codec_ok}.
Variables (sh o : NC) (nvs ovs : list NC_var) (co : list byte).
Hypothesis Hnv : nc_vars sh = Some nvs.
Hypothesis Hov : nc_vars o = Some ovs.
Hypothesis Hshape : same_shape ovs 0 nvs.
Hypothesis Hread : old_readable o co = true.
Hypothesis Hnn : Forall (fun v => 0 <= var_len v) nvs.
Hypothesis Hfit : NC_xlen_cdf sh + sum_len nvs < ULONG_MOD.

(** The laid-out variables of the shadow. *)
Definition laid_out : list NC_var :=
  imap (fun i v => set_var_begin v (ref_begin (ulong (NC_xlen_cdf sh)) nvs i v)) nvs.

Lemma laid_out_vars : nc_vars (NC_begins NC_xlen_cdf sh) = Some laid_out.
Proof. apply NC_begins_vars, Hnv. Qed.

Lemma laid_out_strip : map strip laid_out = map strip nvs.
Proof. exact (map_strip_begins _ (fun _ => false) nvs). Qed.

Lemma laid_out_lookup i v :
  laid_out !! i = Some v ->
  exists w, nvs !! i = Some w /\ v = set_var_begin w (ref_begin (ulong (NC_xlen_cdf sh)) nvs i w).
Proof.
  unfold laid_out. rewrite list_lookup_imap. destruct (nvs !! i) as [w|]; [|discriminate].
  injection 1 as <-. eauto.
Qed.

Lemma laid_out_shape : same_shape ovs 0 laid_out.
Proof.
  intros i v sv Hv Hsv. destruct (laid_out_lookup i v Hv) as (w & Hw & ->).
  rewrite strip_set_begin. exact (Hshape i w sv Hw Hsv).
Qed.

Lemma laid_out_nonneg : Forall (fun v => 0 <= var_len v) laid_out.
Proof.
  apply Forall_lookup. intros i v Hv. destruct (laid_out_lookup i v Hv) as (w & Hw & ->).
  exact (Forall_lookup_1 _ _ _ _ Hnn Hw).
Qed.

Lemma laid_out_sums k :
  sum_len (fixed_vars (take k laid_out)) = sum_len (fixed_vars (take k nvs)) /\
  sum_len (rec_vars (take k laid_out)) = sum_len (rec_vars (take k nvs)).
Proof.
  destruct (strip_sums (take k laid_out) (take k nvs)) as (Hf & Hr & _); [|auto].
  rewrite <- !firstn_map. f_equal. apply laid_out_strip.
Qed.

(** The header of the laid-out handle is as long as the shadow's. *)
Definition commit_header : list byte := header_bytes (with_op (NC_begins NC_xlen_cdf sh) XDR_ENCODE).

Lemma commit_header_length : Z.of_nat (length commit_header) = NC_xlen_cdf sh.
Proof.
  unfold commit_header. rewrite header_length. apply xlen_schema. unfold schema.
  change (nc_vars (with_op (NC_begins NC_xlen_cdf sh) XDR_ENCODE)) with (nc_vars (NC_begins NC_xlen_cdf sh)).
  rewrite laid_out_vars, Hnv. apply laid_out_strip.
Qed.

Lemma commit_image_unfold :
  commit_image sh o co =
  write_at (commit_header ++ fixed_image ovs co 0 laid_out ++
            records_image ovs (nc_recsize o) co (Z.to_nat (nc_numrecs o)) 0 laid_out)
           NC_NUMRECS_OFFSET (numrecs_bytes (nc_numrecs o)).
Proof.
  unfold commit_image, commit_header.
  change (nc_vars (with_op (NC_begins NC_xlen_cdf sh) XDR_ENCODE)) with (nc_vars (NC_begins NC_xlen_cdf sh)).
  rewrite laid_out_vars, Hov. reflexivity.
Qed.

(** Past the header, the record count written into it changes nothing. *)
Lemma slice_commit_image p n :
  NC_xlen_cdf sh <= p ->
  slice (commit_image sh o co) p n =
  slice (commit_header ++ fixed_image ovs co 0 laid_out ++
         records_image ovs (nc_recsize o) co (Z.to_nat (nc_numrecs o)) 0 laid_out) p n.
Proof.
  intros Hp. rewrite commit_image_unfold. pose proof (numrecs_in_header sh) as Hh.
  pose proof commit_header_length as Hl. pose proof (numrecs_length (nc_numrecs o)) as Hn.
  unfold NC_NUMRECS_OFFSET in *. apply slice_write_at_beyond; [lia| |lia].
  rewrite length_app. lia.
Qed.

Lemma xlen_range : 0 <= NC_xlen_cdf sh < ULONG_MOD.
Proof.
  pose proof commit_header_length. pose proof (sum_len_nonneg _ Hnn). lia.
Qed.

Lemma commit_image_fixed i v :
  laid_out !! i = Some v -> IS_RECVAR v = false ->
  slice (commit_image sh o co) (var_begin v) (var_len v) = Some (fixed_piece ovs co i v).
Proof.
  intros Hv Hr. destruct (laid_out_lookup i v Hv) as (w & Hw & Ev).
  assert (Hrw : IS_RECVAR w = false) by (rewrite Ev, IS_RECVAR_set_begin in Hr; exact Hr).
  pose proof xlen_range as Hx.
  destruct (prefix_fits nvs i w fixed_vars fixed_vars_app (Forall_fixed_vars _) Hnn Hw) as [Hf0 Hf].
  pose proof (sum_len_split nvs). pose proof (sum_len_nonneg _ (Forall_rec_vars _ _ Hnn)).
  pose proof (Forall_lookup_1 _ _ _ _ Hnn Hw) as Hlw. simpl in Hlw.
  assert (Hb : var_begin v = NC_xlen_cdf sh + sum_len (fixed_vars (take i nvs))).
  { rewrite Ev. simpl. unfold ref_begin. rewrite Hrw, (ulong_small (NC_xlen_cdf sh)) by lia.
    apply ulong_small. rewrite fixed_vars_cons, Hrw in Hf. simpl in Hf. lia. }
  rewrite Hb, slice_commit_image by lia.
  destruct (laid_out_sums i) as [Hs _]. rewrite <- Hs, <- commit_header_length.
  apply (slice_fixed_image ovs co); auto using laid_out_shape, laid_out_nonneg.
  intros i' sv Hsv Hc. apply (old_readable_fixed o ovs co Hov Hread i' sv Hsv Hc).
Qed.
Lemma commit_image_record i v k :
  nc_recsize (NC_begins NC_xlen_cdf sh) = sum_len (rec_vars nvs) ->
  laid_out !! i = Some v -> IS_RECVAR v = true -> 0 <= k < nc_numrecs o ->
  slice (commit_image sh o co) (var_begin v + nc_recsize (NC_begins NC_xlen_cdf sh) * k) (var_len v) =
  Some (rec_piece ovs co (nc_recsize o) k i v).
Proof.
  intros Hrs Hv Hr Hk. destruct (laid_out_lookup i v Hv) as (w & Hw & Ev).
  assert (Hrw : IS_RECVAR w = true) by (rewrite Ev, IS_RECVAR_set_begin in Hr; exact Hr).
  pose proof xlen_range as Hx.
  destruct (prefix_fits nvs i w rec_vars rec_vars_app (Forall_rec_vars _) Hnn Hw) as [Hr0 Hrf].
  pose proof (sum_len_split nvs). pose proof (sum_len_nonneg _ (Forall_fixed_vars _ _ Hnn)).
  pose proof (Forall_lookup_1 _ _ _ _ Hnn Hw) as Hlw. simpl in Hlw.
  assert (Hb : var_begin v = NC_xlen_cdf sh + sum_len (fixed_vars nvs) + sum_len (rec_vars (take i nvs))).
  { rewrite Ev. simpl. unfold ref_begin. rewrite Hrw, (ulong_small (NC_xlen_cdf sh)) by lia.
    apply ulong_small. rewrite rec_vars_cons, Hrw in Hrf. simpl in Hrf. lia. }
  destruct (strip_sums laid_out nvs laid_out_strip) as (Hsf & Hsr & _).
  destruct (laid_out_sums i) as [_ Hst].
  assert (Hfr : forall i' sv, ovs !! i' = Some sv -> IS_RECVAR sv = false ->
                  slice co (var_begin sv) (var_len sv) <> None)
    by (intros i' sv Hsv Hc; apply (old_readable_fixed o ovs co Hov Hread i' sv Hsv Hc)).
  pose proof (fixed_image_length ovs co Hfr 0 laid_out laid_out_shape laid_out_nonneg) as HFl.
  rewrite Hb, Hrs, slice_commit_image by (pose proof (sum_len_nonneg _ (Forall_rec_vars _ _ Hnn)); nia).
  rewrite app_assoc, <- (app_nil_r (records_image _ _ _ _ _ _)).
  replace (NC_xlen_cdf sh + sum_len (fixed_vars nvs) + sum_len (rec_vars (take i nvs)) + sum_len (rec_vars nvs) * k)
    with (Z.of_nat (length (commit_header ++ fixed_image ovs co 0 laid_out)) +
          Z.of_nat (Z.to_nat k) * sum_len (rec_vars laid_out) + sum_len (rec_vars (take i laid_out)))
    by (rewrite length_app, Nat2Z.inj_add, HFl, commit_header_length, Hsf, Hsr, Hst, Z2Nat.id by lia; lia).
  replace k with (Z.of_nat (Z.to_nat k)) at 2 by lia.
  apply (slice_records_image ovs co (nc_recsize o) (nc_numrecs o)); auto using laid_out_shape, laid_out_nonneg; try lia.
  intros i' sv jj Hsv Hc Hj. apply (old_readable_rec o ovs co Hov Hread i' sv jj Hsv Hc Hj).
Qed.
End CommitImage.

(** ** The commit of a redefinition *)

Section CommitRun.
Context `{NC_codec_ok} (env : sess_env) (sys : Z).
Variables (s : nc_state) (cdfid : Z) (sh o : NC) (ovs : list NC_var) (co : list byte).
Hypothesis Hwf : table_wf sys (st_tbl s).
Hypothesis Hsh : HNDLE (st_tbl s) cdfid = Some (Some sh).
Hypothesis Ho : HNDLE (st_tbl s) (nc_redefid sh) = Some (Some o).
Hypothesis Hid : nc_redefid sh <> cdfid.
Hypothesis Hnet : is_hdf sh = false.
Hypothesis Hcreat : has_flag (nc_flags sh) NC_CREAT = false.
Hypothesis Hfill : has_flag (nc_flags sh) NC_NOFILL = false.
Hypothesis Hov : nc_vars o = Some ovs.
Hypothesis Hnv : nc_vars sh <> None.
Hypothesis Hnew : fs_data (st_fs s) !! x_file (nc_xdrs sh) = Some [].
Hypothesis Hold : fs_data (st_fs s) !! x_file (nc_xdrs o) = Some co.
Hypothesis Hfiles : x_file (nc_xdrs o) <> x_file (nc_xdrs sh).
Hypothesis Hscratch : fs_dir (st_fs s) !! nc_path sh = Some (x_file (nc_xdrs sh)).
Variable rok : bool.
Hypothesis Hren : se_rename_ok env (nc_path sh) (nc_path o) = rok.
Hypothesis Hclass : same_class ovs 0 (default [] (nc_vars sh)).
Hypothesis Hfixed_ok : forall i sv, ovs !! i = Some sv -> IS_RECVAR sv = false ->
  0 <= var_begin sv /\ 0 <= var_len sv < ULONG_MOD /\ slice co (var_begin sv) (var_len sv) <> None.
Hypothesis Hrec_ok : forall i sv jj, ovs !! i = Some sv -> IS_RECVAR sv = true ->
  0 <= jj < nc_numrecs o ->
  0 <= var_len sv < ULONG_MOD /\ slice co (rec_offset sv (nc_recsize o) jj) (var_len sv) <> None.
Hypothesis Hnr : 0 <= nc_numrecs o.

Hypothesis Hpaths : nc_path sh <> nc_path o.

(** The run of [NC_endef] on the shadow.  When the rename succeeds it
    returns 0, the real path names the scratch file, which holds
    [commit_image], the scratch name is gone, the id of the old handle is
    retired, and the caller's id holds the committed handle under the real
    path.  When the rename fails it returns -1 with [NC_SYSERR], the
    names and the old file are as they were, the id of the old handle is
    retired and the caller's id holds the old handle again. *)
Lemma NC_endef_redef_run :
  exists s', NC_endef env cdfid sh s = Ok (if rok then 0 else -1) s' /\
    table_wf sys (st_tbl s') /\ curr_opened (st_tbl s') = curr_opened (st_tbl s) - 1 /\
    HNDLE (st_tbl s') (nc_redefid sh) = Some None /\
    (forall j, j <> cdfid -> j <> nc_redefid sh -> HNDLE (st_tbl s') j = HNDLE (st_tbl s) j) /\
    if rok then
      file_at (st_fs s') (nc_path o) = Some (commit_image sh o co) /\
      fs_dir (st_fs s') !! nc_path sh = None /\
      (exists hf, HNDLE (st_tbl s') cdfid = Some (Some hf) /\
         nc_path hf = strncpy_path (nc_path o) /\ has_flag (nc_flags hf) NC_INDEF = false /\
         nc_redefid hf = -1 /\ nc_numrecs hf = nc_numrecs o /\
         nc_vars hf = nc_vars (NC_begins NC_xlen_cdf sh) /\
         nc_recsize hf = nc_recsize (NC_begins NC_xlen_cdf sh))
    else
      fs_dir (st_fs s') = fs_dir (st_fs s) /\
      fs_data (st_fs s') !! x_file (nc_xdrs o) = Some co /\
      ncerr (st_tbl s') = Some NC_SYSERR /\
      (exists o', HNDLE (st_tbl s') cdfid = Some (Some o') /\
         nc_flags o' = nc_flags o /\ nc_vars o' = nc_vars o /\ nc_path o' = nc_path o /\
         nc_redefid o' = nc_redefid o /\ nc_file_type o' = nc_file_type o /\
         x_file (nc_xdrs o') = x_file (nc_xdrs o)).
Proof.
  unfold NC_endef. rewrite (bind_Ok _ _ _ _ _ (STASH_live _ _ _ _ Hsh Ho)). cbn beta.
  rewrite Hnet.
  set (h := with_op (NC_begins NC_xlen_cdf sh) XDR_ENCODE).
  destruct (NC_begins_keeps NC_xlen_cdf sh) as (Kp & Kf & Kx & Kr & Kt).
  assert (Hxh : x_file (nc_xdrs h) = x_file (nc_xdrs sh)) by (subst h; simpl; rewrite Kx; reflexivity).
  rewrite (bind_Ok _ _ _ _ _ (xdr_cdf_put_empty s h ltac:(rewrite Hxh; exact Hnew))). cbn beta iota.
  destruct (nc_vars sh) as [nvs|] eqn:Envs; [|congruence].
  set (hb := header_bytes h).
  set (h1 := set_xdrs h (set_x_pos (nc_xdrs h) (Z.of_nat (length hb)))).
  set (vs2 := imap (fun i v => set_var_begin v (ref_begin (ulong (NC_xlen_cdf sh)) nvs i v)) nvs).
  assert (E1 : is_hdf h1 = false) by (unfold is_hdf in *; subst h1 h; simpl; rewrite Kt; exact Hnet).
  assert (E2 : nc_vars h1 = Some vs2) by (subst h1 h; simpl; apply NC_begins_vars; exact Envs).
  assert (E3 : has_flag (nc_flags h1) NC_CREAT = false) by (subst h1 h; simpl; rewrite Kf; exact Hcreat).
  assert (E4 : has_flag (nc_flags h1) NC_NOFILL = false) by (subst h1 h; simpl; rewrite Kf; exact Hfill).
  rewrite E1, E2, E3, E4. cbn beta iota.
  set (fn := x_file (nc_xdrs sh)) in *.
  set (s1 := set_fs s (set_fs_data (st_fs s) (<[x_file (nc_xdrs h):=hb]> (fs_data (st_fs s))))).
  set (io0 := mk_io (st_fs s1) (nc_xdrs h1) (nc_xdrs o) (ncerr (st_tbl s1))).
  assert (Ha0 : appending io0 fn hb).
  { split; [exact Hxh|]. split; [|reflexivity].
    change (<[x_file (nc_xdrs h):=hb]> (fs_data (st_fs s)) !! fn = Some hb).
    rewrite Hxh. apply lookup_insert_eq. }
  assert (Hr0 : reading co fn io0).
  { split; [exact Hfiles|].
    change (default [] (<[x_file (nc_xdrs h):=hb]> (fs_data (st_fs s)) !! x_file (nc_xdrs o)) = co).
    rewrite Hxh, lookup_insert_ne by (intros E; apply Hfiles; symmetry; exact E). rewrite Hold. reflexivity. }
  assert (Hc2 : same_class ovs 0 vs2).
  { intros i v sv Hv Hsv. subst vs2. rewrite list_lookup_imap in Hv.
    destruct (nvs !! i) as [w|] eqn:Ew; [|discriminate]. injection Hv as <-.
    rewrite IS_RECVAR_set_begin. apply (Hclass i w sv); [simpl; exact Ew|exact Hsv]. }
  destruct (endef_data_run o ovs co fn Hov Hfixed_ok Hrec_ok vs2 io0 hb Hnr Ha0 Hr0 Hc2)
    as (src & Hsrc & Hrun).
  rewrite (bind_Ok _ _ _ _ _ (run_io_Ok _ _ _ _ _ _ Hrun)). cbn beta iota.
  set (IMG := fixed_image ovs co 0 vs2 ++ records_image ovs (nc_recsize o) co (Z.to_nat (nc_numrecs o)) 0 vs2).
  set (I := appended io0 fn hb IMG src).
  assert (EI : io_err I = ncerr (st_tbl s)) by reflexivity.
  rewrite EI. replace (set_ncerr (st_tbl s1) (ncerr (st_tbl s))) with (st_tbl s) by (symmetry; apply set_ncerr_same).
  cbn [option_map negb].
  assert (Eid : nc_redefid (set_xdrs h1 (io_tgt I)) = nc_redefid sh) by (subst h1 h; simpl; exact Kr).
  rewrite Eid.
  set (s2 := set_fs (set_tbl s1 (st_tbl s)) (io_fs I)).
  set (o' := set_xdrs o (io_src I)).
  destruct (put_handle_live s2 (nc_redefid sh) o o' Ho) as (t2 & Hp2 & Ht2o & Ht2 & Hn2 & Hc2' & He2 & Hw2).
  unfold set_cell. fold (put_handle (nc_redefid sh) o').
  rewrite (bind_Ok _ _ _ _ _ Hp2). cbn beta iota.
  unfold endef_commit.
  set (h3 := set_numrecs (set_xdrs h1 (io_tgt I)) (nc_numrecs o')).
  assert (Ef3 : x_file (nc_xdrs h3) = fn) by (subst h3 I; simpl; exact Hxh).
  assert (Ec3 : fs_data (st_fs (set_tbl s2 t2)) !! x_file (nc_xdrs h3) = Some (hb ++ IMG)).
  { rewrite Ef3. change (<[fn := hb ++ IMG]> (fs_data (st_fs s1)) !! fn = Some (hb ++ IMG)).
    apply lookup_insert_eq. }
  rewrite (bind_Ok _ _ _ _ _ (xdr_numrecs_spec _ _ _ Ec3)). cbn beta iota.
  set (h4 := set_xdrs h3 _).
  assert (Ep4 : nc_path h4 = nc_path sh) by (subst h4 h3 h1 h; simpl; exact Kp).
  rewrite Ep4.
  lazymatch goal with |- exists _, (bind _ _) ?st = _ /\ _ => set (s3 := st) end.
  destruct rok.
  2: { rewrite (bind_Ok _ _ _ _ _ (sys_rename_fail env s3 (nc_path sh) (nc_path o') Hren)).
       cbn beta iota. cbn [negb]. unfold nc_serror. rewrite sadvise_run.
       set (s5 := set_tbl s3 _).
       assert (E5c : HNDLE (st_tbl s5) cdfid = Some (Some sh))
         by (change (HNDLE t2 cdfid = Some (Some sh)); rewrite Ht2 by congruence; exact Hsh).
       destruct (put_handle_live s5 cdfid sh o' E5c) as (t3 & Hp3 & Ht3c & Ht3 & Hn3 & Hc3 & He3 & Hw3).
       unfold set_cell. fold (put_handle cdfid o'). rewrite (bind_Ok _ _ _ _ _ Hp3). cbn beta.
       assert (Er4 : nc_redefid h4 = nc_redefid sh) by (subst h4 h3 h1 h; simpl; exact Kr).
       rewrite Er4.
       assert (Hwf2 : table_wf sys t2) by (apply (Hw2 sys Hwf)).
       assert (Hwf5 : table_wf sys (st_tbl s5)) by (apply table_wf_set_ncerr, Hwf2).
       assert (Hwf3 : table_wf sys t3) by (apply (Hw3 sys Hwf5)).
       assert (E3o : HNDLE t3 (nc_redefid sh) = Some (Some o')).
       { rewrite Ht3 by congruence. change (HNDLE t2 (nc_redefid sh) = Some (Some o')). exact Ht2o. }
       destruct (retire_HNDLE sys t3 (nc_redefid sh) o' Hwf3 E3o) as (t4 & Hr4 & Hwf4 & Hc4 & Ht4o & Ht4).
       unfold bind at 1, on_tbl. replace (st_tbl (set_tbl s5 t3)) with t3 by reflexivity.
       rewrite Hr4. unfold NC_free_cdf. rewrite bind_ret_l.
       eexists. split; [reflexivity|]. cbn [st_fs st_tbl set_tbl].
       split; [exact Hwf4|]. split; [rewrite Hc4, Hc3; change (curr_opened t2 - 1 = curr_opened (st_tbl s) - 1); rewrite Hc2'; reflexivity|].
       split; [exact Ht4o|].
       split; [intros j Hj1 Hj2; rewrite Ht4, Ht3 by congruence; change (HNDLE t2 j = HNDLE (st_tbl s) j);
               rewrite Ht2 by congruence; reflexivity|].
       split; [reflexivity|]. split.
       { change (<[x_file (nc_xdrs h3) := write_at (hb ++ IMG) NC_NUMRECS_OFFSET (numrecs_bytes (nc_numrecs h3))]>
                   (<[fn := hb ++ IMG]> (<[x_file (nc_xdrs h):=hb]> (fs_data (st_fs s)))) !! x_file (nc_xdrs o) = Some co).
         rewrite Ef3, Hxh. rewrite !lookup_insert_ne by congruence. exact Hold. }
       split; [rewrite (NC_retire_ncerr _ _ _ Hr4), He3; reflexivity|].
       exists o'. split; [rewrite Ht4 by congruence; exact Ht3c|]. repeat split; exact Hsrc. }
  rewrite (bind_Ok _ _ _ _ _ (sys_rename_ok env s3 (nc_path sh) (nc_path o') fn Hren Hscratch)).
  cbn beta iota. cbn [negb].
  unfold NC_free_cdf. rewrite bind_ret_l.
  set (s4 := set_fs s3 _).
  set (hf := endef_done (set_redefid (set_path h4 (strncpy_path (nc_path o'))) (-1))).
  assert (E4c : HNDLE (st_tbl s4) cdfid = Some (Some sh)) by (change (HNDLE t2 cdfid = Some (Some sh)); rewrite Ht2 by congruence; exact Hsh).
  destruct (put_handle_live s4 cdfid sh hf E4c) as (t3 & Hp3 & Ht3c & Ht3 & Hn3 & Hc3 & He3 & Hw3).
  rewrite (bind_Ok _ _ _ _ _ Hp3). cbn beta.
  assert (Er4 : nc_redefid h4 = nc_redefid sh) by (subst h4 h3 h1 h; simpl; exact Kr).
  rewrite Er4.
  assert (Hwf2 : table_wf sys t2) by (apply (Hw2 sys Hwf)).
  assert (Hwf3 : table_wf sys t3) by (apply (Hw3 sys Hwf2)).
  assert (E3o : HNDLE t3 (nc_redefid sh) = Some (Some o')) by (rewrite Ht3 by congruence; exact Ht2o).
  destruct (retire_HNDLE sys t3 (nc_redefid sh) o' Hwf3 E3o) as (t4 & Hr4 & Hwf4 & Hc4 & Ht4o & Ht4).
  unfold bind at 1, on_tbl. replace (st_tbl (set_tbl s4 t3)) with t3 by reflexivity.
  rewrite Hr4. eexists. split; [reflexivity|]. cbn [st_fs st_tbl set_tbl].
  split; [exact Hwf4|]. split; [rewrite Hc4, Hc3; change (curr_opened t2 - 1 = curr_opened (st_tbl s) - 1); rewrite Hc2'; reflexivity|].
  split; [exact Ht4o|].
  split; [intros j Hj1 Hj2; rewrite Ht4, Ht3 by congruence; change (HNDLE t2 j = HNDLE (st_tbl s) j);
          rewrite Ht2 by congruence; reflexivity|].
  split; [|split].
  - unfold file_at. subst s4 s3. cbn [st_fs set_fs fs_dir fs_data set_fs_dir set_fs_data].
    change (nc_path o') with (nc_path o). rewrite lookup_insert_eq. simpl.
    rewrite Kx. fold fn. rewrite lookup_insert_eq. f_equal.
    unfold commit_image. fold h. change (nc_vars h) with (nc_vars (NC_begins NC_xlen_cdf sh)).
    rewrite (NC_begins_vars _ _ _ Envs), Hov. reflexivity.
  - subst s4 s3. cbn [st_fs set_fs fs_dir set_fs_dir]. change (nc_path o') with (nc_path o).
    rewrite lookup_insert_ne by congruence.
    apply lookup_delete_eq.
  - exists hf. split; [rewrite Ht4 by congruence; exact Ht3c|].
    split; [reflexivity|]. split; [|repeat split; reflexivity].
    subst hf. unfold endef_done. cbn [nc_flags set_flags set_redefid set_path].
    apply has_clear_flags_same. reflexivity.
Qed.
End CommitRun.

(** [ncendef] on a live handle in define mode is [NC_endef]. *)
Lemma ncendef_indef `{NC_codec} env s cdfid h :
  HNDLE (st_tbl s) cdfid = Some (Some h) -> has_flag (nc_flags h) NC_INDEF = true ->
  ncendef env cdfid s = NC_endef env cdfid h s.
Proof.
  intros E Hi. unfold ncendef. rewrite (bind_check_live _ _ _ _ E).
  unfold bind at 1. rewrite (NC_indefine_live _ _ _ _ E), Hi. reflexivity.
Qed.

(** ** The commit, as the caller sees it *)

Section CommitClaim.
Context `{NC_codec_ok} (env : sess_env) (sys : Z).
Variables (s : nc_state) (cdfid : Z) (sh o : NC) (nvs ovs : list NC_var) (co : list byte).
Hypothesis Hwf : table_wf sys (st_tbl s).
Hypothesis Hsh : HNDLE (st_tbl s) cdfid = Some (Some sh).
Hypothesis Ho : HNDLE (st_tbl s) (nc_redefid sh) = Some (Some o).
Hypothesis Hid : nc_redefid sh <> cdfid.
Hypothesis Hnet : is_hdf sh = false.
Hypothesis Hindef : has_flag (nc_flags sh) NC_INDEF = true.
Hypothesis Hcreat : has_flag (nc_flags sh) NC_CREAT = false.
Hypothesis Hfill : has_flag (nc_flags sh) NC_NOFILL = false.
Hypothesis Hnv : nc_vars sh = Some nvs.
Hypothesis Hov : nc_vars o = Some ovs.
Hypothesis Hnew : fs_data (st_fs s) !! x_file (nc_xdrs sh) = Some [].
Hypothesis Hold : fs_data (st_fs s) !! x_file (nc_xdrs o) = Some co.
Hypothesis Hfiles : x_file (nc_xdrs o) <> x_file (nc_xdrs sh).
Hypothesis Hscratch : fs_dir (st_fs s) !! nc_path sh = Some (x_file (nc_xdrs sh)).
Hypothesis Hpaths : nc_path sh <> nc_path o.
Hypothesis Hren : se_rename_ok env (nc_path sh) (nc_path o) = true.
Hypothesis Hprefix : schema_prefix ovs nvs = true.
Hypothesis Hread : old_readable o co = true.
Hypothesis Hnn : Forall (fun v => 0 <= var_len v) nvs.
Hypothesis Hfit : NC_xlen_cdf sh + sum_len nvs < ULONG_MOD.
Hypothesis Hnr : 0 <= nc_numrecs o.

Lemma ncendef_commit_run :
  exists s', ncendef env cdfid s = Ok 0 s' /\
    file_at (st_fs s') (nc_path o) = Some (commit_image sh o co) /\
    fs_dir (st_fs s') !! nc_path sh = None /\
    table_wf sys (st_tbl s') /\ curr_opened (st_tbl s') = curr_opened (st_tbl s) - 1 /\
    HNDLE (st_tbl s') (nc_redefid sh) = Some None /\
    (exists hf, HNDLE (st_tbl s') cdfid = Some (Some hf) /\
       nc_path hf = strncpy_path (nc_path o) /\ has_flag (nc_flags hf) NC_INDEF = false /\
       nc_redefid hf = -1 /\ nc_numrecs hf = nc_numrecs o /\
       nc_vars hf = nc_vars (NC_begins NC_xlen_cdf sh) /\
       nc_recsize hf = nc_recsize (NC_begins NC_xlen_cdf sh)) /\
    (forall j, j <> cdfid -> j <> nc_redefid sh -> HNDLE (st_tbl s') j = HNDLE (st_tbl s) j).
Proof.
  rewrite (ncendef_indef env s cdfid sh Hsh Hindef).
  destruct (NC_endef_redef_run env sys s cdfid sh o ovs co Hwf Hsh Ho Hid Hnet Hcreat Hfill Hov
              ltac:(congruence) Hnew Hold Hfiles Hscratch true Hren
              ltac:(rewrite Hnv; apply same_shape_class, schema_prefix_shape, Hprefix)
              (old_readable_fixed o ovs co Hov Hread) (old_readable_rec o ovs co Hov Hread) Hnr Hpaths)
    as (s' & Hr & Hw & Hc & Hi & Hj & Hf & Hd & Hh).
  exists s'. tauto.
Qed.

(** C1: Redefine-then-commit preserves data: after [ncendef] commits a
    redefinition whose new schema extends the old one, the real path
    names a file in which every fixed variable, read at its new offset,
    holds the bytes the old file held for it, or its fill pattern when it
    is new; and, when the record size is not packed, every record of
    every record variable, read at [begin + recsize * k], holds the old
    record [k] (read at the old offsets) or the fill pattern. *)
Theorem ncendef_commit_preserves_data :
  exists s' hf img, ncendef env cdfid s = Ok 0 s' /\
    file_at (st_fs s') (nc_path o) = Some img /\ HNDLE (st_tbl s') cdfid = Some (Some hf) /\
    (forall i v, nc_vars hf ≫= (fun l => l !! i) = Some v -> IS_RECVAR v = false ->
       slice img (var_begin v) (var_len v) = Some (fixed_piece ovs co i v)) /\
    (nc_recsize hf = sum_len (rec_vars nvs) ->
     forall i v k, nc_vars hf ≫= (fun l => l !! i) = Some v -> IS_RECVAR v = true ->
       0 <= k < nc_numrecs o ->
       slice img (var_begin v + nc_recsize hf * k) (var_len v) = Some (rec_piece ovs co (nc_recsize o) k i v)).
Proof.
  destruct ncendef_commit_run as (s' & Hrun & Hfile & _ & _ & _ & _ & (hf & Hhf & _ & _ & _ & _ & Hvars & Hrs) & _).
  exists s', hf, (commit_image sh o co). split; [exact Hrun|]. split; [exact Hfile|].
  split; [exact Hhf|]. rewrite Hvars, (laid_out_vars sh nvs Hnv). simpl.
  pose proof (schema_prefix_shape _ _ Hprefix) as Hshape.
  split.
  - intros i v Hv Hr. apply (commit_image_fixed sh o nvs ovs co); auto.
  - intros Hrs' i v k Hv Hr Hk. rewrite Hrs in *.
    apply (commit_image_record sh o nvs ovs co); auto.
Qed.
End CommitClaim.


(** Without a stash, the copy passes of a redefinition dereference the
    [NULL] stash: [stash->vars] at the first fixed variable, or
    [stash->numrecs] after the first pass. *)
Lemma endef_fixed_nostash `{NC_codec} nofill ii vs (i : io) :
  endef_fixed false nofill None ii vs i = Undef \/ endef_fixed false nofill None ii vs i = Ok true i.
Proof.
  revert ii. induction vs as [|v vs IH]; intros ii; [right; reflexivity|].
  simpl. destruct (IS_RECVAR v); [apply IH|left; reflexivity].
Qed.

Lemma endef_data_nostash `{NC_codec} nofill vs (i : io) : endef_data false nofill None vs i = Undef.
Proof.
  unfold endef_data, bind at 1.
  destruct (endef_fixed_nostash nofill 0 vs i) as [-> | ->]; reflexivity.
Qed.

(** [NC_endef] on an id whose handle is in define mode with [redefid = -1]
    finds no stash ([STASH] is [NULL]); once the header is rewritten, the
    copy passes dereference it. *)
Lemma NC_endef_nostash `{NC_codec} env s cdfid h h' c :
  HNDLE (st_tbl s) cdfid = Some (Some h) -> nc_redefid h = -1 ->
  is_hdf h' = false -> nc_vars h' <> None -> has_flag (nc_flags h') NC_CREAT = false ->
  fs_data (st_fs s) !! x_file (nc_xdrs h') = Some c ->
  NC_endef env cdfid h' s = Undef.
Proof.
  intros E Er Hn Hv Hc Hf. unfold NC_endef.
  rewrite (bind_Ok _ _ _ _ _ (STASH_live s cdfid h None E ltac:(rewrite Er; reflexivity))). cbn beta.
  rewrite Hn.
  set (h1 := with_op (NC_begins NC_xlen_cdf h') XDR_ENCODE).
  destruct (NC_begins_keeps NC_xlen_cdf h') as (_ & Kf & Kx & _ & Kt).
  assert (Hf1 : fs_data (st_fs s) !! x_file (nc_xdrs h1) = Some c) by (subst h1; simpl; rewrite Kx; exact Hf).
  destruct (xdr_cdf_put_ok s h1 c Hf1) as (d' & x' & Hp & _ & _).
  rewrite (bind_Ok _ _ _ _ _ Hp). cbn beta iota. unfold is_hdf in *. subst h1. simpl. rewrite Kt, Hn.
  destruct (nc_vars (NC_begins NC_xlen_cdf h')) as [vs|] eqn:Ev.
  2: { destruct (nc_vars h') eqn:Ev'; [|congruence].
       rewrite (NC_begins_vars _ _ _ Ev') in Ev. discriminate. }
  rewrite Kf, Hc. unfold bind at 1, run_io. cbn beta. rewrite endef_data_nostash. reflexivity.
Qed.

(** [ncabort] of a define-mode handle that is not a new file but has no
    stash ([redefid = -1]) stores [NULL] at [_cdfs[-1]]. *)
Lemma ncabort_nostash `{NC_codec} s cdfid h :
  HNDLE (st_tbl s) cdfid = Some (Some h) -> nc_redefid h = -1 ->
  has_flag (nc_flags h) NC_INDEF = true -> has_flag (nc_flags h) NC_CREAT = false ->
  ncabort cdfid s = Undef.
Proof.
  intros Hh Hr Hi Hc. unfold ncabort. rewrite (bind_check_live _ _ _ _ Hh). cbn beta iota.
  rewrite has_flag_lor, Hi, Hc. cbn [orb negb]. rewrite !bind_assoc.
  rewrite (bind_Ok _ _ _ _ _ (STASH_live s cdfid h None Hh ltac:(rewrite Hr; reflexivity))).
  rewrite bind_assoc. unfold NC_free_cdf at 1. rewrite bind_ret_l. apply bind_Undef, bind_Undef.
  rewrite Hr. unfold on_tbl, NC_retire, NC_clear_slot, bind, lift_opt, store.
  destruct (cdfs (st_tbl s)); reflexivity.
Qed.

(** ** A failed rename *)

Section RenameFailure.
Context `{NC_codec_ok} (env : sess_env) (sys : Z).
Variables (s : nc_state) (cdfid : Z) (sh o : NC) (nvs ovs : list NC_var) (co : list byte).
Hypothesis Hwf : table_wf sys (st_tbl s).
Hypothesis Hsh : HNDLE (st_tbl s) cdfid = Some (Some sh).
Hypothesis Ho : HNDLE (st_tbl s) (nc_redefid sh) = Some (Some o).
Hypothesis Hid : nc_redefid sh <> cdfid.
Hypothesis Hnet : is_hdf sh = false.
Hypothesis Hindef : has_flag (nc_flags sh) NC_INDEF = true.
Hypothesis Hcreat : has_flag (nc_flags sh) NC_CREAT = false.
Hypothesis Hfill : has_flag (nc_flags sh) NC_NOFILL = false.
Hypothesis Hnv : nc_vars sh = Some nvs.
Hypothesis Hov : nc_vars o = Some ovs.
Hypothesis Hnew : fs_data (st_fs s) !! x_file (nc_xdrs sh) = Some [].
Hypothesis Hold : fs_data (st_fs s) !! x_file (nc_xdrs o) = Some co.
Hypothesis Hfiles : x_file (nc_xdrs o) <> x_file (nc_xdrs sh).
Hypothesis Hscratch : fs_dir (st_fs s) !! nc_path sh = Some (x_file (nc_xdrs sh)).
Hypothesis Hpaths : nc_path sh <> nc_path o.
Hypothesis Hren : se_rename_ok env (nc_path sh) (nc_path o) = false.
Hypothesis Hprefix : schema_prefix ovs nvs = true.
Hypothesis Hread : old_readable o co = true.
Hypothesis Hnr : 0 <= nc_numrecs o.
Hypothesis Hoindef : has_flag (nc_flags o) NC_INDEF = true.
Hypothesis Horedef : nc_redefid o = -1.
Hypothesis Honet : is_hdf o = false.
Hypothesis Hocreat : has_flag (nc_flags o) NC_CREAT = false.

(** C2: A commit whose rename fails returns -1 with [NC_SYSERR] and puts
    the old handle back under the caller's id, still flagged [NC_INDEF]
    and with [redefid = -1]; the directory is unchanged, so the scratch
    file stays on disk under its temporary name, and the old file keeps
    its bytes.  The restored id is then unusable: a later [ncendef] or
    [ncclose] on it finds no stash ([redefid = -1]) and dereferences
    the [NULL] stash in the copy passes. *)
Theorem ncendef_rename_failure :
  exists s', ncendef env cdfid s = Ok (-1) s' /\
    fs_dir (st_fs s') = fs_dir (st_fs s) /\
    fs_dir (st_fs s') !! nc_path sh = Some (x_file (nc_xdrs sh)) /\
    fs_data (st_fs s') !! x_file (nc_xdrs o) = Some co /\
    ncerr (st_tbl s') = Some NC_SYSERR /\
    curr_opened (st_tbl s') = curr_opened (st_tbl s) - 1 /\
    HNDLE (st_tbl s') (nc_redefid sh) = Some None /\
    (exists o', HNDLE (st_tbl s') cdfid = Some (Some o') /\
       has_flag (nc_flags o') NC_INDEF = true /\ nc_redefid o' = -1) /\
    ncendef env cdfid s' = Undef /\ ncclose env cdfid s' = Undef.
Proof.
  rewrite (ncendef_indef env s cdfid sh Hsh Hindef).
  destruct (NC_endef_redef_run env sys s cdfid sh o ovs co Hwf Hsh Ho Hid Hnet Hcreat Hfill Hov
              ltac:(congruence) Hnew Hold Hfiles Hscratch false Hren
              ltac:(rewrite Hnv; apply same_shape_class, schema_prefix_shape, Hprefix)
              (old_readable_fixed o ovs co Hov Hread) (old_readable_rec o ovs co Hov Hread) Hnr Hpaths)
    as (s' & Hr & Hw & Hc & Hi & Hj & Hd & Hf & He & o' & Ho' & Hfl & Hvl & _ & Hrd & Hty & Hx).
  rewrite <- Hfl in Hoindef, Hocreat. rewrite <- Hrd in Horedef.
  assert (Hnet' : is_hdf o' = false) by (unfold is_hdf in *; rewrite Hty; exact Honet).
  assert (Hv' : nc_vars o' <> None) by congruence.
  assert (Hf' : fs_data (st_fs s') !! x_file (nc_xdrs o') = Some co) by (rewrite Hx; exact Hf).
  exists s'. split; [exact Hr|]. split; [exact Hd|]. split; [rewrite Hd; exact Hscratch|].
  do 4 (split; [assumption|]).
  split; [exists o'; auto|].
  split.
  - rewrite (ncendef_indef env s' cdfid o' Ho' Hoindef). eapply NC_endef_nostash; eassumption.
  - unfold ncclose. rewrite (bind_check_live _ _ _ _ Ho'), Hoindef.
    apply bind_Undef. eapply NC_endef_nostash; eassumption.
Qed.

(** C33: [ncclose] of a redefinition whose commit fails at the rename is
    undefined behaviour: [NC_endef] returns -1 after putting the old
    handle back under [cdfid] (still [NC_INDEF], [redefid = -1]), and
    [ncclose] then calls [ncabort(cdfid)], which takes the redefinition
    branch for that handle and stores [NULL] at [_cdfs[-1]]. *)
Theorem ncclose_rename_failure_undef : ncclose env cdfid s = Undef.
Proof.
  unfold ncclose. rewrite (bind_check_live _ _ _ _ Hsh), Hindef.
  destruct (NC_endef_redef_run env sys s cdfid sh o ovs co Hwf Hsh Ho Hid Hnet Hcreat Hfill Hov
              ltac:(congruence) Hnew Hold Hfiles Hscratch false Hren
              ltac:(rewrite Hnv; apply same_shape_class, schema_prefix_shape, Hprefix)
              (old_readable_fixed o ovs co Hov Hread) (old_readable_rec o ovs co Hov Hread) Hnr Hpaths)
    as (s' & Hr & _ & _ & _ & _ & _ & _ & _ & o' & Ho' & Hfl & _ & _ & Hrd & _).
  rewrite (bind_Ok _ _ _ _ _ Hr). cbn beta iota.
  rewrite <- Hfl in Hoindef, Hocreat. rewrite <- Hrd in Horedef.
  exact (ncabort_nostash _ _ _ Ho' Horedef Hoindef Hocreat).
Qed.
End RenameFailure.

