(* ===== verification/Invariant.v ===== *)
(** * A session invariant kept by every entry point

    [ncredef] links two ids: the caller's id holds the shadow, whose
    [redefid] names the id that holds the old handle (the stash), and
    [ncabort], [NC_endef] and [ncclose] later retire that id.  [pairing]
    is what the table must satisfy for those retirements to hit live
    cells: every handle is a netCDF handle (the HDF shortcut of [ncredef]
    breaks the pairing, see [Define.ncredef_ncabort_hdf]), and a handle
    with [redefid <> -1] names another live id that no other handle names.
    [sess_inv] adds the table invariant [table_wf] of [Table].

    The pure lemmas of [Pairing] say how the pairing survives each kind of
    table update the entry points make; [TblOnly] marks the calls that
    change nothing of the table but [ncerr]; the [Entry] section proves
    that each entry point keeps [sess_inv], and [sess_reachable_inv] that
    every state reachable from the empty table does, as long as the
    client never closes or aborts an id that some shadow names
    ([Scenarios.ncclose_stash_id_closes_other] shows what happens when it
    does). *)

From stdpp Require Import gmap strings.
From S2P Require Import Prelude Flags Limits Table Stream Handle Layout Copy TempName Codec Session Define Commit.

Open Scope Z_scope.

(** ** Pairing of shadows and stashes *)

Section Pairing.
Implicit Types (f g : Z -> option (option NC)).

Definition pairing f : Prop :=
  forall i h, f i = Some (Some h) -> is_hdf h = false /\
    (nc_redefid h <> -1 ->
       nc_redefid h <> i /\ (exists o, f (nc_redefid h) = Some (Some o)) /\
       forall j h', f j = Some (Some h') -> nc_redefid h' = nc_redefid h -> j = i).

(** Some live handle names [j] as its stash ([redefid = -1] names none). *)
Definition targeted f (j : Z) : Prop :=
  exists i h, f i = Some (Some h) /\ nc_redefid h = j /\ j <> -1.

(** [j] holds no handle. *)
Definition dead f (j : Z) : Prop := forall h, f j <> Some (Some h).

(** Replacing a live handle by one with the same [redefid], or with none. *)
Lemma pairing_replace f g i h h' :
  pairing f -> f i = Some (Some h) -> is_hdf h' = false ->
  nc_redefid h' = nc_redefid h \/ nc_redefid h' = -1 ->
  g i = Some (Some h') -> (forall j, j <> i -> g j = f j) -> pairing g.
Proof.
  intros Hp Hi Hhdf Hr Hg Ho k hk Hk.
  destruct (decide (k = i)) as [->|Hki].
  - rewrite Hg in Hk. injection Hk as <-. split; [exact Hhdf|]. intros Hne.
    destruct Hr as [Hr|Hr]; [|contradiction]. rewrite Hr in Hne |- *.
    destruct (proj2 (Hp i h Hi) Hne) as (Hni & (o & Hoo) & Hu).
    split; [exact Hni|]. split; [exists o; rewrite Ho by congruence; exact Hoo|].
    intros j h2 Hj Hr2. destruct (decide (j = i)); [assumption|].
    rewrite Ho in Hj by assumption. eauto.
  - rewrite Ho in Hk by exact Hki. destruct (Hp k hk Hk) as [Hhk Hpk]. split; [exact Hhk|].
    intros Hne. destruct (Hpk Hne) as (Hnk & (o & Hoo) & Hu). split; [exact Hnk|]. split.
    + destruct (decide (nc_redefid hk = i)) as [E|E];
        [rewrite E, Hg; eauto|rewrite Ho by exact E; eauto].
    + intros j h2 Hj Hr2. destruct (decide (j = i)) as [->|Hji].
      * rewrite Hg in Hj. injection Hj as <-. destruct Hr as [Hr|Hr]; [|congruence].
        exfalso. apply Hki. symmetry. apply (Hu i h Hi). congruence.
      * rewrite Ho in Hj by exact Hji. eauto.
Qed.

(** Emptying a live id that no handle names. *)
Lemma pairing_clear f g i :
  pairing f -> ~ targeted f i -> dead g i -> (forall j, j <> i -> g j = f j) -> pairing g.
Proof.
  intros Hp Ht Hd Ho k hk Hk.
  destruct (decide (k = i)) as [->|Hki]; [exfalso; exact (Hd hk Hk)|].
  rewrite Ho in Hk by exact Hki. destruct (Hp k hk Hk) as [Hhk Hpk]. split; [exact Hhk|].
  intros Hne. destruct (Hpk Hne) as (Hnk & (o & Hoo) & Hu). split; [exact Hnk|]. split.
  - exists o. rewrite Ho; [exact Hoo|]. intros E. apply Ht. exists k, hk. rewrite <- E. auto.
  - intros j h2 Hj Hr2. destruct (decide (j = i)) as [->|Hji]; [exfalso; exact (Hd h2 Hj)|].
    rewrite Ho in Hj by exact Hji. eauto.
Qed.

(** Filling a dead id with a handle that names no other id. *)
Lemma pairing_fresh f g i h :
  pairing f -> dead f i -> is_hdf h = false -> nc_redefid h = -1 ->
  g i = Some (Some h) -> (forall j, j <> i -> g j = f j) -> pairing g.
Proof.
  intros Hp Hd Hhdf Hr Hg Ho k hk Hk.
  destruct (decide (k = i)) as [->|Hki];
    [rewrite Hg in Hk; injection Hk as <-; split; [exact Hhdf|congruence]|].
  rewrite Ho in Hk by exact Hki. destruct (Hp k hk Hk) as [Hhk Hpk]. split; [exact Hhk|].
  intros Hne. destruct (Hpk Hne) as (Hnk & (o & Hoo) & Hu). split; [exact Hnk|]. split.
  - exists o. rewrite Ho; [exact Hoo|]. intros E. rewrite E in Hoo. exact (Hd o Hoo).
  - intros j h2 Hj Hr2. destruct (decide (j = i)) as [->|Hji].
    + rewrite Hg in Hj. injection Hj as <-. congruence.
    + rewrite Ho in Hj by exact Hji. eauto.
Qed.

(** After the shadow at [i] forgets its stash [r], no handle names [r]. *)
Lemma pairing_untarget f g i h h' :
  pairing f -> f i = Some (Some h) -> nc_redefid h <> -1 ->
  g i = Some (Some h') -> nc_redefid h' = -1 -> (forall j, j <> i -> g j = f j) ->
  ~ targeted g (nc_redefid h).
Proof.
  intros Hp Hi Hne Hg Hr Ho (k & hk & Hk & E & _).
  destruct (decide (k = i)) as [->|Hki]; [rewrite Hg in Hk; injection Hk as <-; congruence|].
  rewrite Ho in Hk by exact Hki. destruct (proj2 (Hp i h Hi) Hne) as (_ & _ & Hu).
  exact (Hki (Hu k hk Hk E)).
Qed.

(** [ncabort] of a shadow: its stash [r] and then its own id emptied. *)
Lemma pairing_clear_pair f g i h :
  pairing f -> f i = Some (Some h) -> nc_redefid h <> -1 -> ~ targeted f i ->
  dead g i -> dead g (nc_redefid h) ->
  (forall j, j <> i -> j <> nc_redefid h -> g j = f j) -> pairing g.
Proof.
  intros Hp Hi Hne Ht Hdi Hdr Ho k hk Hk.
  destruct (decide (k = i)) as [->|Hki]; [exfalso; exact (Hdi hk Hk)|].
  destruct (decide (k = nc_redefid h)) as [->|Hkr]; [exfalso; exact (Hdr hk Hk)|].
  rewrite Ho in Hk by assumption. destruct (Hp k hk Hk) as [Hhk Hpk]. split; [exact Hhk|].
  destruct (proj2 (Hp i h Hi) Hne) as (_ & _ & Hui).
  intros Hnk. destruct (Hpk Hnk) as (Hnk' & (o & Hoo) & Hu). split; [exact Hnk'|].
  assert (Hri : nc_redefid hk <> i) by (intros E; apply Ht; exists k, hk; rewrite <- E; auto).
  assert (Hrr : nc_redefid hk <> nc_redefid h) by (intros E; exact (Hki (Hui k hk Hk E))).
  split; [exists o; rewrite Ho by assumption; exact Hoo|].
  intros j h2 Hj Hr2. destruct (decide (j = i)) as [->|Hji]; [exfalso; exact (Hdi h2 Hj)|].
  destruct (decide (j = nc_redefid h)) as [->|Hjr]; [exfalso; exact (Hdr h2 Hj)|].
  rewrite Ho in Hj by assumption. eauto.
Qed.

(** The failed rename of [NC_endef]: the stash [o] moves from [r] back to
    the shadow's id [i]. *)
Lemma pairing_move f g i h o :
  pairing f -> f i = Some (Some h) -> nc_redefid h <> -1 ->
  f (nc_redefid h) = Some (Some o) -> ~ targeted f i ->
  g i = Some (Some o) -> dead g (nc_redefid h) ->
  (forall j, j <> i -> j <> nc_redefid h -> g j = f j) -> pairing g.
Proof.
  intros Hp Hi Hne Hr Ht Hgi Hdr Ho.
  destruct (proj2 (Hp i h Hi) Hne) as (Hni & _ & Hui).
  destruct (Hp _ o Hr) as [Hho Hpo].
  assert (Hnt : forall k hk, f k = Some (Some hk) -> nc_redefid hk <> -1 -> nc_redefid hk <> i)
    by (intros k hk Hk Hn E; apply Ht; exists k, hk; rewrite <- E; auto).
  intros k hk Hk. destruct (decide (k = nc_redefid h)) as [->|Hkr]; [exfalso; exact (Hdr hk Hk)|].
  destruct (decide (k = i)) as [->|Hki].
  - rewrite Hgi in Hk. injection Hk as <-. split; [exact Hho|]. intros Hno.
    destruct (Hpo Hno) as (Hno' & (o' & Hoo) & Hu). pose proof (Hnt _ _ Hr Hno) as Hoi.
    split; [exact Hoi|]. split; [exists o'; rewrite Ho by assumption; exact Hoo|].
    intros j h2 Hj Hr2. destruct (decide (j = i)); [assumption|].
    destruct (decide (j = nc_redefid h)) as [->|Hjr]; [exfalso; exact (Hdr h2 Hj)|].
    rewrite Ho in Hj by assumption. exfalso. exact (Hjr (Hu j h2 Hj Hr2)).
  - rewrite Ho in Hk by assumption. destruct (Hp k hk Hk) as [Hhk Hpk]. split; [exact Hhk|].
    intros Hnk. destruct (Hpk Hnk) as (Hnk' & (o' & Hoo) & Hu). split; [exact Hnk'|].
    assert (Hrr : nc_redefid hk <> nc_redefid h) by (intros E; exact (Hki (Hui k hk Hk E))).
    pose proof (Hnt _ _ Hk Hnk) as Hki'.
    split; [exists o'; rewrite Ho by assumption; exact Hoo|].
    intros j h2 Hj Hr2. destruct (decide (j = i)) as [->|Hji].
    + rewrite Hgi in Hj. injection Hj as <-. exfalso. exact (Hkr (eq_sym (Hu _ _ Hr Hr2))).
    + destruct (decide (j = nc_redefid h)) as [->|Hjr]; [exfalso; exact (Hdr h2 Hj)|].
      rewrite Ho in Hj by assumption. eauto.
Qed.

(** [ncredef]: the old handle moves from [i] to the dead id [id], and [i]
    gets the shadow, which names [id]. *)
Lemma pairing_redef f g i id h h' nw :
  pairing f -> f i = Some (Some h) -> dead f id -> id <> -1 ->
  is_hdf h' = false -> nc_redefid h' = nc_redefid h ->
  is_hdf nw = false -> nc_redefid nw = id ->
  g id = Some (Some h') -> g i = Some (Some nw) ->
  (forall j, j <> i -> j <> id -> g j = f j) -> pairing g.
Proof.
  intros Hp Hi Hd Hid Hh' Hr' Hnw Hrn Hgid Hgi Ho.
  assert (Hii : id <> i) by (intros ->; exact (Hd h Hi)).
  assert (Hnd : forall k hk, f k = Some (Some hk) -> nc_redefid hk <> -1 -> nc_redefid hk <> id)
    by (intros k hk Hk Hne E; destruct (proj2 (Hp k hk Hk) Hne) as (_ & (o & Ho') & _);
        rewrite E in Ho'; exact (Hd o Ho')).
  intros k hk Hk. destruct (decide (k = i)) as [->|Hki].
  - rewrite Hgi in Hk. injection Hk as <-. split; [exact Hnw|]. intros _. rewrite Hrn.
    split; [exact Hii|]. split; [eauto|].
    intros j h2 Hj Hr2. destruct (decide (j = i)); [assumption|].
    destruct (decide (j = id)) as [->|Hjd].
    + rewrite Hgid in Hj. injection Hj as <-. exfalso. apply (Hnd i h Hi); congruence.
    + rewrite Ho in Hj by assumption. exfalso. apply (Hnd j h2 Hj); congruence.
  - destruct (decide (k = id)) as [->|Hkd].
    + rewrite Hgid in Hk. injection Hk as <-. split; [exact Hh'|]. rewrite Hr'. intros Hne.
      destruct (proj2 (Hp i h Hi) Hne) as (Hni & (o & Hoo) & Hu).
      pose proof (Hnd i h Hi Hne) as Hrd.
      split; [congruence|]. split; [exists o; rewrite Ho by congruence; exact Hoo|].
      intros j h2 Hj Hr2. destruct (decide (j = id)); [assumption|].
      destruct (decide (j = i)) as [->|Hji]; [rewrite Hgi in Hj; injection Hj as <-; congruence|].
      rewrite Ho in Hj by assumption. exfalso. exact (Hji (Hu j h2 Hj Hr2)).
    + rewrite Ho in Hk by assumption. destruct (Hp k hk Hk) as [Hhk Hpk]. split; [exact Hhk|].
      intros Hnk. destruct (Hpk Hnk) as (Hnk' & (o & Hoo) & Hu). split; [exact Hnk'|].
      pose proof (Hnd k hk Hk Hnk) as Hrd.
      split.
      * destruct (decide (nc_redefid hk = i)) as [E|E]; [rewrite E, Hgi; eauto|].
        rewrite Ho by assumption. eauto.
      * intros j h2 Hj Hr2. destruct (decide (j = i)) as [->|Hji].
        { rewrite Hgi in Hj. injection Hj as <-. congruence. }
        destruct (decide (j = id)) as [->|Hjd].
        { rewrite Hgid in Hj. injection Hj as <-. exfalso. apply Hki. symmetry. apply (Hu i h Hi). congruence. }
        rewrite Ho in Hj by assumption. eauto.
Qed.

Lemma pairing_ext f g : (forall i, g i = f i) -> pairing f -> pairing g.
Proof.
  intros E Hp i h Hh. rewrite E in Hh. destruct (Hp i h Hh) as [Hh1 Hh2]. split; [exact Hh1|].
  intros Hne. destruct (Hh2 Hne) as (Hn & (o & Ho) & Hu). split; [exact Hn|].
  split; [exists o; rewrite E; exact Ho|]. intros j h' Hj. rewrite E in Hj. eauto.
Qed.

(** What the updates do to the ids no handle names. *)
Lemma untargeted_replace f g i h h' j :
  ~ targeted f j -> f i = Some (Some h) -> nc_redefid h' = nc_redefid h \/ nc_redefid h' = -1 ->
  g i = Some (Some h') -> (forall k, k <> i -> g k = f k) -> ~ targeted g j.
Proof.
  intros Ht Hi Hr Hg Ho (k & hk & Hk & E & Hj). apply Ht.
  destruct (decide (k = i)) as [->|Hki].
  - rewrite Hg in Hk. injection Hk as <-. exists i, h. destruct Hr as [Hr|Hr]; [|congruence].
    split_and!; [exact Hi|congruence|exact Hj].
  - rewrite Ho in Hk by exact Hki. exists k, hk. auto.
Qed.

Lemma untargeted_clear f g i j :
  ~ targeted f j -> dead g i -> (forall k, k <> i -> g k = f k) -> ~ targeted g j.
Proof.
  intros Ht Hd Ho (k & hk & Hk & E & Hj). apply Ht.
  destruct (decide (k = i)) as [->|Hki]; [exfalso; exact (Hd hk Hk)|].
  rewrite Ho in Hk by exact Hki. exists k, hk. auto.
Qed.

Lemma untargeted_copy f g i k0 o j :
  ~ targeted f j -> f k0 = Some (Some o) -> g i = Some (Some o) ->
  (forall k, k <> i -> g k = f k) -> ~ targeted g j.
Proof.
  intros Ht Hk0 Hg Ho (k & hk & Hk & E & Hj). apply Ht.
  destruct (decide (k = i)) as [->|Hki]; [rewrite Hg in Hk; injection Hk as <-; exists k0, o; auto|].
  rewrite Ho in Hk by exact Hki. exists k, hk. auto.
Qed.
End Pairing.

(** Two well-formed tables with the same view name the same handles. *)
Lemma HNDLE_view_eq {A} sys sys' (t t' : cdf_table A) :
  table_wf sys t -> table_wf sys' t' -> view t' = view t -> forall i, HNDLE t' i = HNDLE t i.
Proof.
  intros Hw Hw' Hv i. rewrite (HNDLE_view _ _ _ Hw), (HNDLE_view _ _ _ Hw'), Hv.
  pose proof (length_view _ _ Hw) as L. pose proof (length_view _ _ Hw') as L'. rewrite Hv in L'.
  destruct Hw as ((? & ?) & _). destruct Hw' as ((? & ?) & _).
  replace (ncdf t') with (ncdf t) by lia. reflexivity.
Qed.

(** ** Calls that leave the table alone

    [TblOnly m]: every run of [m] changes nothing of the table but the
    error code [ncerr]; the file system, [errno] and the seed may change. *)

Definition frame (s s' : nc_state) : Prop := exists e, st_tbl s' = set_ncerr (st_tbl s) e.

Class TblOnly {R} (m : M nc_state R) : Prop :=
  tbl_only : forall s r s', m s = Ok r s' -> frame s s'.
Arguments tbl_only {_} _ {_} _ _ _ _.

Lemma frame_refl s : frame s s.
Proof. exists (ncerr (st_tbl s)). rewrite set_ncerr_same. reflexivity. Qed.

Lemma frame_trans s1 s2 s3 : frame s1 s2 -> frame s2 s3 -> frame s1 s3.
Proof. intros [e1 E1] [e2 E2]. exists e2. rewrite E2, E1. reflexivity. Qed.

Lemma frame_HNDLE s s' : frame s s' -> HNDLE (st_tbl s') = HNDLE (st_tbl s).
Proof. intros [e ->]. reflexivity. Qed.

Lemma frame_wf sys s s' : frame s s' -> table_wf sys (st_tbl s) -> table_wf sys (st_tbl s').
Proof. intros [e ->]. apply table_wf_set_ncerr. Qed.


Lemma frame_ncerr s e : frame s (set_tbl s (set_ncerr (st_tbl s) e)).
Proof. exists e. reflexivity. Qed.

Lemma frame_same_tbl s s' : st_tbl s' = st_tbl s -> frame s s'.
Proof. intros E. exists (ncerr (st_tbl s)). rewrite E, set_ncerr_same. reflexivity. Qed.

#[export] Hint Extern 2 (TblOnly (match ?x with _ => _ end)) => destruct x : typeclass_instances.

Section Instances.
Context `{NC_codec}.

#[export] Instance ret_tbl {R} (r : R) : TblOnly (ret r).
Proof. intros s r' s' E. injection E as _ <-. apply frame_refl. Qed.

#[export] Instance undef_tbl {R} : TblOnly (@undef nc_state R).
Proof. intros s r s' E. discriminate. Qed.

#[export] Instance bind_tbl {R T} (m : M nc_state R) (k : R -> M nc_state T) :
  TblOnly m -> (forall x, TblOnly (k x)) -> TblOnly (bind m k).
Proof.
  intros Hm Hk s r s' E. apply bind_inv_Ok in E as (x & s1 & E1 & E2).
  exact (frame_trans _ _ _ (tbl_only m _ _ _ E1) (tbl_only (k x) _ _ _ E2)).
Qed.


(** A primitive whose every run is [Ok r s'] with [frame s s']. *)
Lemma tbl_prim {R} (m : M nc_state R) :
  (forall s, match m s with Ok _ s' => frame s s' | Undef => True end) -> TblOnly m.
Proof. intros Hm s r s' E. specialize (Hm s). rewrite E in Hm. exact Hm. Qed.

#[export] Instance get_tbl_tbl : TblOnly get_tbl.
Proof. apply tbl_prim. intros s. apply frame_same_tbl. reflexivity. Qed.
#[export] Instance get_state_tbl : TblOnly (@get nc_state).
Proof. apply tbl_prim. intros s. apply frame_same_tbl. reflexivity. Qed.
#[export] Instance get_fs_tbl : TblOnly get_fs.
Proof. apply tbl_prim. intros s. apply frame_same_tbl. reflexivity. Qed.
#[export] Instance put_fs_tbl d : TblOnly (put_fs d).
Proof. apply tbl_prim. intros s. apply frame_same_tbl. reflexivity. Qed.
#[export] Instance put_errno_tbl e : TblOnly (put_errno e).
Proof. apply tbl_prim. intros s. apply frame_same_tbl. reflexivity. Qed.
#[export] Instance sadvise_tbl e : TblOnly (sadvise e).
Proof. apply tbl_prim. intros s. apply frame_ncerr. Qed.
#[export] Instance nc_serror_tbl : TblOnly nc_serror.
Proof. apply _. Qed.
#[export] Instance free_tbl o : TblOnly (NC_free_cdf o).
Proof. apply _. Qed.
#[export] Instance check_id_tbl i : TblOnly (on_tbl (NC_check_id i)).
Proof.
  apply tbl_prim. intros s. unfold on_tbl, NC_check_id, load_handle, bind, advise, modify, ret.
  destruct (HNDLE _ i) as [[h|]|]; [rewrite set_tbl_same; apply frame_refl|apply frame_ncerr|exact I].
Qed.
#[export] Instance find_free_tbl : TblOnly (on_tbl find_free).
Proof.
  apply tbl_prim. intros s. unfold on_tbl.
  destruct (find_free (st_tbl s)) as [k t|] eqn:E; [|exact I]. apply frame_same_tbl. simpl.
  revert E. unfold find_free. cbv beta zeta.
  destruct (cdfs (st_tbl s)); [destruct (scan_free _ _)|destruct (ncdf _ <=? 0)];
    simpl; intros E; inversion E; reflexivity.
Qed.
#[export] Instance load_handle_tbl i : TblOnly (on_tbl (load_handle i)).
Proof.
  apply tbl_prim. intros s. unfold on_tbl, load_handle.
  destruct (HNDLE _ i); [rewrite set_tbl_same; apply frame_refl|exact I].
Qed.
#[export] Instance run_io_tbl {R} tgt src (m : M io R) : TblOnly (run_io tgt src m).
Proof. apply tbl_prim. intros s. unfold run_io. destruct (m _); [apply frame_ncerr|exact I]. Qed.

#[export] Instance STASH_tbl i : TblOnly (STASH i).
Proof. unfold STASH. apply _. Qed.
#[export] Instance xdr_cdf_put_tbl h : TblOnly (xdr_cdf_put h).
Proof. unfold xdr_cdf_put. apply _. Qed.
#[export] Instance xdr_numrecs_tbl h : TblOnly (xdr_numrecs h).
Proof. unfold xdr_numrecs. apply _. Qed.
#[export] Instance xdr_cdf_get_tbl h : TblOnly (xdr_cdf_get h).
Proof. unfold xdr_cdf_get. apply _. Qed.
#[export] Instance write_back_tbl h : TblOnly (NC_write_back h).
Proof. unfold NC_write_back. apply _. Qed.
#[export] Instance flush_tbl h : TblOnly (NC_flush h).
Proof. unfold NC_flush. apply _. Qed.
#[export] Instance indefine_tbl i b : TblOnly (NC_indefine i b).
Proof. unfold NC_indefine. apply _. Qed.

Context (env : sess_env).
#[export] Instance xdrfile_create_tbl p m : TblOnly (NCxdrfile_create env p m).
Proof. unfold NCxdrfile_create. apply _. Qed.
#[export] Instance new_cdf_tbl p m : TblOnly (NC_new_cdf env p m).
Proof. unfold NC_new_cdf. apply _. Qed.
#[export] Instance dup_cdf_tbl p m o : TblOnly (NC_dup_cdf env p m o).
Proof. unfold NC_dup_cdf. apply _. Qed.
#[export] Instance remove_tbl p : TblOnly (remove_or_serror p).
Proof. unfold remove_or_serror, sys_remove. apply _. Qed.
#[export] Instance rename_tbl p q : TblOnly (sys_rename env p q).
Proof. unfold sys_rename. apply _. Qed.
#[export] Instance tempname_tbl p : TblOnly (tempname env p).
Proof. intros s r s' E. apply tempname_inv in E as [E _]. apply frame_same_tbl, E. Qed.
End Instances.

(** ** The session invariant and the table updates *)

Definition sess_inv (sys : Z) (s : nc_state) : Prop :=
  table_wf sys (st_tbl s) /\ pairing (HNDLE (st_tbl s)).

(** [h'] is [h] as far as the pairing goes. *)
Definition keeps (h h' : NC) : Prop :=
  nc_redefid h' = nc_redefid h /\ nc_file_type h' = nc_file_type h.

Lemma keeps_refl h : keeps h h.
Proof. split; reflexivity. Qed.

Lemma keeps_trans h1 h2 h3 : keeps h1 h2 -> keeps h2 h3 -> keeps h1 h3.
Proof. intros [E1 F1] [E2 F2]. split; congruence. Qed.

Lemma keeps_hdf h h' : keeps h h' -> is_hdf h' = is_hdf h.
Proof. intros [_ F]. unfold is_hdf. rewrite F. reflexivity. Qed.

#[export] Hint Resolve keeps_refl : nc.

Section Updates.
Context (sys : Z).
Implicit Types (s : nc_state).

Lemma inv_frame s s' : sess_inv sys s -> frame s s' -> sess_inv sys s'.
Proof. intros [Hw Hp] Hf. split; [exact (frame_wf _ _ _ Hf Hw)|rewrite (frame_HNDLE _ _ Hf); exact Hp]. Qed.

Lemma put_step s i h h' u s' :
  table_wf sys (st_tbl s) -> HNDLE (st_tbl s) i = Some (Some h) -> put_handle i h' s = Ok u s' ->
  table_wf sys (st_tbl s') /\ HNDLE (st_tbl s') i = Some (Some h') /\
  (forall j, j <> i -> HNDLE (st_tbl s') j = HNDLE (st_tbl s) j).
Proof.
  intros Hw Hh E. destruct (put_handle_live s i h h' Hh) as (t' & Hp & Hi & Ho & _ & _ & _ & Hw').
  rewrite Hp in E. injection E as _ <-. split; [apply (Hw' sys Hw)|]. split; assumption.
Qed.

Lemma retire_step s i h u s' :
  table_wf sys (st_tbl s) -> HNDLE (st_tbl s) i = Some (Some h) -> on_tbl (NC_retire i) s = Ok u s' ->
  table_wf sys (st_tbl s') /\ dead (HNDLE (st_tbl s')) i /\
  (forall j, j <> i -> HNDLE (st_tbl s') j = HNDLE (st_tbl s) j).
Proof.
  intros Hw Hh E. destruct (retire_HNDLE sys _ i h Hw Hh) as (t' & Hr & Hw' & _ & Hi & Ho).
  rewrite (on_tbl_Ok _ s _ _ Hr) in E. injection E as _ <-.
  split; [exact Hw'|]. split; [intros x; simpl; rewrite Hi; discriminate|exact Ho].
Qed.

Lemma inv_put s i h h' u s' :
  sess_inv sys s -> HNDLE (st_tbl s) i = Some (Some h) -> is_hdf h' = false ->
  nc_redefid h' = nc_redefid h \/ nc_redefid h' = -1 -> put_handle i h' s = Ok u s' ->
  sess_inv sys s' /\ HNDLE (st_tbl s') i = Some (Some h') /\
  (forall j, j <> i -> HNDLE (st_tbl s') j = HNDLE (st_tbl s) j).
Proof.
  intros [Hw Hp] Hh Hhdf Hr E. destruct (put_step _ _ _ _ _ _ Hw Hh E) as (Hw' & Hi & Ho).
  split; [split; [exact Hw'|exact (pairing_replace _ _ _ _ _ Hp Hh Hhdf Hr Hi Ho)]|auto].
Qed.

(** Writing back a handle that [keeps] the live one. *)
Lemma inv_put_keeps s i h h' u s' :
  sess_inv sys s -> HNDLE (st_tbl s) i = Some (Some h) -> keeps h h' -> put_handle i h' s = Ok u s' ->
  sess_inv sys s' /\ HNDLE (st_tbl s') i = Some (Some h') /\
  (forall j, j <> i -> HNDLE (st_tbl s') j = HNDLE (st_tbl s) j).
Proof.
  intros Hi Hh Hk E. apply (inv_put _ _ h h' u); auto.
  - rewrite (keeps_hdf _ _ Hk). exact (proj1 (proj2 Hi i h Hh)).
  - left. apply Hk.
Qed.

Lemma inv_retire s i h u s' :
  sess_inv sys s -> HNDLE (st_tbl s) i = Some (Some h) -> ~ targeted (HNDLE (st_tbl s)) i ->
  on_tbl (NC_retire i) s = Ok u s' -> sess_inv sys s'.
Proof.
  intros [Hw Hp] Hh Ht E. destruct (retire_step _ _ _ _ _ Hw Hh E) as (Hw' & Hd & Ho).
  split; [exact Hw'|exact (pairing_clear _ _ _ Hp Ht Hd Ho)].
Qed.

Lemma check_id_Some s i h s1 :
  on_tbl (NC_check_id i) s = Ok (Some h) s1 -> s1 = s /\ HNDLE (st_tbl s) i = Some (Some h).
Proof.
  unfold on_tbl, NC_check_id, load_handle, bind, advise, modify, ret.
  destruct (HNDLE _ i) as [[h'|]|]; intros E; try discriminate.
  injection E as -> <-. rewrite set_tbl_same. auto.
Qed.

Lemma bind_get_tbl {R} (k : cdf_table NC -> M nc_state R) s : bind get_tbl k s = k (st_tbl s) s.
Proof. reflexivity. Qed.
Lemma bind_get {R} (k : nc_state -> M nc_state R) s : bind get k s = k s s.
Proof. reflexivity. Qed.

Lemma retire_nonneg s i u s' : on_tbl (NC_retire i) s = Ok u s' -> 0 <= i.
Proof.
  unfold on_tbl, NC_retire, NC_clear_slot, bind, lift_opt, store.
  destruct (cdfs _); [|discriminate]. destruct (Z.leb_spec 0 i); [lia|discriminate].
Qed.

Lemma STASH_run s cdfid h x s1 :
  HNDLE (st_tbl s) cdfid = Some (Some h) -> STASH cdfid s = Ok x s1 ->
  s1 = s /\ HNDLE (st_tbl s) (nc_redefid h) = Some x.
Proof.
  intros Hh E. destruct (HNDLE (st_tbl s) (nc_redefid h)) as [x'|] eqn:Ex.
  - rewrite (STASH_live _ _ _ _ Hh Ex) in E. injection E as -> ->. auto.
  - rewrite (STASH_dangling _ _ _ Hh Ex) in E. discriminate.
Qed.
End Updates.

Lemma slot_ok_set_ncerr {A} (t : cdf_table A) r e : slot_ok t r -> slot_ok (set_ncerr t e) r.
Proof. unfold slot_ok. rewrite view_set_ncerr. tauto. Qed.

Lemma frame_slot s s' r : frame s s' -> slot_ok (st_tbl s) r -> slot_ok (st_tbl s') r.
Proof. intros [e ->]. apply slot_ok_set_ncerr. Qed.

(** Run the first call of [E : bind m k s = Ok r s'] when it is [TblOnly],
    and move the facts about the table of [s] to the new state. *)
Ltac transport Hf :=
  lazymatch type of Hf with
  | frame ?s ?s1 =>
      let HH := fresh in pose proof (frame_HNDLE _ _ Hf) as HH;
      repeat match goal with
      | H : sess_inv ?sys s |- _ => apply (fun Hi => inv_frame sys _ _ Hi Hf) in H
      | H : table_wf ?sys (st_tbl s) |- _ => apply (frame_wf sys _ _ Hf) in H
      | H : slot_ok (st_tbl s) ?r |- _ => apply (frame_slot _ _ r Hf) in H
      | H : context [HNDLE (st_tbl s)] |- _ =>
          tryif constr_eq H HH then fail else rewrite <- HH in H
      end; clear HH
  end.

Ltac fstep E :=
  let x := fresh "x" in let s1 := fresh "s" in let E1 := fresh "E" in
  apply bind_inv_Ok in E as (x & s1 & E1 & E);
  let Hf := fresh "Hf" in pose proof (tbl_only _ _ _ _ E1) as Hf; transport Hf; clear Hf.

(** Close a run whose remainder is [TblOnly]. *)
Ltac ffinish E :=
  lazymatch goal with
  | Hi : sess_inv ?sys ?s |- sess_inv ?sys ?s' => exact (inv_frame sys _ _ Hi (tbl_only _ _ _ _ E))
  end.

(** Resolve the [NC_check_id] at the head of an entry point. *)
Ltac check_id E :=
  let h := fresh "h" in let s1 := fresh "s" in let E1 := fresh "E" in let Hh := fresh "Hh" in
  apply bind_inv_Ok in E as ([h|] & s1 & E1 & E);
  [apply check_id_Some in E1 as [-> Hh]
  |let Hf := fresh "Hf" in pose proof (tbl_only _ _ _ _ E1) as Hf; transport Hf; clear Hf;
   try ffinish E].

(** ** The handles the codec calls return *)

Section Keeps.
Context `{NC_codec_ok}.
Implicit Types (s : nc_state).

Lemma keeps_set_xdrs h x : keeps h (set_xdrs h x).
Proof. split; reflexivity. Qed.
Lemma keeps_set_flags h f : keeps h (set_flags h f).
Proof. split; reflexivity. Qed.
Lemma keeps_with_op h op : keeps h (with_op h op).
Proof. split; reflexivity. Qed.
Lemma keeps_set_path h p : keeps h (set_path h p).
Proof. split; reflexivity. Qed.
Lemma keeps_set_numrecs h n : keeps h (set_numrecs h n).
Proof. split; reflexivity. Qed.
Lemma keeps_endef_done h : keeps h (endef_done h).
Proof. split; reflexivity. Qed.
Lemma keeps_begins xl h : keeps h (NC_begins xl h).
Proof. unfold NC_begins. destruct (nc_vars h); [|apply keeps_refl]. repeat case_match. split; reflexivity. Qed.

Lemma xdr_cdf_put_keeps s h h' s' : xdr_cdf_put h s = Ok (Some h') s' -> keeps h h'.
Proof.
  unfold xdr_cdf_put, get_fs, bind, put_fs, modify, ret. destruct (putbytes _ _ _) as [[d x]|];
    intros E; inversion E; subst; apply keeps_set_xdrs.
Qed.
Lemma xdr_numrecs_keeps s h h' s' : xdr_numrecs h s = Ok (Some h') s' -> keeps h h'.
Proof.
  unfold xdr_numrecs, get_fs, bind, put_fs, modify, ret. destruct (putbytes _ _ _) as [[d x]|];
    intros E; inversion E; subst; apply keeps_set_xdrs.
Qed.
Lemma write_back_keeps s h h' s' : NC_write_back h s = Ok (Some h') s' -> keeps h h'.
Proof.
  unfold NC_write_back. destruct (has_flag _ NC_HDIRTY); [apply xdr_cdf_put_keeps|].
  destruct (has_flag _ NC_NDIRTY); [apply xdr_numrecs_keeps|]. intros E. injection E as <- _. apply keeps_refl.
Qed.
Lemma flush_keeps s h h' s' : NC_flush h s = Ok (Some h') s' -> keeps h h'.
Proof.
  unfold NC_flush. intros E. apply bind_inv_Ok in E as ([h1|] & s1 & E1 & E); inversion E; subst.
  exact (keeps_trans _ _ _ (write_back_keeps _ _ _ _ E1) (keeps_set_flags _ _)).
Qed.
Lemma cdf_get_keeps s h h' s' : xdr_cdf_get h s = Ok (Some h') s' -> keeps h h'.
Proof.
  unfold xdr_cdf_get, get_fs, bind, ret. intros E. injection E as E _.
  destruct (decode_keeps _ _ _ E) as (E1 & E2 & _). split; assumption.
Qed.
Lemma shapes_keeps h h' : NC_computeshapes h = Some h' -> keeps h h'.
Proof. intros E. destruct (shapes_keep _ _ E) as (E1 & E2 & _). split; assumption. Qed.
End Keeps.

#[export] Hint Resolve keeps_set_xdrs keeps_set_flags keeps_with_op keeps_set_path
  keeps_set_numrecs keeps_endef_done keeps_begins : nc.

(** Write back [h'] at the live id [i] of [E : bind (put_handle i h') k s = Ok r s']. *)
Ltac pstep E Hh :=
  let s1 := fresh "s" in let E1 := fresh "E" in
  let Hh' := fresh "Hh" in let Ho := fresh "Ho" in let Hk := fresh "Hk" in
  apply bind_inv_Ok in E as ([] & s1 & E1 & E);
  lazymatch type of Hh with HNDLE (st_tbl ?s0) _ = Some (Some ?h) =>
    lazymatch type of E1 with
    | put_handle _ ?h' _ = _ => assert (Hk : keeps h h') by eauto 6 using keeps_trans with nc
    | set_cell _ (Some ?h') _ = _ => assert (Hk : keeps h h') by eauto 6 using keeps_trans with nc
    end;
    lazymatch goal with Hi : sess_inv ?sys s0 |- _ =>
      destruct (inv_put_keeps sys _ _ _ _ _ _ Hi Hh Hk E1) as (Hi' & Hh' & Ho);
      clear Hi; rename Hi' into Hi
    end;
    repeat match goal with Ht : ~ targeted (HNDLE (st_tbl s0)) ?j |- _ =>
      apply (fun H => untargeted_replace _ _ _ _ _ _ H Hh (or_introl (proj1 Hk)) Hh' Ho) in Ht
    end
  end.

(** The slot [NC_open_slot] picks holds no handle. *)
Lemma slot_dead sys t r : table_wf sys t -> slot_ok t r -> dead (HNDLE t) r.
Proof.
  intros Hw (_ & Hr & _ & _ & Hfree) x. rewrite (HNDLE_view _ _ _ Hw).
  destruct (Z.ltb_spec r (ncdf t)).
  - rewrite (Hfree ltac:(lia)). destruct (Z.leb_spec 0 r); [|lia]. simpl. discriminate.
  - rewrite andb_false_r. discriminate.
Qed.

Lemma new_cdf_fresh `{NC_codec_ok} env p m s h s' :
  NC_new_cdf env p m s = Ok (Some h) s' -> nc_redefid h = -1 /\ nc_file_type h = new_file_kind.
Proof.
  unfold NC_new_cdf. intros E. apply bind_inv_Ok in E as ([x|] & s1 & _ & E); [|discriminate].
  destruct (has_flag m NC_CREAT); [injection E as <- _; split; reflexivity|].
  apply bind_inv_Ok in E as ([h1|] & s2 & E1 & E); [|discriminate]. injection E as E _.
  destruct (cdf_get_keeps _ _ _ _ E1) as [R1 F1]. destruct (shapes_keeps _ _ E) as [R2 F2].
  rewrite R2, R1, F2, F1. split; reflexivity.
Qed.

(** ** Each entry point keeps the invariant *)

Section Entry.
Context `{NC_codec_ok} (env : sess_env).
Let sys := sys_limit (se_tbl env).
Implicit Types (s : nc_state).

Lemma ncnobuf_inv s cdfid r s' : sess_inv sys s -> ncnobuf cdfid s = Ok r s' -> sess_inv sys s'.
Proof. intros Hi E. exact (inv_frame sys _ _ Hi (tbl_only _ _ _ _ E)). Qed.

Lemma ncsync_inv s cdfid r s' : sess_inv sys s -> ncsync cdfid s = Ok r s' -> sess_inv sys s'.
Proof.
  intros Hi E. unfold ncsync in E. check_id E.
  destruct (has_flag _ NC_INDEF); [ffinish E|]. destruct (has_flag _ NC_RDWR).
  - fstep E. destruct x as [h'|]; [apply flush_keeps in E0|]; pstep E Hh; ffinish E.
  - fstep E. destruct x as [h'|]; [|pstep E Hh; ffinish E].
    apply cdf_get_keeps in E0. destruct (NC_computeshapes h') as [h''|] eqn:Es;
      [apply shapes_keeps in Es|]; pstep E Hh; ffinish E.
Qed.

Lemma ncsetfill_inv s id mode r s' : sess_inv sys s -> ncsetfill id mode s = Ok r s' -> sess_inv sys s'.
Proof.
  intros Hi E. unfold ncsetfill in E. check_id E.
  destruct (has_flag (nc_flags h) NC_RDWR); cbn [negb] in E; [|ffinish E].
  destruct (mode =? NC_NOFILL); [pstep E Hh; ffinish E|].
  destruct (mode =? NC_FILL); [|ffinish E]. destruct (has_flag _ NC_NOFILL); [|ffinish E].
  fstep E. destruct x as [h2|]; [apply flush_keeps in E0|]; pstep E Hh; ffinish E.
Qed.

Lemma reset_inv s req r s' :
  sess_inv sys s -> on_tbl (NC_reset_maxopenfiles (se_tbl env) req) s = Ok r s' -> sess_inv sys s'.
Proof.
  intros [Hw Hp] E. destruct (reset_safe (se_tbl env) req _ Hw) as (r' & t' & Hr & Hw' & Hv).
  rewrite (on_tbl_Ok _ s _ _ Hr) in E. injection E as _ <-. split; [exact Hw'|].
  exact (pairing_ext _ _ (HNDLE_view_eq _ _ _ _ Hw Hw' Hv) Hp).
Qed.

Hypothesis Hkind : new_file_kind <> HDF_FILE.

Lemma NC_open_inv s p m r s' : sess_inv sys s -> NC_open env p m s = Ok r s' -> sess_inv sys s'.
Proof.
  intros [Hw Hp] E. unfold NC_open in E.
  destruct (open_slot_run (se_tbl env) _ Hw) as (c & t1 & Hr & Hw1 & Hv & Hc).
  apply bind_inv_Ok in E as (c' & s1 & E1 & E). rewrite (on_tbl_Ok _ s _ _ Hr) in E1.
  injection E1 as <- <-.
  assert (Hi1 : sess_inv sys (set_tbl s t1))
    by (split; [exact Hw1|exact (pairing_ext _ _ (HNDLE_view_eq _ _ _ _ Hw Hw1 Hv) Hp)]).
  destruct (Z.eqb_spec c (-1)); [ffinish E|]. destruct Hc as [(-> & _)|Hslot]; [contradiction|].
  apply bind_inv_Ok in E as ([h|] & s2 & E2 & E); [|exact (inv_frame sys _ _ (inv_frame sys _ _ Hi1
    (tbl_only _ _ _ _ E2)) (tbl_only _ _ _ _ E))].
  destruct (new_cdf_fresh _ _ _ _ _ _ E2) as [Hr1 Hk1].
  destruct (tbl_only _ _ _ _ E2) as [e He]. simpl in He.
  assert (Hw2 : table_wf sys (st_tbl s2)) by (rewrite He; apply table_wf_set_ncerr; exact Hw1).
  assert (Hs2 : slot_ok (st_tbl s2) c) by (rewrite He; apply slot_ok_set_ncerr; exact Hslot).
  destruct (install_HNDLE sys _ c (set_path h (strncpy_path p)) Hw2 Hs2)
    as (t3 & Hi3 & Hw3 & _ & _ & Hc3 & Ho3).
  apply bind_inv_Ok in E as ([] & s3 & E3 & E). rewrite (on_tbl_Ok _ s2 _ _ Hi3) in E3.
  injection E3 as <-. injection E as _ <-. split; [exact Hw3|].
  apply (pairing_fresh (HNDLE (st_tbl s2)) _ c (set_path h (strncpy_path p))); auto.
  - rewrite He. exact (proj2 Hi1).
  - exact (slot_dead _ _ _ Hw2 Hs2).
  - unfold is_hdf. simpl. rewrite Hk1. destruct new_file_kind; congruence.
Qed.

Lemma nccreate_inv s p m r s' : sess_inv sys s -> nccreate env p m s = Ok r s' -> sess_inv sys s'.
Proof. intros Hi E. unfold nccreate in E. destruct (has_flag m NC_CREAT); [exact (NC_open_inv _ _ _ _ _ Hi E)|ffinish E]. Qed.

Lemma ncopen_inv s p m r s' : sess_inv sys s -> ncopen env p m s = Ok r s' -> sess_inv sys s'.
Proof. intros Hi E. unfold ncopen in E. destruct (has_flag m NC_CREAT); [ffinish E|exact (NC_open_inv _ _ _ _ _ Hi E)]. Qed.

(** The end of [ncredef]: the old handle installed at [id], the shadow
    at [cdfid]. *)
Lemma redef_swap_inv s cdfid id h h1 r s' :
  sess_inv sys s -> HNDLE (st_tbl s) cdfid = Some (Some h) -> keeps h h1 ->
  slot_ok (st_tbl s) id -> 0 <= id -> redef_swap env cdfid id h1 s = Ok r s' -> sess_inv sys s'.
Proof.
  intros Hi Hh Hk Hslot Hid E. unfold redef_swap in E. fstep E. fstep E.
  destruct x0 as [nw|]; [|pstep E Hh; ffinish E].
  lazymatch goal with H : NC_dup_cdf _ _ _ _ _ = _ |- _ => destruct (dup_inv env _ _ _ _ _ H) as (_ & _ & f & -> & _) end.
  destruct Hi as [Hw Hp].
  destruct (install_HNDLE sys _ id (set_flags h1 (set_flag (nc_flags h1) NC_INDEF)) Hw Hslot)
    as (t3 & Hi3 & Hw3 & _ & _ & Hc3 & Ho3).
  apply bind_inv_Ok in E as ([] & s3 & E3 & E). rewrite (on_tbl_Ok _ _ _ _ Hi3) in E3. injection E3 as <-.
  assert (Hh3 : HNDLE t3 cdfid = Some (Some h)) by (rewrite Ho3; [exact Hh|intros ->; exact (slot_dead _ _ _ Hw Hslot h Hh)]).
  apply bind_inv_Ok in E as ([] & s4 & E4 & E). injection E as _ <-.
  destruct (put_step sys (set_tbl _ t3) _ _ _ _ _ Hw3 Hh3 E4) as (Hw4 & Hc4 & Ho4).
  split; [exact Hw4|].
  pose proof (proj1 (Hp _ _ Hh)) as Hnh. rewrite <- (keeps_hdf _ _ Hk) in Hnh.
  lazymatch type of E4 with put_handle _ ?nw _ = _ =>
    apply (pairing_redef (HNDLE (st_tbl s1)) _ cdfid id h (set_flags h1 (set_flag (nc_flags h1) NC_INDEF)) nw)
  end; auto; try lia; try (apply Hk).
  - exact (slot_dead _ _ _ Hw Hslot).
  - rewrite Ho4 by (intros ->; exact (slot_dead _ _ _ Hw Hslot h Hh)). exact Hc3.
  - intros j Hj1 Hj2. rewrite Ho4, Ho3 by assumption. reflexivity.
Qed.

Lemma ncredef_inv s cdfid r s' : sess_inv sys s -> ncredef env cdfid s = Ok r s' -> sess_inv sys s'.
Proof.
  intros Hi E. unfold ncredef in E. check_id E.
  destruct (has_flag _ NC_INDEF); [ffinish E|].
  destruct (has_flag _ NC_RDWR); cbn [negb] in E; [|ffinish E].
  rewrite (proj1 (proj2 Hi _ _ Hh)) in E.
  destruct (find_free_spec sys _ (proj1 Hi)) as (id & Hff & Hid & _).
  apply bind_inv_Ok in E as (id' & s1 & E1 & E). rewrite (on_tbl_Ok _ _ _ _ Hff), set_tbl_same in E1.
  injection E1 as <- <-. rewrite bind_get_tbl in E.
  destruct (_ && _) eqn:Efull; [ffinish E|].
  pose proof (find_free_slot sys _ _ (proj1 Hi) (HNDLE_live_alloc _ _ _ Hh) Hff Efull) as Hslot.
  rewrite bind_get in E.
  destruct (has_flag (st_ncopts s) NC_NOFILL); [destruct (has_flag (nc_flags (with_op h XDR_ENCODE)) NC_NDIRTY)|].
  - rewrite bind_assoc in E. fstep E. destruct x as [h'|]; cbn beta iota in E.
    + rewrite bind_ret_l in E. apply xdr_numrecs_keeps in E0.
      refine (redef_swap_inv _ _ _ h _ _ _ Hi Hh _ Hslot ltac:(lia) E). eauto using keeps_trans with nc.
    + rewrite bind_assoc in E. pstep E Hh. rewrite bind_ret_l in E. ffinish E.
  - rewrite bind_ret_l in E. exact (redef_swap_inv _ _ _ h _ _ _ Hi Hh (keeps_with_op _ _) Hslot ltac:(lia) E).
  - rewrite bind_ret_l in E. exact (redef_swap_inv _ _ _ h _ _ _ Hi Hh (keeps_refl _) Hslot ltac:(lia) E).
Qed.

(** [ncabort]'s end: free the handle, remove the file, retire [cdfid]. *)
Ltac abort_tail E :=
  cbn beta iota in E; fstep E; fstep E;
  apply bind_inv_Ok in E as ([] & ?s & ?E & E); injection E as _ <-;
  eapply inv_retire; eauto.

Lemma ncabort_inv s cdfid r s' :
  sess_inv sys s -> ~ targeted (HNDLE (st_tbl s)) cdfid -> ncabort cdfid s = Ok r s' -> sess_inv sys s'.
Proof.
  intros Hi Ht E. unfold ncabort in E. check_id E.
  destruct (has_flag _ (Z.lor _ _)); [destruct (has_flag _ NC_CREAT)|destruct (has_flag _ NC_RDWR)];
    cbn [negb] in E; rewrite ?bind_ret_l in E; try (abort_tail E; fail).
  - rewrite !bind_assoc in E. fstep E. rewrite bind_assoc in E. fstep E. rewrite bind_assoc in E.
    apply bind_inv_Ok in E as ([] & s3 & E3 & E).
    destruct (Z.eq_dec (nc_redefid h) (-1)) as [Hm|Hne]; [apply retire_nonneg in E3; lia|].
    destruct Hi as [Hw Hp]. destruct (proj2 (Hp cdfid h Hh) Hne) as (Hnc & (o & Ho) & _).
    destruct (retire_step sys _ _ _ _ _ Hw Ho E3) as (Hw3 & Hd3 & Ho3).
    assert (Hh3 : HNDLE (st_tbl s3) cdfid = Some (Some h)) by (rewrite Ho3 by congruence; exact Hh).
    rewrite bind_ret_l in E. cbn beta iota in E. fstep E. fstep E.
    apply bind_inv_Ok in E as ([] & s6 & E6 & E). injection E as _ <-.
    destruct (retire_step sys _ _ _ _ _ Hw3 Hh3 E6) as (Hw6 & Hd6 & Ho6).
    split; [exact Hw6|]. apply (pairing_clear_pair _ _ cdfid h Hp Hh Hne Ht Hd6).
    + intros hx. rewrite Ho6 by congruence. apply Hd3.
    + intros j Hj1 Hj2. rewrite Ho6, Ho3 by assumption. reflexivity.
  - rewrite bind_assoc in E. fstep E. destruct x as [h'|]; cbn beta iota in E.
    + rewrite bind_ret_l in E. abort_tail E.
    + rewrite bind_assoc in E. pstep E Hh. rewrite bind_ret_l in E. ffinish E.
Qed.

(** What [NC_endef] and its commit leave for [ncclose]: the invariant, the
    caller's id still named by nobody, and live unless the result is -1. *)
Definition endef_post (s' : nc_state) (cdfid r : Z) : Prop :=
  sess_inv sys s' /\ ~ targeted (HNDLE (st_tbl s')) cdfid /\
  (r <> -1 -> exists h', HNDLE (st_tbl s') cdfid = Some (Some h')).

Lemma endef_post_frame s s' cdfid r : endef_post s cdfid r -> frame s s' -> endef_post s' cdfid r.
Proof. intros (Hi & Ht & Hl) Hf. pose proof (frame_HNDLE _ _ Hf) as E. split; [exact (inv_frame _ _ _ Hi Hf)|]. rewrite E. auto. Qed.

Lemma endef_commit_inv s cdfid hc h st r s' :
  sess_inv sys s -> HNDLE (st_tbl s) cdfid = Some (Some hc) -> keeps hc h ->
  HNDLE (st_tbl s) (nc_redefid hc) = Some (Some st) -> nc_redefid hc <> -1 ->
  ~ targeted (HNDLE (st_tbl s)) cdfid ->
  endef_commit env cdfid h st s = Ok r s' -> endef_post s' cdfid r.
Proof.
  intros Hi Hh Hk Hst Hne Ht E. unfold endef_commit in E.
  destruct (proj2 (proj2 Hi _ _ Hh) Hne) as (Hnc & _).
  fstep E. destruct x as [h3|]; cbn beta iota in E.
  2: { pstep E Hh. injection E as <- <-. split; [exact Hi|]. split; [exact Ht|congruence]. }
  assert (Hk3 : keeps hc h3) by (apply xdr_numrecs_keeps in E0; eauto using keeps_trans with nc).
  fstep E. destruct Hi as [Hw Hp]. destruct x; cbn [negb] in E.
  - fstep E. apply bind_inv_Ok in E as ([] & s4 & E4 & E).
    lazymatch type of E4 with put_handle _ ?hn _ = _ =>
      destruct (inv_put sys _ _ _ hn _ _ (conj Hw Hp) Hh ltac:(change (is_hdf h3 = false);
        rewrite (keeps_hdf _ _ Hk3); apply (Hp _ _ Hh)) (or_intror eq_refl) E4)
        as ([Hw4 Hp4] & Hh4 & Ho4) end.
    apply bind_inv_Ok in E as ([] & s5 & E5 & E). injection E as <- <-. rewrite (proj1 Hk3) in E5.
    assert (Hr4 : HNDLE (st_tbl s4) (nc_redefid hc) = Some (Some st)) by (rewrite Ho4 by congruence; exact Hst).
    pose proof (pairing_untarget _ _ _ _ _ Hp Hh Hne Hh4 eq_refl Ho4) as Hu.
    destruct (retire_step sys _ _ _ _ _ Hw4 Hr4 E5) as (Hw5 & Hd5 & Ho5).
    split; [exact (inv_retire sys _ _ _ _ _ (conj Hw4 Hp4) Hr4 Hu E5)|]. split.
    + refine (untargeted_clear _ _ _ _ _ Hd5 Ho5).
      refine (untargeted_replace _ _ _ _ _ _ Ht Hh _ Hh4 Ho4). right. reflexivity.
    + intros _. eexists. rewrite Ho5 by congruence. exact Hh4.
  - fstep E. apply bind_inv_Ok in E as ([] & s4 & E4 & E).
    destruct (put_step sys _ _ _ _ _ _ Hw Hh E4) as (Hw4 & Hh4 & Ho4).
    apply bind_inv_Ok in E as ([] & s5 & E5 & E). rewrite (proj1 Hk3) in E5.
    assert (Hr4 : HNDLE (st_tbl s4) (nc_redefid hc) = Some (Some st)) by (rewrite Ho4 by congruence; exact Hst).
    destruct (retire_step sys _ _ _ _ _ Hw4 Hr4 E5) as (Hw5 & Hd5 & Ho5).
    apply (endef_post_frame s5); [|exact (tbl_only _ _ _ _ E)].
    assert (Hg : HNDLE (st_tbl s5) cdfid = Some (Some st)) by (rewrite Ho5 by congruence; exact Hh4).
    split; [split; [exact Hw5|]|split].
    + apply (pairing_move _ _ _ _ _ Hp Hh Hne Hst Ht Hg Hd5).
      intros j Hj1 Hj2. rewrite Ho5, Ho4 by assumption. reflexivity.
    + exact (untargeted_clear _ _ _ _ (untargeted_copy _ _ _ _ _ _ Ht Hst Hh4 Ho4) Hd5 Ho5).
    + intros Hr. apply bind_const_ret in E. contradiction.
Qed.

Lemma NC_endef_inv s cdfid h r s' :
  sess_inv sys s -> HNDLE (st_tbl s) cdfid = Some (Some h) -> ~ targeted (HNDLE (st_tbl s)) cdfid ->
  NC_endef env cdfid h s = Ok r s' -> endef_post s' cdfid r.
Proof.
  intros Hi Hh Ht E. unfold NC_endef in E.
  apply bind_inv_Ok in E as (stash & s1 & E1 & E). apply (STASH_run _ _ _ _ _ Hh) in E1 as [-> Hst].
  pose proof (proj1 (proj2 Hi _ _ Hh)) as Hnh. rewrite Hnh in E.
  fstep E. destruct x as [h1|]; cbn beta iota in E.
  2: { pstep E Hh. fstep E. injection E as <- <-. split; [exact Hi|]. split; [exact Ht|congruence]. }
  assert (Hk1 : keeps h h1) by (apply xdr_cdf_put_keeps in E0; eauto using keeps_trans with nc).
  rewrite (keeps_hdf _ _ Hk1), Hnh in E. cbn iota in E.
  destruct (nc_vars h1) as [vs|].
  2: { pstep E Hh. injection E as <- <-. split; [exact Hi|]. split; [exact Ht|eauto]. }
  fstep E. destruct x as [ok io]. cbn beta iota in E.
  destruct stash as [st0|]; cbn [option_map] in E.
  - assert (Hne : nc_redefid h <> -1) by (intros Hm; rewrite Hm in Hst; discriminate).
    assert (Hnc : nc_redefid h <> cdfid) by exact (proj1 (proj2 (proj2 Hi _ _ Hh) Hne)).
    cbn [nc_redefid set_xdrs] in E. rewrite (proj1 Hk1) in E.
    pstep E Hst.
    assert (Hh4 : HNDLE (st_tbl s2) cdfid = Some (Some h)) by (rewrite Ho by congruence; exact Hh).
    destruct ok; cbn [negb] in E; [destruct (has_flag (nc_flags h1) NC_CREAT)|].
    + pstep E Hh4. injection E as <- <-. split; [exact Hi|]. split; [exact Ht|eauto].
    + exact (endef_commit_inv _ _ h (set_xdrs h1 (io_tgt io)) _ _ _ Hi Hh4
        ltac:(eauto using keeps_trans with nc) Hh0 Hne Ht E).
    + pstep E Hh4. injection E as <- <-. split; [exact Hi|]. split; [exact Ht|congruence].
  - rewrite bind_ret_l in E.
    destruct ok; cbn [negb] in E; [destruct (has_flag (nc_flags h1) NC_CREAT)|]; try discriminate;
      pstep E Hh; injection E as <- <-; (split; [exact Hi|]); (split; [exact Ht|eauto || congruence]).
Qed.

Lemma ncendef_inv s cdfid r s' :
  sess_inv sys s -> ~ targeted (HNDLE (st_tbl s)) cdfid -> ncendef env cdfid s = Ok r s' -> sess_inv sys s'.
Proof.
  intros Hi Ht E. unfold ncendef in E. check_id E.
  fstep E. destruct (negb x); [ffinish E|]. exact (proj1 (NC_endef_inv _ _ _ _ _ Hi Hh Ht E)).
Qed.

Lemma close_tail_inv s cdfid h0 h r s' :
  sess_inv sys s -> HNDLE (st_tbl s) cdfid = Some (Some h0) -> ~ targeted (HNDLE (st_tbl s)) cdfid ->
  close_tail cdfid h s = Ok r s' -> sess_inv sys s'.
Proof.
  intros Hi Hh Ht E. unfold close_tail in E. fstep E.
  apply bind_inv_Ok in E as ([] & s2 & E2 & E). injection E as _ <-. exact (inv_retire sys _ _ _ _ _ Hi Hh Ht E2).
Qed.

Lemma ncclose_inv s cdfid r s' :
  sess_inv sys s -> ~ targeted (HNDLE (st_tbl s)) cdfid -> ncclose env cdfid s = Ok r s' -> sess_inv sys s'.
Proof.
  intros Hi Ht E. unfold ncclose in E. check_id E.
  destruct (has_flag _ NC_INDEF); [|destruct (has_flag _ NC_RDWR)].
  - apply bind_inv_Ok in E as (r1 & s1 & E1 & E).
    destruct (NC_endef_inv _ _ _ _ _ Hi Hh Ht E1) as (Hi1 & Ht1 & Hl1).
    destruct (Z.eqb_spec r1 (-1)); [exact (ncabort_inv _ _ _ _ Hi1 Ht1 E)|].
    destruct (Hl1 n) as [h1 Hh1]. exact (close_tail_inv _ _ _ _ _ _ Hi1 Hh1 Ht1 E).
  - fstep E. destruct x as [h'|]; [exact (close_tail_inv _ _ _ _ _ _ Hi Hh Ht E)|]. pstep E Hh. ffinish E.
  - exact (close_tail_inv _ _ _ _ _ _ Hi Hh Ht E).
Qed.
End Entry.

(** ** Reachable sessions *)

Section Reach.
Context `{NC_codec_ok} (env : sess_env).

(** One call of an entry point of [file.c] that returns.  The client
    passes to [ncendef], [ncabort] and [ncclose] only ids that no shadow
    names as its stash (the ids [nccreate], [ncopen] returned to it). *)
Inductive sess_step : nc_state -> nc_state -> Prop :=
  | step_reset req s r s' :
      on_tbl (NC_reset_maxopenfiles (se_tbl env) req) s = Ok r s' -> sess_step s s'
  | step_create p m s r s' : nccreate env p m s = Ok r s' -> sess_step s s'
  | step_open p m s r s' : ncopen env p m s = Ok r s' -> sess_step s s'
  | step_sync i s r s' : ncsync i s = Ok r s' -> sess_step s s'
  | step_nobuf i s r s' : ncnobuf i s = Ok r s' -> sess_step s s'
  | step_setfill i m s r s' : ncsetfill i m s = Ok r s' -> sess_step s s'
  | step_redef i s r s' : ncredef env i s = Ok r s' -> sess_step s s'
  | step_endef i s r s' :
      ~ targeted (HNDLE (st_tbl s)) i -> ncendef env i s = Ok r s' -> sess_step s s'
  | step_abort i s r s' :
      ~ targeted (HNDLE (st_tbl s)) i -> ncabort i s = Ok r s' -> sess_step s s'
  | step_close i s r s' :
      ~ targeted (HNDLE (st_tbl s)) i -> ncclose env i s = Ok r s' -> sess_step s s'.

(** From the static initialisers of [file.c] (no table, nothing open),
    whatever the file system, [ncopts], seed and [errno]. *)
Inductive sess_reachable : nc_state -> Prop :=
  | reach_init d o sd e : sess_reachable (mk_state table_init d o sd e)
  | reach_step s s' : sess_reachable s -> sess_step s s' -> sess_reachable s'.

(** The proof of [sess_reachable_inv], by induction on the session. *)
Lemma reachable_sess_inv s :
  new_file_kind <> HDF_FILE -> H4_MAX_NC_OPEN <= sys_limit (se_tbl env) ->
  sess_reachable s -> sess_inv (sys_limit (se_tbl env)) s.
Proof.
  intros Hk Hmax R. induction R as [d o sd e|s s' R IH St].
  - split; [exact (table_init_wf _ Hmax)|]. intros i h Hh. unfold HNDLE, cell in Hh. simpl in Hh.
    destruct (_ && _); discriminate.
  - destruct St.
    + exact (reset_inv env _ _ _ _ IH H1).
    + exact (nccreate_inv env Hk _ _ _ _ _ IH H1).
    + exact (ncopen_inv env Hk _ _ _ _ _ IH H1).
    + exact (ncsync_inv env _ _ _ _ IH H1).
    + exact (ncnobuf_inv env _ _ _ _ IH H1).
    + exact (ncsetfill_inv env _ _ _ _ _ IH H1).
    + exact (ncredef_inv env _ _ _ _ IH H1).
    + exact (ncendef_inv env _ _ _ _ IH H1 H2).
    + exact (ncabort_inv env _ _ _ _ IH H1 H2).
    + exact (ncclose_inv env _ _ _ _ IH H1 H2).
Qed.

(** C5: With a header codec that never yields HDF handles, and a system
    ceiling at least [H4_MAX_NC_OPEN] (a descriptor soft limit of at least
    35; with a lower one [NC_open] can store past the array, see
    [Table.NC_open_overflow_low_limit]), every state a session reaches
    by calls of the entry points, [ncendef], [ncabort] and [ncclose] being
    called only on ids no shadow names as its stash, keeps
    the open-file table well formed ([_curr_opened] counts the live ids,
    [_ncdf] and [max_NC_open] within the array and the ceiling) and the
    redefinition pairs consistent: every handle with a [redefid] names
    another live id that no other handle names, so the retirements of
    [ncabort] and [NC_endef] always hit a live cell. *)
Theorem sess_reachable_inv s :
  new_file_kind <> HDF_FILE -> H4_MAX_NC_OPEN <= sys_limit (se_tbl env) ->
  sess_reachable s -> sess_inv (sys_limit (se_tbl env)) s.
Proof. apply reachable_sess_inv. Qed.
End Reach.
