(* ===== verification/Modes.v ===== *)
(** * The define-mode state machine of the spec, refined by the entry points

    Section 4.3 of the spec describes each file as a small state machine:
    closed, [Normal] (data mode) and [Defining].  [amode_of] reads that
    state off the table: an id with no handle is closed, a handle with
    [NC_INDEF] is defining, any other is in data mode.  [spec_next] is the
    abstract machine: which mode an operation moves an id to when it
    succeeds, and [None] where the spec makes the operation an error.
    [run_op] runs the entry point of [file.c] for an operation.

    [mode_refinement] shows that in every reachable session a call that
    does not return -1 moves the mode of its id exactly as [spec_next]
    says; [NC_open_mode] does the same for [nccreate] and [ncopen], whose
    new id was closed. *)

From stdpp Require Import gmap strings.
From S2P Require Import Prelude Flags Limits Table Stream Handle Layout Copy TempName Codec Session Define Commit Invariant.

Open Scope Z_scope.

(** ** The abstract machine *)

Inductive amode := AClosed | ANormal | ADefining.

#[export] Instance amode_eq_dec : EqDecision amode.
Proof. solve_decision. Defined.

(** The mode of a handle: [NC_INDEF] is define mode. *)
Definition hmode (h : NC) : amode := if has_flag (nc_flags h) NC_INDEF then ADefining else ANormal.

Definition amode_of (t : cdf_table NC) (i : Z) : amode :=
  match HNDLE t i with Some (Some h) => hmode h | _ => AClosed end.

(** The operations of the Session API on an existing id. *)
Inductive aop := ORedef | OEndef | OAbort | OClose | OSync | OSetfill (m : Z) | ONobuf.

Definition spec_next (o : aop) (m : amode) : option amode :=
  match o, m with
  | _, AClosed => None
  | ORedef, ANormal => Some ADefining
  | ORedef, ADefining => None
  | OEndef, ADefining => Some ANormal
  | OEndef, ANormal => None
  | OAbort, _ | OClose, _ => Some AClosed
  | OSync, ANormal => Some ANormal
  | OSync, ADefining => None
  | OSetfill _, m | ONobuf, m => Some m
  end.

Definition run_op `{NC_codec} (env : sess_env) (o : aop) (i : Z) : M nc_state Z :=
  match o with
  | ORedef => ncredef env i
  | OEndef => ncendef env i
  | OAbort => ncabort i
  | OClose => ncclose env i
  | OSync => ncsync i
  | OSetfill m => ncsetfill i m
  | ONobuf => ncnobuf i
  end.

(** ** Reading the mode *)

Lemma amode_live t i h : HNDLE t i = Some (Some h) -> amode_of t i = hmode h.
Proof. unfold amode_of. intros ->. reflexivity. Qed.

Lemma amode_dead t i : dead (HNDLE t) i -> amode_of t i = AClosed.
Proof. unfold amode_of. intros Hd. destruct (HNDLE t i) as [[h|]|] eqn:E; [exfalso; exact (Hd h E)|..]; reflexivity. Qed.

Lemma flushed_indef h : has_flag (flushed_flags h) NC_INDEF = has_flag (nc_flags h) NC_INDEF.
Proof. unfold flushed_flags. repeat case_match; autorewrite with nc_flags; reflexivity. Qed.

Lemma endef_done_mode h : hmode (endef_done h) = ANormal.
Proof. unfold hmode, endef_done. simpl. autorewrite with nc_flags. reflexivity. Qed.

Lemma flags_with_op h op : nc_flags (with_op h op) = nc_flags h.
Proof. reflexivity. Qed.
Lemma flags_set_xdrs h x : nc_flags (set_xdrs h x) = nc_flags h.
Proof. reflexivity. Qed.
Lemma flags_set_flags h f : nc_flags (set_flags h f) = f.
Proof. reflexivity. Qed.
Lemma flags_set_redefid h r : nc_flags (set_redefid h r) = nc_flags h.
Proof. reflexivity. Qed.
Lemma flags_set_path h p : nc_flags (set_path h p) = nc_flags h.
Proof. reflexivity. Qed.
Lemma flags_set_numrecs h n : nc_flags (set_numrecs h n) = nc_flags h.
Proof. reflexivity. Qed.

#[export] Hint Rewrite flushed_indef endef_done_mode flags_with_op flags_set_xdrs flags_set_flags
  flags_set_redefid flags_set_path flags_set_numrecs : nc_flags.

(** ** Runs that end at an id *)

Lemma put_at s i h h' u s' :
  HNDLE (st_tbl s) i = Some (Some h) -> put_handle i h' s = Ok u s' ->
  HNDLE (st_tbl s') i = Some (Some h') /\ (forall j, j <> i -> HNDLE (st_tbl s') j = HNDLE (st_tbl s) j).
Proof.
  intros Hh E. destruct (put_handle_live s i h h' Hh) as (t' & Hp & Hi & Ho & _).
  rewrite Hp in E. injection E as _ <-. auto.
Qed.

(** A run ending in [ret (-1)] contradicts a result other than -1. *)
Ltac neg1 E :=
  repeat (let x := fresh in let s := fresh in let E1 := fresh in apply bind_inv_Ok in E as (x & s & E1 & E));
  let E' := fresh in injection E as E' _; subst; congruence.

(** Write [h'] back at the live id of [Hh] in [E : bind (put_handle i h') k s = Ok r s']. *)
Ltac put_at E Hh Hh' :=
  let s1 := fresh "s" in let E1 := fresh "E" in let Ho := fresh "Ho" in
  apply bind_inv_Ok in E as ([] & s1 & E1 & E);
  destruct (put_at _ _ _ _ _ _ Hh E1) as (Hh' & Ho).

(** Resolve the [NC_check_id] at the head of an entry point: the id is
    live with handle [h], or the call returns -1. *)
Ltac mstart E h Hh :=
  let s1 := fresh "s" in let E1 := fresh "E" in
  apply bind_inv_Ok in E as ([h|] & s1 & E1 & E);
  [apply check_id_Some in E1 as [-> Hh]; rewrite (amode_live _ _ _ Hh)|neg1 E].

(** The mode after the last write at the id. *)
Ltac mode_after Hh' :=
  rewrite (amode_live _ _ _ Hh'); unfold hmode; autorewrite with nc_flags in *;
  cbn [nc_flags] in *; autorewrite with nc_flags in *.

Section Modes.
Context `{NC_codec_ok} (env : sess_env).
Let sys := sys_limit (se_tbl env).

Lemma ncnobuf_mode s i r s' :
  ncnobuf i s = Ok r s' -> r <> -1 -> spec_next ONobuf (amode_of (st_tbl s) i) = Some (amode_of (st_tbl s') i).
Proof.
  intros E Hr. unfold ncnobuf in E. mstart E h Hh. injection E as _ <-.
  rewrite (amode_live _ _ _ Hh). unfold hmode. destruct (has_flag _ _); reflexivity.
Qed.

Lemma ncsync_mode s i r s' :
  ncsync i s = Ok r s' -> r <> -1 -> spec_next OSync (amode_of (st_tbl s) i) = Some (amode_of (st_tbl s') i).
Proof.
  intros E Hr. unfold ncsync in E. mstart E h Hh. unfold hmode.
  destruct (has_flag _ NC_INDEF) eqn:Hi; [neg1 E|]. destruct (has_flag _ NC_RDWR).
  - fstep E. destruct x as [h'|]; [|neg1 E]. put_at E Hh Hp. injection E as _ <-.
    unfold NC_flush in E0. apply bind_inv_Ok in E0 as ([h1|] & s2 & _ & E0); inversion E0; subst.
    mode_after Hp. rewrite ?Hi. reflexivity.
  - fstep E. destruct x as [h'|]; [|neg1 E].
    destruct (NC_computeshapes h') as [h''|] eqn:Es; [|neg1 E]. put_at E Hh Hp. injection E as _ <-.
    unfold xdr_cdf_get, get_fs, bind, ret in E0. injection E0 as E0 _.
    destruct (decode_keeps _ _ _ E0) as (_ & _ & F1). destruct (shapes_keep _ _ Es) as (_ & _ & F2).
    rewrite (amode_live _ _ _ Hp). unfold hmode. rewrite F2, F1. simpl. rewrite ?Hi. reflexivity.
Qed.

Lemma ncsetfill_mode s i m r s' :
  ncsetfill i m s = Ok r s' -> r <> -1 ->
  spec_next (OSetfill m) (amode_of (st_tbl s) i) = Some (amode_of (st_tbl s') i).
Proof.
  intros E Hr. unfold ncsetfill in E. mstart E h Hh. unfold hmode.
  destruct (has_flag (nc_flags h) NC_RDWR); cbn [negb] in E; [|neg1 E].
  destruct (m =? NC_NOFILL).
  { put_at E Hh Hp. injection E as _ <-. mode_after Hp. destruct (has_flag _ NC_INDEF); reflexivity. }
  destruct (m =? NC_FILL); [|neg1 E]. destruct (has_flag (nc_flags h) NC_NOFILL).
  - fstep E. destruct x as [h2|]; [|neg1 E]. put_at E Hh Hp. injection E as _ <-.
    unfold NC_flush in E0. apply bind_inv_Ok in E0 as ([h1|] & s2 & _ & E0); inversion E0; subst.
    mode_after Hp. destruct (has_flag _ NC_INDEF); reflexivity.
  - injection E as _ <-. rewrite (amode_live _ _ _ Hh). unfold hmode. destruct (has_flag _ NC_INDEF); reflexivity.
Qed.

Lemma redef_swap_mode s i id h h1 r s' :
  table_wf sys (st_tbl s) -> HNDLE (st_tbl s) i = Some (Some h) -> slot_ok (st_tbl s) id ->
  redef_swap env i id h1 s = Ok r s' -> r <> -1 -> amode_of (st_tbl s') i = ADefining.
Proof.
  intros Hw Hh Hslot E Hr. unfold redef_swap in E. fstep E. fstep E.
  destruct x0 as [nw|]; [|neg1 E].
  lazymatch goal with H : NC_dup_cdf _ _ _ _ _ = _ |- _ => destruct (dup_inv env _ _ _ _ _ H) as (_ & _ & f & -> & _) end.
  destruct (install_HNDLE sys _ id (set_flags h1 (set_flag (nc_flags h1) NC_INDEF)) Hw Hslot)
    as (t3 & Hi3 & Hw3 & _ & _ & Hc3 & Ho3).
  apply bind_inv_Ok in E as ([] & s3 & E3 & E). rewrite (on_tbl_Ok _ _ _ _ Hi3) in E3. injection E3 as <-.
  lazymatch type of E with _ ?st = _ =>
    assert (Hh3 : HNDLE (st_tbl st) i = Some (Some h))
      by (simpl; rewrite Ho3; [exact Hh|intros ->; exact (slot_dead _ _ _ Hw Hslot h Hh)]) end.
  put_at E Hh3 Hp. injection E as _ <-. mode_after Hp. reflexivity.
Qed.

Lemma ncredef_mode s i r s' :
  sess_inv sys s -> ncredef env i s = Ok r s' -> r <> -1 ->
  spec_next ORedef (amode_of (st_tbl s) i) = Some (amode_of (st_tbl s') i).
Proof.
  intros Hi E Hr. unfold ncredef in E. mstart E h Hh. unfold hmode.
  destruct (has_flag (nc_flags h) NC_INDEF); [neg1 E|].
  destruct (has_flag _ NC_RDWR); cbn [negb] in E; [|neg1 E].
  destruct (is_hdf h).
  { put_at E Hh Hp. injection E as _ <-. mode_after Hp. reflexivity. }
  destruct (find_free_spec sys _ (proj1 Hi)) as (id & Hff & Hid & _).
  apply bind_inv_Ok in E as (id' & s1 & E1 & E). rewrite (on_tbl_Ok _ _ _ _ Hff), set_tbl_same in E1.
  injection E1 as <- <-. rewrite bind_get_tbl in E.
  destruct (_ && _) eqn:Efull; [neg1 E|].
  pose proof (find_free_slot sys _ _ (proj1 Hi) (HNDLE_live_alloc _ _ _ Hh) Hff Efull) as Hslot.
  destruct Hi as [Hw _]. rewrite bind_get in E. cbn.
  destruct (has_flag (st_ncopts s) NC_NOFILL); [destruct (has_flag (nc_flags (with_op h XDR_ENCODE)) NC_NDIRTY)|].
  - rewrite bind_assoc in E. fstep E. destruct x as [h'|]; cbn beta iota in E.
    + rewrite bind_ret_l in E. rewrite (redef_swap_mode _ _ _ _ _ _ _ Hw Hh Hslot E Hr). reflexivity.
    + rewrite bind_assoc in E. apply bind_inv_Ok in E as ([] & s3 & _ & E).
      rewrite bind_ret_l in E. injection E as <- _. congruence.
  - rewrite bind_ret_l in E. rewrite (redef_swap_mode _ _ _ _ _ _ _ Hw Hh Hslot E Hr). reflexivity.
  - rewrite bind_ret_l in E. rewrite (redef_swap_mode _ _ _ _ _ _ _ Hw Hh Hslot E Hr). reflexivity.
Qed.

Lemma endef_commit_mode s i hc h st r s' :
  sess_inv sys s -> HNDLE (st_tbl s) i = Some (Some hc) -> keeps hc h ->
  nc_redefid hc <> -1 -> HNDLE (st_tbl s) (nc_redefid hc) = Some (Some st) ->
  endef_commit env i h st s = Ok r s' -> r <> -1 -> amode_of (st_tbl s') i = ANormal.
Proof.
  intros Hi Hh Hk Hne Hst E Hr. unfold endef_commit in E.
  destruct (proj2 (proj2 Hi _ _ Hh) Hne) as (Hnc & _).
  fstep E. destruct x as [h3|]; cbn beta iota in E; [|neg1 E].
  assert (Hk3 : keeps hc h3) by (apply xdr_numrecs_keeps in E0; eauto using keeps_trans with nc).
  fstep E. destruct x; cbn [negb] in E; [|neg1 E]. fstep E. destruct Hi as [Hw _].
  apply bind_inv_Ok in E as ([] & s4 & E4 & E). destruct (put_step sys _ _ _ _ _ _ Hw Hh E4) as (Hw4 & Hh4 & Ho4).
  apply bind_inv_Ok in E as ([] & s5 & E5 & E). injection E as _ <-. rewrite (proj1 Hk3) in E5.
  assert (Hr4 : HNDLE (st_tbl s4) (nc_redefid hc) = Some (Some st)) by (rewrite Ho4 by congruence; exact Hst).
  destruct (retire_step sys _ _ _ _ _ Hw4 Hr4 E5) as (_ & _ & Ho5).
  rewrite (amode_live _ _ _ (eq_trans (Ho5 i ltac:(congruence)) Hh4)). apply endef_done_mode.
Qed.

Lemma NC_endef_mode s i h r s' :
  sess_inv sys s -> HNDLE (st_tbl s) i = Some (Some h) ->
  NC_endef env i h s = Ok r s' -> r <> -1 -> amode_of (st_tbl s') i = ANormal.
Proof.
  intros Hi Hh E Hr. unfold NC_endef in E.
  apply bind_inv_Ok in E as (stash & s1 & E1 & E). apply (STASH_run _ _ _ _ _ Hh) in E1 as [-> Hst].
  fstep E. destruct x as [h1|]; cbn beta iota in E; [|neg1 E].
  assert (Hk1 : keeps h h1) by (apply xdr_cdf_put_keeps in E0; destruct (is_hdf h); eauto using keeps_trans with nc).
  destruct (is_hdf h1); [put_at E Hh Hp; injection E as _ <-; rewrite (amode_live _ _ _ Hp); apply endef_done_mode|].
  destruct (nc_vars h1) as [vs|]; [|put_at E Hh Hp; injection E as _ <-; rewrite (amode_live _ _ _ Hp); apply endef_done_mode].
  fstep E. destruct x as [ok io]. cbn beta iota in E.
  destruct stash as [st0|]; cbn [option_map] in E.
  - assert (Hne : nc_redefid h <> -1) by (intros Hm; rewrite Hm in Hst; discriminate).
    assert (Hnc : nc_redefid h <> i) by exact (proj1 (proj2 (proj2 Hi _ _ Hh) Hne)).
    cbn [nc_redefid set_xdrs] in E. rewrite (proj1 Hk1) in E.
    pstep E Hst.
    assert (Hh4 : HNDLE (st_tbl s2) i = Some (Some h)) by (rewrite Ho by congruence; exact Hh).
    destruct ok; cbn [negb] in E; [destruct (has_flag (nc_flags h1) NC_CREAT)|neg1 E].
    + put_at E Hh4 Hp. injection E as _ <-. rewrite (amode_live _ _ _ Hp). apply endef_done_mode.
    + exact (endef_commit_mode _ _ h (set_xdrs h1 (io_tgt io)) _ _ _ Hi Hh4
        ltac:(eauto using keeps_trans with nc) Hne Hh0 E Hr).
  - rewrite bind_ret_l in E.
    destruct ok; cbn [negb] in E; [destruct (has_flag (nc_flags h1) NC_CREAT)|neg1 E]; [|discriminate].
    put_at E Hh Hp. injection E as _ <-. rewrite (amode_live _ _ _ Hp). apply endef_done_mode.
Qed.

Lemma ncendef_mode s i r s' :
  sess_inv sys s -> ncendef env i s = Ok r s' -> r <> -1 ->
  spec_next OEndef (amode_of (st_tbl s) i) = Some (amode_of (st_tbl s') i).
Proof.
  intros Hi E Hr. unfold ncendef in E. mstart E h Hh.
  apply bind_inv_Ok in E as (b & s1 & E1 & E). rewrite (NC_indefine_live _ _ _ _ Hh) in E1.
  unfold hmode. destruct (has_flag (nc_flags h) NC_INDEF); cbn in E1; injection E1 as <- <-; [|neg1 E].
  cbn [negb] in E. rewrite (NC_endef_mode _ _ _ _ _ Hi Hh E Hr). reflexivity.
Qed.

(** The end of [ncabort] and [ncclose]: frees, then retires the live id. *)
Ltac retire_end E Hw Hh :=
  let s2 := fresh "s" in let E2 := fresh "E" in let Hd := fresh "Hd" in
  apply bind_inv_Ok in E as ([] & s2 & E2 & E); injection E as _ <-;
  destruct (retire_step _ _ _ _ _ _ Hw Hh E2) as (_ & Hd & _); apply amode_dead; exact Hd.

Lemma ncabort_closes s i r s' :
  sess_inv sys s -> ncabort i s = Ok r s' -> r <> -1 -> amode_of (st_tbl s') i = AClosed.
Proof.
  intros [Hw Hp] E Hr. unfold ncabort in E.
  apply bind_inv_Ok in E as ([h|] & s1 & E1 & E); [|neg1 E]. apply check_id_Some in E1 as [-> Hh].
  destruct (has_flag _ (Z.lor _ _)); [destruct (has_flag _ NC_CREAT)|destruct (has_flag _ NC_RDWR)];
    cbn [negb] in E; rewrite ?bind_ret_l in E; try (cbn beta iota in E; fstep E; fstep E; retire_end E Hw Hh; fail).
  - rewrite !bind_assoc in E. fstep E. rewrite bind_assoc in E. fstep E. rewrite bind_assoc in E.
    apply bind_inv_Ok in E as ([] & s3 & E3 & E).
    destruct (Z.eq_dec (nc_redefid h) (-1)) as [Hm|Hne]; [apply retire_nonneg in E3; lia|].
    destruct (proj2 (Hp i h Hh) Hne) as (Hnc & (o & Ho) & _).
    destruct (retire_step sys _ _ _ _ _ Hw Ho E3) as (Hw3 & _ & Ho3).
    assert (Hh3 : HNDLE (st_tbl s3) i = Some (Some h)) by (rewrite Ho3 by congruence; exact Hh).
    rewrite bind_ret_l in E. cbn beta iota in E. fstep E. fstep E. retire_end E Hw3 Hh3.
  - rewrite bind_assoc in E. fstep E. destruct x as [h'|]; cbn beta iota in E.
    + rewrite bind_ret_l in E. cbn beta iota in E. fstep E. fstep E. retire_end E Hw Hh.
    + rewrite bind_assoc in E. apply bind_inv_Ok in E as ([] & s3 & _ & E).
      rewrite bind_ret_l in E. injection E as <- _. congruence.
Qed.

Lemma ncclose_closes s i r s' :
  sess_inv sys s -> ~ targeted (HNDLE (st_tbl s)) i -> ncclose env i s = Ok r s' -> r <> -1 ->
  amode_of (st_tbl s') i = AClosed.
Proof.
  intros Hi Ht E Hr. unfold ncclose in E.
  apply bind_inv_Ok in E as ([h|] & s1 & E1 & E); [|neg1 E]. apply check_id_Some in E1 as [-> Hh].
  destruct (has_flag _ NC_INDEF); [|destruct (has_flag _ NC_RDWR)].
  - apply bind_inv_Ok in E as (r1 & s1 & E1 & E).
    destruct (NC_endef_inv env _ _ _ _ _ Hi Hh Ht E1) as (Hi1 & _ & Hl1).
    destruct (Z.eqb_spec r1 (-1)); [exact (ncabort_closes _ _ _ _ Hi1 E Hr)|].
    destruct (Hl1 n) as [h1 Hh1]. unfold close_tail in E. fstep E. retire_end E (proj1 Hi1) Hh1.
  - fstep E. destruct x as [h'|]; [|neg1 E]. unfold close_tail in E. fstep E. retire_end E (proj1 Hi) Hh.
  - unfold close_tail in E. fstep E. retire_end E (proj1 Hi) Hh.
Qed.

Lemma new_cdf_flags p m s h s' : NC_new_cdf env p m s = Ok (Some h) s' -> nc_flags h = m.
Proof.
  unfold NC_new_cdf. intros E. apply bind_inv_Ok in E as ([x|] & s1 & _ & E); [|discriminate].
  destruct (has_flag m NC_CREAT); [injection E as <- _; reflexivity|].
  apply bind_inv_Ok in E as ([h1|] & s2 & E1 & E); [|discriminate]. injection E as E _.
  unfold xdr_cdf_get, get_fs, bind, ret in E1. injection E1 as E1 _.
  destruct (decode_keeps _ _ _ E1) as (_ & _ & F1). destruct (shapes_keep _ _ E) as (_ & _ & F2).
  rewrite F2, F1. reflexivity.
Qed.

Lemma NC_open_mode s p m r s' :
  table_wf sys (st_tbl s) -> NC_open env p m s = Ok r s' -> r <> -1 ->
  amode_of (st_tbl s) r = AClosed /\ amode_of (st_tbl s') r = if has_flag m NC_INDEF then ADefining else ANormal.
Proof.
  intros Hw E Hr. unfold NC_open in E.
  destruct (open_slot_run (se_tbl env) _ Hw) as (c & t1 & Hrun & Hw1 & Hv & Hc).
  apply bind_inv_Ok in E as (c' & s1 & E1 & E). rewrite (on_tbl_Ok _ s _ _ Hrun) in E1.
  injection E1 as <- <-.
  destruct (Z.eqb_spec c (-1)); [neg1 E|]. destruct Hc as [(-> & _)|Hslot]; [contradiction|].
  apply bind_inv_Ok in E as ([h|] & s2 & E2 & E); [|rewrite bind_get in E; destruct (st_errno s2); neg1 E].
  pose proof (new_cdf_flags _ _ _ _ _ E2) as Hf.
  destruct (tbl_only _ _ _ _ E2) as [e He]. simpl in He.
  assert (Hw2 : table_wf sys (st_tbl s2)) by (rewrite He; apply table_wf_set_ncerr; exact Hw1).
  assert (Hs2 : slot_ok (st_tbl s2) c) by (rewrite He; apply slot_ok_set_ncerr; exact Hslot).
  destruct (install_HNDLE sys _ c (set_path h (strncpy_path p)) Hw2 Hs2) as (t3 & Hi3 & _ & _ & _ & Hc3 & _).
  apply bind_inv_Ok in E as ([] & s3 & E3 & E). rewrite (on_tbl_Ok _ s2 _ _ Hi3) in E3.
  injection E3 as <-. injection E as <- <-. split.
  - apply amode_dead. intros x Hx. rewrite <- (HNDLE_view_eq _ _ _ _ Hw Hw1 Hv) in Hx.
    exact (slot_dead _ _ _ Hw1 Hslot x Hx).
  - cbn [st_tbl set_tbl]. rewrite (amode_live _ _ _ Hc3). unfold hmode. simpl. rewrite Hf. reflexivity.
Qed.
End Modes.

(** A call that resolves [i] with [NC_check_id] and returns -1 when it is
    not live returns something else only for a live id. *)
Lemma live_of_ok (k : option NC -> M nc_state Z) s i r s' :
  (forall s0, k None s0 = Ok (-1) s0) -> bind (on_tbl (NC_check_id i)) k s = Ok r s' -> r <> -1 ->
  exists h, HNDLE (st_tbl s) i = Some (Some h).
Proof.
  intros Hk E Hr. apply bind_inv_Ok in E as ([h|] & s1 & E1 & E); [apply check_id_Some in E1 as [-> Hh]; eauto|].
  rewrite Hk in E. injection E as <- _. congruence.
Qed.

(** ** The refinement *)

Section Refinement.
Context `{NC_codec_ok} (env : sess_env).

(** The operations that the client applies only to ids it owns. *)
Definition owner_only (o : aop) : bool :=
  match o with OEndef | OAbort | OClose => true | _ => false end.

(** C6: In every session reachable from the empty table, under the
    assumptions of [sess_reachable_inv] (a codec that never yields HDF
    handles, a ceiling of at least [H4_MAX_NC_OPEN], i.e. a descriptor
    soft limit of at least 35, and [ncendef], [ncabort], [ncclose] called
    only on ids no shadow names as its stash, this call included), an
    entry point that does not return -1 moves the mode of its id as the
    state machine of the spec (section 4.3) says: [ncredef] from data to
    define mode, [ncendef] from define to data mode, [ncabort] and
    [ncclose] from either to closed, [ncsync] within data mode, and
    [ncsetfill], [ncnobuf] leave the mode alone; on a closed id, or in a
    mode where the spec makes the call an error, it returns -1. *)
Theorem mode_refinement s o i r s' :
  new_file_kind <> HDF_FILE -> H4_MAX_NC_OPEN <= sys_limit (se_tbl env) -> sess_reachable env s ->
  (owner_only o = true -> ~ targeted (HNDLE (st_tbl s)) i) ->
  run_op env o i s = Ok r s' -> r <> -1 ->
  spec_next o (amode_of (st_tbl s) i) = Some (amode_of (st_tbl s') i).
Proof.
  intros Hk Hm R Ho E Hr. pose proof (reachable_sess_inv env s Hk Hm R) as Hi.
  destruct o; simpl in E, Ho.
  - exact (ncredef_mode env _ _ _ _ Hi E Hr).
  - exact (ncendef_mode env _ _ _ _ Hi E Hr).
  - destruct (live_of_ok _ _ _ _ _ (fun _ => eq_refl) E Hr) as [h Hh].
    rewrite (amode_live _ _ _ Hh), (ncabort_closes env _ _ _ _ Hi E Hr). unfold hmode. by case_match.
  - destruct (live_of_ok _ _ _ _ _ (fun _ => eq_refl) E Hr) as [h Hh].
    rewrite (amode_live _ _ _ Hh), (ncclose_closes env _ _ _ _ Hi (Ho eq_refl) E Hr). unfold hmode. by case_match.
  - exact (ncsync_mode _ _ _ _ E Hr).
  - exact (ncsetfill_mode _ _ _ _ _ E Hr).
  - exact (ncnobuf_mode _ _ _ _ E Hr).
Qed.
End Refinement.
