(* ===== verification/Footprint.v ===== *)
(** * Footprints: which ids an entry point can change

    The entry points of [file.c] on an id [cdfid] write the table only
    through [_cdfs[cdfid]], [_cdfs[handle->redefid]] and the cell a new
    stash is installed at.  [unchanged_except ks s s'] says that [s'] shows
    at every id outside [ks] the handle [s] showed ([HNDLE]), and
    [op_footprint] is the list of ids each operation of [Modes.aop] may
    change: the id itself, its partner ([redefid]) before the call, and for
    [ncredef] the new stash.  [ncclose], which falls back to [ncabort] when
    [NC_endef] fails, may also reach the partner of the partner: after a
    failed rename the stash is back at [cdfid] and [ncabort] retires its
    [redefid].  [nccreate] and [ncopen] change only the id they return.

    The lemmas on the table primitives ([store], [NC_clear_slot],
    [NC_release_count], [NC_install]) need no invariant: a store at one
    index leaves the others, and [_ncdf] moves only across the stored
    index.  [foot] adds to [unchanged_except] what is known of the handle
    left at the caller's id, which [ncclose] needs to bound the ids its
    fallback to [ncabort] retires; the tactics [fostep] and [fogo] walk a
    run call by call. *)

From stdpp Require Import gmap strings.
From S2P Require Import Prelude Flags Limits Table Stream Handle Layout Copy TempName Codec Session Define Commit Invariant Modes.

Open Scope Z_scope.

(** ** The table primitives *)

Section Cells.
Context {A : Type}.
Implicit Types (t : cdf_table A).

Lemma HNDLE_neg t j : j < 0 -> HNDLE t j = Some None.
Proof. intros Hj. unfold HNDLE. destruct (Z.leb_spec 0 j); [lia|reflexivity]. Qed.

Lemma store_HNDLE t k x t' j : store k x t = Some t' -> j <> k -> HNDLE t' j = HNDLE t j.
Proof.
  unfold store. destruct (cdfs t) as [l|] eqn:Ec; [|discriminate]. case_match; [|discriminate].
  intros E Hj. injection E as <-. unfold HNDLE, cell. tsimpl. rewrite Ec.
  destruct (Z.leb_spec 0 j); simpl; [|reflexivity]. destruct (j <? ncdf t); [|reflexivity].
  apply andb_prop in H as [H _]. apply Z.leb_le in H. rewrite list_lookup_insert_ne by lia. reflexivity.
Qed.

(** Moving [_ncdf] by one across [k] changes nothing at another id. *)
Lemma ncdf_step_HNDLE t k n j :
  (n = ncdf t \/ (k = ncdf t - 1 /\ n = k) \/ (k = ncdf t /\ n = k + 1)) -> j <> k ->
  HNDLE (set_ncdf t n) j = HNDLE t j.
Proof.
  intros Hn Hj. unfold HNDLE, cell. tsimpl.
  destruct (Z.ltb_spec j n), (Z.ltb_spec j (ncdf t)); rewrite ?andb_false_r, ?andb_true_r;
    try reflexivity; destruct (Z.leb_spec 0 j); try reflexivity; lia.
Qed.

Lemma clear_slot_HNDLE t k u t' j : NC_clear_slot k t = Ok u t' -> j <> k -> HNDLE t' j = HNDLE t j.
Proof.
  unfold NC_clear_slot, bind, lift_opt, modify.
  destruct (store k None t) as [t1|] eqn:Es; [|discriminate]. intros E Hj. injection E as _ <-.
  rewrite <- (store_HNDLE _ _ _ _ _ Es Hj).
  assert (Hn : ncdf t1 = ncdf t) by (unfold store in Es; repeat case_match; simplify_eq; reflexivity).
  destruct (Z.eqb_spec k (ncdf t1 - 1)); [|reflexivity].
  apply (ncdf_step_HNDLE _ k); [lia|exact Hj].
Qed.

Lemma release_HNDLE t u t' j : NC_release_count t = Ok u t' -> HNDLE t' j = HNDLE t j.
Proof.
  unfold NC_release_count, bind, modify, get, ncreset_cdflist, ret. tsimpl.
  destruct (Z.eqb_spec (ncdf t) 0) as [Hz|]; intros E; injection E as _ <-; [|reflexivity].
  unfold HNDLE. tsimpl. rewrite Hz.
  replace ((0 <=? j) && (j <? 0)) with false; [reflexivity|].
  destruct (Z.leb_spec 0 j), (Z.ltb_spec j 0); simpl; lia || reflexivity.
Qed.

Lemma retire_HNDLE_ne t k u t' j : NC_retire k t = Ok u t' -> j <> k -> HNDLE t' j = HNDLE t j.
Proof.
  unfold NC_retire. intros E Hj. apply bind_inv_Ok in E as ([] & t1 & E1 & E).
  rewrite (release_HNDLE _ _ _ _ E). exact (clear_slot_HNDLE _ _ _ _ _ E1 Hj).
Qed.

Lemma install_HNDLE_ne t k (h : A) u t' j : NC_install k h t = Ok u t' -> j <> k -> HNDLE t' j = HNDLE t j.
Proof.
  unfold NC_install, bind, lift_opt, get, put, modify.
  destruct (store k (Some h) t) as [t1|] eqn:Es; [|discriminate]. intros E Hj. injection E as _ <-.
  assert (Hn : ncdf t1 = ncdf t) by (unfold store in Es; repeat case_match; simplify_eq; reflexivity).
  rewrite <- (store_HNDLE _ _ _ _ _ Es Hj).
  transitivity (HNDLE (if k =? ncdf t1 then set_ncdf t1 (ncdf t1 + 1) else t1) j);
    [unfold HNDLE, cell; destruct (k =? ncdf t1); reflexivity|].
  destruct (Z.eqb_spec k (ncdf t1)); [|reflexivity]. apply (ncdf_step_HNDLE _ k); [lia|exact Hj].
Qed.
Lemma store_cell t k x t' : store k x t = Some t' -> cell t' k = Some x /\ ncdf t' = ncdf t.
Proof.
  unfold store. destruct (cdfs t) as [l|] eqn:Ec; [|discriminate].
  destruct (Z.leb_spec 0 k), (Z.ltb_spec k (Z.of_nat (length l))); simpl; try discriminate.
  intros E. injection E as <-. unfold cell. tsimpl. destruct (Z.leb_spec 0 k); [|lia].
  rewrite list_lookup_insert_eq by lia. split; reflexivity.
Qed.

Lemma HNDLE_cell t k x : cell t k = Some x -> HNDLE t k = Some x \/ HNDLE t k = Some None.
Proof. unfold HNDLE. intros ->. destruct (_ && _); auto. Qed.

Lemma store_at t k x t' : store k x t = Some t' -> HNDLE t' k = Some x \/ HNDLE t' k = Some None.
Proof. intros Es. exact (HNDLE_cell _ _ _ (proj1 (store_cell _ _ _ _ Es))). Qed.

Lemma retire_at t k u t' : NC_retire k t = Ok u t' -> HNDLE t' k = Some None.
Proof.
  unfold NC_retire. intros E. apply bind_inv_Ok in E as ([] & t1 & E1 & E).
  rewrite (release_HNDLE _ _ _ _ E). unfold NC_clear_slot, bind, lift_opt, modify in E1.
  destruct (store k None t) as [t2|] eqn:Es; [injection E1 as <-|discriminate].
  apply store_cell in Es as [Hc _].
  assert (Hc' : cell (if k =? ncdf t2 - 1 then set_ncdf t2 (ncdf t2 - 1) else t2) k = Some None)
    by (destruct (k =? _); exact Hc).
  destruct (HNDLE_cell _ _ _ Hc'); assumption.
Qed.

Lemma install_at t k (h : A) u t' : NC_install k h t = Ok u t' -> HNDLE t' k = Some (Some h) \/ HNDLE t' k = Some None.
Proof.
  unfold NC_install, bind, lift_opt, get, put, modify. intros E.
  destruct (store k (Some h) t) as [t1|] eqn:Es; [injection E as _ <-|discriminate].
  apply store_cell in Es as [Hc _]. apply HNDLE_cell. unfold cell. tsimpl. destruct (k =? ncdf t1); exact Hc.
Qed.
End Cells.

(** ** Runs that change the handles of a set of ids *)

(** [s'] shows the handle [s] showed at every id outside [ks]. *)
Definition unchanged_except (ks : list Z) (s s' : nc_state) : Prop :=
  forall j, j ∉ ks -> HNDLE (st_tbl s') j = HNDLE (st_tbl s) j.

(** The handle at [i], when there is one, names its partner. *)
Definition partner (t : cdf_table NC) (i : Z) : Z :=
  match HNDLE t i with Some (Some h) => nc_redefid h | _ => -1 end.

(** The ids an operation of [Modes.aop] on [i] may change, read off the
    table before ([t]) and after ([t']) the call. *)
Definition op_footprint (o : aop) (t t' : cdf_table NC) (i : Z) : list Z :=
  match o with
  | ORedef => [i; partner t' i]
  | OEndef | OAbort => [i; partner t i]
  | OClose => [i; partner t i; partner t (partner t i)]
  | OSync | OSetfill _ => [i]
  | ONobuf => []
  end.

Lemma partner_live t i h : HNDLE t i = Some (Some h) -> partner t i = nc_redefid h.
Proof. unfold partner. intros ->. reflexivity. Qed.

Lemma ue_refl ks s : unchanged_except ks s s.
Proof. intros j _. reflexivity. Qed.

Lemma ue_trans ks s1 s2 s3 :
  unchanged_except ks s1 s2 -> unchanged_except ks s2 s3 -> unchanged_except ks s1 s3.
Proof. intros H1 H2 j Hj. rewrite (H2 j Hj). exact (H1 j Hj). Qed.

(** Ids below 0 never show a handle, so they may be left out. *)
Lemma ue_mono ks ks' s s' :
  (forall j, j ∈ ks -> j ∈ ks' \/ j < 0) -> unchanged_except ks s s' -> unchanged_except ks' s s'.
Proof.
  intros Hs H j Hj. destruct (decide (j ∈ ks)) as [Hin|Hout]; [|exact (H j Hout)].
  destruct (Hs j Hin) as [|Hneg]; [contradiction|]. rewrite !HNDLE_neg by exact Hneg. reflexivity.
Qed.

Lemma ue_frame ks s s' : frame s s' -> unchanged_except ks s s'.
Proof. intros Hf j _. rewrite (frame_HNDLE _ _ Hf). reflexivity. Qed.

Lemma on_tbl_inv {R} (m : M (cdf_table NC) R) s r s' :
  on_tbl m s = Ok r s' -> exists t', m (st_tbl s) = Ok r t' /\ s' = set_tbl s t'.
Proof. unfold on_tbl. destruct (m (st_tbl s)); intros E; [injection E as <- <-; eauto|discriminate]. Qed.

(** The handle at [i], when there is one, satisfies [P]. *)
Definition at_id (P : NC -> Prop) (i : Z) (s : nc_state) : Prop :=
  forall h, HNDLE (st_tbl s) i = Some (Some h) -> P h.

(** A run that changes only the ids of [ks] and leaves at [i] a handle
    satisfying [P] if the handle it found there did. *)
Definition foot (ks : list Z) (i : Z) (P : NC -> Prop) (s s' : nc_state) : Prop :=
  unchanged_except ks s s' /\ (at_id P i s -> at_id P i s').

Lemma foot_refl ks i P s : foot ks i P s s.
Proof. split; [apply ue_refl|auto]. Qed.

Lemma ue_of_foot ks ks' i P s s' :
  foot ks i P s s' -> (forall j, j ∈ ks -> j ∈ ks') -> unchanged_except ks' s s'.
Proof. intros [U _] Hs. apply (ue_mono ks); [intros j Hj; left; auto|exact U]. Qed.

Lemma foot_trans ks i P s1 s2 s3 : foot ks i P s1 s2 -> foot ks i P s2 s3 -> foot ks i P s1 s3.
Proof. intros [U1 A1] [U2 A2]. split; [exact (ue_trans _ _ _ _ U1 U2)|auto]. Qed.

Lemma foot_frame ks i P s s' : frame s s' -> foot ks i P s s'.
Proof.
  intros Hf. split; [exact (ue_frame _ _ _ Hf)|]. intros Ha h Hh. apply Ha.
  rewrite <- (frame_HNDLE _ _ Hf). exact Hh.
Qed.

Lemma at_id_start P i s h : HNDLE (st_tbl s) i = Some (Some h) -> P h -> at_id P i s.
Proof. intros Hh Hp h' Hh'. rewrite Hh in Hh'. injection Hh' as <-. exact Hp. Qed.

(** A table primitive that changes the handle at [k] only, and leaves there
    no handle or one of [v]. *)
Lemma foot_table (m : M (cdf_table NC) unit) k (v : option NC) ks i P s u s' :
  (forall t t' j, m t = Ok u t' -> j <> k -> HNDLE t' j = HNDLE t j) ->
  (forall t t', m t = Ok u t' -> HNDLE t' k = Some v \/ HNDLE t' k = Some None) ->
  on_tbl m s = Ok u s' -> k ∈ ks -> (k = i -> match v with Some h => P h | None => True end) ->
  foot ks i P s s'.
Proof.
  intros Hm Hk E Hin Hp. apply on_tbl_inv in E as (t' & E & ->). split.
  - intros j Hj. apply (Hm _ _ _ E). intros ->. contradiction.
  - intros Ha h Hh. simpl in Hh. destruct (decide (i = k)) as [->|Hne].
    + destruct (Hk _ _ E) as [Hv|Hv]; rewrite Hv in Hh; [|discriminate].
      injection Hh as ->. exact (Hp eq_refl).
    + apply Ha. rewrite <- (Hm _ _ _ E Hne). exact Hh.
Qed.

Lemma foot_set_cell k x ks i P s u s' :
  set_cell k x s = Ok u s' -> k ∈ ks -> (k = i -> match x with Some h => P h | None => True end) ->
  foot ks i P s s'.
Proof.
  apply foot_table.
  - intros t t' j E Hj. unfold lift_opt in E.
    destruct (store k x t) as [t1|] eqn:Es; [injection E as _ <-|discriminate]. exact (store_HNDLE _ _ _ _ _ Es Hj).
  - intros t t' E. unfold lift_opt in E.
    destruct (store k x t) as [t1|] eqn:Es; [injection E as _ <-|discriminate]. exact (store_at _ _ _ _ Es).
Qed.

Lemma foot_retire k ks i P s u s' : on_tbl (NC_retire k) s = Ok u s' -> k ∈ ks -> foot ks i P s s'.
Proof.
  intros E Hk. refine (foot_table _ k None ks i P s u s' _ _ E Hk (fun _ => I)).
  - intros t t' j E' Hj. exact (retire_HNDLE_ne _ _ _ _ _ E' Hj).
  - intros t t' E'. right. exact (retire_at _ _ _ _ E').
Qed.

Lemma foot_install k h ks i P s u s' :
  on_tbl (NC_install k h) s = Ok u s' -> k ∈ ks -> (k = i -> P h) -> foot ks i P s s'.
Proof.
  intros E Hk Hp. refine (foot_table _ k (Some h) ks i P s u s' _ _ E Hk Hp).
  - intros t t' j E' Hj. exact (install_HNDLE_ne _ _ _ _ _ _ E' Hj).
  - intros t t' E'. exact (install_at _ _ _ _ _ E').
Qed.

(** The obligation at [i] of a write: [True], or the [redefid] of the
    written handle, which keeps that of a handle named in the list. *)
Ltac at_ok :=
  intros; cbn beta iota;
  first [ exact I
        | solve [cbn [nc_redefid set_redefid endef_done set_flags set_xdrs with_op set_path set_numrecs]; set_solver]
        | lazymatch goal with
          | |- nc_redefid ?x ∈ nc_redefid ?h0 :: _ =>
              let Hk := fresh in assert (Hk : keeps h0 x) by eauto 4 using keeps_trans with nc;
              rewrite (proj1 Hk); set_solver
          end ].

(** One call at the head of [E : bind m k s = Ok r s']: a call that keeps
    the table but [ncerr], or a store, retirement or installation at an
    id of the footprint. *)
Ltac foot_prim E1 :=
  first [ exact (foot_frame _ _ _ _ _ (tbl_only _ _ _ _ E1))
        | apply (foot_set_cell _ _ _ _ _ _ _ _ E1); [set_solver|at_ok]
        | apply (foot_retire _ _ _ _ _ _ _ E1); set_solver
        | apply (foot_install _ _ _ _ _ _ _ _ E1); [set_solver|at_ok] ].

Ltac fostep E :=
  let x := fresh "x" in let s1 := fresh "s" in let E1 := fresh "E" in
  apply bind_inv_Ok in E as (x & s1 & E1 & E);
  apply (foot_trans _ _ _ _ s1); [foot_prim E1|].

(** Walk the calls of [E] up to a branch; [fogo] closes on the last one. *)
Ltac fowalk E :=
  repeat first [ rewrite bind_ret_l in E; cbn beta iota in E | rewrite bind_assoc in E | fostep E ].

Ltac fogo E :=
  fowalk E;
  first [ injection E as _ <-; apply foot_refl | foot_prim E ].

(** A [TblOnly] call at the head of [E], whose frame also carries the
    facts about the table to the next state. *)
Ltac fostep_t E :=
  let x := fresh "x" in let s1 := fresh "s" in let E1 := fresh "E" in let Hf := fresh "Hf" in
  apply bind_inv_Ok in E as (x & s1 & E1 & E); pose proof (tbl_only _ _ _ _ E1) as Hf;
  apply (foot_trans _ _ _ _ s1); [exact (foot_frame _ _ _ _ _ Hf)|]; transport Hf; clear Hf.

(** ** The footprint of each entry point *)

Section Foot.
Context `{NC_codec_ok} (env : sess_env).

Lemma ncsync_foot s i r s' : ncsync i s = Ok r s' -> foot [i] i (fun _ => True) s s'.
Proof.
  intros E. unfold ncsync in E. fostep E. destruct x as [h|]; [|fogo E].
  destruct (has_flag _ NC_INDEF); [fogo E|]. destruct (has_flag _ NC_RDWR).
  - fostep E. destruct x; fogo E.
  - fostep E. destruct x as [h'|]; [|fogo E]. destruct (NC_computeshapes h'); fogo E.
Qed.

Lemma ncsetfill_foot s i m r s' : ncsetfill i m s = Ok r s' -> foot [i] i (fun _ => True) s s'.
Proof.
  intros E. unfold ncsetfill in E. fostep E. destruct x as [h|]; [|fogo E].
  destruct (negb _); [fogo E|]. destruct (m =? NC_NOFILL); [fogo E|].
  destruct (m =? NC_FILL); [|fogo E]. destruct (has_flag _ NC_NOFILL); [|fogo E].
  fostep E. destruct x; fogo E.
Qed.

Lemma ncabort_foot s i h r s' :
  HNDLE (st_tbl s) i = Some (Some h) -> ncabort i s = Ok r s' -> foot [i; nc_redefid h] i (fun _ => True) s s'.
Proof.
  intros Hh E. unfold ncabort in E. fostep E. destruct x as [h0|]; [|fogo E].
  apply check_id_Some in E0 as [-> Hh0]. rewrite Hh in Hh0. injection Hh0 as <-.
  destruct (has_flag _ (Z.lor _ _)); [destruct (has_flag _ NC_CREAT)|destruct (has_flag _ NC_RDWR)];
    cbn [negb] in E; [fogo E|fogo E| |fogo E].
  fowalk E. destruct x; cbn beta iota in E; fogo E.
Qed.

Let sys := sys_limit (se_tbl env).

(** The end of [ncredef]: the old handle at [id], the shadow at [i]
    naming it. *)
Lemma redef_swap_foot s i id h h1 r s' :
  table_wf sys (st_tbl s) -> HNDLE (st_tbl s) i = Some (Some h) -> slot_ok (st_tbl s) id ->
  redef_swap env i id h1 s = Ok r s' -> foot [i; partner (st_tbl s') i] i (fun _ => True) s s'.
Proof.
  intros Hw Hh Hslot E. assert (Hne : id <> i) by (intros ->; exact (slot_dead _ _ _ Hw Hslot h Hh)).
  unfold redef_swap in E. fostep_t E. fostep_t E. destruct x0 as [nw|]; [|fogo E].
  apply bind_inv_Ok in E as ([] & s3 & E3 & E). apply bind_inv_Ok in E as ([] & s4 & E4 & E).
  injection E as _ <-.
  assert (Hh3 : HNDLE (st_tbl s3) i = Some (Some h)).
  { apply on_tbl_inv in E3 as (t3 & E3 & ->). rewrite (install_HNDLE_ne _ _ _ _ _ _ E3) by congruence. exact Hh. }
  destruct (put_at _ _ _ _ _ _ Hh3 E4) as (Hp4 & _). rewrite (partner_live _ _ _ Hp4). cbn [nc_redefid set_redefid].
  apply (foot_trans _ _ _ _ s3); [apply (foot_install _ _ _ _ _ _ _ _ E3); [set_solver|congruence]|].
  apply (foot_set_cell _ _ _ _ _ _ _ _ E4); [set_solver|at_ok].
Qed.

Lemma ncredef_foot s i r s' :
  table_wf sys (st_tbl s) -> ncredef env i s = Ok r s' -> foot [i; partner (st_tbl s') i] i (fun _ => True) s s'.
Proof.
  intros Hw E. unfold ncredef in E. fostep E. destruct x as [h|]; [|fogo E].
  apply check_id_Some in E0 as [-> Hh].
  destruct (has_flag _ NC_INDEF); [fowalk E; destruct x; fogo E|].
  destruct (has_flag _ NC_RDWR); cbn [negb] in E; [|fogo E]. destruct (is_hdf h); [fogo E|].
  destruct (find_free_spec sys _ Hw) as (id & Hff & _).
  apply bind_inv_Ok in E as (id' & s1 & E1 & E). rewrite (on_tbl_Ok _ _ _ _ Hff), set_tbl_same in E1.
  injection E1 as <- <-. rewrite bind_get_tbl in E.
  destruct (_ && _) eqn:Efull; [fogo E|].
  pose proof (find_free_slot sys _ _ Hw (HNDLE_live_alloc _ _ _ Hh) Hff Efull) as Hslot.
  rewrite bind_get in E.
  destruct (has_flag (st_ncopts s) NC_NOFILL); [destruct (has_flag (nc_flags (with_op h XDR_ENCODE)) NC_NDIRTY)|].
  - rewrite bind_assoc in E. fostep_t E. destruct x as [h'|]; cbn beta iota in E; [|fogo E].
    rewrite bind_ret_l in E. exact (redef_swap_foot _ _ _ _ _ _ _ Hw Hh Hslot E).
  - rewrite bind_ret_l in E. exact (redef_swap_foot _ _ _ _ _ _ _ Hw Hh Hslot E).
  - rewrite bind_ret_l in E. exact (redef_swap_foot _ _ _ _ _ _ _ Hw Hh Hslot E).
Qed.

(** The handle [NC_endef] leaves at [i] names the partner of [h], that
    partner's own partner (the stash restored by a failed rename), or
    nothing. *)
Definition endef_left (h : NC) (p : Z) (h1 : NC) : Prop := nc_redefid h1 ∈ [nc_redefid h; p; -1].

Lemma endef_commit_foot s i h st r s' :
  endef_commit env i h st s = Ok r s' -> foot [i; nc_redefid h] i (endef_left h (nc_redefid st)) s s'.
Proof.
  intros E. unfold endef_commit, endef_left in E |- *. fostep E. destruct x as [h3|]; cbn beta iota in E; [|fogo E].
  apply xdr_numrecs_keeps in E0. rewrite (proj1 E0) in E. cbn [nc_redefid set_numrecs] in E.
  fostep E. destruct x; cbn [negb] in E; fogo E.
Qed.
Lemma NC_endef_foot s i h r s' :
  HNDLE (st_tbl s) i = Some (Some h) -> NC_endef env i h s = Ok r s' ->
  foot [i; nc_redefid h] i (endef_left h (partner (st_tbl s) (nc_redefid h))) s s'.
Proof.
  intros Hh E. unfold NC_endef in E.
  apply bind_inv_Ok in E as (stash & s1 & E1 & E). apply (STASH_run _ _ _ _ _ Hh) in E1 as [-> Hst].
  unfold endef_left. destruct (is_hdf h) eqn:Hhdf.
  all: fostep E; destruct x as [h1|]; cbn beta iota in E; [|fogo E].
  all: assert (Hk1 : keeps h h1) by (apply xdr_cdf_put_keeps in E0; eauto using keeps_trans with nc).
  all: destruct (is_hdf h1); [fogo E|]; destruct (nc_vars h1); [|fogo E].
  all: fostep E; destruct x as [ok io]; cbn beta iota in E.
  all: destruct stash as [st0|]; cbn [option_map] in E; [|rewrite bind_ret_l in E].
  all: try (destruct ok; cbn [negb] in E; [destruct (has_flag _ NC_CREAT); [fogo E|discriminate]|fogo E]).
  all: rewrite (partner_live _ _ _ Hst); cbn [nc_redefid set_xdrs] in E; rewrite (proj1 Hk1) in E.
  all: fostep E; destruct ok; cbn [negb] in E; [destruct (has_flag _ NC_CREAT)|fogo E]; [fogo E|].
  all: pose proof (endef_commit_foot _ _ _ _ _ _ E) as F; unfold endef_left in F.
  all: cbn [nc_redefid set_xdrs] in F; rewrite (proj1 Hk1) in F; exact F.
Qed.

Lemma ncendef_foot s i r s' : ncendef env i s = Ok r s' -> unchanged_except [i; partner (st_tbl s) i] s s'.
Proof.
  intros E. unfold ncendef in E. apply bind_inv_Ok in E as ([h|] & s1 & E1 & E).
  2: { apply (ue_trans _ _ s1); [exact (ue_frame _ _ _ (tbl_only _ _ _ _ E1))|]. injection E as _ <-. apply ue_refl. }
  apply check_id_Some in E1 as [-> Hh]. rewrite (partner_live _ _ _ Hh).
  apply bind_inv_Ok in E as (b & s1 & E1 & E). pose proof (tbl_only _ _ _ _ E1) as Hf.
  apply (ue_trans _ _ s1); [exact (ue_frame _ _ _ Hf)|]. transport Hf.
  destruct (negb b); [injection E as _ <-; apply ue_refl|].
  exact (proj1 (NC_endef_foot _ _ _ _ _ Hh E)).
Qed.

(** [ncabort] on any id: a dead id changes nothing. *)
Lemma ncabort_ue s i r s' : ncabort i s = Ok r s' -> unchanged_except [i; partner (st_tbl s) i] s s'.
Proof.
  intros E. destruct (HNDLE (st_tbl s) i) as [[h|]|] eqn:Hh.
  1: rewrite (partner_live _ _ _ Hh); exact (proj1 (ncabort_foot _ _ _ _ _ Hh E)).
  all: unfold ncabort in E; apply bind_inv_Ok in E as ([h|] & s1 & E1 & E);
    [apply check_id_Some in E1 as [_ Hh']; congruence|].
  all: apply (ue_trans _ _ s1); [exact (ue_frame _ _ _ (tbl_only _ _ _ _ E1))|]; injection E as _ <-; apply ue_refl.
Qed.

Lemma elem_of_pair_l (a b c j : Z) : j ∈ [a; b] -> j ∈ [a; b; c].
Proof. set_solver. Qed.

(** A call on [i] from a state whose handle at [i] has its [redefid] in
    [L] changes only ids of [i :: L]. *)
Lemma ue_partner_in (ks L : list Z) s s' i :
  unchanged_except [i; partner (st_tbl s) i] s s' ->
  (forall h1, HNDLE (st_tbl s) i = Some (Some h1) -> nc_redefid h1 ∈ L) ->
  i ∈ ks -> (forall j, j ∈ L -> j ∈ ks \/ j < 0) -> unchanged_except ks s s'.
Proof.
  intros U HL Hi Hs. refine (ue_mono _ _ _ _ _ U). intros j Hj.
  apply elem_of_cons in Hj as [->|Hj]; [left; exact Hi|]. apply list_elem_of_singleton in Hj as ->.
  unfold partner. destruct (HNDLE (st_tbl s) i) as [[h1|]|] eqn:E1; [exact (Hs _ (HL h1 eq_refl))|right; lia..].
Qed.

Lemma ncclose_foot s i r s' :
  ncclose env i s = Ok r s' -> unchanged_except [i; partner (st_tbl s) i; partner (st_tbl s) (partner (st_tbl s) i)] s s'.
Proof.
  intros E. unfold ncclose in E. apply bind_inv_Ok in E as ([h|] & s1 & E1 & E).
  2: { apply (ue_trans _ _ s1); [exact (ue_frame _ _ _ (tbl_only _ _ _ _ E1))|]. injection E as _ <-. apply ue_refl. }
  apply check_id_Some in E1 as [-> Hh]. rewrite (partner_live _ _ _ Hh).
  destruct (has_flag _ NC_INDEF); [|destruct (has_flag _ NC_RDWR)].
  - apply bind_inv_Ok in E as (r1 & s1 & E1 & E).
    destruct (NC_endef_foot _ _ _ _ _ Hh E1) as [U1 A1].
    apply (ue_trans _ _ s1); [refine (ue_mono _ _ _ _ _ U1); intros j Hj; left; apply elem_of_pair_l, Hj|].
    destruct (r1 =? -1).
    + apply (ue_partner_in _ _ _ _ _ (ncabort_ue _ _ _ _ E) (A1 (at_id_start (endef_left h (partner (st_tbl s) (nc_redefid h))) _ _ _ Hh ltac:(apply elem_of_cons; left; reflexivity))));
        [set_solver|]. intros j Hj. apply elem_of_cons in Hj as [->|Hj]; [left; set_solver|].
      apply elem_of_cons in Hj as [->|Hj]; [left; set_solver|]. apply list_elem_of_singleton in Hj as ->. right; lia.
    + refine (ue_of_foot [i] _ i (fun _ => True) _ _ _ _); [unfold close_tail in E; fogo E|set_solver].
  - refine (ue_of_foot [i] _ i (fun _ => True) _ _ _ _); [|set_solver]. fostep E. destruct x; fogo E.
  - refine (ue_of_foot [i] _ i (fun _ => True) _ _ _ _); [|set_solver]. unfold close_tail in E. fogo E.
Qed.
End Foot.

(** [nccreate] and [ncopen] change only the id they return: the table
    the free-slot scan may grow shows the same handles. *)
Section Open.
Context `{NC_codec_ok} (env : sess_env).
Let sys := sys_limit (se_tbl env).

Lemma NC_open_foot s p m r s' :
  table_wf sys (st_tbl s) -> NC_open env p m s = Ok r s' -> unchanged_except [r] s s'.
Proof.
  intros Hw E. unfold NC_open in E.
  destruct (open_slot_run (se_tbl env) _ Hw) as (c & t1 & Hr & Hw1 & Hv & _).
  apply bind_inv_Ok in E as (c' & s1 & E1 & E). rewrite (on_tbl_Ok _ s _ _ Hr) in E1. injection E1 as <- <-.
  apply (ue_trans _ _ (set_tbl s t1)); [intros j _; exact (HNDLE_view_eq _ _ _ _ Hw Hw1 Hv j)|].
  destruct (c =? -1); [injection E as <- <-; apply ue_refl|].
  apply bind_inv_Ok in E as ([h|] & s2 & E2 & E); apply (ue_trans _ _ s2); try exact (ue_frame _ _ _ (tbl_only _ _ _ _ E2)).
  - apply bind_inv_Ok in E as ([] & s3 & E3 & E). injection E as <- <-.
    exact (proj1 (foot_install _ _ [c] c (fun _ => True) _ _ _ E3 ltac:(set_solver) (fun _ => I))).
  - exact (ue_frame _ _ _ (tbl_only _ _ _ _ E)).
Qed.

Lemma nccreate_foot s p m r s' :
  table_wf sys (st_tbl s) -> nccreate env p m s = Ok r s' -> unchanged_except [r] s s'.
Proof.
  intros Hw E. unfold nccreate in E. destruct (has_flag m NC_CREAT);
    [exact (NC_open_foot _ _ _ _ _ Hw E)|exact (ue_frame _ _ _ (tbl_only _ _ _ _ E))].
Qed.

Lemma ncopen_foot s p m r s' :
  table_wf sys (st_tbl s) -> ncopen env p m s = Ok r s' -> unchanged_except [r] s s'.
Proof.
  intros Hw E. unfold ncopen in E. destruct (has_flag m NC_CREAT);
    [exact (ue_frame _ _ _ (tbl_only _ _ _ _ E))|exact (NC_open_foot _ _ _ _ _ Hw E)].
Qed.
End Open.

(** ** Isolation of the ids *)

Section Isolation.
Context `{NC_codec_ok} (env : sess_env).

(** C7: An entry point on [i] changes the handle of no id outside its
    footprint: [ncsync] and [ncsetfill] only [i]; [ncnobuf] none;
    [ncendef] and [ncabort] [i] and its partner (the [redefid] of its
    handle); [ncredef] [i] and the new stash its shadow names; [ncclose]
    [i], its partner and the partner's partner (reached when [NC_endef]
    fails after restoring the stash and [ncclose] falls back to [ncabort]).
    Every other id keeps its handle, whatever the call returns; only a
    well-formed table is assumed, for the free-slot scan of [ncredef]. *)
Theorem entry_points_footprint s o i r s' :
  table_wf (sys_limit (se_tbl env)) (st_tbl s) -> run_op env o i s = Ok r s' ->
  unchanged_except (op_footprint o (st_tbl s) (st_tbl s') i) s s'.
Proof.
  intros Hw E. destruct o; cbn [run_op op_footprint] in E |- *.
  - exact (ue_of_foot _ _ _ _ _ _ (ncredef_foot env _ _ _ _ Hw E) (fun j Hj => Hj)).
  - exact (ncendef_foot env _ _ _ _ E).
  - exact (ncabort_ue _ _ _ _ E).
  - exact (ncclose_foot env _ _ _ _ E).
  - exact (ue_of_foot _ _ _ _ _ _ (ncsync_foot _ _ _ _ E) (fun j Hj => Hj)).
  - exact (ue_of_foot _ _ _ _ _ _ (ncsetfill_foot _ _ _ _ _ E) (fun j Hj => Hj)).
  - exact (ue_frame _ _ _ (tbl_only _ _ _ _ E)).
Qed.
End Isolation.
