(* ===== verification/Examples.v ===== *)
(** * Concrete sessions

    Runs of the entry points of [Session], [Define] and [Commit] with the
    sample codec [demo_codec]: a file system holding one netCDF file, the
    state of the library before the first call, the states after opening
    the file and entering define mode, and whole sessions that also
    commit.  [define_var] stands for the variable
    declaration a caller makes in define mode ([ncvardef], outside
    [file.c]): it appends a variable to the handle at an id.  The witnesses
    in [Api] and [Scenarios] apply the theorems to these states. *)

From stdpp Require Import gmap strings.
From Stdlib Require Import Ascii.
From S2P Require Import Prelude Flags Limits Table Stream Handle Layout Copy TempName Codec Session Define Commit.

Open Scope Z_scope.

Definition ex_fixed (name : string) (len begin : Z) : NC_var := mk_var name [len] 1 1 len begin.
Definition ex_record (name : string) (dsize len begin : Z) : NC_var :=
  mk_var name [NC_UNLIMITED] 1 dsize len begin.

Definition bytes_of (l : list Z) : list byte := map byte_of l.

(** The header and data of an existing file [/data/f.nc] with the fixed
    variables [A] and [B] of 4 bytes each (header of 25 bytes). *)
Definition ex_vars : list NC_var := [ex_fixed "A" 4 25; ex_fixed "B" 4 29].
Definition ex_handle (vs : list NC_var) (numrecs : Z) : NC :=
  mk_NC "/data/f.nc" NC_WRITE (mk_xdr XDR_DECODE 0 0) 0 0 (-1) numrecs netCDF_FILE (Some vs).
Definition ex_file : list byte := demo_header (ex_handle ex_vars 0) ++ bytes_of [1; 2; 3; 4; 5; 6; 7; 8].

Definition ex_fs (img : list byte) : fsys := mk_fs (<["/data/f.nc" := 0]> ∅) (<[0 := img]> ∅) 1.

Definition ex_state (img : list byte) : nc_state := mk_state table_init (ex_fs img) 0 seed_init E_NONE.

(** The process: a descriptor limit of 1027, [getpid()] = 4242, and a
    [rename] that succeeds, or fails. *)
Definition env_demo : sess_env := mk_senv env_1024 4242 (fun _ _ => true) (fun _ => false).
Definition env_norename : sess_env := mk_senv env_1024 4242 (fun _ _ => false) (fun _ => false).

(** A variable declaration in define mode. *)
Definition define_var (id : Z) (v : NC_var) : M nc_state unit :=
  let! t := get_tbl in
  match cell t id with
  | Some (Some h) =>
      put_handle id (set_flags (set_layout h (Some (default [] (nc_vars h) ++ [v]))
                                  (nc_begin_rec h) (nc_recsize h) (nc_numrecs h))
                               (set_flag (nc_flags h) NC_HDIRTY))
  | _ => undef
  end.

(** Open the file, enter define mode, declare [C]. *)
Definition open_redef_define (env : sess_env) (v : NC_var) : M nc_state Z :=
  let! id := ncopen env "/data/f.nc" NC_WRITE in
  let! r := ncredef env id in
  let! _ := define_var id v in
  ret r.

Definition final_state {R} (o : outcome nc_state R) : nc_state :=
  run_state o (ex_state []).

Definition handle_at (s : nc_state) (id : Z) : NC :=
  match HNDLE (st_tbl s) id with Some (Some h) => h | _ => ex_handle [] 0 end.

(** The state in define mode, with [C] (4 bytes) declared. *)
Definition s_defining : nc_state :=
  final_state (open_redef_define env_demo (ex_fixed "C" 4 0) (ex_state ex_file)).
Definition sh_defining : NC := handle_at s_defining 0.
Definition o_defining : NC := handle_at s_defining 1.
Definition nvs_defining : list NC_var := default [] (nc_vars sh_defining).
Definition ovs_defining : list NC_var := default [] (nc_vars o_defining).


(** The state after opening [/data/f.nc] for writing, and after entering
    define mode on it. *)
Definition s_open : nc_state := final_state (ncopen env_demo "/data/f.nc" NC_WRITE (ex_state ex_file)).
Definition s_redef : nc_state := run_state (ncredef env_demo 0 s_open) s_open.
Definition h_open : NC := handle_at s_open 0.

(** ** A file with a record variable

    [/data/f.nc] with the fixed variable [A] (4 bytes at 25, holding
    [1 2 3 4]) and the lone record variable [R] at 29 whose records are
    [dsize] bytes, padded to [len] 4; three records, laid out at the
    record size [NC_computeshapes] computes ([dsize], packed), followed by
    [recs]. *)
Definition ex_vars_rec (dsize : Z) : list NC_var := [ex_fixed "A" 4 25; ex_record "R" dsize 4 29].
Definition ex_file_rec (dsize : Z) (recs : list Z) : list byte :=
  demo_header (ex_handle (ex_vars_rec dsize) 3) ++ bytes_of ([1; 2; 3; 4] ++ recs).

(** Open, in no-fill mode after [ncsetfill(id, NC_NOFILL)] when
    [nofill], enter define mode, declare [C] and commit. *)
Definition open_redef_define_commit (nofill : bool) (v : NC_var) : M nc_state Z :=
  let! id := ncopen env_demo "/data/f.nc" NC_WRITE in
  let! _ := if nofill then ncsetfill id NC_NOFILL else ret 0 in
  let! r := ncredef env_demo id in
  let! _ := define_var id v in
  let! _ := ncendef env_demo id in
  ret r.

Definition s_committed_rec (nofill : bool) (img : list byte) : nc_state :=
  final_state (open_redef_define_commit nofill (ex_fixed "C" 4 0) (ex_state img)).
