(* ===== verification/Api.v ===== *)
(** * The session API: guards and error paths

    What the entry points of [file.c] do before they change anything:
    an id with no live handle, a call in the wrong mode, a read-only
    handle or a bad argument is reported through [ncerr] and [-1], and
    the state is otherwise left as it was (spec, section 7: errors are
    detected before any mutation).  The flush of [ncsync] is also stated
    here: its dirty bits after a successful sync. *)

From stdpp Require Import gmap strings.
From S2P Require Import Prelude Flags Limits Table Stream Handle Layout Copy TempName Codec Session Define Commit Examples.

Open Scope Z_scope.

Section Guards.
Context `{NC_codec} (env : sess_env).
Implicit Types (s : nc_state).

(** The state after an error report. *)
Definition reported s (e : nc_error) : nc_state := set_tbl s (set_ncerr (st_tbl s) (Some e)).


(** C22: An id with no live handle is rejected by every entry point that
    takes one: [-1], [NC_EBADID], and no other change. *)
Theorem entry_points_bad_id s cdfid fillmode :
  HNDLE (st_tbl s) cdfid = Some None ->
  ncclose env cdfid s = Ok (-1) (reported s NC_EBADID) /\
  ncabort cdfid s = Ok (-1) (reported s NC_EBADID) /\
  ncsync cdfid s = Ok (-1) (reported s NC_EBADID) /\
  ncredef env cdfid s = Ok (-1) (reported s NC_EBADID) /\
  ncendef env cdfid s = Ok (-1) (reported s NC_EBADID) /\
  ncsetfill cdfid fillmode s = Ok (-1) (reported s NC_EBADID) /\
  ncnobuf cdfid s = Ok (-1) (reported s NC_EBADID).
Proof.
  intros E.
  unfold ncclose, ncabort, ncsync, ncredef, ncendef, ncsetfill, ncnobuf.
  rewrite !(bind_check_dead _ _ _ E). repeat split.
Qed.

(** C24: [ncendef] on a handle in data mode reports [NC_ENOTINDEFINE] and
    changes nothing else. *)
Theorem ncendef_not_in_define s cdfid h :
  HNDLE (st_tbl s) cdfid = Some (Some h) -> has_flag (nc_flags h) NC_INDEF = false ->
  ncendef env cdfid s = Ok (-1) (reported s NC_ENOTINDEFINE).
Proof.
  intros E Hf. unfold ncendef. rewrite (bind_check_live _ _ _ _ E).
  unfold bind at 1. rewrite (NC_indefine_live _ _ _ _ E), Hf. reflexivity.
Qed.

(** C23: The guards of [ncredef]: in define mode it fails, reporting
    [NC_EINDEFINE] only when the handle has a partner (a fresh
    [nccreate] has none, and nothing is reported); on a read-only handle
    it reports [NC_EPERM].  Nothing else changes. *)
Theorem ncredef_guards s cdfid h :
  HNDLE (st_tbl s) cdfid = Some (Some h) ->
  (has_flag (nc_flags h) NC_INDEF = true ->
   forall o, HNDLE (st_tbl s) (nc_redefid h) = Some o ->
   ncredef env cdfid s = Ok (-1) (match o with Some _ => reported s NC_EINDEFINE | None => s end)) /\
  (has_flag (nc_flags h) NC_INDEF = false -> has_flag (nc_flags h) NC_RDWR = false ->
   ncredef env cdfid s = Ok (-1) (reported s NC_EPERM)).
Proof.
  intros E. destruct (HNDLE_live_range _ _ _ E) as [[H0 H1] Hc].
  split.
  - intros Hi o Ho. unfold ncredef. rewrite (bind_check_live _ _ _ _ E), Hi.
    unfold STASH, get_tbl, bind at 1 2. cbn beta.
    destruct (Z.leb_spec 0 cdfid); [|lia]. destruct (Z.ltb_spec cdfid (ncdf (st_tbl s))); [|lia].
    simpl. rewrite Hc. unfold on_tbl, load_handle. rewrite Ho, set_tbl_same.
    destruct o; reflexivity.
  - intros Hi Hr. unfold ncredef. rewrite (bind_check_live _ _ _ _ E), Hi, Hr. reflexivity.
Qed.

(** [nccreate] without [NC_CREAT] and [ncopen] with it report
    [NC_EINVAL] and change nothing else. *)
Theorem open_mode_guards s path mode :
  (has_flag mode NC_CREAT = false -> nccreate env path mode s = Ok (-1) (reported s NC_EINVAL)) /\
  (has_flag mode NC_CREAT = true -> ncopen env path mode s = Ok (-1) (reported s NC_EINVAL)).
Proof. split; intros Hm; [unfold nccreate|unfold ncopen]; rewrite Hm; reflexivity. Qed.



(** C26: [ncsetfill] on a writable handle returns the previous fill mode;
    a request for [NC_NOFILL] sets the flag, a request for [NC_FILL] in
    fill mode changes nothing, and any other mode reports [NC_EINVAL];
    on a read-only handle it reports [NC_EPERM]. *)
Theorem ncsetfill_modes s id h fillmode :
  HNDLE (st_tbl s) id = Some (Some h) ->
  let prev := if has_flag (nc_flags h) NC_NOFILL then NC_NOFILL else NC_FILL in
  (has_flag (nc_flags h) NC_RDWR = false -> ncsetfill id fillmode s = Ok (-1) (reported s NC_EPERM)) /\
  (has_flag (nc_flags h) NC_RDWR = true ->
   (fillmode = NC_NOFILL ->
      exists s' h', ncsetfill id fillmode s = Ok prev s' /\ HNDLE (st_tbl s') id = Some (Some h') /\
        nc_flags h' = set_flag (nc_flags h) NC_NOFILL) /\
   (fillmode = NC_FILL -> has_flag (nc_flags h) NC_NOFILL = false ->
      ncsetfill id fillmode s = Ok NC_FILL s) /\
   (fillmode <> NC_FILL -> fillmode <> NC_NOFILL ->
      ncsetfill id fillmode s = Ok (-1) (reported s NC_EINVAL))).
Proof.
  intros E prev. unfold ncsetfill. rewrite (bind_check_live _ _ _ _ E).
  split; [intros Hr; rewrite Hr; reflexivity|]. intros Hr. rewrite Hr. simpl.
  split; [|split].
  - intros ->. rewrite Z.eqb_refl.
    destruct (put_handle_live s id h (set_flags h (set_flag (nc_flags h) NC_NOFILL)) E)
      as (t' & Hp & Ht' & _).
    unfold bind. rewrite Hp. do 2 eexists. split; [reflexivity|]. split; [exact Ht'|reflexivity].
  - intros -> Hn. rewrite Hn. reflexivity.
  - intros H1 H2. apply Z.eqb_neq in H1, H2. rewrite H1, H2. reflexivity.
Qed.

End Guards.

(** ** The guards at the state after [ncopen] *)

Lemma entry_points_bad_id_witness :
  ncclose env_demo 3 s_open = Ok (-1) (reported s_open NC_EBADID) /\
  ncabort 3 s_open = Ok (-1) (reported s_open NC_EBADID) /\
  ncsync 3 s_open = Ok (-1) (reported s_open NC_EBADID) /\
  ncredef env_demo 3 s_open = Ok (-1) (reported s_open NC_EBADID) /\
  ncendef env_demo 3 s_open = Ok (-1) (reported s_open NC_EBADID) /\
  ncsetfill 3 NC_FILL s_open = Ok (-1) (reported s_open NC_EBADID) /\
  ncnobuf 3 s_open = Ok (-1) (reported s_open NC_EBADID).
Proof. apply (entry_points_bad_id env_demo s_open 3 NC_FILL). vm_compute. reflexivity. Defined.

Lemma ncendef_not_in_define_witness :
  ncendef env_demo 0 s_open = Ok (-1) (reported s_open NC_ENOTINDEFINE).
Proof. apply (ncendef_not_in_define env_demo s_open 0 h_open); vm_compute; reflexivity. Defined.

(** A file created by [nccreate] (define mode, no partner), a file opened
    read-only, and the shadow [ncredef] leaves at id 0 (define mode, with
    its stash at id 1). *)
Definition s_created : nc_state := final_state (nccreate env_demo "/data/g.nc" NC_CLOBBER (ex_state ex_file)).
Definition s_readonly : nc_state := final_state (ncopen env_demo "/data/f.nc" NC_NOWRITE (ex_state ex_file)).

Lemma ncredef_guards_witness :
  ncredef env_demo 0 s_redef = Ok (-1) (reported s_redef NC_EINDEFINE) /\
  ncredef env_demo 0 s_created = Ok (-1) s_created /\
  ncredef env_demo 0 s_readonly = Ok (-1) (reported s_readonly NC_EPERM).
Proof.
  split; [|split].
  - exact (proj1 (ncredef_guards env_demo s_redef 0 (handle_at s_redef 0) ltac:(vm_compute; reflexivity))
             ltac:(vm_compute; reflexivity) (Some (handle_at s_redef 1)) ltac:(vm_compute; reflexivity)).
  - exact (proj1 (ncredef_guards env_demo s_created 0 (handle_at s_created 0) ltac:(vm_compute; reflexivity))
             ltac:(vm_compute; reflexivity) None ltac:(vm_compute; reflexivity)).
  - exact (proj2 (ncredef_guards env_demo s_readonly 0 (handle_at s_readonly 0) ltac:(vm_compute; reflexivity))
             ltac:(vm_compute; reflexivity) ltac:(vm_compute; reflexivity)).
Defined.

Lemma open_mode_guards_witness :
  nccreate env_demo "/data/f.nc" NC_WRITE s_open = Ok (-1) (reported s_open NC_EINVAL) /\
  ncopen env_demo "/data/f.nc" NC_CLOBBER s_open = Ok (-1) (reported s_open NC_EINVAL).
Proof.
  split; [apply (proj1 (open_mode_guards env_demo s_open "/data/f.nc" NC_WRITE))
         |apply (proj2 (open_mode_guards env_demo s_open "/data/f.nc" NC_CLOBBER))];
    vm_compute; reflexivity.
Defined.

Lemma ncsync_dirty_bits_witness :
  exists s' h', ncsync 0 s_open = Ok 0 s' /\ HNDLE (st_tbl s') 0 = Some (Some h') /\
    has_flag (nc_flags h') NC_HDIRTY = false /\
    has_flag (nc_flags h') NC_NDIRTY =
      has_flag (nc_flags h_open) NC_NDIRTY && negb (has_flag (nc_flags h_open) NC_HDIRTY) && is_hdf h_open.
Proof. apply (ncsync_dirty_bits s_open 0 h_open ex_file); vm_compute; reflexivity. Defined.

Lemma ncsetfill_modes_witness :
  let prev := if has_flag (nc_flags h_open) NC_NOFILL then NC_NOFILL else NC_FILL in
  (has_flag (nc_flags h_open) NC_RDWR = false -> ncsetfill 0 NC_NOFILL s_open = Ok (-1) (reported s_open NC_EPERM)) /\
  (has_flag (nc_flags h_open) NC_RDWR = true ->
   (NC_NOFILL = NC_NOFILL ->
      exists s' h', ncsetfill 0 NC_NOFILL s_open = Ok prev s' /\ HNDLE (st_tbl s') 0 = Some (Some h') /\
        nc_flags h' = set_flag (nc_flags h_open) NC_NOFILL) /\
   (NC_NOFILL = NC_FILL -> has_flag (nc_flags h_open) NC_NOFILL = false ->
      ncsetfill 0 NC_NOFILL s_open = Ok NC_FILL s_open) /\
   (NC_NOFILL <> NC_FILL -> NC_NOFILL <> NC_NOFILL ->
      ncsetfill 0 NC_NOFILL s_open = Ok (-1) (reported s_open NC_EINVAL))).
Proof. apply (ncsetfill_modes s_open 0 h_open NC_NOFILL). vm_compute. reflexivity. Defined.
