(* ===== verification/CommitDefects.v ===== *)
(** * Two ways [NC_endef] misplaces the records it copies

    [NC_endef] writes the new file sequentially: after the header, each
    fixed variable is copied or filled in turn, then each record of each
    record variable.  Readers find a variable at its [begin], and record
    [k] at [begin + recsize * k].  The sequential writes agree with these
    offsets only when every variable is written with exactly [len] bytes
    and [recsize] is the sum of the record lengths.  Two cases of the
    source break this:

    - in no-fill mode ([NC_NOFILL]) a new variable is not written at all
      (lines 781-784, 806-808), so everything after it lands [len] bytes
      too early;
    - with a lone record variable whose [len] exceeds its slice size,
      [NC_begins] packs [recsize] to [*dsizes] (line 663) while
      [NC_reccpy] copies [len] bytes per record (line 731), so the copied
      records drift by [len - recsize] bytes each.

    Both are stated on the concrete session of [Examples]: open
    [/data/f.nc], declare [C], commit. *)

From stdpp Require Import gmap strings.
From S2P Require Import Prelude Flags Limits Table Stream Handle Layout Copy TempName Codec Session Define Commit Examples.

Open Scope Z_scope.

(** The committed file and the handle at id 0 after the session. *)
Definition committed_file (nofill : bool) (img : list byte) : option (list byte) :=
  file_at (st_fs (s_committed_rec nofill img)) "/data/f.nc".

Definition committed_handle (nofill : bool) (img : list byte) : option NC :=
  default None (HNDLE (st_tbl (s_committed_rec nofill img)) 0).

(** Records of 4 bytes (no padding, so [recsize] = [len] = 4). *)
Definition recs4 : list Z := [10; 11; 12; 13; 20; 21; 22; 23; 30; 31; 32; 33].

(** C12: In no-fill mode a redefinition that adds a fixed variable [C]
    shifts the records: the commit succeeds and the handle places [R] at
    41, but the bytes found there are those of record 1 ([20 21 22 23]);
    in fill mode the same session finds record 0 ([10 11 12 13]) there. *)
Theorem ncendef_nofill_shifts_records :
  exists img img' h,
    committed_file true (ex_file_rec 4 recs4) = Some img /\
    committed_file false (ex_file_rec 4 recs4) = Some img' /\
    committed_handle true (ex_file_rec 4 recs4) = Some h /\
    nc_begin_rec h = 41 /\ nc_recsize h = 4 /\
    slice img 41 4 = Some (bytes_of [20; 21; 22; 23]) /\
    slice img' 41 4 = Some (bytes_of [10; 11; 12; 13]).
Proof.
  exists (default [] (committed_file true (ex_file_rec 4 recs4))),
    (default [] (committed_file false (ex_file_rec 4 recs4))),
    (default (ex_handle [] 0) (committed_handle true (ex_file_rec 4 recs4))).
  split_and!; vm_compute; reflexivity.
Qed.

(** Records of 3 bytes padded to 4: [recsize] is packed to 3. *)
Definition recs3 : list Z := [10; 11; 12; 20; 21; 22; 30; 31; 32; 0].

(** C13: With a lone record variable whose [len] (4) exceeds its slice
    size (3), a redefinition in fill mode corrupts the records from the
    second one: the committed handle reads record 1 at [41 + 3 * 1] and
    finds [20 20 21], where the old file held [20 21 22] at
    [29 + 3 * 1]. *)
Theorem ncendef_lone_record_drifts :
  exists img h,
    committed_file false (ex_file_rec 3 recs3) = Some img /\
    committed_handle false (ex_file_rec 3 recs3) = Some h /\
    nc_begin_rec h = 41 /\ nc_recsize h = 3 /\
    slice (ex_file_rec 3 recs3) (29 + 3 * 1) 3 = Some (bytes_of [20; 21; 22]) /\
    slice img (41 + 3 * 1) 3 = Some (bytes_of [20; 20; 21]).
Proof.
  exists (default [] (committed_file false (ex_file_rec 3 recs3))),
    (default (ex_handle [] 0) (committed_handle false (ex_file_rec 3 recs3))).
  split_and!; vm_compute; reflexivity.
Qed.
