(* ===== verification/Scenarios.v ===== *)
(** * Redefinition sessions: the theorems of [Define] and [Commit] at work

    The concrete sessions of [Examples] (open [/data/f.nc], enter define
    mode, declare [C]) discharge the hypotheses of the theorems about
    committing, aborting and pairing, and a session reached by [ncopen] and
    [ncredef] shows the hypotheses of [Invariant.sess_reachable_inv],
    [Modes.mode_refinement] and [Footprint.entry_points_footprint] hold.
    Two further tables hold an HDF file: alone, or with the netCDF file in
    slot 1; on them the HDF shortcut of [ncredef] is followed by
    [ncabort].  A last session closes the id under which [ncredef] keeps
    the old handle, and a later [ncabort] then closes another file. *)

From stdpp Require Import gmap strings.
From Stdlib Require Import Ascii.
From S2P Require Import Prelude Flags Limits Table Stream Handle Layout Copy TempName Codec Session Define Commit Invariant Modes Footprint Examples.

Open Scope Z_scope.

(** ** HDF files

    A table built directly: the handles of [l] in the first cells, the
    high-water mark at [length l] and every handle counted as open.  An
    HDF handle is opened for writing, with no variables yet. *)
Definition table_of (l : list (option NC)) : cdf_table NC :=
  mk_table (Some (l ++ replicate (Z.to_nat H4_MAX_NC_OPEN - length l) None))
           (Z.of_nat (length l)) (Z.of_nat (nlive l)) H4_MAX_NC_OPEN None.

Definition ex_hdf_handle : NC :=
  mk_NC "/data/g.hdf" NC_WRITE (mk_xdr XDR_DECODE 1 0) 0 0 (-1) 0 HDF_FILE (Some []).

Definition ex_hdf_fs : fsys :=
  mk_fs (<["/data/g.hdf" := 1]> (<["/data/f.nc" := 0]> ∅)) (<[1 := []]> (<[0 := ex_file]> ∅)) 2.

(** The HDF file in slot 0 and the netCDF file in slot 1; the HDF file alone. *)
Definition s_hdf_pair : nc_state :=
  mk_state (table_of [Some ex_hdf_handle; Some (ex_handle ex_vars 0)]) ex_hdf_fs 0 seed_init E_NONE.
Definition s_hdf_alone : nc_state :=
  mk_state (table_of [Some ex_hdf_handle]) ex_hdf_fs 0 seed_init E_NONE.

(** With the HDF file alone in the table, [ncredef] then [ncabort]
    retires the empty slot 1 and then the file's own slot: the count of
    open files [_curr_opened] ends at -1, although no file is open. *)
Theorem ncredef_ncabort_hdf_alone :
  exists s1 s2, ncredef env_demo 0 s_hdf_alone = Ok 0 s1 /\ ncabort 0 s1 = Ok 0 s2 /\
    curr_opened (st_tbl s_hdf_alone) = 1 /\ curr_opened (st_tbl s2) = -1 /\ ncdf (st_tbl s2) = 0.
Proof.
  do 2 eexists. split; [vm_compute; reflexivity|]. split; [vm_compute; reflexivity|].
  repeat split; vm_compute; reflexivity.
Qed.

Lemma ncendef_commit_preserves_data_witness :
  exists s' hf img, ncendef env_demo 0 s_defining = Ok 0 s' /\
    file_at (st_fs s') (nc_path o_defining) = Some img /\ HNDLE (st_tbl s') 0 = Some (Some hf) /\
    (forall i v, nc_vars hf ≫= (fun l => l !! i) = Some v -> IS_RECVAR v = false ->
       slice img (var_begin v) (var_len v) = Some (fixed_piece ovs_defining ex_file i v)) /\
    (nc_recsize hf = sum_len (rec_vars nvs_defining) ->
     forall i v k, nc_vars hf ≫= (fun l => l !! i) = Some v -> IS_RECVAR v = true ->
       0 <= k < nc_numrecs o_defining ->
       slice img (var_begin v + nc_recsize hf * k) (var_len v) =
       Some (rec_piece ovs_defining ex_file (nc_recsize o_defining) k i v)).
Proof.
  apply (ncendef_commit_preserves_data env_demo (sys_limit env_1024) s_defining 0 sh_defining o_defining);
    try (vm_compute; reflexivity); try (vm_compute; discriminate).
  - apply table_wfb_sound. vm_compute. reflexivity.
  - vm_compute. repeat constructor; discriminate.
Defined.

Lemma ncendef_rename_failure_witness :
  exists s', ncendef env_norename 0 s_defining = Ok (-1) s' /\
    fs_dir (st_fs s') = fs_dir (st_fs s_defining) /\
    fs_dir (st_fs s') !! nc_path sh_defining = Some (x_file (nc_xdrs sh_defining)) /\
    fs_data (st_fs s') !! x_file (nc_xdrs o_defining) = Some ex_file /\
    ncerr (st_tbl s') = Some NC_SYSERR /\
    curr_opened (st_tbl s') = curr_opened (st_tbl s_defining) - 1 /\
    HNDLE (st_tbl s') (nc_redefid sh_defining) = Some None /\
    (exists o', HNDLE (st_tbl s') 0 = Some (Some o') /\
       has_flag (nc_flags o') NC_INDEF = true /\ nc_redefid o' = -1) /\
    ncendef env_norename 0 s' = Undef /\ ncclose env_norename 0 s' = Undef.
Proof.
  apply (ncendef_rename_failure env_norename (sys_limit env_1024) s_defining 0 sh_defining o_defining
           nvs_defining ovs_defining);
    try (vm_compute; reflexivity); try (vm_compute; discriminate).
  apply table_wfb_sound. vm_compute. reflexivity.
Defined.

Lemma ncclose_rename_failure_undef_witness : ncclose env_norename 0 s_defining = Undef.
Proof.
  apply (ncclose_rename_failure_undef env_norename (sys_limit env_1024) s_defining 0 sh_defining o_defining
           nvs_defining ovs_defining ex_file);
    try (vm_compute; reflexivity); try (vm_compute; discriminate).
  apply table_wfb_sound. vm_compute. reflexivity.
Defined.

Lemma ncabort_redef_witness :
  exists s', ncabort 0 s_defining = Ok 0 s' /\
    fs_data (st_fs s') = fs_data (st_fs s_defining) /\
    fs_dir (st_fs s') = delete (nc_path sh_defining) (fs_dir (st_fs s_defining)) /\
    HNDLE (st_tbl s') 0 = Some None /\ HNDLE (st_tbl s') (nc_redefid sh_defining) = Some None /\
    (forall j, j <> 0 -> j <> nc_redefid sh_defining -> HNDLE (st_tbl s') j = HNDLE (st_tbl s_defining) j) /\
    curr_opened (st_tbl s') = curr_opened (st_tbl s_defining) - 2 /\
    table_wf (sys_limit env_1024) (st_tbl s') /\ ncerr (st_tbl s') = ncerr (st_tbl s_defining).
Proof.
  apply (ncabort_redef (sys_limit env_1024) s_defining 0 sh_defining o_defining 1);
    try (vm_compute; reflexivity); try (vm_compute; discriminate).
  apply table_wfb_sound. vm_compute. reflexivity.
Defined.

Lemma ncredef_ncabort_hdf_witness :
  exists s1 s2, ncredef env_demo 0 s_hdf_pair = Ok 0 s1 /\ ncabort 0 s1 = Ok 0 s2 /\
    HNDLE (st_tbl s2) 1 = Some None /\ HNDLE (st_tbl s2) 0 = Some None /\
    curr_opened (st_tbl s2) = curr_opened (st_tbl s_hdf_pair) - 2 /\ st_fs s2 = st_fs s_hdf_pair.
Proof.
  apply (ncredef_ncabort_hdf env_demo (sys_limit env_1024) s_hdf_pair 0 ex_hdf_handle (ex_handle ex_vars 0));
    try (vm_compute; reflexivity); try lia.
  apply table_wfb_sound. vm_compute. reflexivity.
Defined.

Lemma ncredef_swap_witness :
  exists id nw scratch f,
    id <> 0 /\ 0 <= id /\
    HNDLE (st_tbl s_redef) id = Some (Some (set_flags h_open (set_flag (nc_flags h_open) NC_INDEF))) /\
    HNDLE (st_tbl s_redef) 0 = Some (Some nw) /\
    nc_redefid nw = id /\ nc_path nw = strncpy_path scratch /\
    nc_flags nw = set_flag (nc_flags h_open) NC_INDEF /\ nc_vars nw = nc_vars h_open /\
    x_file (nc_xdrs nw) = f /\ fs_dir (st_fs s_open) !! scratch = None /\
    fs_dir (st_fs s_redef) = <[scratch := f]> (fs_dir (st_fs s_open)) /\
    fs_data (st_fs s_redef) = <[f := []]> (fs_data (st_fs s_open)) /\
    (forall j, j <> 0 -> j <> id -> HNDLE (st_tbl s_redef) j = HNDLE (st_tbl s_open) j) /\
    curr_opened (st_tbl s_redef) = curr_opened (st_tbl s_open) + 1 /\ table_wf (sys_limit env_1024) (st_tbl s_redef).
Proof.
  apply (ncredef_swap env_demo (sys_limit env_1024) s_open s_redef 0 h_open);
    try (vm_compute; reflexivity).
  apply table_wfb_sound. vm_compute. reflexivity.
Defined.

(** ** Closing the stash's id

    A file with no variables ([/data/e.nc], whose header decodes to
    [vars == NULL]) beside [/data/f.nc]. *)
Definition ex_empty_file : list byte := demo_header (ex_handle [] 0).
Definition ex_two_fs : fsys :=
  mk_fs (<["/data/e.nc" := 1]> (<["/data/f.nc" := 0]> ∅))
        (<[1 := ex_empty_file]> (<[0 := ex_file]> ∅)) 2.
Definition s_two : nc_state := mk_state table_init ex_two_fs 0 seed_init E_NONE.

(** C14: [ncclose] accepts the id of the slot where [ncredef] keeps the old
    handle.  For a file with no variables [NC_endef] of the old handle
    succeeds ([vars == NULL] jumps to [done]), so the slot is retired while
    the new handle still names it as [redefid].  A file opened next reuses
    the slot, and [ncabort] of the file in define mode then retires that
    slot: [/data/f.nc] is closed although nobody closed it, and the count
    of open files drops to 0.  Without the second open, [ncabort] retires
    the empty slot and the count ends at -1. *)
Theorem ncclose_stash_id_closes_other :
  exists s1 s2 s3 s4 s5 s6 h,
    ncopen env_demo "/data/e.nc" NC_WRITE s_two = Ok 0 s1 /\
    ncredef env_demo 0 s1 = Ok 0 s2 /\ nc_redefid (handle_at s2 0) = 1 /\
    ncclose env_demo 1 s2 = Ok 0 s3 /\ HNDLE (st_tbl s3) 1 = Some None /\
    ncopen env_demo "/data/f.nc" NC_WRITE s3 = Ok 1 s4 /\
    HNDLE (st_tbl s4) 1 = Some (Some h) /\ nc_path h = "/data/f.nc" /\
    ncabort 0 s4 = Ok 0 s5 /\
    HNDLE (st_tbl s5) 1 = Some None /\ curr_opened (st_tbl s5) = 0 /\
    ncabort 0 s3 = Ok 0 s6 /\ curr_opened (st_tbl s6) = -1.
Proof.
  do 7 eexists.
  do 12 (split; [vm_compute; reflexivity|]). vm_compute. reflexivity.
Qed.

(** ** A reachable session, its invariant and its modes *)

Lemma s_open_reachable : sess_reachable env_demo s_open.
Proof.
  apply (reach_step _ (ex_state ex_file)); [apply reach_init|].
  apply (step_open _ "/data/f.nc" NC_WRITE _ 0). vm_compute. reflexivity.
Qed.

Lemma s_redef_reachable : sess_reachable env_demo s_redef.
Proof.
  apply (reach_step _ s_open); [exact s_open_reachable|].
  apply (step_redef _ 0 _ 0). vm_compute. reflexivity.
Qed.

Lemma sess_reachable_inv_witness :
  sess_reachable env_demo s_redef /\ sess_inv (sys_limit (se_tbl env_demo)) s_redef.
Proof.
  split; [exact s_redef_reachable|].
  apply (sess_reachable_inv env_demo); [discriminate|vm_compute; discriminate|exact s_redef_reachable].
Defined.

Lemma mode_refinement_witness :
  run_op env_demo ORedef 0 s_open = Ok 0 s_redef /\
  spec_next ORedef (amode_of (st_tbl s_open) 0) = Some (amode_of (st_tbl s_redef) 0).
Proof.
  assert (E : run_op env_demo ORedef 0 s_open = Ok 0 s_redef) by (vm_compute; reflexivity).
  split; [exact E|].
  apply (mode_refinement env_demo s_open ORedef 0 0 s_redef);
    [discriminate|vm_compute; discriminate|exact s_open_reachable|discriminate|exact E|discriminate].
Defined.

(** [ncredef] of the file at id 0 installs the old handle at id 1 and
    changes no other id. *)
Lemma entry_points_footprint_witness :
  table_wf (sys_limit (se_tbl env_demo)) (st_tbl s_open) /\
  run_op env_demo ORedef 0 s_open = Ok 0 s_redef /\
  op_footprint ORedef (st_tbl s_open) (st_tbl s_redef) 0 = [0; 1] /\
  unchanged_except (op_footprint ORedef (st_tbl s_open) (st_tbl s_redef) 0) s_open s_redef.
Proof.
  assert (Hw : table_wf (sys_limit (se_tbl env_demo)) (st_tbl s_open))
    by (apply (reachable_sess_inv env_demo s_open); [discriminate|vm_compute; discriminate|exact s_open_reachable]).
  assert (E : run_op env_demo ORedef 0 s_open = Ok 0 s_redef) by (vm_compute; reflexivity).
  split; [exact Hw|]. split; [exact E|]. split; [vm_compute; reflexivity|].
  exact (entry_points_footprint env_demo _ _ _ _ _ Hw E).
Defined.

(** ** Committing a file without variables *)

(** C15: [NC_endef] jumps to [done] when [handle->vars == NULL], before
    the rename and the retirement of the stash: [ncendef] of a
    redefinition of a file without variables returns 0, but the caller's
    id now holds the shadow on the scratch file (in data mode, its
    [redefid] still naming the stash), the old handle stays live under
    the stash's id, and two files are counted open; closing the caller's
    id leaves the old file open under an id the client never received. *)
Theorem ncendef_no_vars_leaks_stash :
  exists s1 s2 s3 s4 h,
    ncopen env_demo "/data/e.nc" NC_WRITE s_two = Ok 0 s1 /\
    ncredef env_demo 0 s1 = Ok 0 s2 /\ ncendef env_demo 0 s2 = Ok 0 s3 /\
    HNDLE (st_tbl s3) 0 = Some (Some h) /\ nc_path h = "/data/aaaa4242" /\
    has_flag (nc_flags h) NC_INDEF = false /\ nc_redefid h = 1 /\
    HNDLE (st_tbl s3) 1 = HNDLE (st_tbl s2) 1 /\ curr_opened (st_tbl s3) = 2 /\
    ncclose env_demo 0 s3 = Ok 0 s4 /\ HNDLE (st_tbl s4) 1 = HNDLE (st_tbl s2) 1 /\
    curr_opened (st_tbl s4) = 1.
Proof.
  do 5 eexists.
  do 11 (split; [vm_compute; reflexivity|]). vm_compute. reflexivity.
Qed.
